(** * Finance-Management-application: budget and ledger aggregation

    A shallow embedding of the backend's aggregation and reconciliation
    code (models/Budget.js, models/FinancialRecord.js, routes/budget.js,
    routes/records.js) together with the properties stated about it.

    Conventions of the embedding.
    - Amounts are JavaScript numbers in the source.  The stores hold
      them as exact rationals ([Q]), compared with [==], and a sum
      over [Q] stands for the [$sum] the database computes.  What
      depends on the way doubles round (the read-time fields of a
      budget, and sums of the same amounts taken in two groupings) is
      given a second time on binary64 numbers, in module [Double].
    - A [Date] is its time value in milliseconds, read on the server's
      local time line (the zone offset is taken constant, so local
      calendar arithmetic is plain arithmetic on that line).
    - A collection is the list of its documents in insertion order;
      [findOne] returns the first match.
    - Text is made of [ascii] characters. *)

From Stdlib Require Import ZArith QArith Qminmax Bool List Lia.
From Stdlib Require Import Sorted Permutation.
From Stdlib Require Import Ascii String.
From Stdlib Require PrimFloat FloatOps SpecFloat FloatClass.
Import ListNotations.

Set Implicit Arguments.
Set Warnings "-inexact-float".

(* ================================================================== *)
(** ** Calendar arithmetic of the built-in Date *)
(* ================================================================== *)

Module JSDate.
Local Open Scope Z_scope.

Definition msPerDay : Z := 86400000.

Definition Day (t : Z) : Z := t / msPerDay.
Definition TimeWithinDay (t : Z) : Z := t mod msPerDay.

Definition InLeapYear (y : Z) : bool :=
  (y mod 4 =? 0) && (negb (y mod 100 =? 0) || (y mod 400 =? 0)).

Definition DaysInYear (y : Z) : Z := if InLeapYear y then 366 else 365.

Definition DayFromYear (y : Z) : Z :=
  365 * (y - 1970) + (y - 1969) / 4 - (y - 1901) / 100 + (y - 1601) / 400.

(** The year [y] with [DayFromYear y <= Day t < DayFromYear (y + 1)]:
    an estimate from the mean year length, corrected by one. *)
Definition YearFromTime (t : Z) : Z :=
  let d := Day t in
  let y0 := 1970 + (d * 400) / 146097 in
  if d <? DayFromYear y0 then y0 - 1
  else if DayFromYear (y0 + 1) <=? d then y0 + 1
  else y0.

(** Number of days of the year before month [m] (0 = January). *)
Definition DaysBeforeMonth (leap : bool) (m : Z) : Z :=
  let l := if leap then 1 else 0 in
  match m with
  | 0 => 0
  | 1 => 31
  | 2 => 59 + l
  | 3 => 90 + l
  | 4 => 120 + l
  | 5 => 151 + l
  | 6 => 181 + l
  | 7 => 212 + l
  | 8 => 243 + l
  | 9 => 273 + l
  | 10 => 304 + l
  | _ => 334 + l
  end.

Definition DayWithinYear (t : Z) : Z := Day t - DayFromYear (YearFromTime t).

Definition MonthFromTime (t : Z) : Z :=
  let leap := InLeapYear (YearFromTime t) in
  let d := DayWithinYear t in
  if d <? DaysBeforeMonth leap 1 then 0
  else if d <? DaysBeforeMonth leap 2 then 1
  else if d <? DaysBeforeMonth leap 3 then 2
  else if d <? DaysBeforeMonth leap 4 then 3
  else if d <? DaysBeforeMonth leap 5 then 4
  else if d <? DaysBeforeMonth leap 6 then 5
  else if d <? DaysBeforeMonth leap 7 then 6
  else if d <? DaysBeforeMonth leap 8 then 7
  else if d <? DaysBeforeMonth leap 9 then 8
  else if d <? DaysBeforeMonth leap 10 then 9
  else if d <? DaysBeforeMonth leap 11 then 10
  else 11.

Definition DateFromTime (t : Z) : Z :=
  DayWithinYear t
  - DaysBeforeMonth (InLeapYear (YearFromTime t)) (MonthFromTime t) + 1.

Definition WeekDay (t : Z) : Z := (Day t + 4) mod 7.

Definition MakeTime (h mi s ms : Z) : Z :=
  h * 3600000 + mi * 60000 + s * 1000 + ms.

(** Months outside 0..11 carry into the year; the day of the month is
    an offset from the first, so day 0 is the eve of the first. *)
Definition MakeDay (year month date : Z) : Z :=
  let ym := year + month / 12 in
  let mn := month mod 12 in
  DayFromYear ym + DaysBeforeMonth (InLeapYear ym) mn + date - 1.

Definition MakeDate (day time : Z) : Z := day * msPerDay + time.

(** A year argument in 0..99 of the constructor stands for 1900 + year. *)
Definition fullYear (y : Z) : Z :=
  if (0 <=? y) && (y <=? 99) then 1900 + y else y.

(** [new Date(y, m, d, h, mi, s)]; [new Date(y, m, d)] is
    [newDate y m d 0 0 0]. *)
Definition newDate (y m d h mi s : Z) : Z :=
  MakeDate (MakeDay (fullYear y) m d) (MakeTime h mi s 0).

Definition getFullYear (t : Z) : Z := YearFromTime t.
Definition getMonth (t : Z) : Z := MonthFromTime t.
Definition getDate (t : Z) : Z := DateFromTime t.
Definition getDay (t : Z) : Z := WeekDay t.

(** [t.setDate(d)]: same month and time of day, day of the month [d]. *)
Definition setDate (t d : Z) : Z :=
  MakeDate (MakeDay (YearFromTime t) (MonthFromTime t) d) (TimeWithinDay t).
End JSDate.

(* ================================================================== *)
(** ** Text helpers *)
(* ================================================================== *)

Module Text.
Definition isSpace (c : ascii) : bool :=
  let n := nat_of_ascii c in
  (n =? 32)%nat || ((9 <=? n)%nat && (n <=? 13)%nat).

Fixpoint trimStart (cs : list ascii) : list ascii :=
  match cs with
  | c :: cs' => if isSpace c then trimStart cs' else cs
  | [] => []
  end.

Definition trimEnd (cs : list ascii) : list ascii :=
  rev (trimStart (rev cs)).

(** [s.trim()]. *)
Definition trim (s : string) : string :=
  string_of_list_ascii (trimEnd (trimStart (list_ascii_of_string s))).

(** Upper-case image of a character: the canonical form under the
    [i] flag of a regular expression. *)
Definition toUpper (c : ascii) : ascii :=
  let n := nat_of_ascii c in
  if (97 <=? n)%nat && (n <=? 122)%nat then ascii_of_nat (n - 32) else c.

Definition eqCI (a b : ascii) : bool :=
  Ascii.eqb (toUpper a) (toUpper b).

Definition toLower (c : ascii) : ascii :=
  let n := nat_of_ascii c in
  if (65 <=? n)%nat && (n <=? 90)%nat then ascii_of_nat (n + 32) else c.

(** [s.toLowerCase()]. *)
Definition toLowerCase (s : string) : string :=
  string_of_list_ascii (map toLower (list_ascii_of_string s)).
End Text.

(* ================================================================== *)
(** ** Exact arithmetic on amounts *)
(* ================================================================== *)

Definition Qltb (x y : Q) : bool := negb (Qle_bool y x).

(** Sum of a list of amounts. *)
Definition Qsum (l : list Q) : Q := fold_right Qplus 0 l.

(** [x || 0] on a number: zero is falsy. *)
Definition orZero (x : option Q) : Q :=
  match x with
  | Some v => if Qeq_bool v 0 then 0 else v
  | None => 0
  end.

(* ================================================================== *)
(** ** Aggregation pipeline stages *)
(* ================================================================== *)

Module Pipeline.
Record Group (K : Type) : Type := mkGroup
  { _id : K; total : Q; count : nat }.

Section Stages.
Variables D K : Type.
Variable keq : K -> K -> bool.
Variable key : D -> K.
Variable val : D -> Q.

(** [$match]. *)
Definition match_ (p : D -> bool) (docs : list D) : list D :=
  filter p docs.

(** One document entering the accumulators of [$group]. *)
Fixpoint accumulate (k : K) (a : Q) (gs : list (Group K))
  : list (Group K) :=
  match gs with
  | [] => [mkGroup k (0 + a) 1]
  | g :: gs' =>
      if keq (_id g) k
      then mkGroup (_id g) (total g + a) (S (count g)) :: gs'
      else g :: accumulate k a gs'
  end.

(** [$group: { _id: key, total: { $sum: val }, count: { $sum: 1 } }]. *)
Definition group (docs : list D) : list (Group K) :=
  fold_left (fun gs d => accumulate (key d) (val d) gs) docs [].

(** [result.find(r => r._id === k)?.total]. *)
Definition totalOf (k : K) (gs : list (Group K)) : option Q :=
  option_map (@total K) (find (fun g => keq (_id g) k) gs).
End Stages.

(** [$sort: { total: -1 }], as a stable insertion sort. *)
Fixpoint insertDesc {K} (g : Group K) (gs : list (Group K))
  : list (Group K) :=
  match gs with
  | [] => [g]
  | h :: gs' =>
      if Qle_bool (total h) (total g) then g :: gs
      else h :: insertDesc g gs'
  end.

Definition sortByTotalDesc {K} (gs : list (Group K)) : list (Group K) :=
  fold_right insertDesc [] gs.
End Pipeline.

(* ================================================================== *)
(** ** models/FinancialRecord.js *)
(* ================================================================== *)

Definition ObjectId := nat.

Module RecordType.
Inductive t := income | expense.

Definition eqb (a b : t) : bool :=
  match a, b with
  | income, income | expense, expense => true
  | _, _ => false
  end.

Definition name (a : t) : string :=
  match a with income => "income" | expense => "expense" end.
End RecordType.

Module PaymentMethod.
Inductive t := cash | card | bank_transfer | digital_wallet | other.
End PaymentMethod.

(** The answers of the two summary methods. *)
Module Balance.
Record t : Type := mk { income : Q; expense : Q; balance : Q }.
End Balance.

Module MonthlySummary.
Record t : Type := mk
  { income : Q; expense : Q; balance : Q; month : Z; year : Z }.
End MonthlySummary.

Module FinancialRecord.
(** The schema's fields, and the two of the [timestamps] option. *)
Record t : Type := mk
  { _id : ObjectId;
    user : ObjectId;
    description : string;
    amount : Q;
    type : RecordType.t;
    category : string;
    date : Z;
    paymentMethod : PaymentMethod.t;
    createdAt : Z;
    updatedAt : Z;
    tags : list string;
    notes : option string;
    isRecurring : bool;
    recurringFrequency : option string }.

Definition inRange (lo hi : Z) (r : t) : bool :=
  ((lo <=? date r) && (date r <=? hi))%Z.

Definition byType (docs : list t) : list (Pipeline.Group RecordType.t) :=
  Pipeline.group RecordType.eqb type amount docs.

(** [financialRecordSchema.statics.getUserBalance]. *)
Definition getUserBalance (coll : list t) (userId : ObjectId) : Balance.t :=
  let result :=
    byType (Pipeline.match_ (fun r => (user r =? userId)%nat) coll) in
  let income :=
    orZero (Pipeline.totalOf RecordType.eqb RecordType.income result) in
  let expense :=
    orZero (Pipeline.totalOf RecordType.eqb RecordType.expense result) in
  Balance.mk income expense (income - expense).

(** [financialRecordSchema.statics.getMonthlySummary]. *)
Definition getMonthlySummary (coll : list t) (userId : ObjectId)
    (year month : Z) : MonthlySummary.t :=
  let startDate := JSDate.newDate year (month - 1) 1 0 0 0 in
  let endDate := JSDate.newDate year month 0 23 59 59 in
  let result :=
    byType (Pipeline.match_
              (fun r => (user r =? userId)%nat && inRange startDate endDate r)
              coll) in
  let income :=
    orZero (Pipeline.totalOf RecordType.eqb RecordType.income result) in
  let expense :=
    orZero (Pipeline.totalOf RecordType.eqb RecordType.expense result) in
  MonthlySummary.mk income expense (income - expense) month year.

(** *** Collection access *)

Definition PaymentMethod_eqb (a b : PaymentMethod.t) : bool :=
  match a, b with
  | PaymentMethod.cash, PaymentMethod.cash
  | PaymentMethod.card, PaymentMethod.card
  | PaymentMethod.bank_transfer, PaymentMethod.bank_transfer
  | PaymentMethod.digital_wallet, PaymentMethod.digital_wallet
  | PaymentMethod.other, PaymentMethod.other => true
  | _, _ => false
  end.

Definition option_eqb {A} (eqb : A -> A -> bool) (x y : option A) : bool :=
  match x, y with
  | Some a, Some b => eqb a b
  | None, None => true
  | _, _ => false
  end.

Fixpoint list_eqb {A} (eqb : A -> A -> bool) (l m : list A) : bool :=
  match l, m with
  | [], [] => true
  | a :: l', b :: m' => eqb a b && list_eqb eqb l' m'
  | _, _ => false
  end.

(** Same field values (numbers compared as numbers). *)
Definition eqb (a b : t) : bool :=
  (_id a =? _id b)%nat && (user a =? user b)%nat
  && String.eqb (description a) (description b)
  && Qeq_bool (amount a) (amount b)
  && RecordType.eqb (type a) (type b)
  && String.eqb (category a) (category b)
  && (date a =? date b)%Z
  && PaymentMethod_eqb (paymentMethod a) (paymentMethod b)
  && (createdAt a =? createdAt b)%Z && (updatedAt a =? updatedAt b)%Z
  && list_eqb String.eqb (tags a) (tags b)
  && option_eqb String.eqb (notes a) (notes b)
  && Bool.eqb (isRecurring a) (isRecurring b)
  && option_eqb String.eqb (recurringFrequency a) (recurringFrequency b).

Definition set_updatedAt (v : Z) (r : t) : t :=
  mk (_id r) (user r) (description r) (amount r) (type r) (category r)
     (date r) (paymentMethod r) (createdAt r) v
     (tags r) (notes r) (isRecurring r) (recurringFrequency r).

(** The validators of the schema that the middleware of the routes has
    not run already: [notes] of at most 500 characters, and a
    [recurringFrequency] out of the four of the [enum], required when
    [isRecurring] is set.  ([description], [amount], [type],
    [category] and [paymentMethod] reach the model checked by
    [validateFinancialRecord] on every route that writes.) *)
Definition frequencies : list string :=
  ["daily"; "weekly"; "monthly"; "yearly"]%string.

Definition validate (r : t) : bool :=
  match notes r with
  | Some n => (String.length n <=? 500)%nat
  | None => true
  end
  && match recurringFrequency r with
     | Some f => existsb (String.eqb f) frequencies
     | None => negb (isRecurring r)
     end.

Definition findOne (p : t -> bool) (coll : list t) : option t := find p coll.

Definition replace (doc : t) (coll : list t) : list t :=
  map (fun d => if (_id d =? _id doc)%nat then doc else d) coll.

(** [doc.save()] for a document loaded earlier in the same request:
    see [Budget.save] below for the reading of the [timestamps]
    option. *)
Definition save (now : Z) (coll : list t) (doc : t) : list t * t :=
  match findOne (fun d => (_id d =? _id doc)%nat) coll with
  | Some stored =>
      if eqb stored doc then (coll, doc)
      else let doc' := set_updatedAt now doc in (replace doc' coll, doc')
  | None => (coll, doc)
  end.

(** The virtual [formattedAmount]. *)
Definition formattedAmount (r : t) : Q :=
  if RecordType.eqb (type r) RecordType.expense then - amount r
  else amount r.

(** [doc.deleteOne()]. *)
Definition deleteOne (doc : t) (coll : list t) : list t :=
  filter (fun d => negb (_id d =? _id doc)%nat) coll.

(** [sort({ date: -1 })], as a stable insertion sort. *)
Fixpoint insertByDate (r : t) (l : list t) : list t :=
  match l with
  | [] => [r]
  | h :: l' => if (date h <=? date r)%Z then r :: l else h :: insertByDate r l'
  end.

Definition sortByDateDesc (l : list t) : list t :=
  fold_right insertByDate [] l.
End FinancialRecord.

(* ================================================================== *)
(** ** models/Budget.js *)
(* ================================================================== *)

Module Period.
Inductive t := weekly | monthly | yearly.

Definition eqb (a b : t) : bool :=
  match a, b with
  | weekly, weekly | monthly, monthly | yearly, yearly => true
  | _, _ => false
  end.
End Period.

Module Status.
Inductive t := good | warning | exceeded.

Definition name (s : t) : string :=
  match s with
  | good => "good" | warning => "warning" | exceeded => "exceeded"
  end.
End Status.

Module Budget.
Record t : Type := mk
  { _id : ObjectId;
    user : ObjectId;
    category : string;
    budgetAmount : Q;
    spentAmount : Q;
    period : Period.t;
    startDate : Z;
    endDate : Z;
    isActive : bool;
    alertThreshold : Q;
    color : string;
    createdAt : Z;
    updatedAt : Z }.

Definition set_category (v : string) (b : t) : t :=
  mk (_id b) (user b) v (budgetAmount b) (spentAmount b) (period b)
     (startDate b) (endDate b) (isActive b) (alertThreshold b) (color b)
     (createdAt b) (updatedAt b).
Definition set_budgetAmount (v : Q) (b : t) : t :=
  mk (_id b) (user b) (category b) v (spentAmount b) (period b)
     (startDate b) (endDate b) (isActive b) (alertThreshold b) (color b)
     (createdAt b) (updatedAt b).
Definition set_spentAmount (v : Q) (b : t) : t :=
  mk (_id b) (user b) (category b) (budgetAmount b) v (period b)
     (startDate b) (endDate b) (isActive b) (alertThreshold b) (color b)
     (createdAt b) (updatedAt b).
Definition set_period (v : Period.t) (b : t) : t :=
  mk (_id b) (user b) (category b) (budgetAmount b) (spentAmount b) v
     (startDate b) (endDate b) (isActive b) (alertThreshold b) (color b)
     (createdAt b) (updatedAt b).
Definition set_window (w : Z * Z) (b : t) : t :=
  mk (_id b) (user b) (category b) (budgetAmount b) (spentAmount b)
     (period b) (fst w) (snd w) (isActive b) (alertThreshold b) (color b)
     (createdAt b) (updatedAt b).
Definition set_isActive (v : bool) (b : t) : t :=
  mk (_id b) (user b) (category b) (budgetAmount b) (spentAmount b)
     (period b) (startDate b) (endDate b) v (alertThreshold b) (color b)
     (createdAt b) (updatedAt b).
Definition set_alertThreshold (v : Q) (b : t) : t :=
  mk (_id b) (user b) (category b) (budgetAmount b) (spentAmount b)
     (period b) (startDate b) (endDate b) (isActive b) v (color b)
     (createdAt b) (updatedAt b).
Definition set_updatedAt (v : Z) (b : t) : t :=
  mk (_id b) (user b) (category b) (budgetAmount b) (spentAmount b)
     (period b) (startDate b) (endDate b) (isActive b) (alertThreshold b)
     (color b) (createdAt b) v.

(** Same field values (numbers compared as numbers). *)
Definition eqb (a b : t) : bool :=
  (_id a =? _id b)%nat && (user a =? user b)%nat
  && String.eqb (category a) (category b)
  && Qeq_bool (budgetAmount a) (budgetAmount b)
  && Qeq_bool (spentAmount a) (spentAmount b)
  && Period.eqb (period a) (period b)
  && (startDate a =? startDate b)%Z && (endDate a =? endDate b)%Z
  && Bool.eqb (isActive a) (isActive b)
  && Qeq_bool (alertThreshold a) (alertThreshold b)
  && String.eqb (color a) (color b)
  && (createdAt a =? createdAt b)%Z && (updatedAt a =? updatedAt b)%Z.

(** *** Virtuals *)

Definition remainingAmount (b : t) : Q :=
  Qmax 0 (budgetAmount b - spentAmount b).

Definition percentageSpent (b : t) : Q :=
  if Qltb 0 (budgetAmount b)
  then (spentAmount b / budgetAmount b) * 100
  else 0.

Definition status (b : t) : Status.t :=
  let percentage := percentageSpent b in
  if Qle_bool 100 percentage then Status.exceeded
  else if Qle_bool (alertThreshold b) percentage then Status.warning
  else Status.good.

(** *** Collection access *)

Definition findOne (p : t -> bool) (coll : list t) : option t := find p coll.

Definition findById (id : ObjectId) (coll : list t) : option t :=
  findOne (fun d => (_id d =? id)%nat) coll.

Definition replace (doc : t) (coll : list t) : list t :=
  map (fun d => if (_id d =? _id doc)%nat then doc else d) coll.

(** [doc.save()] for a document loaded earlier in the same request.
    With the schema's [timestamps] option the write stamps [updatedAt],
    and a document none of whose paths was modified is not written at
    all; being loaded in this request, it is modified exactly when it
    differs from the stored one.  A document that is no longer stored
    is not written. *)
Definition save (now : Z) (coll : list t) (doc : t) : list t * t :=
  match findById (_id doc) coll with
  | Some stored =>
      if eqb stored doc then (coll, doc)
      else let doc' := set_updatedAt now doc in (replace doc' coll, doc')
  | None => (coll, doc)
  end.

(** The [$match] stage of [updateSpentAmount]. *)
Definition spentMatch (this : t) (r : FinancialRecord.t) : bool :=
  (FinancialRecord.user r =? user this)%nat
  && RecordType.eqb (FinancialRecord.type r) RecordType.expense
  && String.eqb (FinancialRecord.category r) (category this)
  && FinancialRecord.inRange (startDate this) (endDate this) r.

(** [budgetSchema.methods.updateSpentAmount]: one group, [_id: null]. *)
Definition updateSpentAmount (now : Z) (records : list FinancialRecord.t)
    (coll : list t) (this : t) : list t * t :=
  let result :=
    Pipeline.group (fun _ _ : unit => true) (fun _ => tt)
      FinancialRecord.amount
      (Pipeline.match_ (spentMatch this) records) in
  let this' :=
    set_spentAmount
      (match result with
       | g :: _ => Pipeline.total g
       | [] => 0
       end) this in
  save now coll this'.

(** [sort({ category: 1 })], as a stable insertion sort on the
    code-unit order of strings. *)
Fixpoint insertByCategory (b : t) (l : list t) : list t :=
  match l with
  | [] => [b]
  | h :: l' =>
      if String.leb (category b) (category h) then b :: l
      else h :: insertByCategory b l'
  end.

Definition sortByCategory (l : list t) : list t :=
  fold_right insertByCategory [] l.

(** [budgetSchema.statics.getUserBudgetOverview]. *)
Definition getUserBudgetOverview (currentDate : Z) (coll : list t)
    (userId : ObjectId) : list t :=
  sortByCategory
    (filter
       (fun b => (user b =? userId)%nat && isActive b
                 && (startDate b <=? currentDate)%Z
                 && (currentDate <=? endDate b)%Z)
       coll).

(** [doc.deleteOne()]. *)
Definition deleteOne (doc : t) (coll : list t) : list t :=
  filter (fun d => negb (_id d =? _id doc)%nat) coll.

(** [for (let budget of budgets) { await budget.updateSpentAmount(); }]:
    the collection after the loop and the documents as the loop leaves
    them. *)
Fixpoint updateSpentAmounts (now : Z) (records : list FinancialRecord.t)
    (coll : list t) (docs : list t) : list t * list t :=
  match docs with
  | [] => (coll, [])
  | d :: ds =>
      let (coll, d) := updateSpentAmount now records coll d in
      let (coll, ds) := updateSpentAmounts now records coll ds in
      (coll, d :: ds)
  end.
End Budget.

(* ================================================================== *)
(** ** The persisted state and the handlers' answers *)
(* ================================================================== *)

Record Store : Type := mkStore
  { records : list FinancialRecord.t;
    budgets : list Budget.t;
    nextId : ObjectId }.

Inductive Response (A : Type) : Type :=
| Json (status : nat) (body : A)
| Failure (status : nat) (message : string).

Arguments Failure {A} status message.

Definition lengthBetween (lo hi : nat) (s : string) : bool :=
  ((lo <=? String.length s) && (String.length s <=? hi))%nat.

(* ================================================================== *)
(** ** routes/budget.js *)
(* ================================================================== *)

Module BudgetRoutes.
(** The request body; an absent key is [None]. *)
Record Body : Type := mkBody
  { category : option string;
    budgetAmount : option Q;
    period : option Period.t;
    alertThreshold : option Q;
    color : option string }.

(** [validateBudget]: the sanitised body, or [None] when the request
    is refused.  A [period] outside the three names is refused here and
    has no representation. *)
Definition validateBudget (body : Body) : option Body :=
  match category body, budgetAmount body, period body with
  | Some c, Some a, Some _ =>
      let c' := Text.trim c in
      if lengthBetween 1 50 c'
         && Qle_bool 0 a
         && match alertThreshold body with
            | Some th => Qle_bool 0 th && Qle_bool th 100
            | None => true
            end
      then Some (mkBody (Some c') (budgetAmount body) (period body)
                   (alertThreshold body) (color body))
      else None
  | _, _, _ => None
  end.

(** The [switch (period)] of the create and update handlers. *)
Definition periodWindow (now : Z) (p : Period.t) : Z * Z :=
  match p with
  | Period.weekly =>
      let startDate :=
        JSDate.setDate now (JSDate.getDate now - JSDate.getDay now)%Z in
      let endDate :=
        JSDate.setDate startDate (JSDate.getDate startDate + 6)%Z in
      (startDate, endDate)
  | Period.monthly =>
      (JSDate.newDate (JSDate.getFullYear now) (JSDate.getMonth now) 1 0 0 0,
       JSDate.newDate (JSDate.getFullYear now) (JSDate.getMonth now + 1) 0
         0 0 0)
  | Period.yearly =>
      (JSDate.newDate (JSDate.getFullYear now) 0 1 0 0 0,
       JSDate.newDate (JSDate.getFullYear now) 11 31 0 0 0)
  end.

(** [alertThreshold || 80]. *)
Definition thresholdOrDefault (x : option Q) : Q :=
  match x with
  | Some v => if Qeq_bool v 0 then 80 else v
  | None => 80
  end.

(** [color || '#3B82F6']. *)
Definition colorOrDefault (x : option string) : string :=
  match x with
  | Some v => if String.eqb v "" then "#3B82F6" else v
  | None => "#3B82F6"
  end.

Definition activeFor (userId : ObjectId) (c : string) (b : Budget.t) : bool :=
  (Budget.user b =? userId)%nat
  && String.eqb (Budget.category b) c
  && Budget.isActive b.

Definition owned (userId id : ObjectId) (b : Budget.t) : bool :=
  (Budget._id b =? id)%nat && (Budget.user b =? userId)%nat.

(** [router.get('/:id')]. *)
Definition getBudget (now : Z) (s : Store) (userId id : ObjectId)
  : Response Budget.t * Store :=
  match Budget.findOne (owned userId id) (budgets s) with
  | None => (Failure 404 "Budget not found", s)
  | Some budget =>
      let (coll, budget) :=
        Budget.updateSpentAmount now (records s) (budgets s) budget in
      (Json 200 budget, mkStore (records s) coll (nextId s))
  end.

(** [router.post('/')]. *)
Definition createBudget (now : Z) (s : Store) (userId : ObjectId)
    (body : Body) : Response Budget.t * Store :=
  match validateBudget body with
  | None => (Failure 400 "Validation failed", s)
  | Some body =>
      match category body, budgetAmount body, period body with
      | Some c, Some a, Some p =>
          match Budget.findOne (activeFor userId c) (budgets s) with
          | Some existingBudget =>
              (Failure 400 "Active budget already exists for this category",
               s)
          | None =>
              let w := periodWindow now p in
              let budget :=
                Budget.mk (nextId s) userId c a 0 p (fst w) (snd w) true
                  (thresholdOrDefault (alertThreshold body))
                  (colorOrDefault (color body)) now now in
              let (coll, budget) :=
                Budget.updateSpentAmount now (records s)
                  (budgets s ++ [budget]) budget in
              (Json 201 budget, mkStore (records s) coll (S (nextId s)))
          end
      | _, _, _ => (Failure 500 "Server error creating budget", s)
      end
  end.

(** The field assignments of [router.put('/:id')]. *)
Definition assignFields (body : Body) (budget : Budget.t) : Budget.t :=
  let budget :=
    match budgetAmount body with
    | Some v => Budget.set_budgetAmount v budget | None => budget
    end in
  let budget :=
    match period body with
    | Some v => Budget.set_period v budget | None => budget
    end in
  let budget :=
    match alertThreshold body with
    | Some v => Budget.set_alertThreshold v budget | None => budget
    end in
  match category body with
  | Some v => Budget.set_category v budget | None => budget
  end.

(** [if (period && period !== budget.period) { ... }], evaluated on the
    document as it stands after the assignments. *)
Definition recalcWindow (now : Z) (body : Body) (budget : Budget.t)
  : Budget.t :=
  match period body with
  | Some p =>
      if negb (Period.eqb p (Budget.period budget))
      then Budget.set_window (periodWindow now p) budget
      else budget
  | None => budget
  end.

(** [router.put('/:id')]. *)
Definition updateBudget (now : Z) (s : Store) (userId id : ObjectId)
    (body : Body) : Response Budget.t * Store :=
  match validateBudget body with
  | None => (Failure 400 "Validation failed", s)
  | Some body =>
      match Budget.findOne (owned userId id) (budgets s) with
      | None => (Failure 404 "Budget not found", s)
      | Some budget =>
          let budget := assignFields body budget in
          let budget := recalcWindow now body budget in
          let (coll, budget) := Budget.save now (budgets s) budget in
          let (coll, budget) :=
            Budget.updateSpentAmount now (records s) coll budget in
          (Json 200 budget, mkStore (records s) coll (nextId s))
      end
  end.

(** [router.patch('/:id/toggle')]. *)
Definition toggleBudgetActive (now : Z) (s : Store) (userId id : ObjectId)
  : Response Budget.t * Store :=
  match Budget.findOne (owned userId id) (budgets s) with
  | None => (Failure 404 "Budget not found", s)
  | Some budget =>
      let budget :=
        Budget.set_isActive (negb (Budget.isActive budget)) budget in
      let (coll, budget) := Budget.save now (budgets s) budget in
      (Json 200 budget, mkStore (records s) coll (nextId s))
  end.

(** [router.get('/')]; [active] is the query parameter, ['true'] when
    absent. *)
Definition listBudgets (now : Z) (s : Store) (userId : ObjectId)
    (active : option string) : Response (list Budget.t) * Store :=
  let active :=
    match active with Some a => a | None => "true"%string end in
  let query (b : Budget.t) : bool :=
    (Budget.user b =? userId)%nat
    && (if String.eqb active "true" then Budget.isActive b else true) in
  let (coll, budgets) :=
    Budget.updateSpentAmounts now (records s) (budgets s)
      (Budget.sortByCategory (filter query (budgets s))) in
  (Json 200 budgets, mkStore (records s) coll (nextId s)).

(** [router.delete('/:id')]. *)
Definition deleteBudget (s : Store) (userId id : ObjectId)
  : Response string * Store :=
  match Budget.findOne (owned userId id) (budgets s) with
  | None => (Failure 404 "Budget not found", s)
  | Some budget =>
      (Json 200 "Budget deleted successfully"%string,
       mkStore (records s) (Budget.deleteOne budget (budgets s)) (nextId s))
  end.

(** The answer of [router.get('/overview/summary')]. *)
Record Overview : Type := mkOverview
  { ov_budgets : list Budget.t;
    totalBudget : Q;
    totalSpent : Q;
    totalRemaining : Q;
    percentageSpent : Q;
    good : list Budget.t;
    warning : list Budget.t;
    exceeded : list Budget.t }.

Definition hasStatus (st : Status.t) (b : Budget.t) : bool :=
  match Budget.status b, st with
  | Status.good, Status.good
  | Status.warning, Status.warning
  | Status.exceeded, Status.exceeded => true
  | _, _ => false
  end.

(** [router.get('/overview/summary')]. *)
Definition overviewSummary (now : Z) (s : Store) (userId : ObjectId)
  : Response Overview * Store :=
  let (coll, budgets) :=
    Budget.updateSpentAmounts now (records s) (budgets s)
      (Budget.getUserBudgetOverview now (budgets s) userId) in
  let totalBudget :=
    fold_left (fun sum b => sum + Budget.budgetAmount b) budgets 0 in
  let totalSpent :=
    fold_left (fun sum b => sum + Budget.spentAmount b) budgets 0 in
  let totalRemaining := totalBudget - totalSpent in
  (Json 200
     (mkOverview budgets totalBudget totalSpent totalRemaining
        (if Qltb 0 totalBudget then (totalSpent / totalBudget) * 100 else 0)
        (filter (hasStatus Status.good) budgets)
        (filter (hasStatus Status.warning) budgets)
        (filter (hasStatus Status.exceeded) budgets)),
   mkStore (records s) coll (nextId s)).
End BudgetRoutes.

(* ================================================================== *)
(** ** The built-in RegExp, on a fragment of its pattern language *)
(* ================================================================== *)

(** [new RegExp(pattern, 'i')] and its search, for patterns built from
    literal characters, [.], [^], [$], [|], groups [( )], the quantifiers
    [*], [+], [?] (greedy or lazy) and escaped syntax characters.
    Character classes, braces, class escapes and [(?...)] groups are
    outside the fragment. *)
Module RegExp.
Inductive regex : Type :=
| Empty
| Chr (c : ascii)
| AnyChar
| Bol
| Eol
| Seq (r1 r2 : regex)
| Alt (r1 r2 : regex)
| Star (r : regex).

Inductive compiled : Type :=
| Pattern (r : regex)
| SyntaxError
| Unsupported.

Inductive token : Type :=
| TOpen | TClose | TBar | TStar | TPlus | TOpt | TDot | TCaret | TDollar
| TBackslash | TBracket | TLiteral.

Definition classify (c : ascii) : token :=
  match c with
  | "("%char => TOpen
  | ")"%char => TClose
  | "|"%char => TBar
  | "*"%char => TStar
  | "+"%char => TPlus
  | "?"%char => TOpt
  | "."%char => TDot
  | "^"%char => TCaret
  | "$"%char => TDollar
  | "\"%char => TBackslash
  | "["%char | "]"%char | "{"%char | "}"%char => TBracket
  | _ => TLiteral
  end.

(** A disjunction under construction: the alternatives already closed
    and the atoms of the current one, both most recent first. *)
Record frame : Type := mkFrame { alts : list regex; atoms : list regex }.

Definition seqOf (atoms : list regex) : regex :=
  fold_left (fun acc a => Seq a acc) atoms Empty.

Definition closeFrame (f : frame) : regex :=
  fold_left (fun acc a => Alt a acc) (alts f) (seqOf (atoms f)).

Definition push (a : regex) (f : frame) : frame :=
  mkFrame (alts f) (a :: atoms f).

(** What a quantifier may still follow. *)
Inductive last : Type := NoAtom | Atom | Quantified | Lazy.

Definition quantify (q : regex -> regex) (f : frame) : frame :=
  match atoms f with
  | a :: rest => mkFrame (alts f) (q a :: rest)
  | [] => f
  end.

Fixpoint parse (cs : list ascii) (cur : frame) (stack : list frame)
    (st : last) : compiled :=
  match cs with
  | [] =>
      match stack with
      | [] => Pattern (closeFrame cur)
      | _ :: _ => SyntaxError
      end
  | c :: cs' =>
      match classify c with
      | TOpen =>
          match cs' with
          | "?"%char :: _ => Unsupported
          | _ => parse cs' (mkFrame [] []) (cur :: stack) NoAtom
          end
      | TClose =>
          match stack with
          | [] => SyntaxError
          | parent :: stack' =>
              parse cs' (push (closeFrame cur) parent) stack' Atom
          end
      | TBar =>
          parse cs' (mkFrame (seqOf (atoms cur) :: alts cur) []) stack NoAtom
      | TStar =>
          match st with
          | Atom => parse cs' (quantify Star cur) stack Quantified
          | _ => SyntaxError
          end
      | TPlus =>
          match st with
          | Atom =>
              parse cs' (quantify (fun a => Seq a (Star a)) cur) stack
                Quantified
          | _ => SyntaxError
          end
      | TOpt =>
          match st with
          | Atom =>
              parse cs' (quantify (fun a => Alt a Empty) cur) stack
                Quantified
          | Quantified => parse cs' cur stack Lazy
          | _ => SyntaxError
          end
      | TDot => parse cs' (push AnyChar cur) stack Atom
      | TCaret => parse cs' (push Bol cur) stack NoAtom
      | TDollar => parse cs' (push Eol cur) stack NoAtom
      | TBackslash =>
          match cs' with
          | [] => SyntaxError
          | e :: cs'' =>
              match classify e with
              | TLiteral => Unsupported
              | _ => parse cs'' (push (Chr e) cur) stack Atom
              end
          end
      | TBracket => Unsupported
      | TLiteral => parse cs' (push (Chr c) cur) stack Atom
      end
  end.

(** [new RegExp(pattern, 'i')]. *)
Definition compile (pattern : string) : compiled :=
  parse (list_ascii_of_string pattern) (mkFrame [] []) [] NoAtom.

Definition isLineTerminator (c : ascii) : bool :=
  let n := nat_of_ascii c in (n =? 10)%nat || (n =? 13)%nat.

(** Backtracking matcher in continuation style.  [atStart] tells
    whether the position is the start of the input; an iteration of a
    star must consume input. *)
Fixpoint matches (r : regex) (atStart : bool) (s : list ascii)
    (k : bool -> list ascii -> bool) : bool :=
  match r with
  | Empty => k atStart s
  | Chr c =>
      match s with
      | x :: s' => Text.eqCI c x && k false s'
      | [] => false
      end
  | AnyChar =>
      match s with
      | x :: s' => negb (isLineTerminator x) && k false s'
      | [] => false
      end
  | Bol => atStart && k atStart s
  | Eol =>
      match s with
      | [] => k atStart s
      | _ :: _ => false
      end
  | Seq r1 r2 => matches r1 atStart s (fun b s' => matches r2 b s' k)
  | Alt r1 r2 => matches r1 atStart s k || matches r2 atStart s k
  | Star r' =>
      (fix loop (n : nat) (b : bool) (s : list ascii) : bool :=
         k b s
         || match n with
            | O => false
            | S n' =>
                matches r' b s
                  (fun b' s' =>
                     (List.length s' <? List.length s)%nat && loop n' b' s')
            end) (List.length s) atStart s
  end.

(** A match starting at some position of the input. *)
Fixpoint searchFrom (r : regex) (atStart : bool) (s : list ascii) : bool :=
  matches r atStart s (fun _ _ => true)
  || match s with
     | [] => false
     | _ :: s' => searchFrom r false s'
     end.

(** [re.test(s)]. *)
Definition test (r : regex) (s : string) : bool :=
  searchFrom r true (list_ascii_of_string s).
End RegExp.

(* ================================================================== *)
(** ** routes/records.js *)
(* ================================================================== *)

Module RecordRoutes.
(** The request body of a create or an update, as far as the schema
    of the records has a path for its keys; an absent key is [None].
    The six keys of the form come first; the handlers pass the others
    on to the model as they arrive.  The body is taken to hold values
    the schema can cast, and no [createdAt], [updatedAt] or [__v]. *)
Record Body : Type := mkBody
  { description : option string;
    amount : option Q;
    type : option RecordType.t;
    category : option string;
    date : option Z;
    paymentMethod : option PaymentMethod.t;
    _id : option ObjectId;
    user : option ObjectId;
    tags : option (list string);
    notes : option string;
    isRecurring : option bool;
    recurringFrequency : option string }.

(** [validateFinancialRecord]: the sanitised body, or [None] when the
    request is refused.  The keys it has no rule for stay as they
    are. *)
Definition validateFinancialRecord (body : Body) : option Body :=
  match description body, amount body, type body, category body with
  | Some d, Some a, Some _, Some c =>
      let d' := Text.trim d in
      let c' := Text.trim c in
      if lengthBetween 1 200 d' && Qle_bool (1 # 100) a
         && lengthBetween 1 50 c'
      then Some (mkBody (Some d') (amount body) (type body) (Some c')
                   (date body) (paymentMethod body)
                   (_id body) (user body) (tags body) (notes body)
                   (isRecurring body) (recurringFrequency body))
      else None
  | _, _, _, _ => None
  end.

Definition orElse {A} (x : option A) (d : A) : A :=
  match x with Some v => v | None => d end.

(** A body with the keys of the record form and no other. *)
Definition formBody (description : option string) (amount : option Q)
    (type : option RecordType.t) (category : option string)
    (date : option Z) (paymentMethod : option PaymentMethod.t) : Body :=
  mkBody description amount type category date paymentMethod
    None None None None None None.

(** The setter of [tags]: each tag trimmed. *)
Definition castTags (l : list string) : list string := map Text.trim l.

(** [Object.assign(record, req.body)]: every key of the body is set
    on the document, [user] and [_id] among them. *)
Definition assign (record : FinancialRecord.t) (body : Body)
  : FinancialRecord.t :=
  FinancialRecord.mk
    (orElse (_id body) (FinancialRecord._id record))
    (orElse (user body) (FinancialRecord.user record))
    (orElse (description body) (FinancialRecord.description record))
    (orElse (amount body) (FinancialRecord.amount record))
    (orElse (type body) (FinancialRecord.type record))
    (orElse (category body) (FinancialRecord.category record))
    (orElse (date body) (FinancialRecord.date record))
    (orElse (paymentMethod body) (FinancialRecord.paymentMethod record))
    (FinancialRecord.createdAt record)
    (FinancialRecord.updatedAt record)
    (orElse (option_map castTags (tags body)) (FinancialRecord.tags record))
    (match notes body with
     | Some n => Some n
     | None => FinancialRecord.notes record
     end)
    (orElse (isRecurring body) (FinancialRecord.isRecurring record))
    (match recurringFrequency body with
     | Some f => Some f
     | None => FinancialRecord.recurringFrequency record
     end).

Definition owned (userId id : ObjectId) (r : FinancialRecord.t) : bool :=
  (FinancialRecord._id r =? id)%nat && (FinancialRecord.user r =? userId)%nat.

(** The budget queries of the handlers. *)
Definition activeFor (userId : ObjectId) (c : string) (b : Budget.t) : bool :=
  (Budget.user b =? userId)%nat
  && String.eqb (Budget.category b) c
  && Budget.isActive b.

Definition activeCovering (userId : ObjectId) (c : string) (d : Z)
    (b : Budget.t) : bool :=
  activeFor userId c b
  && (Budget.startDate b <=? d)%Z && (d <=? Budget.endDate b)%Z.

(** [if (budget) await budget.updateSpentAmount()]. *)
Definition reconcileFound (now : Z) (s : Store) (found : option Budget.t)
  : Store :=
  match found with
  | Some budget =>
      mkStore (records s)
        (fst (Budget.updateSpentAmount now (records s) (budgets s) budget))
        (nextId s)
  | None => s
  end.

(** *** Listing *)

(** The query string of [router.get('/')]; [page] and [limit] are
    taken as positive integers, the two dates as already parsed. *)
Record Query : Type := mkQuery
  { q_page : option positive;
    q_limit : option positive;
    q_type : option string;
    q_category : option string;
    q_startDate : option Z;
    q_endDate : option Z }.

Module Listing.
Record t : Type := mk
  { records : list FinancialRecord.t;
    totalPages : nat;
    currentPage : positive;
    total : nat }.
End Listing.

(** A query parameter that is present and not the empty string. *)
Definition truthy (x : option string) : option string :=
  match x with
  | Some s => if String.eqb s "" then None else Some s
  | None => None
  end.

(** The filter built by the handler, [re] being the compiled
    [new RegExp(category, 'i')] when a category is asked for.  [find]
    and [countDocuments] cast the filter through the schema, whose
    [type] path has the [lowercase] setter. *)
Definition selects (userId : ObjectId) (q : Query)
    (re : option RegExp.regex) (r : FinancialRecord.t) : bool :=
  (FinancialRecord.user r =? userId)%nat
  && match truthy (q_type q) with
     | Some ty =>
         String.eqb (RecordType.name (FinancialRecord.type r))
           (Text.toLowerCase ty)
     | None => true
     end
  && match re with
     | Some rx => RegExp.test rx (FinancialRecord.category r)
     | None => true
     end
  && match q_startDate q with
     | Some d => (d <=? FinancialRecord.date r)%Z
     | None => true
     end
  && match q_endDate q with
     | Some d => (FinancialRecord.date r <=? d)%Z
     | None => true
     end.

(** [sort({ date: -1, createdAt: -1 })]. *)
Definition newerFirst (a b : FinancialRecord.t) : bool :=
  (FinancialRecord.date b <? FinancialRecord.date a)%Z
  || ((FinancialRecord.date a =? FinancialRecord.date b)%Z
      && (FinancialRecord.createdAt b <=? FinancialRecord.createdAt a)%Z).

Fixpoint insertNewer (r : FinancialRecord.t) (l : list FinancialRecord.t)
  : list FinancialRecord.t :=
  match l with
  | [] => [r]
  | h :: l' => if newerFirst r h then r :: l else h :: insertNewer r l'
  end.

Definition sortNewerFirst (l : list FinancialRecord.t)
  : list FinancialRecord.t :=
  fold_right insertNewer [] l.

Definition runListing (s : Store) (userId : ObjectId) (q : Query)
    (re : option RegExp.regex) : Response Listing.t :=
  let page := orElse (q_page q) 1%positive in
  let limit := Pos.to_nat (orElse (q_limit q) 10%positive) in
  let found := filter (selects userId q re) (records s) in
  let total := List.length found in
  Json 200
    (Listing.mk
       (firstn limit (skipn ((Pos.to_nat page - 1) * limit)
                        (sortNewerFirst found)))
       ((total + limit - 1) / limit)%nat
       page
       total).

(** [router.get('/')].  The answer is [None] when the category filter
    is a pattern outside the fragment of [RegExp]. *)
Definition listRecords (s : Store) (userId : ObjectId) (q : Query)
  : option (Response Listing.t) :=
  match truthy (q_category q) with
  | Some c =>
      match RegExp.compile c with
      | RegExp.Pattern rx => Some (runListing s userId q (Some rx))
      | RegExp.SyntaxError =>
          Some (Failure 500 "Server error fetching records")
      | RegExp.Unsupported => None
      end
  | None => Some (runListing s userId q None)
  end.

(** [router.post('/')].  [FinancialRecord.create] takes the body with
    [user] overwritten; it gives the document an id of its own unless
    the body brings one, runs the validators of the schema and
    inserts.  A validation error and a duplicate [_id] reach the
    [catch] of the handler, and nothing is stored.  (Ids that the
    model gives out are drawn from [nextId], which stays above every
    id in the store.) *)
Definition createRecord (now : Z) (s : Store) (userId : ObjectId)
    (body : Body) : Response FinancialRecord.t * Store :=
  match validateFinancialRecord body with
  | None => (Failure 400 "Validation failed", s)
  | Some body =>
      match description body, amount body, type body, category body with
      | Some d, Some a, Some ty, Some c =>
          let record :=
            FinancialRecord.mk (orElse (_id body) (nextId s)) userId d a ty c
              (orElse (date body) now)
              (orElse (paymentMethod body) PaymentMethod.other) now now
              (castTags (orElse (tags body) []))
              (notes body)
              (orElse (isRecurring body) false)
              (recurringFrequency body) in
          if FinancialRecord.validate record
             && negb (existsb
                        (fun d => (FinancialRecord._id d
                                   =? FinancialRecord._id record)%nat)
                        (records s))
          then
            let s := mkStore (records s ++ [record]) (budgets s)
                       (S (Nat.max (nextId s) (FinancialRecord._id record))) in
            let s :=
              if RecordType.eqb (FinancialRecord.type record)
                   RecordType.expense
              then reconcileFound now s
                     (Budget.findOne
                        (activeCovering userId
                           (FinancialRecord.category record)
                           (FinancialRecord.date record)) (budgets s))
              else s in
            (Json 201 record, s)
          else (Failure 500 "Server error creating record", s)
      | _, _, _, _ => (Failure 500 "Server error creating record", s)
      end
  end.

(** [router.put('/:id')].  [record.save()] validates the document
    before it writes; a validation error reaches the [catch] of the
    handler, with nothing written and no budget reconciled.  A body
    whose [_id] is not the id of the record makes [save] address the
    write to that other id; the model lets it fail there, and what is
    stated about updates leaves such bodies aside. *)
Definition updateRecord (now : Z) (s : Store) (userId id : ObjectId)
    (body : Body) : Response FinancialRecord.t * Store :=
  match validateFinancialRecord body with
  | None => (Failure 400 "Validation failed", s)
  | Some body =>
      match FinancialRecord.findOne (owned userId id) (records s) with
      | None => (Failure 404 "Record not found", s)
      | Some record0 =>
          let oldCategory := FinancialRecord.category record0 in
          let oldType := FinancialRecord.type record0 in
          let assigned := assign record0 body in
          if FinancialRecord.validate assigned
             && (FinancialRecord._id assigned
                 =? FinancialRecord._id record0)%nat
          then
            let (coll, record) :=
              FinancialRecord.save now (records s) assigned in
            let s := mkStore coll (budgets s) (nextId s) in
            let s :=
              if RecordType.eqb oldType RecordType.expense
                 || RecordType.eqb (FinancialRecord.type record)
                      RecordType.expense
              then
                let s :=
                  if negb (String.eqb oldCategory
                             (FinancialRecord.category record))
                  then reconcileFound now s
                         (Budget.findOne (activeFor userId oldCategory)
                            (budgets s))
                  else s in
                reconcileFound now s
                  (Budget.findOne
                     (activeCovering userId (FinancialRecord.category record)
                        (FinancialRecord.date record)) (budgets s))
              else s in
            (Json 200 record, s)
          else (Failure 500 "Server error updating record", s)
      end
  end.

(** [router.delete('/:id')]. *)
Definition deleteRecord (now : Z) (s : Store) (userId id : ObjectId)
  : Response unit * Store :=
  match FinancialRecord.findOne (owned userId id) (records s) with
  | None => (Failure 404 "Record not found", s)
  | Some record =>
      let s :=
        mkStore
          (filter (fun d => negb (FinancialRecord._id d
                                  =? FinancialRecord._id record)%nat)
             (records s))
          (budgets s) (nextId s) in
      let s :=
        if RecordType.eqb (FinancialRecord.type record) RecordType.expense
        then reconcileFound now s
               (Budget.findOne
                  (activeFor userId (FinancialRecord.category record))
                  (budgets s))
        else s in
      (Json 200 tt, s)
  end.

(** [router.get('/balance')]. *)
Definition getBalance (s : Store) (userId : ObjectId)
  : Response Balance.t :=
  Json 200 (FinancialRecord.getUserBalance (records s) userId).

(** [router.get('/monthly-summary')]; the handler runs the pipeline of
    the static method of the same name, written out a second time. *)
Definition getMonthlySummary (s : Store) (userId : ObjectId)
    (year month : option Z) : Response MonthlySummary.t :=
  match year, month with
  | Some y, Some m =>
      Json 200 (FinancialRecord.getMonthlySummary (records s) userId y m)
  | _, _ => Failure 400 "Year and month are required"
  end.

(** [router.get('/category-breakdown')]; [type] defaults to
    ['expense'] and is compared with the stored type as it comes. *)
Definition getCategoryBreakdown (s : Store) (userId : ObjectId)
    (type : option string) (year month : option Z)
  : Response (list (Pipeline.Group string)) :=
  let type := orElse type "expense"%string in
  let inWindow (r : FinancialRecord.t) : bool :=
    match year, month with
    | Some y, Some m =>
        FinancialRecord.inRange
          (JSDate.newDate y (m - 1) 1 0 0 0)
          (JSDate.newDate y m 0 23 59 59) r
    | _, _ => true
    end in
  let matchQuery (r : FinancialRecord.t) : bool :=
    (FinancialRecord.user r =? userId)%nat
    && String.eqb (RecordType.name (FinancialRecord.type r)) type
    && inWindow r in
  Json 200
    (Pipeline.sortByTotalDesc
       (Pipeline.group String.eqb FinancialRecord.category
          FinancialRecord.amount
          (Pipeline.match_ matchQuery (records s)))).

(** The answer of [router.get('/summary/overview')]. *)
Record SummaryOverview : Type := mkSummaryOverview
  { so_balance : Balance.t;
    monthlySummary : option MonthlySummary.t;
    recentRecords : list FinancialRecord.t;
    categoryBreakdown : list (Pipeline.Group string) }.

(** [router.get('/summary/overview')]. *)
Definition summaryOverview (now : Z) (s : Store) (userId : ObjectId)
    (year month : option Z) : Response SummaryOverview :=
  let balance := FinancialRecord.getUserBalance (records s) userId in
  let monthlySummary :=
    match year, month with
    | Some y, Some m =>
        Some (FinancialRecord.getMonthlySummary (records s) userId y m)
    | _, _ => None
    end in
  let recentRecords :=
    firstn 5
      (FinancialRecord.sortByDateDesc
         (filter (fun r => (FinancialRecord.user r =? userId)%nat)
            (records s))) in
  let startOfMonth :=
    JSDate.newDate (JSDate.getFullYear now) (JSDate.getMonth now) 1 0 0 0 in
  let endOfMonth :=
    JSDate.newDate (JSDate.getFullYear now) (JSDate.getMonth now + 1) 0
      0 0 0 in
  let categoryBreakdown :=
    Pipeline.sortByTotalDesc
      (Pipeline.group String.eqb FinancialRecord.category
         FinancialRecord.amount
         (Pipeline.match_
            (fun r =>
               (FinancialRecord.user r =? userId)%nat
               && RecordType.eqb (FinancialRecord.type r) RecordType.expense
               && FinancialRecord.inRange startOfMonth endOfMonth r)
            (records s))) in
  Json 200
    (mkSummaryOverview balance monthlySummary recentRecords
       categoryBreakdown).
End RecordRoutes.

(* ================================================================== *)
(** ** components/BudgetGoalTracker.jsx *)
(* ================================================================== *)

(** The widgets read the budgets and the balance the backend answered
    with; budgets are the stored fields of [Budget.t]. *)
Module BudgetGoalTracker.
(** [parseFloat(x) || 0] on a number. *)
Definition number (x : Q) : Q := if Qeq_bool x 0 then 0 else x.

(** [budgetList.filter(b => b.isActive !== false)]. *)
Definition activeBudgets (budgets : list Budget.t) : list Budget.t :=
  filter Budget.isActive budgets.

Definition isOverall (b : Budget.t) : bool :=
  String.eqb (Budget.category b) "Overall Budget"
  || String.eqb (Budget.category b) "Overall".

(** [totalBudget] and [totalSpent] of the active budgets. *)
Definition totals (active : list Budget.t) (balance : Balance.t) : Q * Q :=
  match find isOverall active with
  | Some overallBudget =>
      (number (Budget.budgetAmount overallBudget),
       number (Balance.expense balance))
  | None =>
      (fold_left (fun sum b => sum + number (Budget.budgetAmount b)) active 0,
       fold_left (fun sum b => sum + number (Budget.spentAmount b)) active 0)
  end.

Record BudgetData : Type := mkBudgetData
  { totalBudget : Q;
    totalSpent : Q;
    remaining : Q;
    percentage : Q;
    isExceeded : bool;
    isWarning : bool;
    status : Status.t }.

(** The value the effect passes to [setBudgetData]; [None] is [null]. *)
Definition budgetData (budgets : list Budget.t) (balance : Balance.t)
  : option BudgetData :=
  match activeBudgets budgets with
  | [] => None
  | active =>
      let (totalBudget, totalSpent) := totals active balance in
      let remaining := Qmax 0 (totalBudget - totalSpent) in
      let percentage :=
        if Qltb 0 totalBudget then (totalSpent / totalBudget) * 100 else 0 in
      let isExceeded := Qltb totalBudget totalSpent in
      let isWarning := Qle_bool 80 percentage && negb isExceeded in
      Some (mkBudgetData totalBudget totalSpent remaining
              (Qmin 100 percentage) isExceeded isWarning
              (if isExceeded then Status.exceeded
               else if isWarning then Status.warning
               else Status.good))
  end.
End BudgetGoalTracker.

(* ================================================================== *)
(** ** components/BudgetProgressChart.jsx *)
(* ================================================================== *)

Module BudgetProgressChart.
Record Slice : Type := mkSlice { name : string; value : Q; color : string }.

(** [showSavingsGoal]: a fifth of the income is the goal. *)
Definition showSavingsGoal (balance : Balance.t) : list Slice :=
  let income := BudgetGoalTracker.number (Balance.income balance) in
  let expense := BudgetGoalTracker.number (Balance.expense balance) in
  let savings := Qmax 0 (income - expense) in
  let goal := if Qltb 0 income then income * (2 # 10) else 0 in
  if Qltb 0 goal
  then [mkSlice "Achieved" (Qmin savings goal) "#10B981";
        mkSlice "Remaining" (Qmax 0 (goal - savings)) "#E5E7EB"]
  else [].

(** The value the effect passes to [setChartData]; the totals are
    those of the goal tracker, computed here a second time. *)
Definition chartData (budgets : list Budget.t) (balance : Balance.t)
  : list Slice :=
  match BudgetGoalTracker.activeBudgets budgets with
  | [] => showSavingsGoal balance
  | active =>
      let (totalBudget, totalSpent) :=
        BudgetGoalTracker.totals active balance in
      let remaining := Qmax 0 (totalBudget - totalSpent) in
      let exceeded := Qmax 0 (totalSpent - totalBudget) in
      let data :=
        if Qltb 0 exceeded
        then [mkSlice "Budget" totalBudget "#3B82F6";
              mkSlice "Exceeded" exceeded "#EF4444"]
        else if Qltb 0 totalBudget
             then [mkSlice "Spent" totalSpent "#10B981";
                   mkSlice "Remaining" remaining "#E5E7EB"]
             else [] in
      match data with
      | [] => showSavingsGoal balance
      | _ :: _ => data
      end
  end.

(** [getAchievementPercentage]. *)
Definition getAchievementPercentage (budgets : list Budget.t)
    (balance : Balance.t) : Q :=
  let fallback :=
    let income := BudgetGoalTracker.number (Balance.income balance) in
    let goal := if Qltb 0 income then income * (2 # 10) else 0 in
    if Qltb 0 goal
    then
      let savings :=
        Qmax 0 (income - BudgetGoalTracker.number (Balance.expense balance)) in
      Qmin 100 ((savings / goal) * 100)
    else 0 in
  match BudgetGoalTracker.activeBudgets budgets with
  | [] => fallback
  | active =>
      let (totalBudget, totalSpent) :=
        BudgetGoalTracker.totals active balance in
      if Qltb 0 totalBudget
      then Qmin 100 ((totalSpent / totalBudget) * 100)
      else fallback
  end.
End BudgetProgressChart.

(* ================================================================== *)
(** ** pages/Dashboard.jsx: month navigation *)
(* ================================================================== *)

Module Dashboard.
(** [goToPreviousMonth], [goToNextMonth]: the updaters of
    [selectedDate]. *)
Definition goToPreviousMonth (prev : Z) : Z :=
  JSDate.newDate (JSDate.getFullYear prev) (JSDate.getMonth prev - 1) 1 0 0 0.

Definition goToNextMonth (prev : Z) : Z :=
  JSDate.newDate (JSDate.getFullYear prev) (JSDate.getMonth prev + 1) 1 0 0 0.

(** [isCurrentMonth]. *)
Definition isCurrentMonth (selectedDate now : Z) : bool :=
  (JSDate.getMonth selectedDate =? JSDate.getMonth now)%Z
  && (JSDate.getFullYear selectedDate =? JSDate.getFullYear now)%Z.
End Dashboard.

(* ================================================================== *)
(** ** context/FinanceContext.jsx: the reducer *)
(* ================================================================== *)

Module FinanceContext.
Record DashboardData : Type := mkDashboardData
  { dd_balance : Balance.t;
    dd_recentRecords : option (list FinancialRecord.t);
    dd_timestamp : Z }.

Record State : Type := mkState
  { records : list FinancialRecord.t;
    balance : Balance.t;
    budgets : list Budget.t;
    dashboardData : option DashboardData;
    loading : bool;
    error : option string;
    lastUpdated : option Z }.

Definition initialState : State :=
  mkState [] (Balance.mk 0 0 0) [] None false None None.

Inductive Action : Type :=
| SET_LOADING (payload : bool)
| SET_ERROR (payload : string)
| CLEAR_ERROR
| SET_RECORDS (payload : list FinancialRecord.t)
| ADD_RECORD (payload : FinancialRecord.t)
| UPDATE_RECORD (payload : FinancialRecord.t)
| DELETE_RECORD (payload : ObjectId)
| SET_BALANCE (payload : Balance.t)
| SET_BUDGETS (payload : list Budget.t)
| SET_DASHBOARD_DATA (payload : DashboardData)
| RESET_STATE.

(** [financeReducer]; [now] is the clock read for [lastUpdated]. *)
Definition financeReducer (now : Z) (state : State) (action : Action)
  : State :=
  match action with
  | SET_LOADING payload =>
      mkState (records state) (balance state) (budgets state)
        (dashboardData state) payload (error state) (lastUpdated state)
  | SET_ERROR payload =>
      mkState (records state) (balance state) (budgets state)
        (dashboardData state) false (Some payload) (lastUpdated state)
  | CLEAR_ERROR =>
      mkState (records state) (balance state) (budgets state)
        (dashboardData state) (loading state) None (lastUpdated state)
  | SET_RECORDS payload =>
      mkState payload (balance state) (budgets state)
        (dashboardData state) false (error state) (Some now)
  | ADD_RECORD payload =>
      mkState (payload :: records state) (balance state) (budgets state)
        (dashboardData state) (loading state) (error state) (Some now)
  | UPDATE_RECORD payload =>
      mkState
        (map (fun record =>
                if (FinancialRecord._id record
                    =? FinancialRecord._id payload)%nat
                then payload else record)
           (records state))
        (balance state) (budgets state) (dashboardData state)
        (loading state) (error state) (Some now)
  | DELETE_RECORD payload =>
      mkState
        (filter (fun record =>
                   negb (FinancialRecord._id record =? payload)%nat)
           (records state))
        (balance state) (budgets state) (dashboardData state)
        (loading state) (error state) (Some now)
  | SET_BALANCE payload =>
      mkState (records state) payload (budgets state)
        (dashboardData state) (loading state) (error state)
        (lastUpdated state)
  | SET_BUDGETS payload =>
      mkState (records state) (balance state) payload
        (dashboardData state) (loading state) (error state)
        (lastUpdated state)
  | SET_DASHBOARD_DATA payload =>
      mkState
        (match dd_recentRecords payload with
         | Some recent => recent
         | None => records state
         end)
        (dd_balance payload) (budgets state) (Some payload) false
        (error state) (Some now)
  | RESET_STATE => initialState
  end.
End FinanceContext.

(* ================================================================== *)
(** ** The aggregates and the virtuals on doubles *)
(* ================================================================== *)

(** The same source functions with amounts as the binary64 numbers the
    program computes on.  A document is given by the fields the
    function reads. *)
Module Double.
Import PrimFloat.
Local Open Scope float_scope.

(** [x || 0] on a number: 0, -0 and NaN are falsy. *)
Definition orZero (x : option float) : float :=
  match x with
  | Some v => if is_zero v || is_nan v then 0 else v
  | None => 0
  end.

(** [Math.max(a, b)]. *)
Definition Math_max (a b : float) : float :=
  if is_nan a || is_nan b then nan
  else if a <? b then b
  else if b <? a then a
  else match classify a with
       | FloatClass.NZero => b
       | _ => a
       end.

(** [$sum] over a list of values: they are added to 0 one after the
    other. *)
Definition sum (l : list float) : float := fold_left add l 0.

Module Pipeline.
Record Group (K : Type) : Type := mkGroup
  { _id : K; total : float; count : nat }.

Section Stages.
Variables D K : Type.
Variable keq : K -> K -> bool.
Variable key : D -> K.
Variable val : D -> float.

(** [$match]. *)
Definition match_ (p : D -> bool) (docs : list D) : list D :=
  filter p docs.

(** One document entering the accumulators of [$group]. *)
Fixpoint accumulate (k : K) (a : float) (gs : list (Group K))
  : list (Group K) :=
  match gs with
  | [] => [mkGroup k (0 + a) 1]
  | g :: gs' =>
      if keq (_id g) k
      then mkGroup (_id g) (total g + a) (S (count g)) :: gs'
      else g :: accumulate k a gs'
  end.

(** [$group: { _id: key, total: { $sum: val }, count: { $sum: 1 } }]. *)
Definition group (docs : list D) : list (Group K) :=
  fold_left (fun gs d => accumulate (key d) (val d) gs) docs [].

(** [result.find(r => r._id === k)?.total]. *)
Definition totalOf (k : K) (gs : list (Group K)) : option float :=
  option_map (@total K) (find (fun g => keq (_id g) k) gs).
End Stages.

(** [$sort: { total: -1 }], as a stable insertion sort. *)
Fixpoint insertDesc {K} (g : Group K) (gs : list (Group K))
  : list (Group K) :=
  match gs with
  | [] => [g]
  | h :: gs' =>
      if total h <=? total g then g :: gs
      else h :: insertDesc g gs'
  end.

Definition sortByTotalDesc {K} (gs : list (Group K)) : list (Group K) :=
  fold_right insertDesc [] gs.
End Pipeline.

Module Balance.
Record t : Type := mk { income : float; expense : float; balance : float }.
End Balance.

Module MonthlySummary.
Record t : Type := mk
  { income : float; expense : float; balance : float; month : Z; year : Z }.
End MonthlySummary.

Module FinancialRecord.
Record t : Type := mk
  { user : ObjectId;
    amount : float;
    type : RecordType.t;
    category : string;
    date : Z }.

Definition inRange (lo hi : Z) (r : t) : bool :=
  ((lo <=? date r) && (date r <=? hi))%Z.

Definition byType (docs : list t) : list (Pipeline.Group RecordType.t) :=
  Pipeline.group RecordType.eqb type amount docs.

(** [financialRecordSchema.statics.getUserBalance]. *)
Definition getUserBalance (coll : list t) (userId : ObjectId) : Balance.t :=
  let result :=
    byType (Pipeline.match_ (fun r => (user r =? userId)%nat) coll) in
  let income :=
    orZero (Pipeline.totalOf RecordType.eqb RecordType.income result) in
  let expense :=
    orZero (Pipeline.totalOf RecordType.eqb RecordType.expense result) in
  Balance.mk income expense (income - expense).

(** [financialRecordSchema.statics.getMonthlySummary]. *)
Definition getMonthlySummary (coll : list t) (userId : ObjectId)
    (year month : Z) : MonthlySummary.t :=
  let startDate := JSDate.newDate year (month - 1) 1 0 0 0 in
  let endDate := JSDate.newDate year month 0 23 59 59 in
  let result :=
    byType (Pipeline.match_
              (fun r => (user r =? userId)%nat && inRange startDate endDate r)
              coll) in
  let income :=
    orZero (Pipeline.totalOf RecordType.eqb RecordType.income result) in
  let expense :=
    orZero (Pipeline.totalOf RecordType.eqb RecordType.expense result) in
  MonthlySummary.mk income expense (income - expense) month year.
End FinancialRecord.

Module RecordRoutes.
(** [router.get('/category-breakdown')] on a collection. *)
Definition getCategoryBreakdown (coll : list FinancialRecord.t)
    (userId : ObjectId) (type : option string) (year month : option Z)
  : Response (list (Pipeline.Group string)) :=
  let type := match type with Some t => t | None => "expense"%string end in
  let inWindow (r : FinancialRecord.t) : bool :=
    match year, month with
    | Some y, Some m =>
        FinancialRecord.inRange
          (JSDate.newDate y (m - 1) 1 0 0 0)
          (JSDate.newDate y m 0 23 59 59) r
    | _, _ => true
    end in
  let matchQuery (r : FinancialRecord.t) : bool :=
    (FinancialRecord.user r =? userId)%nat
    && String.eqb (RecordType.name (FinancialRecord.type r)) type
    && inWindow r in
  Json 200
    (Pipeline.sortByTotalDesc
       (Pipeline.group String.eqb FinancialRecord.category
          FinancialRecord.amount
          (Pipeline.match_ matchQuery coll))).
End RecordRoutes.

Module Budget.
Record t : Type := mk
  { budgetAmount : float;
    spentAmount : float;
    alertThreshold : float }.

(** The virtuals [remainingAmount], [percentageSpent] and [status]. *)
Definition remainingAmount (b : t) : float :=
  Math_max 0 (budgetAmount b - spentAmount b).

Definition percentageSpent (b : t) : float :=
  if 0 <? budgetAmount b then spentAmount b / budgetAmount b * 100 else 0.

Definition status (b : t) : Status.t :=
  let percentage := percentageSpent b in
  if 100 <=? percentage then Status.exceeded
  else if alertThreshold b <=? percentage then Status.warning
  else Status.good.
End Budget.
End Double.

Unset Implicit Arguments.

(* ================================================================== *)
(** * Vocabulary of the statements *)
(* ================================================================== *)

(** Sum of the totals of a list of groups. *)
Definition totals {K} (gs : list (Pipeline.Group K)) : Q :=
  Qsum (map (@Pipeline.total K) gs).

(** Sum of the totals of the groups filed under [k]. *)
Definition totalUnder {K} (keq : K -> K -> bool) (k : K)
    (gs : list (Pipeline.Group K)) : Q :=
  totals (filter (fun g => keq (Pipeline._id g) k) gs).

(** No two groups carry the same key. *)
Definition distinctKeys {K} (gs : list (Pipeline.Group K)) : Prop :=
  NoDup (map (@Pipeline._id K) gs).

(** The figure of a balance, or of a monthly summary, for one type. *)
Definition balanceOf (ty : RecordType.t) (b : Balance.t) : Q :=
  match ty with
  | RecordType.income => Balance.income b
  | RecordType.expense => Balance.expense b
  end.

Definition summaryOf (ty : RecordType.t) (m : MonthlySummary.t)
  : Q :=
  match ty with
  | RecordType.income => MonthlySummary.income m
  | RecordType.expense => MonthlySummary.expense m
  end.

(** Length of month [m] (0 = January). *)
Definition DaysInMonth (leap : bool) (m : Z) : Z :=
  match m with
  | 1 => if leap then 29 else 28
  | 3 | 5 | 8 | 10 => 30
  | _ => 31
  end%Z.

(* ================================================================== *)
(** * Vocabulary of the statements about listing *)
(* ================================================================== *)

(** A filter made of characters with no meaning in a pattern. *)
Definition plain (cs : list ascii) : Prop :=
  Forall (fun c => RegExp.classify c = RegExp.TLiteral) cs.

(** The pattern that reads the characters [cs] one after the other. *)
Definition literal (cs : list ascii) : RegExp.regex :=
  fold_right (fun a acc => RegExp.Seq a acc) RegExp.Empty
    (map RegExp.Chr cs).

(** [hay] begins with [needle], letter case apart. *)
Fixpoint prefixCI (needle hay : list ascii) : bool :=
  match needle, hay with
  | [], _ => true
  | c :: needle', x :: hay' => Text.eqCI c x && prefixCI needle' hay'
  | _ :: _, [] => false
  end.

(** [needle] occurs somewhere in [hay], letter case apart. *)
Definition containsCI (needle hay : string) : Prop :=
  exists pre mid post,
    list_ascii_of_string hay = pre ++ mid ++ post
    /\ map Text.toUpper mid = map Text.toUpper (list_ascii_of_string needle).

(** What a listing with category filter [c] asks of a record; the
    type asked for is compared in lower case. *)
Definition matchesQuery (userId : ObjectId) (q : RecordRoutes.Query)
    (c : string) (r : FinancialRecord.t) : Prop :=
  FinancialRecord.user r = userId
  /\ (forall ty, RecordRoutes.truthy (RecordRoutes.q_type q) = Some ty ->
                 RecordType.name (FinancialRecord.type r)
                 = Text.toLowerCase ty)
  /\ containsCI c (FinancialRecord.category r)
  /\ (forall d, RecordRoutes.q_startDate q = Some d ->
                (d <= FinancialRecord.date r)%Z)
  /\ (forall d, RecordRoutes.q_endDate q = Some d ->
                (FinancialRecord.date r <= d)%Z).

(* ================================================================== *)
(** * Sample data: the ledger of March 2024 *)
(* ================================================================== *)

Module Sample.
Definition alice : ObjectId := 7%nat.

(** Local time [y]-[m]-[d] at [h] o'clock, [m] counted from 1. *)
Definition on (y m d h : Z) : Z := JSDate.newDate y (m - 1) d h 0 0.

Definition salary : FinancialRecord.t :=
  FinancialRecord.mk 1%nat alice "Salary for March" 5000 RecordType.income
    "Salary" (on 2024 3 5 0) PaymentMethod.bank_transfer
    (on 2024 3 5 9) (on 2024 3 5 9) [] None false None.

Definition rent : FinancialRecord.t :=
  FinancialRecord.mk 2%nat alice "Rent" 1200 RecordType.expense
    "Housing" (on 2024 3 10 0) PaymentMethod.bank_transfer
    (on 2024 3 10 9) (on 2024 3 10 9) [] None false None.

Definition groceries : FinancialRecord.t :=
  FinancialRecord.mk 3%nat alice "Groceries" 500 RecordType.expense
    "Food & Dining" (on 2024 3 15 0) PaymentMethod.card
    (on 2024 3 15 9) (on 2024 3 15 9) [] None false None.

Definition ledger : Store := mkStore [salary; rent; groceries] [] 4%nat.

Definition now : Z := on 2024 3 20 12.

Definition foodBody : BudgetRoutes.Body :=
  BudgetRoutes.mkBody (Some "Food & Dining"%string) (Some 600)
    (Some Period.monthly) None None.

Definition overallBody : BudgetRoutes.Body :=
  BudgetRoutes.mkBody (Some "Overall Budget"%string) (Some 2000)
    (Some Period.monthly) None None.

(** The budget a create request for "Food & Dining" leaves behind. *)
Definition foodBudget : Budget.t :=
  Budget.mk 4%nat alice "Food & Dining" 600 500 Period.monthly
    (on 2024 3 1 0) (on 2024 3 31 0) true 80 "#3B82F6" now now.

Definition budgeted : Store :=
  mkStore [salary; rent; groceries] [foodBudget] 5%nat.

(** An "Overall Budget" for the same month, not yet reconciled. *)
Definition overallBudget : Budget.t :=
  Budget.mk 4%nat alice "Overall Budget" 2000 0 Period.monthly
    (on 2024 3 1 0) (on 2024 3 31 0) true 80 "#3B82F6" now now.

Definition overall : Store :=
  mkStore [salary; rent; groceries] [overallBudget] 5%nat.

(** A later moment, and a request switching the food budget to weekly. *)
Definition later : Z := on 2024 6 20 12.

Definition weeklyBody : BudgetRoutes.Body :=
  BudgetRoutes.mkBody (Some "Food & Dining"%string) (Some 600)
    (Some Period.weekly) None None.

(** A second, deactivated budget for the same category, and an active
    budget for another one. *)
Definition retiredFood : Budget.t :=
  Budget.mk 5%nat alice "Food & Dining" 300 0 Period.monthly
    (on 2024 2 1 0) (on 2024 2 29 0) false 80 "#3B82F6"
    (on 2024 2 3 12) (on 2024 2 28 12).

Definition housingBudget : Budget.t :=
  Budget.mk 6%nat alice "Housing" 1500 1200 Period.monthly
    (on 2024 3 1 0) (on 2024 3 31 0) true 80 "#3B82F6" now now.

(** Listing queries with a category filter only. *)
Definition byCategory (c : string) : RecordRoutes.Query :=
  RecordRoutes.mkQuery None None None (Some c) None None.

(** An income booked half a second before April begins. *)
Definition lateRefund : FinancialRecord.t :=
  FinancialRecord.mk 9%nat alice "Refund" 250 RecordType.income "Refunds"
    (JSDate.newDate 2024 2 31 23 59 59 + 500) PaymentMethod.card
    (JSDate.newDate 2024 2 31 23 59 59 + 500)
    (JSDate.newDate 2024 2 31 23 59 59 + 500) [] None false None.



Definition crowded : Store :=
  mkStore [salary; rent; groceries]
    [foodBudget; retiredFood; housingBudget] 7%nat.
End Sample.

(* ================================================================== *)
(** * Vocabulary of the statements about budgets *)
(* ================================================================== *)

(** Two budget documents with the same identity and the same filter:
    they differ at most in amounts, period, threshold, colour and
    timestamps. *)
Definition sameScope (a b : Budget.t) : Prop :=
  Budget._id a = Budget._id b
  /\ Budget.user a = Budget.user b
  /\ Budget.category a = Budget.category b
  /\ Budget.isActive a = Budget.isActive b
  /\ Budget.startDate a = Budget.startDate b
  /\ Budget.endDate a = Budget.endDate b.

(** The record [r] is an expense of the budget's owner, filed under
    exactly the budget's category and dated within its window, both
    ends included. *)
Definition countsToward (b : Budget.t) (r : FinancialRecord.t) : Prop :=
  FinancialRecord.user r = Budget.user b
  /\ FinancialRecord.type r = RecordType.expense
  /\ FinancialRecord.category r = Budget.category b
  /\ (Budget.startDate b <= FinancialRecord.date r <= Budget.endDate b)%Z.

(** What the records say a budget has spent. *)
Definition spentTotal (recs : list FinancialRecord.t) (b : Budget.t) : Q :=
  Qsum (map FinancialRecord.amount (filter (Budget.spentMatch b) recs)).

(** The amount the aggregation of [updateSpentAmount] yields. *)
Definition aggregatedSpent (recs : list FinancialRecord.t) (this : Budget.t)
  : Q :=
  match Pipeline.group (fun _ _ : unit => true) (fun _ => tt)
          FinancialRecord.amount
          (Pipeline.match_ (Budget.spentMatch this) recs) with
  | g :: _ => Pipeline.total g
  | [] => 0
  end.

(** The stored budget [id] carries the spent amount its records give. *)
Definition reconciled (s : Store) (id : ObjectId) : Prop :=
  exists b, Budget.findById id (budgets s) = Some b
            /\ Budget.spentAmount b == spentTotal (records s) b.

(** The stored budget with the id of [b] has the scope of [b] and
    carries the spent amount the records give. *)
Definition reconciledAs (s : Store) (b : Budget.t) : Prop :=
  exists d, Budget.findById (Budget._id b) (budgets s) = Some d
            /\ sameScope d b
            /\ Budget.spentAmount d == spentTotal (records s) b.

Definition uniqueIds (coll : list Budget.t) : Prop :=
  NoDup (map Budget._id coll).

Definition uniqueRecordIds (coll : list FinancialRecord.t) : Prop :=
  NoDup (map FinancialRecord._id coll).

(** [coll'] is [coll] except, at most, for the document [id0], which
    is replaced by one with the same id satisfying [P]. *)
Definition touchesOnly (id0 : ObjectId) (P : Budget.t -> Prop)
    (coll coll' : list Budget.t) : Prop :=
  Forall2
    (fun d d' =>
       Budget._id d' = Budget._id d
       /\ (Budget._id d <> id0 -> d' = d)
       /\ (Budget._id d = id0 -> P d'))
    coll coll'.

(** Two distinct stored budgets are active for the same user and
    category. *)
Definition twoActive (userId : ObjectId) (c : string) (coll : list Budget.t)
  : Prop :=
  exists d1 d2,
    In d1 coll /\ In d2 coll /\ Budget._id d1 <> Budget._id d2
    /\ BudgetRoutes.activeFor userId c d1 = true
    /\ BudgetRoutes.activeFor userId c d2 = true.

(* ================================================================== *)
(** * Vocabulary of the further statements *)
(* ================================================================== *)

(** Budgets in ascending order of category. *)
Definition sortedByCategory (l : list Budget.t) : Prop :=
  Sorted (fun a b => String.leb (Budget.category a) (Budget.category b) = true)
    l.

(** Records newest first, by date and then by creation time. *)
Definition sortedNewerFirst (l : list FinancialRecord.t) : Prop :=
  Sorted (fun a b => RecordRoutes.newerFirst a b = true) l.

(** Records in descending order of date. *)
Definition sortedByDateDesc (l : list FinancialRecord.t) : Prop :=
  Sorted (fun a b => (FinancialRecord.date b <= FinancialRecord.date a)%Z) l.

(** Groups in descending order of total. *)
Definition sortedByTotalDesc {K} (l : list (Pipeline.Group K)) : Prop :=
  Sorted (fun a b => Pipeline.total b <= Pipeline.total a) l.

(** The [active] parameter of the budget listing asks for active
    budgets only. *)
Definition activeOnly (active : option string) : Prop :=
  active = None \/ active = Some "true"%string.

(** The bounds of the two schemas. *)
Definition recordBounds (r : FinancialRecord.t) : Prop :=
  1 # 100 <= FinancialRecord.amount r.

Definition budgetBounds (b : Budget.t) : Prop :=
  0 <= Budget.budgetAmount b
  /\ 0 <= Budget.spentAmount b
  /\ 0 <= Budget.alertThreshold b <= 100.

Definition schemaBounds (s : Store) : Prop :=
  Forall recordBounds (records s) /\ Forall budgetBounds (budgets s).

(** At most one active budget for each user and category. *)
Definition oneActivePerCategory (coll : list Budget.t) : Prop :=
  forall a b,
    In a coll -> In b coll ->
    Budget.isActive a = true -> Budget.isActive b = true ->
    Budget.user a = Budget.user b ->
    Budget.category a = Budget.category b ->
    Budget._id a = Budget._id b.

(** Ids are unique and below the next id to be given out. *)
Definition wellFormed (s : Store) : Prop :=
  uniqueIds (budgets s)
  /\ uniqueRecordIds (records s)
  /\ Forall (fun b => (Budget._id b < nextId s)%nat) (budgets s)
  /\ Forall (fun r => (FinancialRecord._id r < nextId s)%nat) (records s).

(** What belongs to users other than [userId]. *)
Definition othersRecords (userId : ObjectId) (s : Store)
  : list FinancialRecord.t :=
  filter (fun r => negb (FinancialRecord.user r =? userId)%nat) (records s).

Definition othersBudgets (userId : ObjectId) (s : Store) : list Budget.t :=
  filter (fun b => negb (Budget.user b =? userId)%nat) (budgets s).

(** One stored budget before and after a request of [userId]: same id
    and owner, and untouched when it belongs to someone else. *)
Definition keepsOthers (userId : ObjectId) (d d' : Budget.t) : Prop :=
  Budget._id d' = Budget._id d
  /\ Budget.user d' = Budget.user d
  /\ (Budget.user d <> userId -> d' = d).

Definition keepsOtherRecords (userId : ObjectId) (r r' : FinancialRecord.t)
  : Prop :=
  FinancialRecord._id r' = FinancialRecord._id r
  /\ FinancialRecord.user r' = FinancialRecord.user r
  /\ (FinancialRecord.user r <> userId -> r' = r).

(** What a request of [userId] keeps of a store [s] in the store [s']
    it leaves, the records of the others being related by [R]. *)
Definition keepsUpTo
    (R : list FinancialRecord.t -> list FinancialRecord.t -> Prop)
    (userId : ObjectId) (s s' : Store) : Prop :=
  wellFormed s'
  /\ othersBudgets userId s' = othersBudgets userId s
  /\ R (othersRecords userId s') (othersRecords userId s)
  /\ (schemaBounds s -> schemaBounds s').

(** The others have the same records. *)
Definition keeps (userId : ObjectId) (s s' : Store) : Prop :=
  keepsUpTo eq userId s s'.

(** The others have lost no record. *)
Definition gains (l' l : list FinancialRecord.t) : Prop := incl l l'.

(** The stores the budget and the record requests of [userId] leave
    behind, whatever they answer. *)
Definition afterBudgetRoutes (now : Z) (s : Store) (userId id : ObjectId)
    (body : BudgetRoutes.Body) (active : option string) : list Store :=
  [ snd (BudgetRoutes.listBudgets now s userId active);
    snd (BudgetRoutes.getBudget now s userId id);
    snd (BudgetRoutes.createBudget now s userId body);
    snd (BudgetRoutes.updateBudget now s userId id body);
    snd (BudgetRoutes.deleteBudget s userId id);
    snd (BudgetRoutes.overviewSummary now s userId);
    snd (BudgetRoutes.toggleBudgetActive now s userId id) ].

Definition afterRecordRoutes (now : Z) (s : Store) (userId id : ObjectId)
    (body : RecordRoutes.Body) : list Store :=
  [ snd (RecordRoutes.createRecord now s userId body);
    snd (RecordRoutes.updateRecord now s userId id body);
    snd (RecordRoutes.deleteRecord now s userId id) ].

(** * Sample data: a second user *)

Module Household.
Definition bob : ObjectId := 8%nat.

Definition bobRent : FinancialRecord.t :=
  FinancialRecord.mk 10%nat bob "Rent" 900 RecordType.expense
    "Housing" (Sample.on 2024 3 2 0) PaymentMethod.bank_transfer
    (Sample.on 2024 3 2 9) (Sample.on 2024 3 2 9) [] None false None.

(** Bob's housing budget, not reconciled since his rent was booked. *)
Definition bobHousing : Budget.t :=
  Budget.mk 11%nat bob "Housing" 1000 0 Period.monthly
    (Sample.on 2024 3 1 0) (Sample.on 2024 3 31 0) true 80 "#3B82F6"
    (Sample.on 2024 3 1 9) (Sample.on 2024 3 1 9).

Definition shared : Store :=
  mkStore [Sample.salary; Sample.rent; bobRent; Sample.groceries]
    [Sample.foodBudget; bobHousing; Sample.housingBudget] 12%nat.

(** A corrected version of Alice's rent record. *)
Definition rentBody : RecordRoutes.Body :=
  RecordRoutes.formBody (Some "Rent, March"%string) (Some 1250)
    (Some RecordType.expense) (Some "Housing"%string) None None.

End Household.

(** The stores left by the requests that do not go through the update
    or the toggle of a budget. *)
Definition afterGuardedRoutes (now : Z) (s : Store) (userId id : ObjectId)
    (body : BudgetRoutes.Body) (active : option string)
    (rbody : RecordRoutes.Body) : list Store :=
  [ snd (BudgetRoutes.listBudgets now s userId active);
    snd (BudgetRoutes.getBudget now s userId id);
    snd (BudgetRoutes.createBudget now s userId body);
    snd (BudgetRoutes.deleteBudget s userId id);
    snd (BudgetRoutes.overviewSummary now s userId) ]
  ++ afterRecordRoutes now s userId id rbody.

(** Insertion sort by a test [before x h]: [x] goes in front of the
    first [h] the test accepts. *)
Fixpoint insertBy {A} (before : A -> A -> bool) (x : A) (l : list A)
  : list A :=
  match l with
  | [] => [x]
  | h :: l' => if before x h then x :: l else h :: insertBy before x l'
  end.

Definition sortBy {A} (before : A -> A -> bool) (l : list A) : list A :=
  fold_right (insertBy before) [] l.

(** The query [q] asked for page [p]. *)
Definition withPage (q : RecordRoutes.Query) (p : positive)
  : RecordRoutes.Query :=
  RecordRoutes.mkQuery (Some p) (RecordRoutes.q_limit q)
    (RecordRoutes.q_type q) (RecordRoutes.q_category q)
    (RecordRoutes.q_startDate q) (RecordRoutes.q_endDate q).

(** The records on page [k] of a listing. *)
Definition pageOf (s : Store) (userId : ObjectId) (q : RecordRoutes.Query)
    (re : option RegExp.regex) (k : nat) : list FinancialRecord.t :=
  match RecordRoutes.runListing s userId (withPage q (Pos.of_nat k)) re with
  | Json _ listing => RecordRoutes.Listing.records listing
  | Failure _ _ => []
  end.

(** The documents a group stands for. *)
Definition filedUnder {D} (key : D -> string) (k : string) (docs : list D)
  : list D :=
  filter (fun d => String.eqb (key d) k) docs.

(** What a list of groups holds of the documents it was built from:
    one group for each key, carrying the sum and the number of the
    documents of that key. *)
Definition groupsHold {D} (key : D -> string) (val : D -> Q)
    (gs : list (Pipeline.Group string)) (docs : list D) : Prop :=
  distinctKeys gs
  /\ (forall d, In d docs -> In (key d) (map (@Pipeline._id string) gs))
  /\ (forall g, In g gs ->
        Pipeline.total g
        == Qsum (map val (filedUnder key (Pipeline._id g) docs))
        /\ Pipeline.count g
           = List.length (filedUnder key (Pipeline._id g) docs)
        /\ (1 <= Pipeline.count g)%nat).

(** What the category breakdown asks of a record: the caller's, of
    the type asked for as it comes (expense when none is), and dated
    within the month when a year and a month are given. *)
Definition inBreakdown (userId : ObjectId) (type : option string)
    (year month : option Z) (r : FinancialRecord.t) : Prop :=
  FinancialRecord.user r = userId
  /\ RecordType.name (FinancialRecord.type r)
     = match type with Some t => t | None => "expense"%string end
  /\ (forall y m, year = Some y -> month = Some m ->
         (JSDate.newDate y (m - 1) 1 0 0 0 <= FinancialRecord.date r
          <= JSDate.newDate y m 0 23 59 59)%Z).

(* ================================================================== *)
(** * Vocabulary for the statements on doubles *)
(* ================================================================== *)

(** The rational a double stands for; [None] for NaN and the
    infinities. *)
Definition numberOf (x : PrimFloat.float) : option Q :=
  if PrimFloat.is_zero x then Some 0
  else
    match FloatOps.Prim2SF x with
    | SpecFloat.S754_finite s m e =>
        Some (inject_Z (if s then Z.neg m else Z.pos m) * Qpower 2 e)
    | _ => None
    end.

Definition valueOf (x : PrimFloat.float) : Q :=
  match numberOf x with Some q => q | None => 0 end.

(** Two doubles that stand for the same number. *)
Definition sameNumber (x y : PrimFloat.float) : Prop :=
  exists a b, numberOf x = Some a /\ numberOf y = Some b /\ a == b.

(** The addition of [x] and [y] does not round. *)
Definition exactAdd (x y : PrimFloat.float) : bool :=
  match numberOf x, numberOf y, numberOf (PrimFloat.add x y) with
  | Some a, Some b, Some c => Qeq_bool c (a + b)
  | _, _, _ => false
  end.

(** No addition rounds when the values of [l] are added to [acc] one
    after the other. *)
Fixpoint exactFrom (acc : PrimFloat.float) (l : list PrimFloat.float)
  : bool :=
  match l with
  | [] => true
  | x :: l' => exactAdd acc x && exactFrom (PrimFloat.add acc x) l'
  end.

Definition exactSum (l : list PrimFloat.float) : bool :=
  exactFrom PrimFloat.zero l.

(** The sum of the [total] fields of a list of groups, added up in the
    order of the list. *)
Definition totalsAdded {K} (gs : list (Double.Pipeline.Group K))
  : PrimFloat.float :=
  fold_left (fun sum g => PrimFloat.add sum (Double.Pipeline.total g)) gs
    PrimFloat.zero.

Definition balanceFigure (ty : RecordType.t) (b : Double.Balance.t)
  : PrimFloat.float :=
  match ty with
  | RecordType.income => Double.Balance.income b
  | RecordType.expense => Double.Balance.expense b
  end.

Definition summaryFigure (ty : RecordType.t) (m : Double.MonthlySummary.t)
  : PrimFloat.float :=
  match ty with
  | RecordType.income => Double.MonthlySummary.income m
  | RecordType.expense => Double.MonthlySummary.expense m
  end.

(** What a list of groups holds of the documents it was built from:
    one group for each key, carrying the [$sum] and the number of the
    documents of that key, in their order. *)
Definition groupsCarry {D K} (keq : K -> K -> bool) (key : D -> K)
    (val : D -> PrimFloat.float) (gs : list (Double.Pipeline.Group K))
    (docs : list D) : Prop :=
  NoDup (map (@Double.Pipeline._id K) gs)
  /\ (forall d, In d docs -> In (key d) (map (@Double.Pipeline._id K) gs))
  /\ (forall g, In g gs ->
        Double.Pipeline.total g
        = Double.sum
            (map val
               (filter (fun d => keq (key d) (Double.Pipeline._id g)) docs))
        /\ Double.Pipeline.count g
           = List.length
               (filter (fun d => keq (key d) (Double.Pipeline._id g)) docs)
        /\ (1 <= Double.Pipeline.count g)%nat).

(** How the totals [gs] of a breakdown stand against a [figure] of
    the balance, both computed over the documents [matching]: the
    groups carry the sums by category, the figure is the sum over all
    the documents, and the totals add up to the same number as the
    figure provided no addition on either side rounds. *)
Definition totalsAgainst (gs : list (Double.Pipeline.Group string))
    (matching : list Double.FinancialRecord.t) (figure : PrimFloat.float)
  : Prop :=
  groupsCarry String.eqb Double.FinancialRecord.category
    Double.FinancialRecord.amount gs matching
  /\ figure
     = Double.orZero
         (Some (Double.sum (map Double.FinancialRecord.amount matching)))
  /\ (exactSum (map Double.FinancialRecord.amount matching) = true ->
      (forall g, In g gs ->
         exactSum
           (map Double.FinancialRecord.amount
              (filedUnder Double.FinancialRecord.category
                 (Double.Pipeline._id g) matching)) = true) ->
      exactSum (map (@Double.Pipeline.total string) gs) = true ->
      sameNumber (totalsAdded gs) figure).

(** All the orders a list can be put in. *)
Fixpoint insertions {A} (x : A) (l : list A) : list (list A) :=
  match l with
  | [] => [[x]]
  | h :: t => (x :: l) :: map (cons h) (insertions x t)
  end.

Fixpoint orderings {A} (l : list A) : list (list A) :=
  match l with
  | [] => [[]]
  | x :: t => flat_map (insertions x) (orderings t)
  end.

(** * Sample data: small change *)

Module Change.
Import PrimFloat.

(** Four expenses of Alice, in two categories. *)
Definition gum : Double.FinancialRecord.t :=
  Double.FinancialRecord.mk Sample.alice 0.1 RecordType.expense "Snacks"
    (Sample.on 2024 3 4 0).

Definition mints : Double.FinancialRecord.t :=
  Double.FinancialRecord.mk Sample.alice 0.1 RecordType.expense "Snacks"
    (Sample.on 2024 3 5 0).

Definition stamp : Double.FinancialRecord.t :=
  Double.FinancialRecord.mk Sample.alice 0.15 RecordType.expense "Post"
    (Sample.on 2024 3 6 0).

Definition envelope : Double.FinancialRecord.t :=
  Double.FinancialRecord.mk Sample.alice 0.25 RecordType.expense "Post"
    (Sample.on 2024 3 7 0).

Definition ledger : list Double.FinancialRecord.t :=
  [gum; mints; stamp; envelope].

(** The same purchases at prices that are sums of powers of two. *)
Definition halves : list Double.FinancialRecord.t :=
  [ Double.FinancialRecord.mk Sample.alice 12.5 RecordType.expense "Snacks"
      (Sample.on 2024 3 4 0);
    Double.FinancialRecord.mk Sample.alice 0.25 RecordType.expense "Post"
      (Sample.on 2024 3 5 0);
    Double.FinancialRecord.mk Sample.alice 7 RecordType.expense "Snacks"
      (Sample.on 2024 3 6 0);
    Double.FinancialRecord.mk Sample.alice 1200 RecordType.income "Salary"
      (Sample.on 2024 3 6 0);
    Double.FinancialRecord.mk Sample.alice 3.75 RecordType.expense "Post"
      (Sample.on 2024 3 7 0) ].
End Change.

(* ================================================================== *)
(** * Properties *)
(* ================================================================== *)

(** ** Sums of amounts *)

Lemma Qsum_app (l1 l2 : list Q) : Qsum (l1 ++ l2) == Qsum l1 + Qsum l2.
Proof.
  induction l1 as [|x l1 IH]; simpl.
  - ring.
  - rewrite IH. ring.
Qed.

Lemma orZero_Some (v : Q) : orZero (Some v) == v.
Proof.
  unfold orZero. destruct (Qeq_bool v 0) eqn:E.
  - apply Qeq_bool_iff in E. symmetry. exact E.
  - reflexivity.
Qed.

(** ** The [$group] stage *)

Section GroupFacts.
Variables D K : Type.
Variable keq : K -> K -> bool.
Variable key : D -> K.
Variable val : D -> Q.


Lemma accumulate_totals k a gs :
  totals (Pipeline.accumulate keq k a gs) == totals gs + a.
Proof.
  unfold totals.
  induction gs as [|g gs IH]; simpl.
  - ring.
  - destruct (keq (Pipeline._id g) k); simpl.
    + ring.
    + rewrite IH. ring.
Qed.

Lemma group_from_totals docs acc :
  totals
    (fold_left (fun gs d => Pipeline.accumulate keq (key d) (val d) gs)
       docs acc)
  == totals acc + Qsum (map val docs).
Proof.
  revert acc. induction docs as [|d docs IH]; intros acc; simpl.
  - ring.
  - rewrite IH, accumulate_totals. ring.
Qed.

(** The totals of all groups add up to the sum over the documents. *)
Lemma group_totals docs :
  totals (Pipeline.group keq key val docs) == Qsum (map val docs).
Proof.
  unfold Pipeline.group. rewrite group_from_totals.
  unfold totals; simpl. ring.
Qed.

Hypothesis keq_eq : forall a b, keq a b = true <-> a = b.

Lemma accumulate_under k k' a gs :
  totalUnder keq k (Pipeline.accumulate keq k' a gs)
  == totalUnder keq k gs + (if keq k' k then a else 0).
Proof.
  unfold totalUnder, totals.
  induction gs as [|g gs IH]; simpl.
  - destruct (keq k' k); simpl; ring.
  - destruct (keq (Pipeline._id g) k') eqn:E1; simpl.
    + apply keq_eq in E1. rewrite E1.
      destruct (keq k' k); simpl; ring.
    + destruct (keq (Pipeline._id g) k); simpl; rewrite IH; ring.
Qed.

Lemma group_from_under k docs acc :
  totalUnder keq k
    (fold_left (fun gs d => Pipeline.accumulate keq (key d) (val d) gs)
       docs acc)
  == totalUnder keq k acc
     + Qsum (map val (filter (fun d => keq (key d) k) docs)).
Proof.
  revert acc. induction docs as [|d docs IH]; intros acc; simpl.
  - ring.
  - rewrite IH, accumulate_under.
    destruct (keq (key d) k); simpl; ring.
Qed.

Lemma accumulate_keys k a gs :
  map (@Pipeline._id K) (Pipeline.accumulate keq k a gs)
  = if existsb (fun g => keq (Pipeline._id g) k) gs
    then map (@Pipeline._id K) gs
    else map (@Pipeline._id K) gs ++ [k].
Proof.
  induction gs as [|g gs IH]; simpl.
  - reflexivity.
  - destruct (keq (Pipeline._id g) k) eqn:E; simpl.
    + reflexivity.
    + rewrite IH.
      destruct (existsb (fun g0 => keq (Pipeline._id g0) k) gs);
        reflexivity.
Qed.

Lemma accumulate_distinct k a gs :
  distinctKeys gs -> distinctKeys (Pipeline.accumulate keq k a gs).
Proof.
  unfold distinctKeys. intros H. rewrite accumulate_keys.
  destruct (existsb (fun g => keq (Pipeline._id g) k) gs) eqn:E.
  - exact H.
  - apply NoDup_app.
    + exact H.
    + constructor; [intros [] | constructor].
    + intros x Hin [Hx|[]]. subst x.
      apply in_map_iff in Hin. destruct Hin as [g [Hg Hin]].
      assert (Hf : existsb (fun g0 => keq (Pipeline._id g0) k) gs = true).
      { apply existsb_exists. exists g. split; [exact Hin|].
        apply keq_eq. exact Hg. }
      congruence.
Qed.

Lemma group_distinct docs : distinctKeys (Pipeline.group keq key val docs).
Proof.
  unfold Pipeline.group.
  assert (H : forall acc, distinctKeys acc ->
    distinctKeys
      (fold_left (fun gs d => Pipeline.accumulate keq (key d) (val d) gs)
         docs acc)).
  { induction docs as [|d docs IH]; intros acc Hacc; simpl.
    - exact Hacc.
    - apply IH. apply accumulate_distinct. exact Hacc. }
  apply H. constructor.
Qed.

(** With distinct keys, looking a key up finds all that is filed
    under it. *)
Lemma totalOf_under k gs :
  distinctKeys gs ->
  orZero (Pipeline.totalOf keq k gs) == totalUnder keq k gs.
Proof.
  unfold distinctKeys, Pipeline.totalOf, totalUnder, totals.
  induction gs as [|g gs IH]; intros Hnd; simpl.
  - reflexivity.
  - inversion Hnd as [|x l Hnotin Hnd' Heq]; subst.
    destruct (keq (Pipeline._id g) k) eqn:E; simpl.
    + assert (Hnone : filter (fun g0 => keq (Pipeline._id g0) k) gs = []).
      { apply keq_eq in E.
        clear IH Hnd Hnd'. induction gs as [|h gs IHgs]; simpl.
        - reflexivity.
        - destruct (keq (Pipeline._id h) k) eqn:Eh.
          + apply keq_eq in Eh. exfalso. apply Hnotin. simpl. left.
            congruence.
          + apply IHgs. intros Hin. apply Hnotin. simpl. right. exact Hin. }
      rewrite Hnone. simpl.
      etransitivity; [apply orZero_Some|]. ring.
    + apply IH. exact Hnd'.
Qed.

(** The figure read off the groups for key [k] is the sum over the
    documents of key [k]. *)
Lemma group_totalOf k docs :
  orZero (Pipeline.totalOf keq k (Pipeline.group keq key val docs))
  == Qsum (map val (filter (fun d => keq (key d) k) docs)).
Proof.
  rewrite totalOf_under by apply group_distinct.
  unfold Pipeline.group. rewrite group_from_under.
  unfold totalUnder, totals; simpl. ring.
Qed.
End GroupFacts.

Lemma insertDesc_totals K (g : Pipeline.Group K) gs :
  totals (Pipeline.insertDesc g gs) == Pipeline.total g + totals gs.
Proof.
  unfold totals. induction gs as [|h gs IH]; simpl.
  - reflexivity.
  - destruct (Qle_bool (Pipeline.total h) (Pipeline.total g)); simpl.
    + reflexivity.
    + rewrite IH. ring.
Qed.

Lemma sortByTotalDesc_totals K (gs : list (Pipeline.Group K)) :
  totals (Pipeline.sortByTotalDesc gs) == totals gs.
Proof.
  unfold Pipeline.sortByTotalDesc.
  induction gs as [|g gs IH]; simpl.
  - reflexivity.
  - rewrite insertDesc_totals, IH. unfold totals. simpl. reflexivity.
Qed.

(** ** Balance, monthly summary and category breakdown *)

Lemma RecordType_eqb_eq (a b : RecordType.t) :
  RecordType.eqb a b = true <-> a = b.
Proof. destruct a, b; simpl; split; congruence. Qed.

Lemma RecordType_name_eqb (a b : RecordType.t) :
  String.eqb (RecordType.name a) (RecordType.name b) = RecordType.eqb a b.
Proof. destruct a, b; reflexivity. Qed.

Lemma filter_filter A (p q : A -> bool) (l : list A) :
  filter p (filter q l) = filter (fun x => q x && p x) l.
Proof.
  induction l as [|x l IH]; simpl.
  - reflexivity.
  - destruct (q x); simpl.
    + destruct (p x); rewrite IH; reflexivity.
    + exact IH.
Qed.

(** Each figure of [getUserBalance] is the sum over the user's records
    of that type. *)
Lemma getUserBalance_figure coll userId ty :
  balanceOf ty (FinancialRecord.getUserBalance coll userId)
  == Qsum (map FinancialRecord.amount
             (filter (fun r => (FinancialRecord.user r =? userId)%nat
                               && RecordType.eqb (FinancialRecord.type r) ty)
                coll)).
Proof.
  unfold FinancialRecord.getUserBalance, FinancialRecord.byType,
    Pipeline.match_.
  destruct ty; simpl;
    (etransitivity; [apply group_totalOf, RecordType_eqb_eq|]);
    rewrite filter_filter; reflexivity.
Qed.

(** Each figure of [getMonthlySummary] is the sum over the user's
    records of that type dated within the bounds the method computes. *)
Lemma getMonthlySummary_figure coll userId y m ty :
  summaryOf ty (FinancialRecord.getMonthlySummary coll userId y m)
  == Qsum (map FinancialRecord.amount
             (filter (fun r => (FinancialRecord.user r =? userId)%nat
                               && FinancialRecord.inRange
                                    (JSDate.newDate y (m - 1) 1 0 0 0)
                                    (JSDate.newDate y m 0 23 59 59) r
                               && RecordType.eqb (FinancialRecord.type r) ty)
                coll)).
Proof.
  unfold FinancialRecord.getMonthlySummary, FinancialRecord.byType,
    Pipeline.match_.
  destruct ty; simpl;
    (etransitivity; [apply group_totalOf, RecordType_eqb_eq|]);
    rewrite filter_filter; reflexivity.
Qed.

(** The totals of a category breakdown add up to the sum over the
    records it was asked about. *)
Lemma getCategoryBreakdown_totals s userId ty year month :
  exists gs,
    RecordRoutes.getCategoryBreakdown s userId ty year month = Json 200 gs
    /\ totals gs
       == Qsum (map FinancialRecord.amount
                  (filter
                     (fun r =>
                        (FinancialRecord.user r =? userId)%nat
                        && String.eqb
                             (RecordType.name (FinancialRecord.type r))
                             (RecordRoutes.orElse ty "expense"%string)
                        && match year, month with
                           | Some y, Some m =>
                               FinancialRecord.inRange
                                 (JSDate.newDate y (m - 1) 1 0 0 0)
                                 (JSDate.newDate y m 0 23 59 59) r
                           | _, _ => true
                           end)
                     (records s))).
Proof.
  eexists. split; [reflexivity|].
  rewrite sortByTotalDesc_totals.
  unfold Pipeline.match_. apply group_totals.
Qed.

Lemma Qsum_filter_ext A (f : A -> Q) (p q : A -> bool) (l : list A) :
  (forall x, p x = q x) ->
  Qsum (map f (filter p l)) == Qsum (map f (filter q l)).
Proof.
  intros H. rewrite (filter_ext p q H). reflexivity.
Qed.

(** With the amounts as exact rationals, the [total]s of the entries of
    the category breakdown for a type add up to the figure of that
    type in the balance (all-time breakdown against [getUserBalance])
    and, when a month is given, to the figure of that type in the
    monthly summary of that month; with no type given the breakdown
    is that of expenses. *)
Lemma category_totals_sum_exactly :
  forall (s : Store) (userId : ObjectId) (ty : RecordType.t),
    (exists gs,
        RecordRoutes.getCategoryBreakdown s userId
          (Some (RecordType.name ty)) None None = Json 200 gs
        /\ totals gs
           == balanceOf ty
                (FinancialRecord.getUserBalance (records s) userId))
    /\ (forall y m : Z,
          exists gs,
            RecordRoutes.getCategoryBreakdown s userId
              (Some (RecordType.name ty)) (Some y) (Some m) = Json 200 gs
            /\ totals gs
               == summaryOf ty
                    (FinancialRecord.getMonthlySummary (records s) userId
                       y m))
    /\ (exists gs,
          RecordRoutes.getCategoryBreakdown s userId None None None
          = Json 200 gs
          /\ totals gs
             == Balance.expense
                  (FinancialRecord.getUserBalance (records s) userId)).
Proof.
  intros s userId ty. repeat split.
  - destruct (getCategoryBreakdown_totals s userId
                (Some (RecordType.name ty)) None None) as [gs [E H]].
    exists gs. split; [exact E|].
    rewrite H, getUserBalance_figure.
    apply Qsum_filter_ext. intros r. simpl.
    rewrite RecordType_name_eqb, andb_true_r. reflexivity.
  - intros y m.
    destruct (getCategoryBreakdown_totals s userId
                (Some (RecordType.name ty)) (Some y) (Some m))
      as [gs [E H]].
    exists gs. split; [exact E|].
    rewrite H, getMonthlySummary_figure.
    apply Qsum_filter_ext. intros r. simpl.
    rewrite RecordType_name_eqb.
    destruct (FinancialRecord.user r =? userId)%nat,
      (RecordType.eqb (FinancialRecord.type r) ty),
      (FinancialRecord.inRange _ _ r); reflexivity.
  - destruct (getCategoryBreakdown_totals s userId None None None)
      as [gs [E H]].
    exists gs. split; [exact E|].
    rewrite H.
    rewrite (getUserBalance_figure (records s) userId RecordType.expense).
    apply Qsum_filter_ext. intros r. simpl.
    rewrite andb_true_r.
    destruct (FinancialRecord.type r); reflexivity.
Qed.

(** ** The same sums on doubles *)

Lemma filter_none A (p : A -> bool) (l : list A) :
  (forall x, In x l -> p x = false) -> filter p l = [].
Proof.
  induction l as [|x l IH]; intros H; simpl; [reflexivity|].
  rewrite (H x (or_introl eq_refl)). apply IH.
  intros y Hy. apply H. right. exact Hy.
Qed.

Lemma Qsum_map_ext A (f g : A -> Q) (l : list A) :
  (forall x, In x l -> f x == g x) -> Qsum (map f l) == Qsum (map g l).
Proof.
  induction l as [|x l IH]; intros H; [reflexivity|].
  cbn [map]. change (f x + Qsum (map f l) == g x + Qsum (map g l)).
  rewrite (H x (or_introl eq_refl)), IH; [reflexivity|].
  intros y Hy. apply H. right. exact Hy.
Qed.

Lemma Qsum_map_plus A (f g : A -> Q) (l : list A) :
  Qsum (map (fun x => f x + g x) l) == Qsum (map f l) + Qsum (map g l).
Proof.
  induction l as [|x l IH]; [reflexivity|].
  cbn [map].
  change (f x + g x + Qsum (map (fun x => f x + g x) l)
          == f x + Qsum (map f l) + (g x + Qsum (map g l))).
  rewrite IH. ring.
Qed.

Lemma Qsum_map_zero A (l : list A) : Qsum (map (fun _ => 0) l) == 0.
Proof.
  induction l as [|x l IH]; [reflexivity|].
  cbn [map]. change (0 + Qsum (map (fun _ => 0) l) == 0). rewrite IH. ring.
Qed.

Section DoubleGroups.
Variables D K : Type.
Variable keq : K -> K -> bool.
Variable key : D -> K.
Variable val : D -> PrimFloat.float.
Hypothesis keq_eq : forall a b, keq a b = true <-> a = b.

Lemma keq_same k : keq k k = true.
Proof. apply keq_eq. reflexivity. Qed.

Lemma keq_other a b : a <> b -> keq a b = false.
Proof.
  intros H. apply not_true_is_false. intros E. apply H, keq_eq, E.
Qed.

Lemma sum_snoc l x :
  Double.sum (l ++ [x]) = PrimFloat.add (Double.sum l) x.
Proof. unfold Double.sum. rewrite fold_left_app. reflexivity. Qed.

Lemma accumulate_double_keys k a gs x :
  In x (map (@Double.Pipeline._id K) (Double.Pipeline.accumulate keq k a gs))
  <-> In x (map (@Double.Pipeline._id K) gs) \/ x = k.
Proof.
  induction gs as [|g gs IH]; simpl.
  - split; [intros [H|[]]; right; symmetry; exact H
           | intros [[]|H]; left; symmetry; exact H].
  - destruct (keq (Double.Pipeline._id g) k) eqn:E; simpl.
    + apply keq_eq in E. split; [tauto|].
      intros [H|H]; [exact H | left; congruence].
    + rewrite IH. tauto.
Qed.

Lemma accumulate_double_distinct k a gs :
  NoDup (map (@Double.Pipeline._id K) gs) ->
  NoDup (map (@Double.Pipeline._id K) (Double.Pipeline.accumulate keq k a gs)).
Proof.
  induction gs as [|g gs IH]; intros Hnd; simpl.
  - constructor; [intros []|constructor].
  - inversion Hnd as [|x l Hnotin Hnd']; subst.
    destruct (keq (Double.Pipeline._id g) k) eqn:E; simpl.
    + constructor; assumption.
    + constructor; [|apply IH; exact Hnd'].
      intros Hin. apply accumulate_double_keys in Hin.
      destruct Hin as [Hin|Hin]; [apply Hnotin; exact Hin|].
      rewrite Hin, keq_same in E. discriminate E.
Qed.

Lemma accumulate_double_In k a gs g' :
  NoDup (map (@Double.Pipeline._id K) gs) ->
  In g' (Double.Pipeline.accumulate keq k a gs) ->
  (In g' gs /\ Double.Pipeline._id g' <> k)
  \/ (exists g, In g gs /\ Double.Pipeline._id g = k
                /\ g' = Double.Pipeline.mkGroup (Double.Pipeline._id g)
                          (PrimFloat.add (Double.Pipeline.total g) a)
                          (S (Double.Pipeline.count g)))
  \/ (g' = Double.Pipeline.mkGroup k (PrimFloat.add PrimFloat.zero a) 1
      /\ ~ In k (map (@Double.Pipeline._id K) gs)).
Proof.
  induction gs as [|g gs IH]; intros Hnd Hin; simpl in Hin.
  - destruct Hin as [<-|[]]. right. right. split; [reflexivity|intros []].
  - inversion Hnd as [|x l Hnotin Hnd']; subst.
    destruct (keq (Double.Pipeline._id g) k) eqn:E.
    + apply keq_eq in E. destruct Hin as [<-|Hin].
      * right. left. exists g. split; [left; reflexivity|].
        split; [exact E | reflexivity].
      * left. split; [right; exact Hin|].
        intros E'. apply Hnotin. rewrite E, <- E'. apply in_map. exact Hin.
    + assert (Hne : Double.Pipeline._id g <> k).
      { intros H. rewrite H, keq_same in E. discriminate E. }
      destruct Hin as [<-|Hin].
      * left. split; [left; reflexivity | exact Hne].
      * destruct (IH Hnd' Hin) as [[H1 H2]|[(g0 & H1 & H2 & H3)|[H1 H2]]].
        -- left. split; [right; exact H1 | exact H2].
        -- right. left. exists g0. split; [right; exact H1|].
           split; assumption.
        -- right. right. split; [exact H1|].
           simpl. intros [H|H]; [apply Hne; exact H | apply H2; exact H].
Qed.

Lemma filter_key_snoc k docs d :
  filter (fun x => keq (key x) k) (docs ++ [d])
  = if keq (key d) k then filter (fun x => keq (key x) k) docs ++ [d]
    else filter (fun x => keq (key x) k) docs.
Proof.
  rewrite filter_app. simpl.
  destruct (keq (key d) k); [reflexivity | apply app_nil_r].
Qed.

Lemma carry_step gs docs d :
  groupsCarry keq key val gs docs ->
  groupsCarry keq key val
    (Double.Pipeline.accumulate keq (key d) (val d) gs) (docs ++ [d]).
Proof.
  intros (Hnd & Hcov & Hg). split; [|split].
  - apply accumulate_double_distinct. exact Hnd.
  - intros x Hx. apply accumulate_double_keys. apply in_app_or in Hx.
    destruct Hx as [Hx|[<-|[]]]; [left; apply Hcov; exact Hx | right].
    reflexivity.
  - intros g' Hin.
    destruct (accumulate_double_In _ _ _ _ Hnd Hin)
      as [[H1 H2]|[(g0 & H1 & H2 & ->)|[-> H2]]].
    + rewrite filter_key_snoc, keq_other by (intros E; apply H2; congruence).
      apply Hg. exact H1.
    + cbn [Double.Pipeline._id Double.Pipeline.total Double.Pipeline.count].
      rewrite filter_key_snoc, H2, keq_same.
      destruct (Hg g0 H1) as (Ht & Hc & _). rewrite H2 in Ht, Hc.
      split; [|split].
      * rewrite map_app. cbn [map]. rewrite sum_snoc, Ht. reflexivity.
      * rewrite length_app, Hc. simpl. lia.
      * lia.
    + cbn [Double.Pipeline._id Double.Pipeline.total Double.Pipeline.count].
      rewrite filter_key_snoc, keq_same.
      assert (Hnone : filter (fun x => keq (key x) (key d)) docs = []).
      { apply filter_none. intros x Hx. apply keq_other. intros E.
        apply H2. rewrite <- E. apply Hcov. exact Hx. }
      rewrite Hnone. simpl. split; [|split]; [reflexivity|reflexivity|lia].
Qed.

Lemma carry_fold docs :
  forall gs pre,
    groupsCarry keq key val gs pre ->
    groupsCarry keq key val
      (fold_left
         (fun gs d => Double.Pipeline.accumulate keq (key d) (val d) gs)
         docs gs)
      (pre ++ docs).
Proof.
  induction docs as [|d docs IH]; intros gs pre H; simpl.
  - rewrite app_nil_r. exact H.
  - replace (pre ++ d :: docs) with ((pre ++ [d]) ++ docs)
      by (rewrite <- app_assoc; reflexivity).
    apply IH. apply carry_step. exact H.
Qed.

(** Each group of [$group] carries the [$sum] and the number of the
    documents of its key, and every document has its group. *)
Lemma group_carries docs :
  groupsCarry keq key val (Double.Pipeline.group keq key val docs) docs.
Proof.
  apply (carry_fold docs [] []).
  split; [constructor|]. split; intros ? [].
Qed.

Lemma carry_permuted gs gs' docs :
  Permutation gs gs' ->
  groupsCarry keq key val gs docs -> groupsCarry keq key val gs' docs.
Proof.
  intros HP (Hnd & Hcov & Hg). split; [|split].
  - eapply Permutation_NoDup; [|exact Hnd]. apply Permutation_map. exact HP.
  - intros d Hd. eapply Permutation_in; [|apply Hcov; exact Hd].
    apply Permutation_map. exact HP.
  - intros g Hin. apply Hg. eapply Permutation_in; [|exact Hin].
    apply Permutation_sym. exact HP.
Qed.

(** What the lookup of a key finds, as [|| 0] reads it. *)
Lemma totalOf_carried gs docs k :
  groupsCarry keq key val gs docs ->
  Double.orZero (Double.Pipeline.totalOf keq k gs)
  = Double.orZero
      (Some (Double.sum (map val (filter (fun d => keq (key d) k) docs)))).
Proof.
  intros (Hnd & Hcov & Hg). unfold Double.Pipeline.totalOf.
  destruct (find (fun g => keq (Double.Pipeline._id g) k) gs) as [g|] eqn:E.
  - apply find_some in E. destruct E as [Hin Hk]. apply keq_eq in Hk.
    destruct (Hg g Hin) as (Ht & _). rewrite Hk in Ht.
    simpl. rewrite Ht. reflexivity.
  - assert (Hnone : filter (fun d => keq (key d) k) docs = []).
    { apply filter_none. intros d Hd. apply keq_other. intros Ek.
      pose proof (Hcov d Hd) as Hin. apply in_map_iff in Hin.
      destruct Hin as [g [Hid Hg']].
      pose proof (find_none _ _ E g Hg') as Hf. simpl in Hf.
      rewrite Hid, Ek, keq_same in Hf. discriminate Hf. }
    rewrite Hnone. vm_compute. reflexivity.
Qed.

(** Sums over the documents of each key add up, in exact arithmetic,
    to the sum over all the documents. *)
Lemma Qsum_pick (k : K) (x : Q) (ks : list K) :
  NoDup ks ->
  Qsum (map (fun k' => if keq k k' then x else 0) ks)
  == if existsb (keq k) ks then x else 0.
Proof.
  induction ks as [|h ks IH]; intros Hnd; [reflexivity|].
  inversion Hnd as [|y l Hnotin Hnd']; subst.
  cbn [map existsb].
  change (Qsum ((if keq k h then x else 0)
                :: map (fun k' => if keq k k' then x else 0) ks))
    with ((if keq k h then x else 0)
          + Qsum (map (fun k' => if keq k k' then x else 0) ks)).
  rewrite (IH Hnd').
  destruct (keq k h) eqn:E; cbn [orb]; [|ring].
  apply keq_eq in E. subst h.
  assert (Hno : existsb (keq k) ks = false).
  { apply not_true_is_false. intros Hex. apply existsb_exists in Hex.
    destruct Hex as [z [Hz Hk]]. apply keq_eq in Hk. subst z.
    contradiction. }
  rewrite Hno. ring.
Qed.

Lemma Qsum_by_keys (f : D -> Q) (ks : list K) (docs : list D) :
  NoDup ks ->
  (forall d, In d docs -> In (key d) ks) ->
  Qsum (map (fun k => Qsum (map f (filter (fun d => keq (key d) k) docs)))
          ks)
  == Qsum (map f docs).
Proof.
  intros Hnd. induction docs as [|d docs IH]; intros Hcov.
  - simpl. apply Qsum_map_zero.
  - assert (Hstep :
      Qsum (map (fun k =>
                   Qsum (map f (filter (fun x => keq (key x) k) (d :: docs))))
              ks)
      == Qsum (map (fun k =>
                      (if keq (key d) k then f d else 0)
                      + Qsum (map f (filter (fun x => keq (key x) k) docs)))
                 ks)).
    { apply Qsum_map_ext. intros k _. cbn [filter].
      destruct (keq (key d) k); [reflexivity|]. ring. }
    rewrite Hstep, Qsum_map_plus, (Qsum_pick (key d) (f d) ks Hnd).
    assert (Hex : existsb (keq (key d)) ks = true).
    { apply existsb_exists. exists (key d).
      split; [apply Hcov; left; reflexivity | apply keq_same]. }
    rewrite Hex, IH; [reflexivity|].
    intros x Hx. apply Hcov. right. exact Hx.
Qed.
End DoubleGroups.

(** *** Sorting the groups *)

Lemma insertDesc_double_perm K (g : Double.Pipeline.Group K) gs :
  Permutation (Double.Pipeline.insertDesc g gs) (g :: gs).
Proof.
  induction gs as [|h gs IH]; simpl; [apply Permutation_refl|].
  destruct (PrimFloat.leb _ _); [apply Permutation_refl|].
  eapply perm_trans; [apply perm_skip; exact IH | apply perm_swap].
Qed.

Lemma sortByTotalDesc_double_perm K (gs : list (Double.Pipeline.Group K)) :
  Permutation (Double.Pipeline.sortByTotalDesc gs) gs.
Proof.
  induction gs as [|g gs IH]; simpl; [constructor|].
  eapply perm_trans; [apply insertDesc_double_perm|].
  apply perm_skip. exact IH.
Qed.

(** *** Additions that do not round *)

Lemma exactAdd_spec x y :
  exactAdd x y = true ->
  exists a b c,
    numberOf x = Some a /\ numberOf y = Some b
    /\ numberOf (PrimFloat.add x y) = Some c /\ c == a + b.
Proof.
  unfold exactAdd.
  destruct (numberOf x) as [a|]; [|discriminate].
  destruct (numberOf y) as [b|]; [|discriminate].
  destruct (numberOf (PrimFloat.add x y)) as [c|]; [|discriminate].
  intros H. apply Qeq_bool_iff in H. exists a, b, c. auto.
Qed.

Lemma numberOf_value x q : numberOf x = Some q -> valueOf x = q.
Proof. unfold valueOf. intros ->. reflexivity. Qed.

Lemma exactFrom_value l :
  forall acc a,
    exactFrom acc l = true ->
    numberOf acc = Some a ->
    exists q,
      numberOf (fold_left PrimFloat.add l acc) = Some q
      /\ q == a + Qsum (map valueOf l).
Proof.
  induction l as [|x l IH]; intros acc a Hex Hacc; simpl.
  - exists a. split; [exact Hacc|]. unfold Qsum. simpl. ring.
  - simpl in Hex. apply andb_prop in Hex. destruct Hex as [Hadd Hrest].
    destruct (exactAdd_spec _ _ Hadd) as (a' & b & c & Ha & Hb & Hc & Hsum).
    rewrite Hacc in Ha. injection Ha as <-.
    destruct (IH _ c Hrest Hc) as (q & Hq & Hv).
    exists q. split; [exact Hq|].
    rewrite Hv, Hsum, (numberOf_value _ _ Hb).
    change (Qsum (b :: map valueOf l)) with (b + Qsum (map valueOf l)).
    ring.
Qed.

Lemma numberOf_zero : numberOf PrimFloat.zero = Some 0.
Proof. vm_compute. reflexivity. Qed.

Lemma exactSum_value l :
  exactSum l = true ->
  exists q, numberOf (Double.sum l) = Some q /\ q == Qsum (map valueOf l).
Proof.
  intros H.
  destruct (exactFrom_value l PrimFloat.zero 0 H numberOf_zero)
    as (q & Hq & Hv).
  exists q. split; [exact Hq|]. rewrite Hv. ring.
Qed.

(** [|| 0] does not change the number a finite double stands for. *)
Lemma orZero_number x q :
  numberOf x = Some q ->
  exists q', numberOf (Double.orZero (Some x)) = Some q' /\ q' == q.
Proof.
  intros H. unfold Double.orZero.
  destruct (PrimFloat.is_zero x) eqn:Ez; cbn [orb].
  - exists 0. split; [apply numberOf_zero|].
    unfold numberOf in H. rewrite Ez in H. injection H as <-. reflexivity.
  - destruct (PrimFloat.is_nan x) eqn:En.
    + exfalso. unfold numberOf in H. rewrite Ez in H.
      unfold FloatOps.Prim2SF in H. rewrite En in H. discriminate H.
    + exists q. split; [exact H | reflexivity].
Qed.

Lemma fold_totals K (gs : list (Double.Pipeline.Group K)) :
  forall acc,
    fold_left (fun sum g => PrimFloat.add sum (Double.Pipeline.total g)) gs acc
    = fold_left PrimFloat.add (map (@Double.Pipeline.total K) gs) acc.
Proof.
  induction gs as [|g gs IH]; intros acc; simpl; [reflexivity|].
  apply IH.
Qed.

Lemma totalsAdded_sum K (gs : list (Double.Pipeline.Group K)) :
  totalsAdded gs = Double.sum (map (@Double.Pipeline.total K) gs).
Proof. unfold totalsAdded, Double.sum. apply fold_totals. Qed.

(** *** The breakdown against a figure *)

Lemma breakdown_against_figure (docs : list Double.FinancialRecord.t)
    (ty : RecordType.t) :
  let matching :=
    filter (fun r => RecordType.eqb (Double.FinancialRecord.type r) ty) docs
  in
  totalsAgainst
    (Double.Pipeline.sortByTotalDesc
       (Double.Pipeline.group String.eqb Double.FinancialRecord.category
          Double.FinancialRecord.amount matching))
    matching
    (Double.orZero
       (Double.Pipeline.totalOf RecordType.eqb ty
          (Double.FinancialRecord.byType docs))).
Proof.
  intros matching.
  set (gs := Double.Pipeline.sortByTotalDesc _).
  assert (Hcarry : groupsCarry String.eqb Double.FinancialRecord.category
                     Double.FinancialRecord.amount gs matching).
  { eapply carry_permuted;
      [apply Permutation_sym, sortByTotalDesc_double_perm|].
    apply group_carries. apply String.eqb_eq. }
  assert (Hfig : Double.orZero
                   (Double.Pipeline.totalOf RecordType.eqb ty
                      (Double.FinancialRecord.byType docs))
                 = Double.orZero
                     (Some (Double.sum
                              (map Double.FinancialRecord.amount matching)))).
  { unfold Double.FinancialRecord.byType.
    rewrite (totalOf_carried _ _ RecordType.eqb Double.FinancialRecord.type
               Double.FinancialRecord.amount RecordType_eqb_eq _ docs ty
               (group_carries _ _ RecordType.eqb Double.FinancialRecord.type
                  Double.FinancialRecord.amount RecordType_eqb_eq docs)).
    reflexivity. }
  split; [exact Hcarry|]. split; [exact Hfig|].
  intros Hall Hgroups Htotals.
  destruct Hcarry as (Hnd & Hcov & Hg).
  destruct (exactSum_value _ Htotals) as (q1 & Hq1 & Hv1).
  destruct (exactSum_value _ Hall) as (q2 & Hq2 & Hv2).
  destruct (orZero_number _ _ Hq2) as (q3 & Hq3 & Hv3).
  exists q1, q3. rewrite totalsAdded_sum, Hfig.
  split; [exact Hq1|]. split; [exact Hq3|].
  rewrite Hv1, Hv3, Hv2, !map_map.
  rewrite <- (Qsum_by_keys _ _ String.eqb Double.FinancialRecord.category
                String.eqb_eq
                (fun r => valueOf (Double.FinancialRecord.amount r))
                (map (@Double.Pipeline._id string) gs) matching Hnd Hcov).
  rewrite map_map. apply Qsum_map_ext. intros g Hin.
  destruct (Hg g Hin) as (Ht & _).
  destruct (exactSum_value _ (Hgroups g Hin)) as (q & Hq & Hv).
  unfold filedUnder in Hq, Hv. rewrite <- Ht in Hq.
  rewrite (numberOf_value _ _ Hq), Hv, map_map. reflexivity.
Qed.

Lemma balanceFigure_unfold coll userId ty :
  balanceFigure ty (Double.FinancialRecord.getUserBalance coll userId)
  = Double.orZero
      (Double.Pipeline.totalOf RecordType.eqb ty
         (Double.FinancialRecord.byType
            (filter (fun r => (Double.FinancialRecord.user r =? userId)%nat)
               coll))).
Proof. destruct ty; reflexivity. Qed.

Lemma summaryFigure_unfold coll userId y m ty :
  summaryFigure ty (Double.FinancialRecord.getMonthlySummary coll userId y m)
  = Double.orZero
      (Double.Pipeline.totalOf RecordType.eqb ty
         (Double.FinancialRecord.byType
            (filter
               (fun r =>
                  (Double.FinancialRecord.user r =? userId)%nat
                  && Double.FinancialRecord.inRange
                       (JSDate.newDate y (m - 1) 1 0 0 0)
                       (JSDate.newDate y m 0 23 59 59) r)
               coll))).
Proof. destruct ty; reflexivity. Qed.

Section BreakdownOnDoubles.
Import PrimFloat.

(** C5 (counterexample to the claim as written). Four expenses of 0.1,
    0.1, 0.15 and 0.25 in two categories.  The expense figure of the
    balance is 0.6, in whatever order the four documents are added
    up; the breakdown has the totals 0.4 and 0.2, which are the sums
    of their two documents, and 0.4 + 0.2 is 0.6000000000000001. *)
Lemma category_totals_differ_in_doubles :
  exists gs,
    Double.RecordRoutes.getCategoryBreakdown Change.ledger Sample.alice
      (Some "expense"%string) None None = Json 200 gs
    /\ map (fun g => (Double.Pipeline._id g, Double.Pipeline.total g,
                      Double.Pipeline.count g)) gs
       = [("Post"%string, 0.4%float, 2%nat);
          ("Snacks"%string, 0.2%float, 2%nat)]
    /\ totalsAdded gs = 0.6000000000000001%float
    /\ Double.Balance.expense
         (Double.FinancialRecord.getUserBalance Change.ledger Sample.alice)
       = 0.6%float
    /\ PrimFloat.eqb (totalsAdded gs)
         (Double.Balance.expense
            (Double.FinancialRecord.getUserBalance Change.ledger
               Sample.alice)) = false
    /\ ~ sameNumber (totalsAdded gs)
           (Double.Balance.expense
              (Double.FinancialRecord.getUserBalance Change.ledger
                 Sample.alice))
    /\ List.length (orderings Change.ledger) = 24%nat
    /\ Forall
         (fun l =>
            Double.Balance.expense
              (Double.FinancialRecord.getUserBalance l Sample.alice)
            = 0.6%float)
         (orderings Change.ledger).
Proof.
  eexists. split; [vm_compute; reflexivity|].
  split; [vm_compute; reflexivity|].
  split; [vm_compute; reflexivity|].
  split; [vm_compute; reflexivity|].
  split; [vm_compute; reflexivity|].
  split.
  { intros (a & b & Ha & Hb & Hab).
    vm_compute in Ha. injection Ha as <-.
    vm_compute in Hb. injection Hb as <-.
    vm_compute in Hab. discriminate Hab. }
  split; [vm_compute; reflexivity|].
  vm_compute. repeat constructor.
Qed.

(** C5 (as amended). For every collection of records, user and type,
    over all time against [getUserBalance] and over a month against
    [getMonthlySummary]: each entry of the category breakdown carries
    the sum of the amounts of the matching records of its category,
    every matching record is counted in one entry, and the figure of
    the balance is the sum of the amounts of all the matching
    records.  The totals of the entries add up to the number the
    figure stands for whenever none of the additions rounds; on
    doubles in general the two can differ in the last digits. *)
Theorem category_totals_match_balance_when_exact :
  forall (coll : list Double.FinancialRecord.t) (userId : ObjectId)
         (ty : RecordType.t),
    (exists gs,
        Double.RecordRoutes.getCategoryBreakdown coll userId
          (Some (RecordType.name ty)) None None = Json 200 gs
        /\ totalsAgainst gs
             (filter
                (fun r => (Double.FinancialRecord.user r =? userId)%nat
                          && RecordType.eqb (Double.FinancialRecord.type r) ty)
                coll)
             (balanceFigure ty
                (Double.FinancialRecord.getUserBalance coll userId)))
    /\ (forall y m : Z,
          exists gs,
            Double.RecordRoutes.getCategoryBreakdown coll userId
              (Some (RecordType.name ty)) (Some y) (Some m) = Json 200 gs
            /\ totalsAgainst gs
                 (filter
                    (fun r =>
                       (Double.FinancialRecord.user r =? userId)%nat
                       && Double.FinancialRecord.inRange
                            (JSDate.newDate y (m - 1) 1 0 0 0)
                            (JSDate.newDate y m 0 23 59 59) r
                       && RecordType.eqb (Double.FinancialRecord.type r) ty)
                    coll)
                 (summaryFigure ty
                    (Double.FinancialRecord.getMonthlySummary coll userId
                       y m))).
Proof.
  intros coll userId ty. split.
  - set (mine := filter (fun r => (Double.FinancialRecord.user r
                                   =? userId)%nat) coll).
    pose proof (breakdown_against_figure mine ty) as H. cbv zeta in H.
    assert (E : filter (fun r => RecordType.eqb (Double.FinancialRecord.type r)
                                   ty) mine
                = filter
                    (fun r => (Double.FinancialRecord.user r =? userId)%nat
                              && RecordType.eqb (Double.FinancialRecord.type r)
                                   ty) coll).
    { unfold mine. rewrite filter_filter. reflexivity. }
    rewrite E in H.
    eexists. split; [|rewrite balanceFigure_unfold; exact H].
    unfold Double.RecordRoutes.getCategoryBreakdown, Double.Pipeline.match_.
    cbv zeta. apply f_equal. apply f_equal. apply f_equal.
    apply filter_ext. intros r.
    rewrite RecordType_name_eqb, andb_true_r. reflexivity.
  - intros y m.
    set (mine := filter
                   (fun r =>
                      (Double.FinancialRecord.user r =? userId)%nat
                      && Double.FinancialRecord.inRange
                           (JSDate.newDate y (m - 1) 1 0 0 0)
                           (JSDate.newDate y m 0 23 59 59) r) coll).
    pose proof (breakdown_against_figure mine ty) as H. cbv zeta in H.
    assert (E : filter (fun r => RecordType.eqb (Double.FinancialRecord.type r)
                                   ty) mine
                = filter
                    (fun r =>
                       (Double.FinancialRecord.user r =? userId)%nat
                       && Double.FinancialRecord.inRange
                            (JSDate.newDate y (m - 1) 1 0 0 0)
                            (JSDate.newDate y m 0 23 59 59) r
                       && RecordType.eqb (Double.FinancialRecord.type r) ty)
                    coll).
    { unfold mine. rewrite filter_filter. reflexivity. }
    rewrite E in H.
    eexists. split; [|rewrite summaryFigure_unfold; exact H].
    unfold Double.RecordRoutes.getCategoryBreakdown, Double.Pipeline.match_.
    cbv zeta. apply f_equal. apply f_equal. apply f_equal.
    apply filter_ext. intros r.
    rewrite RecordType_name_eqb.
    destruct (Double.FinancialRecord.user r =? userId)%nat,
      (RecordType.eqb (Double.FinancialRecord.type r) ty),
      (Double.FinancialRecord.inRange _ _ r); reflexivity.
Qed.

Lemma category_totals_match_balance_when_exact_witness :
  exists gs,
    Double.RecordRoutes.getCategoryBreakdown Change.halves Sample.alice
      (Some "expense"%string) None None = Json 200 gs
    /\ map (@Double.Pipeline.total string) gs = [19.5%float; 4%float]
    /\ Double.Balance.expense
         (Double.FinancialRecord.getUserBalance Change.halves Sample.alice)
       = 23.5%float
    /\ sameNumber (totalsAdded gs)
         (Double.Balance.expense
            (Double.FinancialRecord.getUserBalance Change.halves
               Sample.alice)).
Proof.
  destruct (proj1 (category_totals_match_balance_when_exact Change.halves
                     Sample.alice RecordType.expense))
    as (gs & E & _ & _ & Hsame).
  exists gs. split; [exact E|].
  vm_compute in E. injection E as <-.
  split; [vm_compute; reflexivity|].
  split; [vm_compute; reflexivity|].
  apply Hsame.
  - vm_compute. reflexivity.
  - intros g Hg. simpl in Hg.
    destruct Hg as [<-|[<-|[]]]; vm_compute; reflexivity.
  - vm_compute. reflexivity.
Defined.
End BreakdownOnDoubles.

(** ** The read-time fields of a budget *)

Lemma Qltb_lt (x y : Q) : Qltb x y = true <-> x < y.
Proof.
  unfold Qltb. rewrite negb_true_iff. split.
  - intros H. apply Qnot_le_lt. intros Hle.
    apply Qle_bool_iff in Hle. congruence.
  - intros H. destruct (Qle_bool y x) eqn:E; [|reflexivity].
    apply Qle_bool_iff in E. exfalso. exact (Qlt_not_le _ _ H E).
Qed.

Lemma Qle_bool_false (x y : Q) : Qle_bool x y = false <-> ~ x <= y.
Proof.
  split.
  - intros H Hle. apply Qle_bool_iff in Hle. congruence.
  - intros H. destruct (Qle_bool x y) eqn:E; [|reflexivity].
    apply Qle_bool_iff in E. contradiction.
Qed.

Section VirtualsOnDoubles.
Import PrimFloat.
Local Open Scope float_scope.

Lemma status_double_cases (b : Double.Budget.t) :
  (Double.Budget.status b = Status.exceeded
   <-> PrimFloat.leb 100 (Double.Budget.percentageSpent b) = true)
  /\ (Double.Budget.status b = Status.warning
      <-> PrimFloat.leb 100 (Double.Budget.percentageSpent b) = false
          /\ PrimFloat.leb (Double.Budget.alertThreshold b)
               (Double.Budget.percentageSpent b) = true)
  /\ (Double.Budget.status b = Status.good
      <-> PrimFloat.leb 100 (Double.Budget.percentageSpent b) = false
          /\ PrimFloat.leb (Double.Budget.alertThreshold b)
               (Double.Budget.percentageSpent b) = false).
Proof.
  unfold Double.Budget.status. cbv zeta.
  destruct (PrimFloat.leb 100 (Double.Budget.percentageSpent b)).
  - repeat split; try discriminate; intros [H _]; discriminate H.
  - destruct (PrimFloat.leb (Double.Budget.alertThreshold b)
                (Double.Budget.percentageSpent b)).
    + repeat split; try discriminate; intros [_ H]; discriminate H.
    + repeat split; try discriminate; intros [_ H]; discriminate H.
Qed.

(** C7. The read-time fields of a budget, on the doubles the program
    computes with, [>=] and [>] being the comparisons of doubles:
    [remainingAmount] is [Math.max(0, budgetAmount - spentAmount)];
    [percentageSpent] is [spentAmount / budgetAmount * 100] when
    [budgetAmount > 0] and 0 otherwise, so 0 when [budgetAmount] is 0;
    [status] is "exceeded" iff [percentageSpent >= 100], else
    "warning" iff [percentageSpent >= alertThreshold], else "good".
    With 500 spent of 600 and threshold 80 the percentage is
    83.33333333333334, the status "warning" and 100 remains; with 600
    spent of 500 nothing remains and the status is "exceeded".  The
    comparisons see the computed percentage: 57 spent of 100 gives
    56.99999999999999, below a threshold of 57. *)
Theorem budget_virtuals_follow_formulas :
  (forall b : Double.Budget.t,
      Double.Budget.remainingAmount b
      = Double.Math_max 0
          (Double.Budget.budgetAmount b - Double.Budget.spentAmount b)
      /\ (PrimFloat.ltb 0 (Double.Budget.budgetAmount b) = true ->
          Double.Budget.percentageSpent b
          = Double.Budget.spentAmount b / Double.Budget.budgetAmount b * 100)
      /\ (PrimFloat.ltb 0 (Double.Budget.budgetAmount b) = false ->
          Double.Budget.percentageSpent b = 0)
      /\ (Double.Budget.budgetAmount b = 0
          \/ Double.Budget.budgetAmount b = (-0) ->
          Double.Budget.percentageSpent b = 0)
      /\ (Double.Budget.status b = Status.exceeded
          <-> PrimFloat.leb 100 (Double.Budget.percentageSpent b) = true)
      /\ (Double.Budget.status b = Status.warning
          <-> PrimFloat.leb 100 (Double.Budget.percentageSpent b) = false
              /\ PrimFloat.leb (Double.Budget.alertThreshold b)
                   (Double.Budget.percentageSpent b) = true)
      /\ (Double.Budget.status b = Status.good
          <-> PrimFloat.leb 100 (Double.Budget.percentageSpent b) = false
              /\ PrimFloat.leb (Double.Budget.alertThreshold b)
                   (Double.Budget.percentageSpent b) = false))
  /\ (Double.Math_max 0 100 = 100
      /\ Double.Math_max 0 (-100) = 0
      /\ Double.Math_max 0 (-0) = 0
      /\ Double.Math_max 0 0 = 0)
  /\ (let b := Double.Budget.mk 600 500 80 in
      Double.Budget.percentageSpent b = 83.33333333333334
      /\ PrimFloat.leb 83.3 (Double.Budget.percentageSpent b) = true
      /\ PrimFloat.ltb (Double.Budget.percentageSpent b) 83.4 = true
      /\ Status.name (Double.Budget.status b) = "warning"%string
      /\ Double.Budget.remainingAmount b = 100)
  /\ (let b := Double.Budget.mk 500 600 80 in
      Double.Budget.percentageSpent b = 120
      /\ Status.name (Double.Budget.status b) = "exceeded"%string
      /\ Double.Budget.remainingAmount b = 0)
  /\ (let b := Double.Budget.mk 100 57 57 in
      Double.Budget.percentageSpent b = 56.99999999999999
      /\ Status.name (Double.Budget.status b) = "good"%string).
Proof.
  split.
  { intros b. split; [reflexivity|].
    split.
    { intros H. unfold Double.Budget.percentageSpent. rewrite H.
      reflexivity. }
    split.
    { intros H. unfold Double.Budget.percentageSpent. rewrite H.
      reflexivity. }
    split.
    { intros [H|H]; unfold Double.Budget.percentageSpent; rewrite H;
        vm_compute; reflexivity. }
    apply status_double_cases. }
  split; [repeat split; vm_compute; reflexivity|].
  split; [cbv zeta; repeat split; vm_compute; reflexivity|].
  split; [cbv zeta; repeat split; vm_compute; reflexivity|].
  cbv zeta. repeat split; vm_compute; reflexivity.
Qed.

Lemma budget_virtuals_follow_formulas_witness :
  Double.Budget.percentageSpent (Double.Budget.mk 600 450 80) = 75
  /\ Status.name (Double.Budget.status (Double.Budget.mk 600 450 80))
     = "good"%string.
Proof.
  destruct (proj1 budget_virtuals_follow_formulas
              (Double.Budget.mk 600 450 80))
    as (_ & Hp & _ & _ & _ & _ & Hg).
  split.
  - rewrite Hp; vm_compute; reflexivity.
  - rewrite (proj2 Hg); [reflexivity|].
    split; vm_compute; reflexivity.
Defined.
End VirtualsOnDoubles.

(** ** Budget documents and their collection *)

Lemma Period_eqb_eq (a b : Period.t) : Period.eqb a b = true <-> a = b.
Proof. destruct a, b; simpl; split; congruence. Qed.

Lemma Budget_eqb_refl (b : Budget.t) : Budget.eqb b b = true.
Proof.
  unfold Budget.eqb.
  rewrite !Nat.eqb_refl, !String.eqb_refl, !Z.eqb_refl, !Qeq_bool_refl.
  rewrite (proj2 (Period_eqb_eq _ _) eq_refl), Bool.eqb_reflx.
  reflexivity.
Qed.

Lemma Budget_eqb_sameScope (a b : Budget.t) :
  Budget.eqb a b = true ->
  sameScope a b /\ Budget.spentAmount a == Budget.spentAmount b.
Proof.
  unfold Budget.eqb, sameScope. intros H.
  repeat (apply andb_prop in H; destruct H as [H ?]).
  repeat match goal with
         | E : (_ =? _)%nat = true |- _ => apply Nat.eqb_eq in E
         | E : (_ =? _)%Z = true |- _ => apply Z.eqb_eq in E
         | E : String.eqb _ _ = true |- _ => apply String.eqb_eq in E
         | E : Bool.eqb _ _ = true |- _ => apply Bool.eqb_prop in E
         | E : Qeq_bool _ _ = true |- _ => apply Qeq_bool_iff in E
         end.
  repeat split; assumption.
Qed.

Lemma sameScope_refl (a : Budget.t) : sameScope a a.
Proof. unfold sameScope. repeat split. Qed.

Lemma sameScope_sym (a b : Budget.t) : sameScope a b -> sameScope b a.
Proof. unfold sameScope. intuition congruence. Qed.

Lemma sameScope_trans (a b c : Budget.t) :
  sameScope a b -> sameScope b c -> sameScope a c.
Proof. unfold sameScope. intuition congruence. Qed.

Lemma sameScope_set_spentAmount v (b : Budget.t) :
  sameScope (Budget.set_spentAmount v b) b.
Proof. unfold sameScope. repeat split. Qed.

Lemma sameScope_set_updatedAt v (b : Budget.t) :
  sameScope (Budget.set_updatedAt v b) b.
Proof. unfold sameScope. repeat split. Qed.

Lemma spentMatch_iff (b : Budget.t) (r : FinancialRecord.t) :
  Budget.spentMatch b r = true <-> countsToward b r.
Proof.
  unfold Budget.spentMatch, countsToward, FinancialRecord.inRange.
  rewrite !andb_true_iff, Nat.eqb_eq, RecordType_eqb_eq, String.eqb_eq,
    !Z.leb_le.
  tauto.
Qed.

Lemma spentMatch_sameScope (a b : Budget.t) :
  sameScope a b -> forall r, Budget.spentMatch a r = Budget.spentMatch b r.
Proof.
  unfold sameScope, Budget.spentMatch. intros (_ & Hu & Hc & _ & Hs & He) r.
  rewrite Hu, Hc, Hs, He. reflexivity.
Qed.

Lemma spentTotal_sameScope recs (a b : Budget.t) :
  sameScope a b -> spentTotal recs a = spentTotal recs b.
Proof.
  intros H. unfold spentTotal.
  rewrite (filter_ext _ _ (spentMatch_sameScope a b H)). reflexivity.
Qed.

(** The single group of [_id: null] holds the sum over all documents
    that reached it. *)
Lemma null_group_total D (val : D -> Q) (docs : list D) :
  match Pipeline.group (fun _ _ : unit => true) (fun _ => tt) val docs with
  | g :: _ => Pipeline.total g
  | [] => 0
  end == Qsum (map val docs).
Proof.
  unfold Pipeline.group.
  assert (H : forall acc : list (Pipeline.Group unit),
    (List.length acc <= 1)%nat ->
    match fold_left
            (fun gs d => Pipeline.accumulate (fun _ _ => true) tt (val d) gs)
            docs acc with
    | g :: _ => Pipeline.total g
    | [] => 0
    end
    == match acc with g :: _ => Pipeline.total g | [] => 0 end
       + Qsum (map val docs)).
  { induction docs as [|d docs IH]; intros acc Hlen; simpl.
    - ring.
    - destruct acc as [|g [|h acc]]; simpl in *.
      + rewrite IH by (simpl; lia). simpl. ring.
      + rewrite IH by (simpl; lia). simpl. ring.
      + lia. }
  rewrite H by (simpl; lia). ring.
Qed.

Lemma findById_Some id coll d :
  Budget.findById id coll = Some d -> In d coll /\ Budget._id d = id.
Proof.
  unfold Budget.findById, Budget.findOne. intros H.
  apply find_some in H. destruct H as [Hin Hid].
  apply Nat.eqb_eq in Hid. split; assumption.
Qed.

Lemma uniqueIds_inj coll a b :
  uniqueIds coll -> In a coll -> In b coll ->
  Budget._id a = Budget._id b -> a = b.
Proof.
  unfold uniqueIds.
  induction coll as [|x coll IH]; intros Hnd Ha Hb Hid; [contradiction|].
  simpl in Hnd. inversion Hnd as [|y l Hnotin Hnd' Heq]; subst.
  destruct Ha as [Ha|Ha], Hb as [Hb|Hb]; subst.
  - reflexivity.
  - exfalso. apply Hnotin. rewrite Hid. apply in_map. exact Hb.
  - exfalso. apply Hnotin. rewrite <- Hid. apply in_map. exact Ha.
  - apply IH; assumption.
Qed.

Lemma findById_In coll d :
  uniqueIds coll -> In d coll -> Budget.findById (Budget._id d) coll = Some d.
Proof.
  intros Hnd Hin.
  destruct (Budget.findById (Budget._id d) coll) as [d'|] eqn:E.
  - apply findById_Some in E. destruct E as [Hin' Hid].
    f_equal. apply (uniqueIds_inj coll d' d Hnd Hin' Hin Hid).
  - unfold Budget.findById, Budget.findOne in E.
    apply (find_none _ _ E) in Hin. rewrite Nat.eqb_refl in Hin.
    discriminate.
Qed.

(** *** Collections related document by document *)

Lemma Forall2_map_r A B (R : A -> B -> Prop) (f : A -> B) (l : list A) :
  (forall x, In x l -> R x (f x)) -> Forall2 R l (map f l).
Proof.
  induction l as [|x l IH]; intros H; simpl; constructor.
  - apply H. left. reflexivity.
  - apply IH. intros y Hy. apply H. right. exact Hy.
Qed.

Lemma Forall2_diag A (R : A -> A -> Prop) (l : list A) :
  (forall x, In x l -> R x x) -> Forall2 R l l.
Proof.
  intros H. rewrite <- (map_id l) at 2. apply Forall2_map_r. exact H.
Qed.

Lemma Forall2_In_l A B (R : A -> B -> Prop) l l' x :
  Forall2 R l l' -> In x l -> exists y, In y l' /\ R x y.
Proof.
  induction 1 as [|a b l l' Hab H IH]; intros Hin; [contradiction|].
  destruct Hin as [Hin|Hin].
  - subst. exists b. split; [left; reflexivity | exact Hab].
  - destruct (IH Hin) as [y [Hy HR]]. exists y. split; [right|]; assumption.
Qed.

Lemma Forall2_under_In A (R : A -> A -> Prop) (big l l' : list A) :
  Forall2 (fun x y => In x big -> R x y) l l' ->
  incl l big -> Forall2 R l l'.
Proof.
  induction 1 as [|a b l l' Hab H IH]; intros Hsub; constructor.
  - apply Hab. apply Hsub. left. reflexivity.
  - apply IH. intros x Hx. apply Hsub. right. exact Hx.
Qed.


(** ** Saving and reconciling a budget *)

Lemma replace_findById doc coll stored :
  Budget.findById (Budget._id doc) coll = Some stored ->
  Budget.findById (Budget._id doc) (Budget.replace doc coll) = Some doc.
Proof.
  unfold Budget.findById, Budget.findOne, Budget.replace.
  induction coll as [|x coll IH]; simpl; [discriminate|].
  destruct (Budget._id x =? Budget._id doc)%nat eqn:E; simpl.
  - intros _. rewrite Nat.eqb_refl. reflexivity.
  - intros H. rewrite E. apply IH. exact H.
Qed.

(** The outcome of [save]: the document as given or freshly stamped,
    and a collection that differs from the old one at most at the
    document's own place. *)
Lemma save_spec now coll doc :
  uniqueIds coll ->
  (snd (Budget.save now coll doc) = doc
   \/ snd (Budget.save now coll doc) = Budget.set_updatedAt now doc)
  /\ Forall2
       (fun d d' =>
          (Budget._id d <> Budget._id doc -> d' = d)
          /\ (Budget._id d = Budget._id doc ->
              d' = snd (Budget.save now coll doc)
              \/ (d' = d /\ Budget.eqb d doc = true)))
       coll (fst (Budget.save now coll doc)).
Proof.
  intros Hnd. unfold Budget.save.
  destruct (Budget.findById (Budget._id doc) coll) as [stored|] eqn:E.
  - destruct (findById_Some _ _ _ E) as [Hin Hid].
    destruct (Budget.eqb stored doc) eqn:Eq; simpl.
    + split; [left; reflexivity|].
      apply Forall2_diag. intros x Hx. split; [reflexivity|].
      intros Hxid. right. split; [reflexivity|].
      assert (x = stored) by (apply (uniqueIds_inj coll); congruence).
      subst x. exact Eq.
    + split; [right; reflexivity|].
      unfold Budget.replace. apply Forall2_map_r. intros x Hx.
      change (Budget._id (Budget.set_updatedAt now doc))
        with (Budget._id doc).
      destruct (Budget._id x =? Budget._id doc)%nat eqn:Ex.
      * apply Nat.eqb_eq in Ex. split; [contradiction|].
        intros _. left. reflexivity.
      * apply Nat.eqb_neq in Ex. split; [reflexivity|contradiction].
  - simpl. split; [left; reflexivity|].
    apply Forall2_diag. intros x Hx. split; [reflexivity|].
    intros Hxid. exfalso.
    unfold Budget.findById, Budget.findOne in E.
    apply (find_none _ _ E) in Hx. apply Nat.eqb_neq in Hx. contradiction.
Qed.

(** Saving again what [save] returned changes nothing. *)
Lemma save_idem now1 now2 coll doc :
  (snd (Budget.save now1 coll doc) = doc
   \/ snd (Budget.save now1 coll doc) = Budget.set_updatedAt now1 doc)
  /\ Budget.save now2 (fst (Budget.save now1 coll doc))
       (snd (Budget.save now1 coll doc))
     = Budget.save now1 coll doc.
Proof.
  assert (Hc : Budget.save now1 coll doc
               = match Budget.findById (Budget._id doc) coll with
                 | Some stored =>
                     if Budget.eqb stored doc then (coll, doc)
                     else (Budget.replace (Budget.set_updatedAt now1 doc) coll,
                           Budget.set_updatedAt now1 doc)
                 | None => (coll, doc)
                 end) by reflexivity.
  destruct (Budget.findById (Budget._id doc) coll) as [stored|] eqn:E;
    [destruct (Budget.eqb stored doc) eqn:Eq|];
    rewrite Hc; cbn [fst snd].
  - split; [left; reflexivity|].
    unfold Budget.save. rewrite E, Eq. reflexivity.
  - split; [right; reflexivity|].
    unfold Budget.save.
    rewrite (replace_findById (Budget.set_updatedAt now1 doc) coll
               stored E).
    rewrite Budget_eqb_refl. reflexivity.
  - split; [left; reflexivity|].
    unfold Budget.save. rewrite E. reflexivity.
Qed.

(** The same outcome, read through [sameScope]. *)
Lemma save_tracks now coll doc :
  uniqueIds coll ->
  sameScope (snd (Budget.save now coll doc)) doc
  /\ Budget.spentAmount (snd (Budget.save now coll doc))
     = Budget.spentAmount doc
  /\ Forall2
       (fun d d' =>
          (Budget._id d <> Budget._id doc -> d' = d)
          /\ (Budget._id d = Budget._id doc ->
              sameScope d' doc
              /\ Budget.spentAmount d' == Budget.spentAmount doc))
       coll (fst (Budget.save now coll doc)).
Proof.
  intros Hnd. destruct (save_spec now coll doc Hnd) as [Hdoc HF].
  assert (Hs : sameScope (snd (Budget.save now coll doc)) doc
               /\ Budget.spentAmount (snd (Budget.save now coll doc))
                  = Budget.spentAmount doc).
  { destruct Hdoc as [-> | ->].
    - split; [apply sameScope_refl | reflexivity].
    - split; [apply sameScope_set_updatedAt | reflexivity]. }
  destruct Hs as [Hsc Hsp].
  split; [exact Hsc|]. split; [exact Hsp|].
  eapply Forall2_impl; [|exact HF].
  intros d d' [Hne Heq]. split; [exact Hne|].
  intros Hid. destruct (Heq Hid) as [-> | [-> Hb]].
  - split; [exact Hsc|]. rewrite Hsp. reflexivity.
  - apply Budget_eqb_sameScope. exact Hb.
Qed.

(** What [save] leaves under the document's id, whatever the ids of
    the other documents. *)
Lemma save_stored now coll doc stored :
  Budget.findById (Budget._id doc) coll = Some stored ->
  exists d',
    Budget.findById (Budget._id doc) (fst (Budget.save now coll doc))
    = Some d'
    /\ sameScope d' doc
    /\ Budget.spentAmount d' == Budget.spentAmount doc.
Proof.
  intros E. unfold Budget.save. rewrite E.
  destruct (Budget.eqb stored doc) eqn:Eq; simpl.
  - exists stored. split; [exact E|].
    apply Budget_eqb_sameScope. exact Eq.
  - exists (Budget.set_updatedAt now doc).
    split.
    + apply (replace_findById (Budget.set_updatedAt now doc) coll stored).
      exact E.
    + split; [apply sameScope_set_updatedAt | reflexivity].
Qed.

(** The amount [updateSpentAmount] assigns. *)
Lemma updateSpentAmount_as_save now recs coll this :
  Budget.updateSpentAmount now recs coll this
  = Budget.save now coll
      (Budget.set_spentAmount (aggregatedSpent recs this) this).
Proof. reflexivity. Qed.

Lemma aggregatedSpent_total recs this :
  aggregatedSpent recs this == spentTotal recs this.
Proof.
  unfold aggregatedSpent, Pipeline.match_, spentTotal.
  apply null_group_total.
Qed.

Lemma aggregatedSpent_sameScope recs (a b : Budget.t) :
  sameScope a b -> aggregatedSpent recs a = aggregatedSpent recs b.
Proof.
  intros H. unfold aggregatedSpent, Pipeline.match_.
  rewrite (filter_ext _ _ (spentMatch_sameScope a b H)). reflexivity.
Qed.

Lemma updateSpentAmount_unfold now recs coll this :
  exists v,
    v == spentTotal recs this
    /\ Budget.updateSpentAmount now recs coll this
       = Budget.save now coll (Budget.set_spentAmount v this).
Proof.
  exists (aggregatedSpent recs this).
  split; [apply aggregatedSpent_total | reflexivity].
Qed.

Lemma updateSpentAmount_tracks now recs coll this :
  uniqueIds coll ->
  sameScope (snd (Budget.updateSpentAmount now recs coll this)) this
  /\ Budget.spentAmount (snd (Budget.updateSpentAmount now recs coll this))
     == spentTotal recs this
  /\ Forall2
       (fun d d' =>
          (Budget._id d <> Budget._id this -> d' = d)
          /\ (Budget._id d = Budget._id this ->
              sameScope d' this
              /\ Budget.spentAmount d' == spentTotal recs this))
       coll (fst (Budget.updateSpentAmount now recs coll this)).
Proof.
  intros Hnd.
  destruct (updateSpentAmount_unfold now recs coll this) as [v [Hv ->]].
  destruct (save_tracks now coll (Budget.set_spentAmount v this) Hnd)
    as [Hsc [Hsp HF]].
  split.
  { eapply sameScope_trans; [exact Hsc | apply sameScope_set_spentAmount]. }
  split.
  { rewrite Hsp. exact Hv. }
  eapply Forall2_impl; [|exact HF].
  intros d d' [Hne Heq]. split; [exact Hne|].
  intros Hid. destruct (Heq Hid) as [Hs Ha]. split.
  - eapply sameScope_trans; [exact Hs | apply sameScope_set_spentAmount].
  - rewrite Ha. exact Hv.
Qed.

(** C1 (as amended). For every budget, whatever its category, "Overall
    Budget" included, [updateSpentAmount] sets [spentAmount] to the sum
    of the amounts of the owner's expense records whose category equals
    the budget's category exactly and whose date lies within
    [[startDate, endDate]], both ends included; that amount is what the
    stored budget holds afterwards. *)
Theorem updateSpentAmount_sums_category_within_window :
  forall (now : Z) (recs : list FinancialRecord.t) (coll : list Budget.t)
         (b : Budget.t),
    (forall r, In r (filter (Budget.spentMatch b) recs)
               <-> In r recs /\ countsToward b r)
    /\ Budget.spentAmount (snd (Budget.updateSpentAmount now recs coll b))
       == Qsum (map FinancialRecord.amount
                  (filter (Budget.spentMatch b) recs))
    /\ (forall stored,
          Budget.findById (Budget._id b) coll = Some stored ->
          exists b',
            Budget.findById (Budget._id b)
              (fst (Budget.updateSpentAmount now recs coll b)) = Some b'
            /\ Budget.category b' = Budget.category b
            /\ Budget.spentAmount b'
               == Qsum (map FinancialRecord.amount
                          (filter (Budget.spentMatch b) recs))).
Proof.
  intros now recs coll b.
  destruct (updateSpentAmount_unfold now recs coll b) as [v [Hv E]].
  split.
  { intros r. rewrite filter_In, spentMatch_iff. tauto. }
  split.
  { rewrite E. unfold Budget.save.
    destruct (Budget.findById _ coll) as [stored|];
      [destruct (Budget.eqb stored _)|]; simpl; exact Hv. }
  intros stored Hst. rewrite E.
  destruct (save_stored now coll (Budget.set_spentAmount v b) stored Hst)
    as [d' [Hf [Hs Ha]]].
  exists d'. split; [exact Hf|]. split.
  - destruct Hs as (_ & _ & Hc & _). exact Hc.
  - rewrite Ha. exact Hv.
Qed.

(** C8. Reconciliation is idempotent: calling [updateSpentAmount] a
    second time, on the document the first call returned and with the
    records unchanged, stores the same [spentAmount] and leaves the
    collection and the document exactly as the first call left them. *)
Theorem updateSpentAmount_idempotent :
  forall (now1 now2 : Z) (recs : list FinancialRecord.t)
         (coll : list Budget.t) (b : Budget.t),
    let first := Budget.updateSpentAmount now1 recs coll b in
    let second := Budget.updateSpentAmount now2 recs (fst first) (snd first) in
    Budget.spentAmount (snd second) = Budget.spentAmount (snd first)
    /\ fst second = fst first
    /\ snd second = snd first.
Proof.
  intros now1 now2 recs coll b first second.
  assert (Hfix : forall d,
            sameScope d b ->
            Budget.spentAmount d = aggregatedSpent recs b ->
            Budget.set_spentAmount (aggregatedSpent recs d) d = d).
  { intros d Hs Hd.
    rewrite (aggregatedSpent_sameScope recs d b Hs), <- Hd.
    destruct d; reflexivity. }
  assert (H : second = first).
  { subst second first.
    rewrite (updateSpentAmount_as_save now1).
    set (doc := Budget.set_spentAmount (aggregatedSpent recs b) b).
    assert (Hdoc : sameScope doc b) by apply sameScope_set_spentAmount.
    destruct (save_idem now1 now2 coll doc) as [Hd Hs].
    rewrite updateSpentAmount_as_save.
    rewrite (Hfix (snd (Budget.save now1 coll doc))).
    - exact Hs.
    - destruct Hd as [-> | ->].
      + exact Hdoc.
      + eapply sameScope_trans;
          [apply sameScope_set_updatedAt | exact Hdoc].
    - destruct Hd as [-> | ->]; reflexivity. }
  rewrite H. repeat split.
Qed.

(** ** Collections changed at one document *)

Lemma touchesOnly_ids id0 P coll coll' :
  touchesOnly id0 P coll coll' -> map Budget._id coll' = map Budget._id coll.
Proof.
  unfold touchesOnly. induction 1 as [|a b l l' Hab H IH]; simpl.
  - reflexivity.
  - destruct Hab as [Hid _]. rewrite IH, Hid. reflexivity.
Qed.

Lemma touchesOnly_uniqueIds id0 P coll coll' :
  touchesOnly id0 P coll coll' -> uniqueIds coll -> uniqueIds coll'.
Proof.
  unfold uniqueIds. intros H Hnd.
  rewrite (touchesOnly_ids id0 P coll coll' H). exact Hnd.
Qed.

Lemma touchesOnly_other id0 P coll coll' d :
  touchesOnly id0 P coll coll' ->
  In d coll -> Budget._id d <> id0 -> In d coll'.
Proof.
  intros H Hin Hne.
  destruct (Forall2_In_l _ _ _ _ _ _ H Hin) as [y [Hy (_ & Hsame & _)]].
  rewrite (Hsame Hne) in Hy. exact Hy.
Qed.

Lemma touchesOnly_target id0 P coll coll' d :
  touchesOnly id0 P coll coll' ->
  In d coll -> Budget._id d = id0 ->
  exists d', In d' coll' /\ Budget._id d' = id0 /\ P d'.
Proof.
  intros H Hin Hid.
  destruct (Forall2_In_l _ _ _ _ _ _ H Hin) as [y [Hy (Hyid & _ & HP)]].
  exists y. split; [exact Hy|]. split; [congruence | exact (HP Hid)].
Qed.

Lemma touchesOnly_findById id0 P coll coll' d :
  touchesOnly id0 P coll coll' -> uniqueIds coll ->
  In d coll -> Budget._id d = id0 ->
  exists d', Budget.findById id0 coll' = Some d' /\ P d'.
Proof.
  intros H Hnd Hin Hid.
  destruct (touchesOnly_target id0 P coll coll' d H Hin Hid)
    as [d' [Hin' [Hid' HP]]].
  exists d'. split; [|exact HP].
  rewrite <- Hid'. apply findById_In; [|exact Hin'].
  apply (touchesOnly_uniqueIds id0 P coll coll' H Hnd).
Qed.


(** When the touched document keeps its scope, so does every document. *)
Lemma touchesOnly_sameScope this P coll coll' :
  (forall d, P d -> sameScope d this) ->
  uniqueIds coll -> In this coll ->
  touchesOnly (Budget._id this) P coll coll' ->
  Forall2 sameScope coll coll'.
Proof.
  intros HP Hnd Hin H. unfold touchesOnly in H.
  assert (Hall : Forall2 (fun d d' => In d coll -> sameScope d d') coll coll').
  { eapply Forall2_impl; [|exact H].
    intros a b (Hid & Hne & Heq) Ha.
    destruct (Nat.eq_dec (Budget._id a) (Budget._id this)) as [E|E].
    - assert (a = this) by (apply (uniqueIds_inj coll); assumption).
      subst a. apply sameScope_sym. apply HP. apply Heq. reflexivity.
    - rewrite (Hne E). apply sameScope_refl. }
  apply (Forall2_under_In _ _ coll coll coll' Hall). apply incl_refl.
Qed.

Lemma save_touches now coll doc :
  uniqueIds coll ->
  touchesOnly (Budget._id doc)
    (fun d' => sameScope d' doc
               /\ Budget.spentAmount d' == Budget.spentAmount doc)
    coll (fst (Budget.save now coll doc)).
Proof.
  intros Hnd. destruct (save_tracks now coll doc Hnd) as (_ & _ & HF).
  unfold touchesOnly. eapply Forall2_impl; [|exact HF].
  intros a b [Hne Heq]. split; [|split; assumption].
  destruct (Nat.eq_dec (Budget._id a) (Budget._id doc)) as [E|E].
  - destruct (Heq E) as [(Hid & _) _]. congruence.
  - rewrite (Hne E). reflexivity.
Qed.

Lemma updateSpentAmount_touches now recs coll this :
  uniqueIds coll ->
  touchesOnly (Budget._id this)
    (fun d' => sameScope d' this
               /\ Budget.spentAmount d' == spentTotal recs this)
    coll (fst (Budget.updateSpentAmount now recs coll this)).
Proof.
  intros Hnd.
  destruct (updateSpentAmount_tracks now recs coll this Hnd) as (_ & _ & HF).
  unfold touchesOnly. eapply Forall2_impl; [|exact HF].
  intros a b [Hne Heq]. split; [|split; assumption].
  destruct (Nat.eq_dec (Budget._id a) (Budget._id this)) as [E|E].
  - destruct (Heq E) as [(Hid & _) _]. congruence.
  - rewrite (Hne E). reflexivity.
Qed.

(** ** The budget handlers *)

(** C1 (counterexample to the claim as written). With 1700 of expenses
    on record, none of them filed under the label "Overall Budget",
    [updateSpentAmount] on an "Overall Budget" stores 0, not the
    all-time expense total. *)
Lemma overall_budget_not_all_time_total :
  Budget.category Sample.overallBudget = "Overall Budget"%string
  /\ Balance.expense
       (FinancialRecord.getUserBalance (records Sample.overall) Sample.alice)
     == 1700
  /\ Budget.spentAmount
       (snd (Budget.updateSpentAmount Sample.now (records Sample.overall)
               (budgets Sample.overall) Sample.overallBudget))
     == 0
  /\ Budget.findById 4%nat
       (fst (Budget.updateSpentAmount Sample.now (records Sample.overall)
               (budgets Sample.overall) Sample.overallBudget))
     = Some Sample.overallBudget
  /\ ~ Budget.spentAmount
         (snd (Budget.updateSpentAmount Sample.now (records Sample.overall)
                 (budgets Sample.overall) Sample.overallBudget))
       == Balance.expense
            (FinancialRecord.getUserBalance (records Sample.overall)
               Sample.alice).
Proof.
  split; [reflexivity|].
  split; [vm_compute; reflexivity|].
  split; [vm_compute; reflexivity|].
  split; [vm_compute; reflexivity|].
  vm_compute. discriminate.
Qed.

Lemma findOne_owned coll userId d :
  uniqueIds coll -> In d coll -> Budget.user d = userId ->
  Budget.findOne (BudgetRoutes.owned userId (Budget._id d)) coll = Some d.
Proof.
  intros Hnd Hin Hu. unfold Budget.findOne.
  destruct (find (BudgetRoutes.owned userId (Budget._id d)) coll)
    as [x|] eqn:E.
  - apply find_some in E. destruct E as [Hx Hown].
    unfold BudgetRoutes.owned in Hown.
    apply andb_prop in Hown. destruct Hown as [Hid _].
    apply Nat.eqb_eq in Hid.
    f_equal. apply (uniqueIds_inj coll); assumption.
  - apply (find_none _ _ E) in Hin.
    unfold BudgetRoutes.owned in Hin.
    rewrite Hu, !Nat.eqb_refl in Hin. discriminate.
Qed.

Lemma validateBudget_category body body' :
  BudgetRoutes.validateBudget body = Some body' ->
  exists c a p,
    BudgetRoutes.category body = Some c
    /\ BudgetRoutes.category body' = Some (Text.trim c)
    /\ BudgetRoutes.budgetAmount body' = Some a
    /\ BudgetRoutes.period body' = Some p.
Proof.
  unfold BudgetRoutes.validateBudget.
  destruct (BudgetRoutes.category body) as [c|]; [|discriminate].
  destruct (BudgetRoutes.budgetAmount body) as [a|] eqn:Ea; [|discriminate].
  destruct (BudgetRoutes.period body) as [p|] eqn:Ep; [|discriminate].
  destruct (_ && _ && _); [|discriminate].
  intros H. injection H as <-. exists c, a, p. simpl. repeat split.
Qed.

(** C6. When the user already has an active budget for the category
    asked for, [createBudget] answers with status 400 and leaves the
    store as it was: no budget is added and the existing one keeps every
    field. *)
Theorem createBudget_rejects_active_duplicate :
  forall (now : Z) (s : Store) (userId : ObjectId) (body : BudgetRoutes.Body)
         (c : string) (existing : Budget.t),
    BudgetRoutes.category body = Some c ->
    In existing (budgets s) ->
    Budget.user existing = userId ->
    Budget.category existing = Text.trim c ->
    Budget.isActive existing = true ->
    exists message,
      BudgetRoutes.createBudget now s userId body = (Failure 400 message, s).
Proof.
  intros now s userId body c existing Hc Hin Hu Hcat Hact.
  unfold BudgetRoutes.createBudget.
  destruct (BudgetRoutes.validateBudget body) as [body'|] eqn:V.
  - destruct (validateBudget_category body body' V)
      as (c' & a & p & Hc' & Hcb & Hab & Hpb).
    rewrite Hc in Hc'. injection Hc' as <-.
    rewrite Hcb, Hab, Hpb.
    destruct (Budget.findOne (BudgetRoutes.activeFor userId (Text.trim c))
                (budgets s)) as [found|] eqn:F.
    + eexists. reflexivity.
    + exfalso. unfold Budget.findOne in F.
      apply (find_none _ _ F) in Hin.
      unfold BudgetRoutes.activeFor in Hin.
      rewrite Hu, Hcat, Hact, Nat.eqb_refl, String.eqb_refl in Hin.
      discriminate.
  - eexists. reflexivity.
Qed.

Lemma createBudget_rejects_active_duplicate_witness :
  exists message,
    BudgetRoutes.createBudget Sample.now Sample.budgeted Sample.alice
      Sample.foodBody
    = (Failure 400 message, Sample.budgeted).
Proof.
  apply (createBudget_rejects_active_duplicate Sample.now Sample.budgeted
           Sample.alice Sample.foodBody "Food & Dining" Sample.foodBudget).
  - reflexivity.
  - left. reflexivity.
  - reflexivity.
  - reflexivity.
  - reflexivity.
Defined.

(** The window block of the update handler never runs: the test
    compares the requested period with the one just assigned. *)
Lemma recalcWindow_after_assignFields now body budget :
  BudgetRoutes.recalcWindow now body (BudgetRoutes.assignFields body budget)
  = BudgetRoutes.assignFields body budget.
Proof.
  unfold BudgetRoutes.recalcWindow, BudgetRoutes.assignFields.
  destruct (BudgetRoutes.period body) as [p|]; [|reflexivity].
  destruct (BudgetRoutes.budgetAmount body),
    (BudgetRoutes.alertThreshold body), (BudgetRoutes.category body);
    simpl; rewrite (proj2 (Period_eqb_eq p p) eq_refl); reflexivity.
Qed.

Lemma assignFields_window body budget :
  Budget.startDate (BudgetRoutes.assignFields body budget)
  = Budget.startDate budget
  /\ Budget.endDate (BudgetRoutes.assignFields body budget)
     = Budget.endDate budget.
Proof.
  unfold BudgetRoutes.assignFields.
  destruct (BudgetRoutes.budgetAmount body), (BudgetRoutes.period body),
    (BudgetRoutes.alertThreshold body), (BudgetRoutes.category body);
    split; reflexivity.
Qed.

Lemma save_window now coll doc :
  Budget.startDate (snd (Budget.save now coll doc)) = Budget.startDate doc
  /\ Budget.endDate (snd (Budget.save now coll doc)) = Budget.endDate doc.
Proof.
  destruct (save_idem now now coll doc) as [[-> | ->] _];
    split; reflexivity.
Qed.

(** Whatever period an update asks for, the budget it answers with
    carries the window the budget had before. *)
Lemma updateBudget_keeps_window now s userId id body budget budget' s' :
  Budget.findOne (BudgetRoutes.owned userId id) (budgets s) = Some budget ->
  BudgetRoutes.updateBudget now s userId id body = (Json 200 budget', s') ->
  Budget.startDate budget' = Budget.startDate budget
  /\ Budget.endDate budget' = Budget.endDate budget.
Proof.
  intros Hf. unfold BudgetRoutes.updateBudget.
  destruct (BudgetRoutes.validateBudget body) as [body'|]; [|discriminate].
  rewrite Hf, recalcWindow_after_assignFields.
  destruct (Budget.save now (budgets s)
              (BudgetRoutes.assignFields body' budget)) as [coll doc] eqn:Es.
  rewrite updateSpentAmount_as_save.
  destruct (Budget.save now coll _) as [coll2 doc2] eqn:Es2.
  intros H. injection H as <- _.
  pose proof (save_window now coll
                (Budget.set_spentAmount (aggregatedSpent (records s) doc) doc))
    as Hw2.
  rewrite Es2 in Hw2. simpl in Hw2.
  pose proof (save_window now (budgets s)
                (BudgetRoutes.assignFields body' budget)) as Hw1.
  rewrite Es in Hw1. simpl in Hw1.
  destruct (assignFields_window body' budget) as [Ha1 Ha2].
  destruct Hw1 as [H1 H2], Hw2 as [H3 H4].
  split; congruence.
Qed.

(** C2 (the code at a failing input). The food budget is monthly with
    the window of March 2024; an update on 20 June 2024 asking for
    "weekly" is answered with period "weekly" and the March window
    still in place, not the week of 16 June that the window rule gives
    for that moment. *)
Theorem updateBudget_period_change_keeps_old_window :
  exists budget' s',
    BudgetRoutes.updateBudget Sample.later Sample.budgeted Sample.alice 4%nat
      Sample.weeklyBody = (Json 200 budget', s')
    /\ Budget.period Sample.foodBudget = Period.monthly
    /\ Budget.period budget' = Period.weekly
    /\ Budget.startDate budget' = Budget.startDate Sample.foodBudget
    /\ Budget.endDate budget' = Budget.endDate Sample.foodBudget
    /\ Budget.findById 4%nat (budgets s') = Some budget'
    /\ BudgetRoutes.periodWindow Sample.later Period.weekly
       = (Sample.on 2024 6 16 12, Sample.on 2024 6 22 12)
    /\ (Budget.startDate budget', Budget.endDate budget')
       <> BudgetRoutes.periodWindow Sample.later Period.weekly.
Proof.
  eexists. eexists.
  split; [vm_compute; reflexivity|].
  repeat split; try (vm_compute; reflexivity).
  vm_compute. discriminate.
Qed.

Lemma activeFor_sameScope userId c (a b : Budget.t) :
  sameScope a b ->
  BudgetRoutes.activeFor userId c a = BudgetRoutes.activeFor userId c b.
Proof.
  unfold sameScope, BudgetRoutes.activeFor.
  intros (_ & Hu & Hc & Ha & _). rewrite Hu, Hc, Ha. reflexivity.
Qed.

Lemma activeFor_true userId c (b : Budget.t) :
  BudgetRoutes.activeFor userId c b = true
  <-> Budget.user b = userId /\ Budget.category b = c
      /\ Budget.isActive b = true.
Proof.
  unfold BudgetRoutes.activeFor.
  rewrite !andb_true_iff, Nat.eqb_eq, String.eqb_eq. tauto.
Qed.

Lemma assignFields_fields body budget :
  Budget._id (BudgetRoutes.assignFields body budget) = Budget._id budget
  /\ Budget.user (BudgetRoutes.assignFields body budget) = Budget.user budget
  /\ Budget.isActive (BudgetRoutes.assignFields body budget)
     = Budget.isActive budget
  /\ Budget.category (BudgetRoutes.assignFields body budget)
     = match BudgetRoutes.category body with
       | Some c => c
       | None => Budget.category budget
       end.
Proof.
  unfold BudgetRoutes.assignFields.
  destruct (BudgetRoutes.budgetAmount body), (BudgetRoutes.period body),
    (BudgetRoutes.alertThreshold body), (BudgetRoutes.category body);
    repeat split; reflexivity.
Qed.

(** C9. Only [createBudget] checks for an active budget of the same
    user and category.  From a store holding an active and an inactive
    budget for one (user, category), toggling the inactive one succeeds
    and leaves two active budgets for that pair; and an update that moves
    an active budget into the category of another active budget of the
    user succeeds in the same way. *)
Theorem toggle_and_update_skip_duplicate_check :
  forall (now : Z) (s : Store) (userId : ObjectId) (b1 b2 : Budget.t),
    uniqueIds (budgets s) ->
    In b1 (budgets s) -> In b2 (budgets s) ->
    Budget._id b1 <> Budget._id b2 ->
    Budget.user b1 = userId -> Budget.user b2 = userId ->
    Budget.isActive b1 = true ->
    (Budget.category b2 = Budget.category b1 ->
     Budget.isActive b2 = false ->
     exists budget' s',
       BudgetRoutes.toggleBudgetActive now s userId (Budget._id b2)
       = (Json 200 budget', s')
       /\ Budget.isActive budget' = true
       /\ twoActive userId (Budget.category b1) (budgets s'))
    /\ (forall body body',
          Budget.isActive b2 = true ->
          BudgetRoutes.validateBudget body = Some body' ->
          BudgetRoutes.category body' = Some (Budget.category b1) ->
          exists budget' s',
            BudgetRoutes.updateBudget now s userId (Budget._id b2) body
            = (Json 200 budget', s')
            /\ Budget.category budget' = Budget.category b1
            /\ twoActive userId (Budget.category b1) (budgets s')).
Proof.
  intros now s userId b1 b2 Hnd Hin1 Hin2 Hne Hu1 Hu2 Hact1.
  assert (Hfind : Budget.findOne (BudgetRoutes.owned userId (Budget._id b2))
                    (budgets s) = Some b2)
    by (apply findOne_owned; assumption).
  assert (Hb1 : BudgetRoutes.activeFor userId (Budget.category b1) b1 = true)
    by (apply activeFor_true; auto).
  split.
  - intros Hcat Hact2.
    unfold BudgetRoutes.toggleBudgetActive. rewrite Hfind, Hact2. simpl negb.
    set (doc := Budget.set_isActive true b2).
    pose proof (save_touches now (budgets s) doc Hnd) as HT.
    destruct (save_tracks now (budgets s) doc Hnd) as (Hsc & _ & _).
    destruct (Budget.save now (budgets s) doc) as [coll budget'] eqn:Es.
    simpl in HT, Hsc.
    exists budget', (mkStore (records s) coll (nextId s)).
    split; [reflexivity|].
    split.
    { destruct Hsc as (_ & _ & _ & Ha & _). rewrite Ha. reflexivity. }
    destruct (touchesOnly_target _ _ _ _ b2 HT Hin2 eq_refl)
      as [d2 [Hd2 [Hid2 [Hs2 _]]]].
    exists b1, d2. simpl.
    split.
    { apply (touchesOnly_other _ _ _ _ b1 HT Hin1). exact Hne. }
    split; [exact Hd2|].
    split.
    { rewrite Hid2. exact Hne. }
    split; [exact Hb1|].
    rewrite (activeFor_sameScope userId (Budget.category b1) d2 doc Hs2).
    apply activeFor_true. subst doc. simpl. auto.
  - intros body body' Hact2 Hv Hcat.
    unfold BudgetRoutes.updateBudget.
    rewrite Hv, Hfind, recalcWindow_after_assignFields.
    set (doc := BudgetRoutes.assignFields body' b2).
    destruct (assignFields_fields body' b2) as (Hdid & Hdu & Hda & Hdc).
    fold doc in Hdid, Hdu, Hda, Hdc. rewrite Hcat in Hdc.
    pose proof (save_touches now (budgets s) doc Hnd) as HT1.
    destruct (save_tracks now (budgets s) doc Hnd) as (Hsc1 & _ & _).
    destruct (Budget.save now (budgets s) doc) as [coll1 doc1] eqn:Es1.
    simpl in HT1, Hsc1.
    assert (Hnd1 : uniqueIds coll1)
      by (apply (touchesOnly_uniqueIds _ _ _ _ HT1 Hnd)).
    pose proof (updateSpentAmount_touches now (records s) coll1 doc1 Hnd1)
      as HT2.
    destruct (updateSpentAmount_tracks now (records s) coll1 doc1 Hnd1)
      as (Hsc2 & _ & _).
    destruct (Budget.updateSpentAmount now (records s) coll1 doc1)
      as [coll2 doc2] eqn:Es2.
    simpl in HT2, Hsc2.
    assert (Hid1 : Budget._id doc1 = Budget._id b2).
    { destruct Hsc1 as (Hid & _). congruence. }
    exists doc2, (mkStore (records s) coll2 (nextId s)).
    split; [reflexivity|].
    assert (Hs2doc : sameScope doc2 doc)
      by (eapply sameScope_trans; eassumption).
    split.
    { destruct Hs2doc as (_ & _ & Hc & _). congruence. }
    destruct (touchesOnly_target _ _ _ _ b2 HT1 Hin2 (eq_sym Hdid))
      as [d2 [Hd2 [Hid2 [Hs2 _]]]].
    assert (Hid2' : Budget._id d2 = Budget._id doc1) by congruence.
    destruct (touchesOnly_target _ _ _ _ d2 HT2 Hd2 Hid2')
      as [e2 [He2 [Hide2 [Hse2 _]]]].
    exists b1, e2. simpl.
    split.
    { apply (touchesOnly_other _ _ _ _ b1 HT2); [|congruence].
      apply (touchesOnly_other _ _ _ _ b1 HT1 Hin1). congruence. }
    split; [exact He2|].
    split; [congruence|].
    split; [exact Hb1|].
    rewrite (activeFor_sameScope userId (Budget.category b1) e2 doc).
    + apply activeFor_true. repeat split; congruence.
    + eapply sameScope_trans; [exact Hse2 | exact Hsc1].
Qed.

Ltac distinct_ids :=
  repeat (constructor; [simpl; intuition discriminate|]); constructor.

Lemma toggle_and_update_skip_duplicate_check_witness :
  (exists budget' s',
      BudgetRoutes.toggleBudgetActive Sample.now Sample.crowded Sample.alice
        5%nat = (Json 200 budget', s')
      /\ Budget.isActive budget' = true
      /\ twoActive Sample.alice "Food & Dining" (budgets s'))
  /\ (exists budget' s',
         BudgetRoutes.updateBudget Sample.now Sample.crowded Sample.alice
           6%nat Sample.foodBody = (Json 200 budget', s')
         /\ Budget.category budget' = "Food & Dining"%string
         /\ twoActive Sample.alice "Food & Dining" (budgets s')).
Proof.
  assert (Hnd : uniqueIds (budgets Sample.crowded)).
  { unfold uniqueIds. simpl. distinct_ids. }
  split.
  - apply (toggle_and_update_skip_duplicate_check Sample.now Sample.crowded
             Sample.alice Sample.foodBudget Sample.retiredFood Hnd).
    + left. reflexivity.
    + right. left. reflexivity.
    + simpl. discriminate.
    + reflexivity.
    + reflexivity.
    + reflexivity.
    + reflexivity.
    + reflexivity.
  - apply (toggle_and_update_skip_duplicate_check Sample.now Sample.crowded
             Sample.alice Sample.foodBudget Sample.housingBudget Hnd)
      with (body' := Sample.foodBody).
    + left. reflexivity.
    + right. right. left. reflexivity.
    + simpl. discriminate.
    + reflexivity.
    + reflexivity.
    + reflexivity.
    + reflexivity.
    + reflexivity.
    + reflexivity.
Defined.

(** ** The record handlers *)




Lemma record_activeFor_sameScope userId c (a b : Budget.t) :
  sameScope a b ->
  RecordRoutes.activeFor userId c a = RecordRoutes.activeFor userId c b.
Proof.
  unfold sameScope, RecordRoutes.activeFor.
  intros (_ & Hu & Hc & Ha & _). rewrite Hu, Hc, Ha. reflexivity.
Qed.

Lemma reconciledAs_reconciled s b :
  reconciledAs s b -> reconciled s (Budget._id b).
Proof.
  intros [d (Hf & Hs & Ha)]. exists d. split; [exact Hf|].
  rewrite (spentTotal_sameScope (records s) d b Hs). exact Ha.
Qed.

(** *** One reconciliation step of a handler *)

Lemma reconcileFound_records now s found :
  records (RecordRoutes.reconcileFound now s found) = records s.
Proof. destruct found; reflexivity. Qed.

Lemma reconcileFound_touches now s b :
  uniqueIds (budgets s) ->
  touchesOnly (Budget._id b)
    (fun d' => sameScope d' b
               /\ Budget.spentAmount d' == spentTotal (records s) b)
    (budgets s) (budgets (RecordRoutes.reconcileFound now s (Some b))).
Proof.
  intros Hnd. simpl. apply updateSpentAmount_touches. exact Hnd.
Qed.

Lemma reconcileFound_uniqueIds now s found :
  uniqueIds (budgets s) ->
  uniqueIds (budgets (RecordRoutes.reconcileFound now s found)).
Proof.
  intros Hnd. destruct found as [b|]; [|exact Hnd].
  eapply touchesOnly_uniqueIds; [|exact Hnd].
  apply reconcileFound_touches. exact Hnd.
Qed.

Lemma reconcileFound_sameScope now s found :
  uniqueIds (budgets s) ->
  (forall b, found = Some b -> In b (budgets s)) ->
  Forall2 sameScope (budgets s)
    (budgets (RecordRoutes.reconcileFound now s found)).
Proof.
  intros Hnd Hin. destruct found as [b|].
  - apply (touchesOnly_sameScope b
             (fun d' => sameScope d' b
                        /\ Budget.spentAmount d'
                           == spentTotal (records s) b)).
    + intros d [Hs _]. exact Hs.
    + exact Hnd.
    + apply Hin. reflexivity.
    + apply reconcileFound_touches. exact Hnd.
  - simpl. apply Forall2_diag. intros x _. apply sameScope_refl.
Qed.

(** The step reconciles the budget it was given. *)
Lemma reconcileFound_target now s b :
  uniqueIds (budgets s) -> In b (budgets s) ->
  reconciledAs (RecordRoutes.reconcileFound now s (Some b)) b.
Proof.
  intros Hnd Hin.
  destruct (touchesOnly_findById _ _ _ _ b
              (reconcileFound_touches now s b Hnd) Hnd Hin eq_refl)
    as [d [Hf [Hs Ha]]].
  exists d. rewrite reconcileFound_records. auto.
Qed.


Lemma findOne_In p coll (b : Budget.t) :
  Budget.findOne p coll = Some b -> In b coll /\ p b = true.
Proof. unfold Budget.findOne. apply find_some. Qed.



(** *** The two steps of the update handler *)


Lemma updateRecord_unfold now s userId id body body' r0 :
  RecordRoutes.validateFinancialRecord body = Some body' ->
  FinancialRecord.findOne (RecordRoutes.owned userId id) (records s)
  = Some r0 ->
  FinancialRecord.validate (RecordRoutes.assign r0 body') = true ->
  FinancialRecord._id (RecordRoutes.assign r0 body') = FinancialRecord._id r0 ->
  RecordRoutes.updateRecord now s userId id body
  = (Json 200
       (snd (FinancialRecord.save now (records s)
               (RecordRoutes.assign r0 body'))),
     let record :=
       snd (FinancialRecord.save now (records s)
              (RecordRoutes.assign r0 body')) in
     let s1 :=
       mkStore
         (fst (FinancialRecord.save now (records s)
                 (RecordRoutes.assign r0 body')))
         (budgets s) (nextId s) in
     if RecordType.eqb (FinancialRecord.type r0) RecordType.expense
        || RecordType.eqb (FinancialRecord.type record) RecordType.expense
     then
       let s2 :=
         if negb (String.eqb (FinancialRecord.category r0)
                    (FinancialRecord.category record))
         then RecordRoutes.reconcileFound now s1
                (Budget.findOne
                   (RecordRoutes.activeFor userId (FinancialRecord.category r0))
                   (budgets s1))
         else s1 in
       RecordRoutes.reconcileFound now s2
         (Budget.findOne
            (RecordRoutes.activeCovering userId
               (FinancialRecord.category record) (FinancialRecord.date record))
            (budgets s2))
     else s1).
Proof.
  intros Hv Hf Hval Hid. unfold RecordRoutes.updateRecord. rewrite Hv, Hf.
  rewrite Hval, Hid, Nat.eqb_refl. cbn [andb].
  destruct (FinancialRecord.save now (records s)
              (RecordRoutes.assign r0 body')) as [coll record].
  reflexivity.
Qed.

(** A save that fails leaves the store alone. *)
Lemma updateRecord_refused now s userId id body body' r0 :
  RecordRoutes.validateFinancialRecord body = Some body' ->
  FinancialRecord.findOne (RecordRoutes.owned userId id) (records s)
  = Some r0 ->
  FinancialRecord.validate (RecordRoutes.assign r0 body')
  && (FinancialRecord._id (RecordRoutes.assign r0 body')
      =? FinancialRecord._id r0)%nat = false ->
  RecordRoutes.updateRecord now s userId id body
  = (Failure 500 "Server error updating record", s).
Proof.
  intros Hv Hf Hno. unfold RecordRoutes.updateRecord. rewrite Hv, Hf.
  cbv zeta. rewrite Hno. reflexivity.
Qed.


(** *** A record leaving a budget's category *)








(** ** Calendar arithmetic *)

Section Calendar.
Import JSDate.
Local Open Scope Z_scope.

(** [YearFromTime] meets its defining property. *)
Lemma YearFromTime_spec t :
  DayFromYear (YearFromTime t) <= Day t < DayFromYear (YearFromTime t + 1).
Proof.
  unfold YearFromTime.
  set (d := Day t). clearbody d.
  set (y0 := 1970 + d * 400 / 146097).
  assert (H0 : 146097 * (y0 - 1970) <= d * 400 < 146097 * (y0 - 1970) + 146097).
  { subst y0. pose proof (Z.div_mod (d * 400) 146097 ltac:(lia)).
    pose proof (Z.mod_pos_bound (d * 400) 146097 ltac:(lia)). lia. }
  clearbody y0.
  destruct (d <? DayFromYear y0) eqn:E1.
  - apply Z.ltb_lt in E1. replace (y0 - 1 + 1) with y0 by ring.
    split; [|exact E1].
    unfold DayFromYear in *. Z.div_mod_to_equations. lia.
  - apply Z.ltb_ge in E1.
    destruct (DayFromYear (y0 + 1) <=? d) eqn:E2.
    + apply Z.leb_le in E2. split; [exact E2|].
      unfold DayFromYear in *. Z.div_mod_to_equations. lia.
    + apply Z.leb_gt in E2. split; assumption.
Qed.


(** A year is 365 or 366 days long. *)
Lemma DayFromYear_step y :
  DayFromYear (y + 1) = DayFromYear y + DaysInYear y.
Proof.
  unfold DaysInYear, InLeapYear, DayFromYear.
  destruct (Z.eqb_spec (y mod 4) 0) as [E4|E4];
    destruct (Z.eqb_spec (y mod 100) 0) as [E100|E100];
    destruct (Z.eqb_spec (y mod 400) 0) as [E400|E400];
    cbn [andb orb negb];
    replace (y + 1 - 1970) with (y - 1969) by ring;
    replace (y + 1 - 1969) with (y - 1968) by ring;
    replace (y + 1 - 1901) with (y - 1900) by ring;
    replace (y + 1 - 1601) with (y - 1600) by ring.
  all: try (exfalso; Z.div_mod_to_equations; lia).
  all: Z.div_mod_to_equations; lia.
Qed.

Lemma YearFromTime_unique t y :
  DayFromYear y <= Day t < DayFromYear (y + 1) -> YearFromTime t = y.
Proof.
  intros H. pose proof (YearFromTime_spec t) as S.
  set (z := YearFromTime t) in *. clearbody z.
  unfold DayFromYear in *. Z.div_mod_to_equations. lia.
Qed.

Lemma Day_MakeDate day tod :
  0 <= tod < msPerDay -> Day (MakeDate day tod) = day.
Proof.
  unfold Day, MakeDate, msPerDay. intros H.
  Z.div_mod_to_equations. lia.
Qed.

Lemma month_cases m :
  0 <= m <= 11 ->
  m = 0 \/ m = 1 \/ m = 2 \/ m = 3 \/ m = 4 \/ m = 5 \/ m = 6 \/ m = 7
  \/ m = 8 \/ m = 9 \/ m = 10 \/ m = 11.
Proof. lia. Qed.

Lemma MakeDay_in_year Y m d :
  0 <= m <= 11 ->
  MakeDay Y m d = DayFromYear Y + DaysBeforeMonth (InLeapYear Y) m + d - 1.
Proof.
  intros H. unfold MakeDay.
  replace (m / 12) with 0 by (Z.div_mod_to_equations; lia).
  replace (m mod 12) with m by (Z.div_mod_to_equations; lia).
  cbv zeta. rewrite Z.add_0_r. reflexivity.
Qed.

(** The calendar fields of a date built from a year, a month and a day
    of that month are that year, month and day. *)
Lemma civil_roundtrip Y m d tod :
  0 <= m <= 11 ->
  1 <= d <= DaysInMonth (InLeapYear Y) m ->
  0 <= tod < msPerDay ->
  YearFromTime (MakeDate (MakeDay Y m d) tod) = Y
  /\ MonthFromTime (MakeDate (MakeDay Y m d) tod) = m
  /\ DateFromTime (MakeDate (MakeDay Y m d) tod) = d.
Proof.
  intros Hm Hd Htod.
  assert (HY : YearFromTime (MakeDate (MakeDay Y m d) tod) = Y).
  { apply YearFromTime_unique. rewrite (Day_MakeDate _ _ Htod).
    rewrite DayFromYear_step, (MakeDay_in_year Y m d Hm).
    unfold DaysInYear.
    destruct (InLeapYear Y);
      destruct (month_cases m Hm) as
        [->|[->|[->|[->|[->|[->|[->|[->|[->|[->|[->| ->]]]]]]]]]]];
      cbn in Hd |- *; lia. }
  assert (HM : MonthFromTime (MakeDate (MakeDay Y m d) tod) = m).
  { unfold MonthFromTime, DayWithinYear. rewrite HY.
    rewrite (Day_MakeDate _ _ Htod), (MakeDay_in_year Y m d Hm).
    destruct (InLeapYear Y);
      destruct (month_cases m Hm) as
        [->|[->|[->|[->|[->|[->|[->|[->|[->|[->|[->| ->]]]]]]]]]]];
      cbn in Hd;
      repeat match goal with
             | |- context [?a <? ?b] =>
                 destruct (Z.ltb_spec a b); try (cbn in *; lia)
             end;
      reflexivity. }
  split; [exact HY|]. split; [exact HM|].
  unfold DateFromTime, DayWithinYear. rewrite HM, HY.
  rewrite (Day_MakeDate _ _ Htod), (MakeDay_in_year Y m d Hm). ring.
Qed.

Lemma MakeDay_day0 Y mo :
  1 <= mo <= 12 ->
  MakeDay Y mo 0 = MakeDay Y (mo - 1) (DaysInMonth (InLeapYear Y) (mo - 1)).
Proof.
  intros H.
  rewrite (MakeDay_in_year Y (mo - 1)) by lia.
  destruct (Z.eq_dec mo 12) as [->|Hne].
  - unfold MakeDay. change (12 / 12) with 1. change (12 mod 12) with 0.
    cbv zeta. rewrite DayFromYear_step. unfold DaysInYear.
    destruct (InLeapYear Y); cbn; lia.
  - rewrite (MakeDay_in_year Y mo) by lia.
    assert (Hc : 0 <= mo - 1 <= 11) by lia.
    destruct (month_cases (mo - 1) Hc) as
      [E|[E|[E|[E|[E|[E|[E|[E|[E|[E|[E|E]]]]]]]]]]];
      rewrite E; replace mo with (mo - 1 + 1) by ring; rewrite E;
      destruct (InLeapYear Y); cbn; lia.
Qed.

(** The last second of month [mo] (1-indexed), as the summaries bound it,
    lies in that month. *)
Lemma last_second_in_month y mo t :
  1 <= mo <= 12 ->
  newDate y mo 0 23 59 59 <= t < newDate y mo 0 23 59 59 + 1000 ->
  getFullYear t = fullYear y
  /\ getMonth t = mo - 1
  /\ getDate t = DaysInMonth (InLeapYear (fullYear y)) (mo - 1).
Proof.
  intros Hmo Ht.
  unfold newDate, MakeDate, MakeTime in Ht.
  rewrite (MakeDay_day0 (fullYear y) mo Hmo) in Ht.
  set (Y := fullYear y) in *.
  set (day := MakeDay Y (mo - 1) (DaysInMonth (InLeapYear Y) (mo - 1))) in *.
  assert (E : t = MakeDate day (t - day * msPerDay)).
  { unfold MakeDate. ring. }
  rewrite E. unfold getFullYear, getMonth, getDate.
  apply civil_roundtrip.
  - lia.
  - assert (Hc : 0 <= mo - 1 <= 11) by lia.
    destruct (month_cases (mo - 1) Hc) as
      [->|[->|[->|[->|[->|[->|[->|[->|[->|[->|[->| ->]]]]]]]]]]];
      destruct (InLeapYear Y); cbn; lia.
  - unfold msPerDay in *. lia.
Qed.
End Calendar.

(** ** The month window of the summaries *)

(** Day 0 of a month is the eve of its first day. *)
Lemma newDate_day0 y m h mi s :
  JSDate.newDate y m 0 h mi s
  = (JSDate.newDate y m 1 h mi s - JSDate.msPerDay)%Z.
Proof.
  unfold JSDate.newDate, JSDate.MakeDate, JSDate.MakeDay. ring.
Qed.

(** The end bound of month [m] (1-indexed) is one second before the
    start bound of month [m + 1]. *)
Lemma month_end_bound y m :
  JSDate.newDate y m 0 23 59 59
  = (JSDate.newDate y ((m + 1) - 1) 1 0 0 0 - 1000)%Z.
Proof.
  replace (m + 1 - 1)%Z with m by ring.
  unfold JSDate.newDate, JSDate.MakeDate, JSDate.MakeDay, JSDate.MakeTime,
    JSDate.msPerDay.
  ring.
Qed.

(** December rolls over into January of the next year. *)
Lemma december_end_bound y :
  JSDate.newDate y 12 0 23 59 59
  = (JSDate.MakeDate (JSDate.MakeDay (JSDate.fullYear y + 1) 0 1) 0 - 1000)%Z.
Proof.
  unfold JSDate.newDate, JSDate.MakeDate, JSDate.MakeDay, JSDate.MakeTime,
    JSDate.msPerDay.
  change (12 / 12)%Z with 1%Z. change (12 mod 12)%Z with 0%Z.
  change (0 / 12)%Z with 0%Z. change (0 mod 12)%Z with 0%Z.
  cbv zeta. rewrite !Z.add_0_r. ring.
Qed.

(** February ends on the 29th in leap years only. *)
Lemma february_end_bound :
  JSDate.getDate (JSDate.newDate 2024 2 0 23 59 59) = 29%Z
  /\ JSDate.getDate (JSDate.newDate 2023 2 0 23 59 59) = 28%Z
  /\ JSDate.getDate (JSDate.newDate 2000 2 0 23 59 59) = 29%Z
  /\ JSDate.getDate (JSDate.newDate 1900 2 0 23 59 59) = 28%Z
  /\ JSDate.getMonth (JSDate.newDate 2024 2 0 23 59 59) = 1%Z
  /\ JSDate.getMonth (JSDate.newDate 2023 12 0 23 59 59) = 11%Z
  /\ JSDate.getDate (JSDate.newDate 2023 12 0 23 59 59) = 31%Z.
Proof. repeat split; vm_compute; reflexivity. Qed.

(** Records dated on either bound the method computes are counted. *)
Lemma month_bounds_counted y m (r : FinancialRecord.t) :
  (FinancialRecord.date r = JSDate.newDate y (m - 1) 1 0 0 0
   \/ FinancialRecord.date r = JSDate.newDate y m 0 23 59 59) ->
  (JSDate.newDate y (m - 1) 1 0 0 0 <= JSDate.newDate y m 0 23 59 59)%Z ->
  FinancialRecord.inRange (JSDate.newDate y (m - 1) 1 0 0 0)
    (JSDate.newDate y m 0 23 59 59) r = true.
Proof.
  unfold FinancialRecord.inRange. intros [-> | ->] Hle;
    apply andb_true_iff; split; apply Z.leb_le; lia.
Qed.

(** A record dated within the last second of month [m], after its
    first millisecond, is outside the window of month [m] and outside
    that of month [m + 1]. *)
Lemma month_windows_leave_gap y m (r : FinancialRecord.t) :
  (JSDate.newDate y m 0 23 59 59 < FinancialRecord.date r
   < JSDate.newDate y m 0 23 59 59 + 1000)%Z ->
  FinancialRecord.inRange (JSDate.newDate y (m - 1) 1 0 0 0)
    (JSDate.newDate y m 0 23 59 59) r = false
  /\ FinancialRecord.inRange (JSDate.newDate y ((m + 1) - 1) 1 0 0 0)
       (JSDate.newDate y (m + 1) 0 23 59 59) r = false.
Proof.
  intros [Hlo Hhi]. rewrite (month_end_bound y m) in Hhi.
  unfold FinancialRecord.inRange. split.
  - apply andb_false_iff. right. apply Z.leb_gt. exact Hlo.
  - apply andb_false_iff. left. apply Z.leb_gt. lia.
Qed.

(** So for every month there are instants of that month, the 999 last
    milliseconds, that neither its summary nor the next one counts. *)
Lemma last_second_in_no_summary y mo (r : FinancialRecord.t) :
  (1 <= mo <= 12)%Z ->
  (JSDate.newDate y mo 0 23 59 59 < FinancialRecord.date r
   < JSDate.newDate y mo 0 23 59 59 + 1000)%Z ->
  JSDate.getFullYear (FinancialRecord.date r) = JSDate.fullYear y
  /\ JSDate.getMonth (FinancialRecord.date r) = (mo - 1)%Z
  /\ FinancialRecord.inRange (JSDate.newDate y (mo - 1) 1 0 0 0)
       (JSDate.newDate y mo 0 23 59 59) r = false
  /\ FinancialRecord.inRange (JSDate.newDate y ((mo + 1) - 1) 1 0 0 0)
       (JSDate.newDate y (mo + 1) 0 23 59 59) r = false.
Proof.
  intros Hmo Ht.
  destruct (last_second_in_month y mo (FinancialRecord.date r) Hmo)
    as (Hy & Hm & _); [lia|].
  destruct (month_windows_leave_gap y mo r Ht) as [H1 H2].
  repeat split; assumption.
Qed.

(** C4 (the code at a failing input). A refund of 250 is booked on
    31 March 2024 at 23:59:59.500, inside March.  The end bound of the
    March summary is 23:59:59.000, so the March summary leaves the
    refund out; the April summary starts at midnight and leaves it out
    too, while the all-time balance counts it. *)
Theorem monthly_summary_misses_last_second :
  JSDate.getFullYear (FinancialRecord.date Sample.lateRefund) = 2024%Z
  /\ JSDate.getMonth (FinancialRecord.date Sample.lateRefund) = 2%Z
  /\ JSDate.getDate (FinancialRecord.date Sample.lateRefund) = 31%Z
  /\ (FinancialRecord.date Sample.lateRefund
      < JSDate.newDate 2024 3 1 0 0 0)%Z
  /\ MonthlySummary.income
       (FinancialRecord.getMonthlySummary [Sample.lateRefund] Sample.alice
          2024 3) == 0
  /\ MonthlySummary.income
       (FinancialRecord.getMonthlySummary [Sample.lateRefund] Sample.alice
          2024 4) == 0
  /\ Balance.income
       (FinancialRecord.getUserBalance [Sample.lateRefund] Sample.alice)
     == 250.
Proof. repeat split; vm_compute; reflexivity. Qed.

(** ** Patterns without special characters *)

Lemma parse_plain cs :
  plain cs ->
  forall al at_ st,
    RegExp.parse cs (RegExp.mkFrame al at_) [] st
    = RegExp.Pattern
        (RegExp.closeFrame
           (RegExp.mkFrame al (rev (map RegExp.Chr cs) ++ at_))).
Proof.
  induction 1 as [|c cs Hc Hcs IH]; intros al at_ st.
  - reflexivity.
  - simpl RegExp.parse. rewrite Hc.
    unfold RegExp.push. simpl RegExp.alts. simpl RegExp.atoms.
    rewrite IH. simpl. rewrite <- app_assoc. reflexivity.
Qed.

Lemma compile_plain (p : string) :
  plain (list_ascii_of_string p) ->
  RegExp.compile p = RegExp.Pattern (literal (list_ascii_of_string p)).
Proof.
  intros H. unfold RegExp.compile. rewrite (parse_plain _ H).
  unfold RegExp.closeFrame, RegExp.seqOf, literal. simpl.
  rewrite app_nil_r, <- fold_left_rev_right, rev_involutive. reflexivity.
Qed.

Lemma matches_literal cs :
  forall b s,
    RegExp.matches (literal cs) b s (fun _ _ => true) = prefixCI cs s.
Proof.
  unfold literal.
  induction cs as [|c cs IH]; intros b s; simpl.
  - reflexivity.
  - destruct s as [|x s]; [reflexivity|].
    rewrite IH. reflexivity.
Qed.

Lemma eqCI_iff a b : Text.eqCI a b = true <-> Text.toUpper a = Text.toUpper b.
Proof. unfold Text.eqCI. apply Ascii.eqb_eq. Qed.

Lemma prefixCI_iff needle hay :
  prefixCI needle hay = true
  <-> exists mid post,
        hay = mid ++ post /\ map Text.toUpper mid = map Text.toUpper needle.
Proof.
  revert hay. induction needle as [|c needle IH]; intros hay; simpl.
  - split; [|reflexivity].
    intros _. exists [], hay. split; reflexivity.
  - destruct hay as [|x hay].
    + split; [discriminate|].
      intros (mid & post & E & Hm).
      destruct mid; [discriminate Hm | discriminate E].
    + rewrite andb_true_iff, eqCI_iff, IH. split.
      * intros [Hcx (mid & post & E & Hm)].
        exists (x :: mid), post. simpl. split; congruence.
      * intros (mid & post & E & Hm).
        destruct mid as [|y mid]; [discriminate Hm|].
        simpl in E, Hm. injection E as <- E. injection Hm as Hy Hm.
        split; [congruence|]. exists mid, post. split; assumption.
Qed.

Lemma searchFrom_literal cs s b :
  RegExp.searchFrom (literal cs) b s = true
  <-> exists pre mid post,
        s = pre ++ mid ++ post
        /\ map Text.toUpper mid = map Text.toUpper cs.
Proof.
  revert b. induction s as [|x s IH]; intros b; simpl;
    rewrite matches_literal, orb_true_iff, prefixCI_iff.
  - split.
    + intros [(mid & post & E & Hm) | H]; [|discriminate].
      exists [], mid, post. split; assumption.
    + intros (pre & mid & post & E & Hm). left.
      destruct pre; [|discriminate E].
      exists mid, post. split; assumption.
  - rewrite IH. split.
    + intros [(mid & post & E & Hm) | (pre & mid & post & E & Hm)].
      * exists [], mid, post. split; assumption.
      * exists (x :: pre), mid, post. simpl. split; congruence.
    + intros (pre & mid & post & E & Hm).
      destruct pre as [|y pre].
      * left. exists mid, post. split; assumption.
      * right. simpl in E. injection E as <- E.
        exists pre, mid, post. split; assumption.
Qed.

Lemma test_literal (c hay : string) :
  RegExp.test (literal (list_ascii_of_string c)) hay = true
  <-> containsCI c hay.
Proof. unfold RegExp.test, containsCI. apply searchFrom_literal. Qed.

(** ** The listing *)

Lemma insertNewer_In x r l :
  In x (RecordRoutes.insertNewer r l) <-> x = r \/ In x l.
Proof.
  induction l as [|h l IH]; simpl.
  - intuition.
  - destruct (RecordRoutes.newerFirst r h); simpl.
    + intuition.
    + rewrite IH. intuition.
Qed.

Lemma sortNewerFirst_In x l :
  In x (RecordRoutes.sortNewerFirst l) <-> In x l.
Proof.
  unfold RecordRoutes.sortNewerFirst.
  induction l as [|h l IH]; simpl.
  - reflexivity.
  - rewrite insertNewer_In, IH. intuition.
Qed.

Lemma page_In A (x : A) n k l : In x (firstn n (skipn k l)) -> In x l.
Proof.
  intros H.
  rewrite <- (firstn_skipn k l). apply in_or_app. right.
  rewrite <- (firstn_skipn n (skipn k l)). apply in_or_app. left. exact H.
Qed.

Lemma truthy_Some x c :
  x = Some c -> c <> ""%string -> RecordRoutes.truthy x = Some c.
Proof.
  intros -> Hc. unfold RecordRoutes.truthy.
  destruct (String.eqb c "") eqn:E; [|reflexivity].
  apply String.eqb_eq in E. contradiction.
Qed.

Lemma selects_literal userId q c r :
  RecordRoutes.selects userId q (Some (literal (list_ascii_of_string c))) r
  = true
  <-> matchesQuery userId q c r.
Proof.
  unfold RecordRoutes.selects, matchesQuery.
  rewrite !andb_true_iff, Nat.eqb_eq, test_literal.
  assert (Ht : match RecordRoutes.truthy (RecordRoutes.q_type q) with
               | Some ty =>
                   String.eqb (RecordType.name (FinancialRecord.type r))
                     (Text.toLowerCase ty)
               | None => true
               end = true
               <-> (forall ty,
                      RecordRoutes.truthy (RecordRoutes.q_type q) = Some ty ->
                      RecordType.name (FinancialRecord.type r)
                      = Text.toLowerCase ty)).
  { destruct (RecordRoutes.truthy (RecordRoutes.q_type q)) as [ty|].
    - rewrite String.eqb_eq. split.
      + intros H ty' E. congruence.
      + intros H. apply H. reflexivity.
    - split; [discriminate | reflexivity]. }
  assert (Hs : match RecordRoutes.q_startDate q with
               | Some d => (d <=? FinancialRecord.date r)%Z
               | None => true
               end = true
               <-> (forall d, RecordRoutes.q_startDate q = Some d ->
                              (d <= FinancialRecord.date r)%Z)).
  { destruct (RecordRoutes.q_startDate q) as [d|].
    - rewrite Z.leb_le. split.
      + intros H d' E. congruence.
      + intros H. apply H. reflexivity.
    - split; [discriminate | reflexivity]. }
  assert (He : match RecordRoutes.q_endDate q with
               | Some d => (FinancialRecord.date r <=? d)%Z
               | None => true
               end = true
               <-> (forall d, RecordRoutes.q_endDate q = Some d ->
                              (FinancialRecord.date r <= d)%Z)).
  { destruct (RecordRoutes.q_endDate q) as [d|].
    - rewrite Z.leb_le. split.
      + intros H d' E. congruence.
      + intros H. apply H. reflexivity.
    - split; [discriminate | reflexivity]. }
  rewrite Ht, Hs, He. tauto.
Qed.

(** C10 (counterexample to the claim as written). The type filter is
    not compared as it comes: a listing asked for type "EXPENSE" holds
    the two expense records of the ledger, whose stored type is
    "expense". *)
Lemma listRecords_type_filter_is_lowercased :
  exists listing,
    RecordRoutes.listRecords Sample.ledger Sample.alice
      (RecordRoutes.mkQuery None None (Some "EXPENSE"%string) None None None)
    = Some (Json 200 listing)
    /\ RecordRoutes.Listing.records listing = [Sample.groceries; Sample.rent]
    /\ RecordRoutes.Listing.total listing = 2%nat
    /\ RecordType.name (FinancialRecord.type Sample.groceries)
       = "expense"%string
    /\ RecordType.name (FinancialRecord.type Sample.rent) = "expense"%string
    /\ "EXPENSE"%string <> "expense"%string.
Proof.
  eexists. split; [vm_compute; reflexivity|].
  repeat split; try reflexivity. discriminate.
Qed.

(** C10 (as amended). [listRecords] reads its category filter as a
    case-insensitive pattern searched for in the stored category, not
    as a value to be equal to: for a filter without special characters
    the records selected are those of the user whose category contains
    the filter, letter case apart (so "food" lists the record filed
    under "Food & Dining"), the type filter, when given, being put in
    lower case and then compared for equality with the stored type;
    and special characters keep their meaning ("^dining" selects
    nothing where "dining" selects the record, "hous|sal" selects two
    categories, and an ill-formed pattern makes the request fail). *)
Theorem listRecords_category_filter_is_pattern :
  (forall (s : Store) (userId : ObjectId) (q : RecordRoutes.Query)
          (c : string),
      RecordRoutes.q_category q = Some c ->
      c <> ""%string ->
      plain (list_ascii_of_string c) ->
      exists (p : FinancialRecord.t -> bool) (listing : RecordRoutes.Listing.t),
        RecordRoutes.listRecords s userId q = Some (Json 200 listing)
        /\ (forall r, p r = true <-> matchesQuery userId q c r)
        /\ RecordRoutes.Listing.total listing
           = List.length (filter p (records s))
        /\ RecordRoutes.Listing.records listing
           = firstn (Pos.to_nat (RecordRoutes.orElse (RecordRoutes.q_limit q)
                                   10%positive))
               (skipn ((Pos.to_nat (RecordRoutes.orElse (RecordRoutes.q_page q)
                                      1%positive) - 1)
                       * Pos.to_nat (RecordRoutes.orElse
                                       (RecordRoutes.q_limit q) 10%positive))
                  (RecordRoutes.sortNewerFirst (filter p (records s))))
        /\ (forall r, In r (RecordRoutes.Listing.records listing) ->
                      In r (records s) /\ matchesQuery userId q c r))
  /\ (exists listing,
         RecordRoutes.listRecords Sample.ledger Sample.alice
           (Sample.byCategory "food") = Some (Json 200 listing)
         /\ RecordRoutes.Listing.records listing = [Sample.groceries]
         /\ RecordRoutes.Listing.total listing = 1%nat
         /\ FinancialRecord.category Sample.groceries
            = "Food & Dining"%string
         /\ "food"%string <> "Food & Dining"%string)
  /\ (exists l1 l2 l3,
         RecordRoutes.listRecords Sample.ledger Sample.alice
           (Sample.byCategory "dining") = Some (Json 200 l1)
         /\ RecordRoutes.Listing.records l1 = [Sample.groceries]
         /\ RecordRoutes.listRecords Sample.ledger Sample.alice
              (Sample.byCategory "^dining") = Some (Json 200 l2)
         /\ RecordRoutes.Listing.records l2 = []
         /\ RecordRoutes.listRecords Sample.ledger Sample.alice
              (Sample.byCategory "hous|sal") = Some (Json 200 l3)
         /\ RecordRoutes.Listing.records l3 = [Sample.rent; Sample.salary])
  /\ RecordRoutes.listRecords Sample.ledger Sample.alice
       (Sample.byCategory "(food")
     = Some (Failure 500 "Server error fetching records").
Proof.
  split; [|split; [|split]].
  - intros s userId q c Hq Hc Hplain.
    exists (RecordRoutes.selects userId q
              (Some (literal (list_ascii_of_string c)))).
    eexists. split.
    { unfold RecordRoutes.listRecords.
      rewrite (truthy_Some _ c Hq Hc), (compile_plain c Hplain).
      unfold RecordRoutes.runListing. reflexivity. }
    split; [intros r; apply selects_literal|].
    split; [reflexivity|]. split; [reflexivity|].
    intros r Hr. simpl in Hr. apply page_In in Hr.
    apply (proj1 (sortNewerFirst_In _ _)) in Hr.
    apply (proj1 (filter_In _ _ _)) in Hr.
    destruct Hr as [Hin Hsel]. split; [exact Hin|].
    apply selects_literal. exact Hsel.
  - eexists. split; [vm_compute; reflexivity|].
    repeat split; try reflexivity. discriminate.
  - eexists. eexists. eexists.
    split; [vm_compute; reflexivity|]. split; [vm_compute; reflexivity|].
    split; [vm_compute; reflexivity|]. split; [vm_compute; reflexivity|].
    split; [vm_compute; reflexivity|]. vm_compute. reflexivity.
  - vm_compute. reflexivity.
Qed.

Lemma listRecords_category_filter_is_pattern_witness :
  exists listing,
    RecordRoutes.listRecords Sample.ledger Sample.alice
      (Sample.byCategory "food") = Some (Json 200 listing)
    /\ forall r, In r (RecordRoutes.Listing.records listing) ->
                 containsCI "food" (FinancialRecord.category r).
Proof.
  assert (Hplain : plain (list_ascii_of_string "food")).
  { unfold plain. simpl. repeat constructor. }
  assert (Hne : "food"%string <> ""%string) by discriminate.
  destruct (proj1 listRecords_category_filter_is_pattern Sample.ledger
              Sample.alice (Sample.byCategory "food") "food"%string
              eq_refl Hne Hplain)
    as (p & listing & E & _ & _ & _ & Hall).
  exists listing. split; [exact E|].
  intros r Hr. destruct (Hall r Hr) as (_ & _ & _ & Hc & _). exact Hc.
Defined.

(** ** The scenarios of March 2024, run on the handlers *)

(** Scenario A: the summary of March. *)
Example scenario_A_march_summary :
  RecordRoutes.getMonthlySummary Sample.ledger Sample.alice
    (Some 2024%Z) (Some 3%Z)
  = Json 200 (MonthlySummary.mk 5000 1700 3300 3 2024).
Proof. vm_compute. reflexivity. Qed.

(** Scenario B: a monthly food budget of 600 created on 20 March is
    reconciled at once to 500 spent, which is a warning. *)
Example scenario_B_budget_created :
  BudgetRoutes.createBudget Sample.now Sample.ledger Sample.alice
    Sample.foodBody
  = (Json 201 Sample.foodBudget, Sample.budgeted)
  /\ Budget.status Sample.foodBudget = Status.warning
  /\ Budget.remainingAmount Sample.foodBudget == 100.
Proof.
  split; [vm_compute; reflexivity|].
  split; vm_compute; reflexivity.
Qed.

(** Scenario C: once the groceries are deleted, fetching the budget
    reconciles it to 0 spent. *)
Example scenario_C_record_deleted :
  exists s' budget s'',
    RecordRoutes.deleteRecord Sample.now Sample.budgeted Sample.alice 3%nat
    = (Json 200 tt, s')
    /\ BudgetRoutes.getBudget Sample.later s' Sample.alice 4%nat
       = (Json 200 budget, s'')
    /\ Budget.spentAmount budget == 0
    /\ Budget.status budget = Status.good.
Proof.
  eexists. eexists. eexists.
  split; [vm_compute; reflexivity|].
  split; [vm_compute; reflexivity|].
  split; vm_compute; reflexivity.
Qed.

(** A new expense inside the window of its category's budget is
    counted as soon as it is created. *)
Example expense_created_is_counted :
  exists record s',
    RecordRoutes.createRecord Sample.now Sample.budgeted Sample.alice
      (RecordRoutes.formBody (Some "Lunch"%string) (Some (25 # 2))
         (Some RecordType.expense) (Some "  Food & Dining "%string)
         None None)
    = (Json 201 record, s')
    /\ FinancialRecord.category record = "Food & Dining"%string
    /\ exists budget,
         Budget.findById 4%nat (budgets s') = Some budget
         /\ Budget.spentAmount budget == 1025 # 2.
Proof.
  eexists. eexists. split; [vm_compute; reflexivity|].
  split; [reflexivity|].
  eexists. split; vm_compute; reflexivity.
Qed.

(* ================================================================== *)
(** * Further properties of the handlers *)
(* ================================================================== *)

(** ** Sorting by insertion *)

Lemma insertByCategory_perm b l :
  Permutation (Budget.insertByCategory b l) (b :: l).
Proof.
  induction l as [|h l IH]; simpl.
  - apply Permutation_refl.
  - destruct (String.leb (Budget.category b) (Budget.category h)).
    + apply Permutation_refl.
    + eapply Permutation_trans; [apply perm_skip; exact IH|].
      apply perm_swap.
Qed.

Lemma sortByCategory_perm l : Permutation (Budget.sortByCategory l) l.
Proof.
  unfold Budget.sortByCategory.
  induction l as [|h l IH]; simpl.
  - apply Permutation_refl.
  - eapply Permutation_trans; [apply insertByCategory_perm|].
    apply perm_skip. exact IH.
Qed.

Lemma insertByCategory_sorted b l :
  sortedByCategory l -> sortedByCategory (Budget.insertByCategory b l).
Proof.
  unfold sortedByCategory.
  induction l as [|h l IH]; intros Hs; simpl.
  - repeat constructor.
  - destruct (String.leb (Budget.category b) (Budget.category h)) eqn:E.
    + constructor; [exact Hs|]. constructor. exact E.
    + inversion Hs as [|x y Hs' Hhd]; subst.
      constructor; [apply IH; exact Hs'|].
      destruct l as [|k l]; simpl.
      * constructor.
        destruct (String.leb_total (Budget.category b) (Budget.category h))
          as [H|H]; [congruence | exact H].
      * destruct (String.leb (Budget.category b) (Budget.category k)).
        -- constructor.
           destruct (String.leb_total (Budget.category b)
                       (Budget.category h)) as [H|H];
             [congruence | exact H].
        -- inversion Hhd; subst. constructor. assumption.
Qed.

Lemma sortByCategory_sorted l : sortedByCategory (Budget.sortByCategory l).
Proof.
  unfold Budget.sortByCategory.
  induction l as [|h l IH]; simpl.
  - constructor.
  - apply insertByCategory_sorted. exact IH.
Qed.

(** A list related element by element to a sorted one, categories
    kept, is sorted. *)
Lemma sortedByCategory_Forall2 l l' :
  Forall2 (fun d d' => Budget.category d' = Budget.category d) l l' ->
  sortedByCategory l -> sortedByCategory l'.
Proof.
  unfold sortedByCategory.
  induction 1 as [|a b l l' Hab H IH]; intros Hs.
  - constructor.
  - inversion Hs as [|x y Hs' Hhd]; subst.
    constructor; [apply IH; exact Hs'|].
    destruct H as [|a2 b2 l2 l2' Hab2 H2].
    + constructor.
    + inversion Hhd; subst. constructor. rewrite Hab, Hab2. assumption.
Qed.

(** ** Reconciling a list of documents *)

Lemma Forall2_chain A (R1 R2 R3 : A -> A -> Prop) l1 l2 l3 :
  (forall x y z, R1 x y -> R2 y z -> R3 x z) ->
  Forall2 R1 l1 l2 -> Forall2 R2 l2 l3 -> Forall2 R3 l1 l3.
Proof.
  intros Hc H12. revert l3.
  induction H12 as [|a b l1 l2 Hab H IH]; intros l3 H23;
    inversion H23; subst; constructor; eauto.
Qed.

Lemma updateSpentAmounts_spec now recs docs :
  forall coll,
    uniqueIds coll ->
    NoDup (map Budget._id docs) ->
    Forall2
      (fun d d' => sameScope d' d
                   /\ Budget.spentAmount d' == spentTotal recs d)
      docs (snd (Budget.updateSpentAmounts now recs coll docs))
    /\ Forall2
         (fun c c' =>
            Budget._id c' = Budget._id c
            /\ (~ In (Budget._id c) (map Budget._id docs) -> c' = c)
            /\ (forall d, In d docs -> Budget._id d = Budget._id c ->
                          sameScope c' d
                          /\ Budget.spentAmount c' == spentTotal recs d))
         coll (fst (Budget.updateSpentAmounts now recs coll docs)).
Proof.
  induction docs as [|d ds IH]; intros coll Hnd Hdocs; simpl.
  - split; [constructor|].
    apply Forall2_diag. intros c _.
    split; [reflexivity|]. split; [reflexivity|]. intros ? [].
  - inversion Hdocs as [|x l Hnotin Hds]; subst.
    pose proof (updateSpentAmount_touches now recs coll d Hnd) as HT.
    destruct (updateSpentAmount_tracks now recs coll d Hnd) as (Hsc & Hsp & _).
    destruct (Budget.updateSpentAmount now recs coll d) as [coll1 d1] eqn:E1.
    simpl in HT, Hsc, Hsp.
    assert (Hnd1 : uniqueIds coll1)
      by (apply (touchesOnly_uniqueIds _ _ _ _ HT Hnd)).
    destruct (IH coll1 Hnd1 Hds) as [IHdocs IHcoll].
    destruct (Budget.updateSpentAmounts now recs coll1 ds)
      as [coll2 ds2] eqn:E2.
    simpl in IHdocs, IHcoll |- *.
    split.
    + constructor; [split; assumption | exact IHdocs].
    + unfold touchesOnly in HT.
      eapply Forall2_chain; [|exact HT|exact IHcoll].
      intros c c1 c2 (Hid1 & Hne1 & Heq1) (Hid2 & Hout2 & Hin2).
      split; [congruence|]. split.
      * intros Hout. rewrite Hout2.
        -- apply Hne1. intros E. apply Hout. left. congruence.
        -- intros Hin. apply Hout. right. congruence.
      * intros d0 [<- | Hd0] Hd0id.
        -- rewrite Hout2.
           ++ apply Heq1. congruence.
           ++ rewrite Hid1, <- Hd0id. exact Hnotin.
        -- assert (Hne : Budget._id c <> Budget._id d).
           { intros E. apply Hnotin. rewrite <- E, <- Hd0id.
             apply in_map. exact Hd0. }
           apply (Hin2 d0 Hd0). rewrite (Hne1 Hne). exact Hd0id.
Qed.

Lemma Forall2_In_r A B (R : A -> B -> Prop) l l' y :
  Forall2 R l l' -> In y l' -> exists x, In x l /\ R x y.
Proof.
  induction 1 as [|a b l l' Hab H IH]; intros Hin; [contradiction|].
  destruct Hin as [Hin|Hin].
  - subst. exists a. split; [left; reflexivity | exact Hab].
  - destruct (IH Hin) as [x [Hx HR]]. exists x. split; [right|]; assumption.
Qed.

Lemma NoDup_map_filter A B (f : A -> B) (p : A -> bool) l :
  NoDup (map f l) -> NoDup (map f (filter p l)).
Proof.
  induction l as [|x l IH]; simpl; intros H; [constructor|].
  inversion H as [|y k Hnotin Hnd]; subst.
  destruct (p x); simpl.
  - constructor; [|apply IH; exact Hnd].
    intros Hin. apply Hnotin.
    apply in_map_iff in Hin. destruct Hin as [z [Hz Hin]].
    apply filter_In in Hin. destruct Hin as [Hin _].
    rewrite <- Hz. apply in_map. exact Hin.
  - apply IH. exact Hnd.
Qed.

Lemma Forall2_ids_uniqueIds (R : Budget.t -> Budget.t -> Prop) coll coll' :
  (forall c c', R c c' -> Budget._id c' = Budget._id c) ->
  Forall2 R coll coll' -> uniqueIds coll -> uniqueIds coll'.
Proof.
  intros HR HF. unfold uniqueIds.
  assert (E : map Budget._id coll' = map Budget._id coll).
  { induction HF as [|a b l l' Hab H IH]; simpl; [reflexivity|].
    rewrite IH, (HR _ _ Hab). reflexivity. }
  rewrite E. auto.
Qed.

(** What the loop over found documents does, for documents found in
    the collection itself. *)
Lemma updateSpentAmounts_found now recs coll docs :
  uniqueIds coll ->
  NoDup (map Budget._id docs) ->
  (forall d, In d docs -> In d coll) ->
  let r := Budget.updateSpentAmounts now recs coll docs in
  uniqueIds (fst r)
  /\ Forall2
       (fun d d' => sameScope d' d
                    /\ Budget.spentAmount d' == spentTotal recs d)
       docs (snd r)
  /\ (forall d, In d docs ->
        exists c', Budget.findById (Budget._id d) (fst r) = Some c'
                   /\ sameScope c' d
                   /\ Budget.spentAmount c' == spentTotal recs c')
  /\ (forall c, In c coll -> ~ In (Budget._id c) (map Budget._id docs) ->
                In c (fst r))
  /\ Forall2 sameScope coll (fst r).
Proof.
  intros Hnd Hdocs Hsub r.
  destruct (updateSpentAmounts_spec now recs docs coll Hnd Hdocs)
    as [Hd Hc].
  fold r in Hd, Hc.
  assert (Hnd' : uniqueIds (fst r)).
  { eapply Forall2_ids_uniqueIds; [|exact Hc|exact Hnd].
    intros c c' (Hid & _). exact Hid. }
  split; [exact Hnd'|]. split; [exact Hd|]. split; [|split].
  - intros d Hin.
    destruct (Forall2_In_l _ _ _ _ _ _ Hc (Hsub d Hin))
      as [c' [Hc' (Hid & _ & Hrel)]].
    destruct (Hrel d Hin eq_refl) as [Hs Ha].
    exists c'. split.
    + rewrite <- Hid. apply findById_In; assumption.
    + split; [exact Hs|].
      rewrite (spentTotal_sameScope recs c' d Hs). exact Ha.
  - intros c Hin Hout.
    destruct (Forall2_In_l _ _ _ _ _ _ Hc Hin) as [c' [Hc' (_ & Hsame & _)]].
    rewrite (Hsame Hout) in Hc'. exact Hc'.
  - assert (Hall : Forall2 (fun c c' => In c coll -> sameScope c c')
                     coll (fst r)).
    { eapply Forall2_impl; [|exact Hc].
      intros c c' (Hid & Hout & Hrel) Hin.
      destruct (in_dec Nat.eq_dec (Budget._id c) (map Budget._id docs))
        as [Hi|Ho].
      - apply in_map_iff in Hi. destruct Hi as [d [Hdid Hdin]].
        assert (d = c)
          by (apply (uniqueIds_inj coll); auto).
        subst d. apply sameScope_sym. apply (Hrel c Hdin eq_refl).
      - rewrite (Hout Ho). apply sameScope_refl. }
    apply (Forall2_under_In _ _ coll coll (fst r) Hall). apply incl_refl.
Qed.

Lemma sorted_docs_facts (p : Budget.t -> bool) coll :
  uniqueIds coll ->
  NoDup (map Budget._id (Budget.sortByCategory (filter p coll)))
  /\ (forall d, In d (Budget.sortByCategory (filter p coll))
                <-> In d coll /\ p d = true).
Proof.
  intros Hnd.
  pose proof (sortByCategory_perm (filter p coll)) as HP.
  split.
  - eapply Permutation_NoDup.
    + apply Permutation_map. apply Permutation_sym. exact HP.
    + apply NoDup_map_filter. exact Hnd.
  - intros d. rewrite <- filter_In. split.
    + apply Permutation_in. exact HP.
    + apply Permutation_in. apply Permutation_sym. exact HP.
Qed.

(** X1. [listBudgets] answers with the caller's budgets (the active
    ones unless [active] says otherwise), in ascending order of
    category, each one reconciled against the records, in the answer
    and in the store; every budget of the caller that the query asks
    for is in the answer, and the records are left alone. *)
Theorem listBudgets_sorted_and_reconciled :
  forall (now : Z) (s : Store) (userId : ObjectId) (active : option string),
    uniqueIds (budgets s) ->
    exists l s',
      BudgetRoutes.listBudgets now s userId active = (Json 200 l, s')
      /\ records s' = records s
      /\ nextId s' = nextId s
      /\ sortedByCategory l
      /\ (forall b, In b l ->
            Budget.user b = userId
            /\ (activeOnly active -> Budget.isActive b = true)
            /\ Budget.spentAmount b == spentTotal (records s) b
            /\ reconciled s' (Budget._id b))
      /\ (forall d, In d (budgets s) ->
            Budget.user d = userId ->
            (activeOnly active -> Budget.isActive d = true) ->
            exists b, In b l /\ Budget._id b = Budget._id d).
Proof.
  intros now s userId active Hnd.
  unfold BudgetRoutes.listBudgets.
  set (act := match active with Some a => a | None => "true"%string end).
  set (query := fun b : Budget.t =>
                  (Budget.user b =? userId)%nat
                  && (if String.eqb act "true" then Budget.isActive b
                      else true)).
  assert (Hact : String.eqb act "true" = true <-> activeOnly active).
  { unfold activeOnly, act. destruct active as [a|].
    - rewrite String.eqb_eq. split.
      + intros ->. right. reflexivity.
      + intros [H|H]; [discriminate | congruence].
    - split; [left; reflexivity | reflexivity]. }
  destruct (sorted_docs_facts query (budgets s) Hnd) as [Hdocs Hin].
  set (docs := Budget.sortByCategory (filter query (budgets s))) in *.
  destruct (updateSpentAmounts_found now (records s) (budgets s) docs Hnd
              Hdocs (fun d H => proj1 (proj1 (Hin d) H)))
    as (Hnd' & Hrel & Hstored & _ & _).
  destruct (Budget.updateSpentAmounts now (records s) (budgets s) docs)
    as [coll l] eqn:E.
  simpl in Hnd', Hrel, Hstored.
  exists l, (mkStore (records s) coll (nextId s)).
  split; [reflexivity|]. split; [reflexivity|]. split; [reflexivity|].
  split.
  { apply (sortedByCategory_Forall2 docs l).
    - eapply Forall2_impl; [|exact Hrel].
      intros d d' [(_ & _ & Hc & _) _]. exact Hc.
    - apply sortByCategory_sorted. }
  split.
  - intros b Hb.
    destruct (Forall2_In_r _ _ _ _ _ _ Hrel Hb) as [d [Hd [Hs Ha]]].
    destruct (proj1 (Hin d) Hd) as [Hdin Hq].
    unfold query in Hq. apply andb_prop in Hq. destruct Hq as [Hu Hq].
    apply Nat.eqb_eq in Hu.
    destruct Hs as (Hid & Hus & Hcat & Hac & Hst & Hen).
    split; [congruence|]. split.
    { intros Ho. apply Hact in Ho. rewrite Ho in Hq. congruence. }
    split.
    { rewrite Ha. unfold spentTotal.
      rewrite (filter_ext (Budget.spentMatch b) (Budget.spentMatch d));
        [reflexivity|].
      apply spentMatch_sameScope. repeat split; assumption. }
    destruct (Hstored d Hd) as [c' (Hf & Hsc & Hsp)].
    exists c'. simpl. split; [rewrite Hid; exact Hf | exact Hsp].
  - intros d Hd Hu Ha.
    assert (Hq : query d = true).
    { unfold query. rewrite Hu, Nat.eqb_refl. simpl.
      destruct (String.eqb act "true"); [|reflexivity].
      apply Ha. apply Hact. reflexivity. }
    destruct (Forall2_In_l _ _ _ _ _ _ Hrel (proj2 (Hin d) (conj Hd Hq)))
      as [b [Hb [(Hid & _) _]]].
    exists b. split; assumption.
Qed.

Lemma listBudgets_sorted_and_reconciled_witness :
  exists l s',
    BudgetRoutes.listBudgets Sample.later Sample.crowded Sample.alice None
    = (Json 200 l, s')
    /\ sortedByCategory l
    /\ map Budget._id l = [4%nat; 6%nat].
Proof.
  assert (Hnd : uniqueIds (budgets Sample.crowded)).
  { unfold uniqueIds. simpl. distinct_ids. }
  destruct (listBudgets_sorted_and_reconciled Sample.later Sample.crowded
              Sample.alice None Hnd)
    as (l & s' & E & _ & _ & Hs & _).
  exists l, s'. split; [exact E|]. split; [exact Hs|].
  vm_compute in E. injection E as <- _. reflexivity.
Defined.

(** ** The overview *)

Lemma Qsum_cons (x : Q) (l : list Q) : Qsum (x :: l) == x + Qsum l.
Proof. reflexivity. Qed.

Lemma status_partition (l : list Budget.t) :
  Permutation
    (filter (BudgetRoutes.hasStatus Status.good) l
     ++ filter (BudgetRoutes.hasStatus Status.warning) l
     ++ filter (BudgetRoutes.hasStatus Status.exceeded) l)
    l.
Proof.
  induction l as [|b l IH]; [constructor|].
  set (fg := filter (BudgetRoutes.hasStatus Status.good) l) in *.
  set (fw := filter (BudgetRoutes.hasStatus Status.warning) l) in *.
  set (fe := filter (BudgetRoutes.hasStatus Status.exceeded) l) in *.
  cbn [filter]. fold fg fw fe.
  unfold BudgetRoutes.hasStatus.
  destruct (Budget.status b); simpl.
  - apply perm_skip. exact IH.
  - apply Permutation_sym, Permutation_cons_app, Permutation_sym. exact IH.
  - rewrite app_assoc.
    apply Permutation_sym, Permutation_cons_app, Permutation_sym.
    rewrite <- app_assoc. exact IH.
Qed.

(** X2. [overviewSummary] answers with the caller's active budgets
    whose window contains the current instant, in ascending order of
    category and each reconciled against the records.  Its totals are
    added up over these budgets from left to right, [totalRemaining]
    is their plain difference, and the three status lists split the
    budgets. *)
Theorem overviewSummary_figures :
  forall (now : Z) (s : Store) (userId : ObjectId),
    uniqueIds (budgets s) ->
    exists ov s',
      BudgetRoutes.overviewSummary now s userId = (Json 200 ov, s')
      /\ records s' = records s
      /\ sortedByCategory (BudgetRoutes.ov_budgets ov)
      /\ (forall b, In b (BudgetRoutes.ov_budgets ov) ->
            Budget.user b = userId
            /\ Budget.isActive b = true
            /\ (Budget.startDate b <= now <= Budget.endDate b)%Z
            /\ Budget.spentAmount b == spentTotal (records s) b)
      /\ (forall d, In d (budgets s) ->
            Budget.user d = userId ->
            Budget.isActive d = true ->
            (Budget.startDate d <= now <= Budget.endDate d)%Z ->
            exists b, In b (BudgetRoutes.ov_budgets ov)
                      /\ Budget._id b = Budget._id d)
      /\ BudgetRoutes.totalBudget ov
         = fold_left (fun sum b => sum + Budget.budgetAmount b)
             (BudgetRoutes.ov_budgets ov) 0
      /\ BudgetRoutes.totalSpent ov
         = fold_left (fun sum b => sum + Budget.spentAmount b)
             (BudgetRoutes.ov_budgets ov) 0
      /\ BudgetRoutes.totalRemaining ov
         = BudgetRoutes.totalBudget ov - BudgetRoutes.totalSpent ov
      /\ Permutation
           (BudgetRoutes.good ov ++ BudgetRoutes.warning ov
            ++ BudgetRoutes.exceeded ov)
           (BudgetRoutes.ov_budgets ov).
Proof.
  intros now s userId Hnd.
  unfold BudgetRoutes.overviewSummary, Budget.getUserBudgetOverview.
  set (query := fun b : Budget.t =>
                  (Budget.user b =? userId)%nat && Budget.isActive b
                  && (Budget.startDate b <=? now)%Z
                  && (now <=? Budget.endDate b)%Z).
  assert (Hq : forall b, query b = true
                         <-> Budget.user b = userId
                             /\ Budget.isActive b = true
                             /\ (Budget.startDate b <= now
                                 <= Budget.endDate b)%Z).
  { intros b. unfold query.
    rewrite !andb_true_iff, Nat.eqb_eq, !Z.leb_le. tauto. }
  destruct (sorted_docs_facts query (budgets s) Hnd) as [Hdocs Hin].
  set (docs := Budget.sortByCategory (filter query (budgets s))) in *.
  destruct (updateSpentAmounts_found now (records s) (budgets s) docs Hnd
              Hdocs (fun d H => proj1 (proj1 (Hin d) H)))
    as (_ & Hrel & _).
  destruct (Budget.updateSpentAmounts now (records s) (budgets s) docs)
    as [coll l] eqn:E.
  simpl in Hrel.
  eexists. eexists. split; [reflexivity|]. simpl.
  split; [reflexivity|].
  split.
  { apply (sortedByCategory_Forall2 docs l).
    - eapply Forall2_impl; [|exact Hrel].
      intros d d' [(_ & _ & Hc & _) _]. exact Hc.
    - apply sortByCategory_sorted. }
  split.
  { intros b Hb.
    destruct (Forall2_In_r _ _ _ _ _ _ Hrel Hb) as [d [Hd [Hs Ha]]].
    destruct (proj1 (Hin d) Hd) as [_ Hqd].
    apply Hq in Hqd. destruct Hqd as (Hu & Hact & Hw).
    pose proof Hs as (Hid & Hus & Hcat & Hac & Hst & Hen).
    rewrite Hus, Hac, Hst, Hen.
    repeat (split; [assumption|]).
    rewrite Ha. rewrite (spentTotal_sameScope _ _ _ Hs). reflexivity. }
  split.
  { intros d Hd Hu Ha Hw.
    assert (Hqd : query d = true) by (apply Hq; tauto).
    destruct (Forall2_In_l _ _ _ _ _ _ Hrel (proj2 (Hin d) (conj Hd Hqd)))
      as [b [Hb [(Hid & _) _]]].
    exists b. split; assumption. }
  split; [reflexivity|].
  split; [reflexivity|].
  split; [reflexivity|].
  apply status_partition.
Qed.

Lemma overviewSummary_figures_witness :
  exists ov s',
    BudgetRoutes.overviewSummary Sample.now Sample.crowded Sample.alice
    = (Json 200 ov, s')
    /\ map Budget._id (BudgetRoutes.ov_budgets ov) = [4%nat; 6%nat]
    /\ sortedByCategory (BudgetRoutes.ov_budgets ov).
Proof.
  assert (Hnd : uniqueIds (budgets Sample.crowded)).
  { unfold uniqueIds. simpl. distinct_ids. }
  destruct (overviewSummary_figures Sample.now Sample.crowded Sample.alice
              Hnd)
    as (ov & s' & E & _ & Hsorted & _).
  exists ov, s'. split; [exact E|]. split; [|exact Hsorted].
  vm_compute in E. injection E as <- _. reflexivity.
Defined.

(* ================================================================== *)
(** * What the handlers keep of the store *)
(* ================================================================== *)

Lemma find_none_conv A (p : A -> bool) (l : list A) :
  (forall x, In x l -> p x = false) -> find p l = None.
Proof.
  induction l as [|x l IH]; intros H; simpl; [reflexivity|].
  rewrite (H x (or_introl eq_refl)). apply IH.
  intros y Hy. apply H. right. exact Hy.
Qed.

Lemma uniqueRecordIds_inj coll a b :
  uniqueRecordIds coll -> In a coll -> In b coll ->
  FinancialRecord._id a = FinancialRecord._id b -> a = b.
Proof.
  unfold uniqueRecordIds.
  induction coll as [|x l IH]; simpl; intros Hnd Ha Hb E; [contradiction|].
  inversion Hnd as [|y k Hnotin Hnd']; subst.
  destruct Ha as [Ha|Ha], Hb as [Hb|Hb]; subst.
  - reflexivity.
  - exfalso. apply Hnotin. rewrite E. apply in_map. exact Hb.
  - exfalso. apply Hnotin. rewrite <- E. apply in_map. exact Ha.
  - apply IH; assumption.
Qed.

Lemma keepsOthers_refl u d : keepsOthers u d d.
Proof. repeat split. Qed.

Lemma keepsOthers_trans u a b c :
  keepsOthers u a b -> keepsOthers u b c -> keepsOthers u a c.
Proof.
  intros (H1 & H2 & H3) (H4 & H5 & H6). repeat split; try congruence.
  intros Hu. rewrite <- (H3 Hu). apply H6. congruence.
Qed.

Lemma Forall2_trans_rel A (R : A -> A -> Prop) :
  (forall a b c, R a b -> R b c -> R a c) ->
  forall l1 l2 l3, Forall2 R l1 l2 -> Forall2 R l2 l3 -> Forall2 R l1 l3.
Proof.
  intros HR l1 l2 l3 H12. revert l3.
  induction H12 as [|a b l1 l2 Hab H IH]; intros l3 H23;
    inversion H23; subst; constructor; eauto.
Qed.

Lemma keepsOthers_ids u coll coll' :
  Forall2 (keepsOthers u) coll coll' ->
  map Budget._id coll' = map Budget._id coll.
Proof.
  induction 1 as [|d d' l l' (Hid & _) H IH]; simpl; congruence.
Qed.

Lemma keepsOthers_filter u coll coll' :
  Forall2 (keepsOthers u) coll coll' ->
  filter (fun b => negb (Budget.user b =? u)%nat) coll'
  = filter (fun b => negb (Budget.user b =? u)%nat) coll.
Proof.
  induction 1 as [|d d' l l' (Hid & Hu & Hk) H IH]; simpl; [reflexivity|].
  rewrite Hu. destruct (Nat.eqb_spec (Budget.user d) u) as [E|E]; simpl.
  - exact IH.
  - rewrite IH, (Hk E). reflexivity.
Qed.

Lemma keepsOtherRecords_ids u coll coll' :
  Forall2 (keepsOtherRecords u) coll coll' ->
  map FinancialRecord._id coll' = map FinancialRecord._id coll.
Proof.
  induction 1 as [|d d' l l' (Hid & _) H IH]; simpl; congruence.
Qed.

Lemma keepsOtherRecords_filter u coll coll' :
  Forall2 (keepsOtherRecords u) coll coll' ->
  filter (fun r => negb (FinancialRecord.user r =? u)%nat) coll'
  = filter (fun r => negb (FinancialRecord.user r =? u)%nat) coll.
Proof.
  induction 1 as [|d d' l l' (Hid & Hu & Hk) H IH]; simpl; [reflexivity|].
  rewrite Hu. destruct (Nat.eqb_spec (FinancialRecord.user d) u) as [E|E];
    simpl.
  - exact IH.
  - rewrite IH, (Hk E). reflexivity.
Qed.

Lemma touchesOnly_keepsOthers u id0 (P : Budget.t -> Prop) coll coll' :
  touchesOnly id0 P coll coll' ->
  (forall d, In d coll -> Budget._id d = id0 -> Budget.user d = u) ->
  (forall d', P d' -> Budget.user d' = u) ->
  Forall2 (keepsOthers u) coll coll'.
Proof.
  unfold touchesOnly. intros HF Hown HP.
  induction HF as [|d d' l l' (Hid & Hne & Heq) H IH]; constructor.
  - destruct (Nat.eq_dec (Budget._id d) id0) as [E|E].
    + assert (Hu : Budget.user d = u)
        by (apply Hown; [left; reflexivity | exact E]).
      repeat split; [exact Hid | rewrite Hu; apply HP, Heq, E |].
      intros Hn. contradiction.
    + rewrite (Hne E). apply keepsOthers_refl.
  - apply IH. intros x Hx. apply Hown. right. exact Hx.
Qed.

(** Reconciling a document of [u] whose id, if stored, is stored for
    [u]. *)
Lemma updateSpentAmount_keepsOthers u now recs coll this :
  uniqueIds coll ->
  Budget.user this = u ->
  (forall d, In d coll -> Budget._id d = Budget._id this ->
             Budget.user d = u) ->
  Forall2 (keepsOthers u) coll
    (fst (Budget.updateSpentAmount now recs coll this)).
Proof.
  intros Hnd Hu Hown.
  eapply touchesOnly_keepsOthers.
  - apply updateSpentAmount_touches. exact Hnd.
  - exact Hown.
  - intros d' [(_ & Hus & _) _]. simpl in Hus. congruence.
Qed.

Lemma save_keepsOthers u now coll doc :
  uniqueIds coll ->
  Budget.user doc = u ->
  (forall d, In d coll -> Budget._id d = Budget._id doc ->
             Budget.user d = u) ->
  Forall2 (keepsOthers u) coll (fst (Budget.save now coll doc)).
Proof.
  intros Hnd Hu Hown.
  eapply touchesOnly_keepsOthers.
  - apply save_touches. exact Hnd.
  - exact Hown.
  - intros d' [(_ & Hus & _) _]. simpl in Hus. congruence.
Qed.

Lemma In_owned_id coll d0 :
  uniqueIds coll -> In d0 coll ->
  forall d, In d coll -> Budget._id d = Budget._id d0 ->
            Budget.user d = Budget.user d0.
Proof.
  intros Hnd H0 d Hd E.
  rewrite (uniqueIds_inj coll d d0 Hnd Hd H0 E). reflexivity.
Qed.

(** *** Bounds *)

Lemma save_Forall (Q : Budget.t -> Prop) now coll doc :
  Forall Q coll -> Q doc -> Q (Budget.set_updatedAt now doc) ->
  Forall Q (fst (Budget.save now coll doc))
  /\ Q (snd (Budget.save now coll doc)).
Proof.
  intros Hall Hd Hd'. unfold Budget.save.
  destruct (Budget.findById (Budget._id doc) coll) as [stored|];
    [|split; assumption].
  destruct (Budget.eqb stored doc); [split; assumption|].
  simpl. split; [|exact Hd'].
  unfold Budget.replace. apply Forall_forall. intros x Hx.
  apply in_map_iff in Hx. destruct Hx as [y [Hy Hin]]. subst x.
  destruct (Budget._id y =? _)%nat; [exact Hd'|].
  eapply Forall_forall; eassumption.
Qed.

Lemma Qsum_nonneg (l : list Q) : Forall (fun x => 0 <= x) l -> 0 <= Qsum l.
Proof.
  induction 1 as [|x l Hx H IH]; [apply Qle_refl|].
  rewrite Qsum_cons.
  apply Qle_trans with (0 + 0); [apply Qle_refl|].
  apply Qplus_le_compat; assumption.
Qed.

Lemma recordBounds_nonneg r : recordBounds r -> 0 <= FinancialRecord.amount r.
Proof.
  unfold recordBounds. intros H.
  eapply Qle_trans; [|exact H]. discriminate.
Qed.

Lemma spentTotal_nonneg recs b :
  Forall recordBounds recs -> 0 <= spentTotal recs b.
Proof.
  intros H. unfold spentTotal. apply Qsum_nonneg.
  apply Forall_forall. intros x Hx.
  apply in_map_iff in Hx. destruct Hx as [r [<- Hr]].
  apply filter_In in Hr. destruct Hr as [Hr _].
  apply recordBounds_nonneg. eapply Forall_forall; eassumption.
Qed.

Lemma updateSpentAmount_bounds now recs coll this :
  Forall recordBounds recs ->
  Forall budgetBounds coll -> budgetBounds this ->
  Forall budgetBounds (fst (Budget.updateSpentAmount now recs coll this))
  /\ budgetBounds (snd (Budget.updateSpentAmount now recs coll this)).
Proof.
  intros Hr Hc (Hb & Hs & Ht).
  rewrite updateSpentAmount_as_save.
  assert (Hagg : 0 <= aggregatedSpent recs this).
  { rewrite aggregatedSpent_total. apply spentTotal_nonneg. exact Hr. }
  apply save_Forall; [exact Hc| |]; repeat split; simpl; tauto.
Qed.

Lemma updateSpentAmounts_bounds now recs docs :
  forall coll,
    Forall recordBounds recs ->
    Forall budgetBounds coll -> Forall budgetBounds docs ->
    Forall budgetBounds (fst (Budget.updateSpentAmounts now recs coll docs)).
Proof.
  induction docs as [|d ds IH]; intros coll Hr Hc Hd; simpl; [exact Hc|].
  inversion Hd as [|x l Hx Hl]; subst.
  destruct (updateSpentAmount_bounds now recs coll d Hr Hc Hx) as [H1 _].
  destruct (Budget.updateSpentAmount now recs coll d) as [coll1 d1].
  simpl in H1.
  specialize (IH coll1 Hr H1 Hl).
  destruct (Budget.updateSpentAmounts now recs coll1 ds) as [coll2 ds2].
  exact IH.
Qed.

(** *** Steps of the store *)

Lemma keeps_refl u s : wellFormed s -> keeps u s s.
Proof.
  intros H. split; [exact H|]. split; [reflexivity|].
  split; [reflexivity|]. intros Hs. exact Hs.
Qed.

Lemma keeps_trans u s1 s2 s3 : keeps u s1 s2 -> keeps u s2 s3 -> keeps u s1 s3.
Proof.
  intros (_ & Hb & Hr & Hs) (Hw & Hb' & Hr' & Hs').
  split; [exact Hw|]. split; [congruence|]. split; [congruence|].
  intros H. apply Hs', Hs, H.
Qed.

Lemma Forall_by_ids (n : nat) (coll coll' : list Budget.t) :
  map Budget._id coll' = map Budget._id coll ->
  Forall (fun b => (Budget._id b < n)%nat) coll ->
  Forall (fun b => (Budget._id b < n)%nat) coll'.
Proof.
  intros E H.
  apply (Forall_map Budget._id (fun i => (i < n)%nat)).
  rewrite E. apply Forall_map. exact H.
Qed.

Lemma Forall_by_record_ids (n : nat) (coll coll' : list FinancialRecord.t) :
  map FinancialRecord._id coll' = map FinancialRecord._id coll ->
  Forall (fun r => (FinancialRecord._id r < n)%nat) coll ->
  Forall (fun r => (FinancialRecord._id r < n)%nat) coll'.
Proof.
  intros E H.
  apply (Forall_map FinancialRecord._id (fun i => (i < n)%nat)).
  rewrite E. apply Forall_map. exact H.
Qed.

Lemma keeps_budgets_inplace u s coll' :
  wellFormed s ->
  Forall2 (keepsOthers u) (budgets s) coll' ->
  (schemaBounds s -> Forall budgetBounds coll') ->
  keeps u s (mkStore (records s) coll' (nextId s)).
Proof.
  intros (Hu & Hr & Hb & Hrb) HF Hbd.
  pose proof (keepsOthers_ids u _ _ HF) as Hids.
  repeat split; simpl.
  - unfold uniqueIds. rewrite Hids. exact Hu.
  - exact Hr.
  - eapply Forall_by_ids; eassumption.
  - exact Hrb.
  - unfold othersBudgets. simpl. apply keepsOthers_filter. exact HF.
  - apply H.
  - apply Hbd. exact H.
Qed.

Lemma keeps_reconcileFound u now s found :
  wellFormed s ->
  (forall b, found = Some b -> In b (budgets s) /\ Budget.user b = u) ->
  keeps u s (RecordRoutes.reconcileFound now s found).
Proof.
  intros Hw Hf. destruct found as [b|]; simpl; [|apply keeps_refl; exact Hw].
  destruct (Hf b eq_refl) as [Hin Hu].
  apply keeps_budgets_inplace; [exact Hw | |].
  - apply updateSpentAmount_keepsOthers; [apply Hw | exact Hu |].
    intros d Hd E. rewrite <- Hu.
    apply (In_owned_id (budgets s) b); [apply Hw | | |]; assumption.
  - intros (Hrs & Hbs).
    apply updateSpentAmount_bounds; [exact Hrs | exact Hbs |].
    eapply Forall_forall; eassumption.
Qed.

Lemma fresh_not_In (n : nat) (ids : list nat) :
  Forall (fun i => (i < n)%nat) ids -> ~ In n ids.
Proof.
  intros H Hin. pose proof (proj1 (Forall_forall _ _) H n Hin) as Hlt.
  simpl in Hlt. lia.
Qed.

Lemma NoDup_snoc (n : nat) (ids : list nat) :
  NoDup ids -> ~ In n ids -> NoDup (ids ++ [n]).
Proof.
  intros Hnd Hn.
  apply (Permutation_NoDup (l := n :: ids)).
  - apply Permutation_cons_append.
  - constructor; assumption.
Qed.

Lemma Forall_lt_S A (f : A -> nat) (n : nat) (l : list A) :
  Forall (fun x => (f x < n)%nat) l -> Forall (fun x => (f x < S n)%nat) l.
Proof. apply Forall_impl. intros x Hx. lia. Qed.

Lemma Forall_lt_max A (f : A -> nat) (n k : nat) (l : list A) :
  Forall (fun x => (f x < n)%nat) l ->
  Forall (fun x => (f x < S (Nat.max n k))%nat) l.
Proof. apply Forall_impl. intros x Hx. lia. Qed.

Lemma keeps_append_record u s r :
  wellFormed s ->
  ~ In (FinancialRecord._id r) (map FinancialRecord._id (records s)) ->
  FinancialRecord.user r = u ->
  recordBounds r ->
  keeps u s
    (mkStore (records s ++ [r]) (budgets s)
       (S (Nat.max (nextId s) (FinancialRecord._id r)))).
Proof.
  intros (Hu & Hr & Hb & Hrb) Hid Hus Hbd.
  repeat split; simpl.
  - exact Hu.
  - unfold uniqueRecordIds. rewrite map_app. simpl.
    apply NoDup_snoc; [exact Hr | exact Hid].
  - apply Forall_lt_max. exact Hb.
  - apply Forall_app. split; [apply Forall_lt_max; exact Hrb|].
    constructor; [lia | constructor].
  - unfold othersRecords. simpl. rewrite filter_app. simpl.
    rewrite Hus, Nat.eqb_refl. simpl. apply app_nil_r.
  - apply Forall_app. split; [apply H|]. constructor; [exact Hbd|constructor].
  - apply H.
Qed.

Lemma keeps_append_budget u s b :
  wellFormed s ->
  Budget._id b = nextId s ->
  Budget.user b = u ->
  budgetBounds b ->
  keeps u s (mkStore (records s) (budgets s ++ [b]) (S (nextId s))).
Proof.
  intros (Hu & Hr & Hb & Hrb) Hid Hus Hbd.
  repeat split; simpl.
  - unfold uniqueIds. rewrite map_app. simpl. rewrite Hid.
    apply NoDup_snoc; [exact Hu|].
    apply fresh_not_In. apply Forall_map. exact Hb.
  - exact Hr.
  - apply Forall_app. split; [apply Forall_lt_S; exact Hb|].
    constructor; [lia | constructor].
  - apply Forall_lt_S. exact Hrb.
  - unfold othersBudgets. simpl. rewrite filter_app. simpl.
    rewrite Hus, Nat.eqb_refl. simpl. apply app_nil_r.
  - apply H.
  - apply Forall_app. split; [apply H|]. constructor; [exact Hbd|constructor].
Qed.

Lemma Forall_filter A (P : A -> Prop) (p : A -> bool) (l : list A) :
  Forall P l -> Forall P (filter p l).
Proof.
  intros H. apply Forall_forall. intros x Hx.
  apply filter_In in Hx. eapply Forall_forall; [exact H | apply Hx].
Qed.

Lemma keeps_delete_budget u s b :
  wellFormed s ->
  In b (budgets s) -> Budget.user b = u ->
  keeps u s
    (mkStore (records s) (Budget.deleteOne b (budgets s)) (nextId s)).
Proof.
  intros (Hu & Hr & Hb & Hrb) Hin Hus.
  unfold Budget.deleteOne.
  repeat split; simpl.
  - apply NoDup_map_filter. exact Hu.
  - exact Hr.
  - apply Forall_filter. exact Hb.
  - exact Hrb.
  - unfold othersBudgets. simpl. rewrite filter_filter.
    apply filter_ext_in. intros x Hx.
    destruct (Nat.eqb_spec (Budget._id x) (Budget._id b)) as [E|E];
      [|reflexivity].
    rewrite (uniqueIds_inj _ x b Hu Hx Hin E), Hus, Nat.eqb_refl.
    reflexivity.
  - apply H.
  - apply Forall_filter. apply H.
Qed.

Lemma keeps_delete_record u s r :
  wellFormed s ->
  In r (records s) -> FinancialRecord.user r = u ->
  keeps u s
    (mkStore
       (filter (fun d => negb (FinancialRecord._id d
                               =? FinancialRecord._id r)%nat) (records s))
       (budgets s) (nextId s)).
Proof.
  intros (Hu & Hr & Hb & Hrb) Hin Hus.
  repeat split; simpl.
  - exact Hu.
  - apply NoDup_map_filter. exact Hr.
  - exact Hb.
  - apply Forall_filter. exact Hrb.
  - unfold othersRecords. simpl. rewrite filter_filter.
    apply filter_ext_in. intros x Hx.
    destruct (Nat.eqb_spec (FinancialRecord._id x) (FinancialRecord._id r))
      as [E|E]; [|reflexivity].
    rewrite (uniqueRecordIds_inj _ x r Hr Hx Hin E), Hus, Nat.eqb_refl.
    reflexivity.
  - apply Forall_filter. apply H.
  - apply H.
Qed.

(** *** The budget handlers *)

Lemma owned_true u id b :
  BudgetRoutes.owned u id b = true <-> Budget._id b = id /\ Budget.user b = u.
Proof.
  unfold BudgetRoutes.owned. rewrite andb_true_iff, !Nat.eqb_eq. tauto.
Qed.

Lemma findOne_owned_In u id coll b :
  Budget.findOne (BudgetRoutes.owned u id) coll = Some b ->
  In b coll /\ Budget._id b = id /\ Budget.user b = u.
Proof.
  intros H. apply findOne_In in H. destruct H as [Hin Ho].
  apply owned_true in Ho. tauto.
Qed.

Lemma getBudget_keeps u now s id :
  wellFormed s -> keeps u s (snd (BudgetRoutes.getBudget now s u id)).
Proof.
  intros Hw. unfold BudgetRoutes.getBudget.
  destruct (Budget.findOne _ _) as [b|] eqn:Ef;
    [|apply keeps_refl; exact Hw].
  apply findOne_owned_In in Ef. destruct Ef as (Hin & _ & Hu).
  pose proof (keeps_reconcileFound u now s (Some b) Hw) as Hk.
  simpl in Hk.
  destruct (Budget.updateSpentAmount now (records s) (budgets s) b)
    as [coll b'].
  apply Hk. intros b0 E. injection E as <-. split; assumption.
Qed.

Lemma budgetBounds_set_isActive v b :
  budgetBounds b -> budgetBounds (Budget.set_isActive v b).
Proof. intros H. exact H. Qed.

Lemma toggleBudgetActive_keeps u now s id :
  wellFormed s ->
  keeps u s (snd (BudgetRoutes.toggleBudgetActive now s u id)).
Proof.
  intros Hw. unfold BudgetRoutes.toggleBudgetActive.
  destruct (Budget.findOne _ _) as [b|] eqn:Ef;
    [|apply keeps_refl; exact Hw].
  apply findOne_owned_In in Ef. destruct Ef as (Hin & _ & Hu).
  set (doc := Budget.set_isActive (negb (Budget.isActive b)) b).
  pose proof (save_keepsOthers u now (budgets s) doc (proj1 Hw) Hu) as Hk.
  pose proof (save_Forall budgetBounds now (budgets s) doc) as Hb.
  destruct (Budget.save now (budgets s) doc) as [coll doc'].
  simpl in *.
  apply keeps_budgets_inplace; [exact Hw | |].
  - apply Hk. intros d Hd E. rewrite <- Hu.
    apply (In_owned_id (budgets s) b); [apply Hw | | |]; assumption.
  - intros (_ & Hbs).
    assert (Hbb : budgetBounds b)
      by (eapply Forall_forall; eassumption).
    apply Hb; [exact Hbs | exact Hbb | exact Hbb].
Qed.

Lemma validateBudget_bounds body body' :
  BudgetRoutes.validateBudget body = Some body' ->
  match BudgetRoutes.budgetAmount body' with
  | Some a => 0 <= a
  | None => True
  end
  /\ match BudgetRoutes.alertThreshold body' with
     | Some th => 0 <= th <= 100
     | None => True
     end.
Proof.
  unfold BudgetRoutes.validateBudget.
  destruct (BudgetRoutes.category body) as [c|]; [|discriminate].
  destruct (BudgetRoutes.budgetAmount body) as [a|] eqn:Ea; [|discriminate].
  destruct (BudgetRoutes.period body) as [p|]; [|discriminate].
  destruct (_ && _) eqn:E; [|discriminate].
  intros H. injection H as <-. simpl.
  apply andb_prop in E. destruct E as [E Eth].
  apply andb_prop in E. destruct E as [_ Eamt].
  split; [apply Qle_bool_iff; exact Eamt|].
  destruct (BudgetRoutes.alertThreshold body) as [th|]; [|exact I].
  apply andb_prop in Eth. destruct Eth as [H1 H2].
  split; apply Qle_bool_iff; assumption.
Qed.

Lemma assignFields_bounds body budget :
  match BudgetRoutes.budgetAmount body with
  | Some a => 0 <= a
  | None => True
  end ->
  match BudgetRoutes.alertThreshold body with
  | Some th => 0 <= th <= 100
  | None => True
  end ->
  budgetBounds budget ->
  budgetBounds (BudgetRoutes.assignFields body budget).
Proof.
  unfold BudgetRoutes.assignFields, budgetBounds.
  intros Ha Ht (Hb & Hs & Hth).
  destruct (BudgetRoutes.budgetAmount body),
    (BudgetRoutes.period body), (BudgetRoutes.alertThreshold body),
    (BudgetRoutes.category body); simpl; tauto.
Qed.

Lemma keepsOthers_owner u coll coll' b d :
  uniqueIds coll -> In b coll ->
  Forall2 (keepsOthers u) coll coll' ->
  In d coll' -> Budget._id d = Budget._id b -> Budget.user d = Budget.user b.
Proof.
  intros Hnd Hb HF Hd E.
  destruct (Forall2_In_r _ _ _ _ _ _ HF Hd) as [d0 [Hd0 (Hid & Hu & _)]].
  rewrite Hu. apply (In_owned_id coll b); [assumption..|congruence].
Qed.

Lemma updateBudget_keeps u now s id body :
  wellFormed s ->
  keeps u s (snd (BudgetRoutes.updateBudget now s u id body)).
Proof.
  intros Hw. unfold BudgetRoutes.updateBudget.
  destruct (BudgetRoutes.validateBudget body) as [body'|] eqn:Ev;
    [|apply keeps_refl; exact Hw].
  destruct (Budget.findOne _ _) as [b|] eqn:Ef;
    [|apply keeps_refl; exact Hw].
  apply findOne_owned_In in Ef. destruct Ef as (Hin & _ & Hu).
  rewrite recalcWindow_after_assignFields.
  set (doc := BudgetRoutes.assignFields body' b).
  destruct (assignFields_fields body' b) as (Hid & Hus & _).
  fold doc in Hid, Hus.
  assert (Hown : forall d, In d (budgets s) ->
                           Budget._id d = Budget._id doc -> Budget.user d = u).
  { intros d Hd E. rewrite <- Hu.
    apply (In_owned_id (budgets s) b); [apply Hw | | |]; congruence. }
  pose proof (save_keepsOthers u now (budgets s) doc (proj1 Hw)
                (eq_trans Hus Hu) Hown) as Hk1.
  pose proof (save_Forall budgetBounds now (budgets s) doc) as Hb1.
  destruct (save_tracks now (budgets s) doc (proj1 Hw))
    as ((Hid1 & Hus1 & _) & _ & _).
  destruct (Budget.save now (budgets s) doc) as [coll1 doc1].
  simpl in Hk1, Hb1, Hid1, Hus1.
  assert (Hnd1 : uniqueIds coll1).
  { unfold uniqueIds. rewrite (keepsOthers_ids u _ _ Hk1). apply Hw. }
  pose proof (updateSpentAmount_keepsOthers u now (records s) coll1 doc1
                Hnd1) as Hk2.
  pose proof (updateSpentAmount_bounds now (records s) coll1 doc1) as Hb2.
  destruct (Budget.updateSpentAmount now (records s) coll1 doc1)
    as [coll2 doc2].
  simpl in Hk2, Hb2 |- *.
  apply keeps_budgets_inplace; [exact Hw | |].
  - apply (Forall2_trans_rel _ (keepsOthers u) (keepsOthers_trans u)
             _ coll1 _ Hk1).
    apply Hk2; [congruence|].
    intros d Hd E. rewrite <- Hu.
    apply (keepsOthers_owner u (budgets s) coll1 b d);
      [apply Hw | exact Hin | exact Hk1 | exact Hd | congruence].
  - intros (Hrs & Hbs).
    destruct (validateBudget_bounds body body' Ev) as [Ha Ht].
    assert (Hbd : budgetBounds doc).
    { apply assignFields_bounds; [exact Ha | exact Ht |].
      eapply Forall_forall; eassumption. }
    destruct (Hb1 Hbs Hbd Hbd) as [Hc1 Hd1].
    apply (Hb2 Hrs Hc1 Hd1).
Qed.

Lemma thresholdOrDefault_bounds x :
  match x with Some th => 0 <= th <= 100 | None => True end ->
  0 <= BudgetRoutes.thresholdOrDefault x <= 100.
Proof.
  unfold BudgetRoutes.thresholdOrDefault.
  destruct x as [v|]; [|intros _; split; discriminate].
  destruct (Qeq_bool v 0); [intros _; split; discriminate | tauto].
Qed.

Lemma createBudget_keeps u now s body :
  wellFormed s ->
  keeps u s (snd (BudgetRoutes.createBudget now s u body)).
Proof.
  intros Hw. unfold BudgetRoutes.createBudget.
  destruct (BudgetRoutes.validateBudget body) as [body'|] eqn:Ev;
    [|apply keeps_refl; exact Hw].
  destruct (validateBudget_bounds body body' Ev) as [Ha Ht].
  destruct (BudgetRoutes.category body') as [c|];
    [|apply keeps_refl; exact Hw].
  destruct (BudgetRoutes.budgetAmount body') as [a|];
    [|apply keeps_refl; exact Hw].
  destruct (BudgetRoutes.period body') as [p|];
    [|apply keeps_refl; exact Hw].
  destruct (Budget.findOne _ _) as [b|]; [apply keeps_refl; exact Hw|].
  cbv zeta.
  set (new := Budget.mk (nextId s) u c a 0 p _ _ true _ _ now now).
  assert (Hk1 : keeps u s
                  (mkStore (records s) (budgets s ++ [new]) (S (nextId s)))).
  { apply keeps_append_budget; [exact Hw | reflexivity | reflexivity |].
    repeat split; simpl;
      [exact Ha | apply Qle_refl | apply thresholdOrDefault_bounds, Ht
       | apply thresholdOrDefault_bounds, Ht]. }
  pose proof Hk1 as (Hw1 & _).
  assert (Hin : In new (budgets s ++ [new]))
    by (apply in_or_app; right; left; reflexivity).
  pose proof (keeps_reconcileFound u now _ (Some new) Hw1) as Hk2.
  simpl in Hk2.
  destruct (Budget.updateSpentAmount now (records s) (budgets s ++ [new]) new)
    as [coll b'].
  simpl. eapply keeps_trans; [exact Hk1|].
  apply Hk2. intros b0 E. injection E as <-. split; [exact Hin|reflexivity].
Qed.

Lemma deleteBudget_keeps u s id :
  wellFormed s -> keeps u s (snd (BudgetRoutes.deleteBudget s u id)).
Proof.
  intros Hw. unfold BudgetRoutes.deleteBudget.
  destruct (Budget.findOne _ _) as [b|] eqn:Ef;
    [|apply keeps_refl; exact Hw].
  apply findOne_owned_In in Ef. destruct Ef as (Hin & _ & Hu).
  simpl. apply keeps_delete_budget; assumption.
Qed.

Lemma updateSpentAmounts_keepsOthers u now recs coll docs :
  uniqueIds coll ->
  NoDup (map Budget._id docs) ->
  (forall d, In d docs -> In d coll /\ Budget.user d = u) ->
  Forall2 (keepsOthers u) coll
    (fst (Budget.updateSpentAmounts now recs coll docs)).
Proof.
  intros Hnd Hdocs Hsub.
  destruct (updateSpentAmounts_spec now recs docs coll Hnd Hdocs) as [_ Hc].
  apply (Forall2_under_In _ (keepsOthers u) coll); [|apply incl_refl].
  eapply Forall2_impl; [|exact Hc].
  intros c c' (Hid & Hout & Hrel) Hin.
  destruct (in_dec Nat.eq_dec (Budget._id c) (map Budget._id docs))
    as [Hi|Ho].
  - apply in_map_iff in Hi. destruct Hi as [d [Hdid Hdin]].
    destruct (Hsub d Hdin) as [Hdc Hdu].
    assert (d = c) by (apply (uniqueIds_inj coll); auto).
    subst d.
    destruct (Hrel c Hdin eq_refl) as [(_ & Hus & _) _].
    repeat split; [exact Hid | exact Hus |].
    intros Hn. contradiction.
  - rewrite (Hout Ho). apply keepsOthers_refl.
Qed.

Lemma reconcile_docs_keeps u now s (q : Budget.t -> bool) :
  wellFormed s ->
  (forall b, q b = true -> Budget.user b = u) ->
  keeps u s
    (mkStore (records s)
       (fst (Budget.updateSpentAmounts now (records s) (budgets s)
               (Budget.sortByCategory (filter q (budgets s)))))
       (nextId s)).
Proof.
  intros Hw Hq.
  destruct (sorted_docs_facts q (budgets s) (proj1 Hw)) as [Hdocs Hin].
  apply keeps_budgets_inplace; [exact Hw | |].
  - apply updateSpentAmounts_keepsOthers; [apply Hw | exact Hdocs |].
    intros d Hd. apply Hin in Hd. destruct Hd as [Hd Hqd].
    split; [exact Hd | apply Hq, Hqd].
  - intros (Hrs & Hbs).
    apply updateSpentAmounts_bounds; [exact Hrs | exact Hbs |].
    apply Forall_forall. intros d Hd. apply Hin in Hd.
    eapply Forall_forall; [exact Hbs | apply Hd].
Qed.

Lemma listBudgets_keeps u now s active :
  wellFormed s ->
  keeps u s (snd (BudgetRoutes.listBudgets now s u active)).
Proof.
  intros Hw. unfold BudgetRoutes.listBudgets.
  match goal with
  | |- context [filter ?q (budgets s)] =>
      pose proof (reconcile_docs_keeps u now s q Hw) as Hk
  end.
  destruct (Budget.updateSpentAmounts _ _ _ _) as [coll l].
  simpl in *. apply Hk.
  intros b Hb. apply andb_prop in Hb. destruct Hb as [Hb _].
  apply Nat.eqb_eq. exact Hb.
Qed.

Lemma overviewSummary_keeps u now s :
  wellFormed s ->
  keeps u s (snd (BudgetRoutes.overviewSummary now s u)).
Proof.
  intros Hw. unfold BudgetRoutes.overviewSummary, Budget.getUserBudgetOverview.
  match goal with
  | |- context [filter ?q (budgets s)] =>
      pose proof (reconcile_docs_keeps u now s q Hw) as Hk
  end.
  destruct (Budget.updateSpentAmounts _ _ _ _) as [coll l].
  simpl in *. apply Hk.
  intros b Hb. rewrite !andb_true_iff in Hb.
  apply Nat.eqb_eq. tauto.
Qed.

(** *** The record handlers *)

Lemma record_owned_true u id r :
  RecordRoutes.owned u id r = true
  <-> FinancialRecord._id r = id /\ FinancialRecord.user r = u.
Proof.
  unfold RecordRoutes.owned. rewrite andb_true_iff, !Nat.eqb_eq. tauto.
Qed.

Lemma record_findOne_owned_In u id coll r :
  FinancialRecord.findOne (RecordRoutes.owned u id) coll = Some r ->
  In r coll /\ FinancialRecord._id r = id /\ FinancialRecord.user r = u.
Proof.
  unfold FinancialRecord.findOne. intros H. apply find_some in H.
  destruct H as [Hin Ho]. apply record_owned_true in Ho. tauto.
Qed.

Lemma record_activeFor_user u c b :
  RecordRoutes.activeFor u c b = true -> Budget.user b = u.
Proof.
  unfold RecordRoutes.activeFor. rewrite !andb_true_iff, Nat.eqb_eq. tauto.
Qed.

Lemma activeCovering_user u c d b :
  RecordRoutes.activeCovering u c d b = true -> Budget.user b = u.
Proof.
  unfold RecordRoutes.activeCovering. rewrite !andb_true_iff.
  intros [[H _] _]. eapply record_activeFor_user. exact H.
Qed.

Lemma keeps_reconcile_activeFor u now s c :
  wellFormed s ->
  keeps u s
    (RecordRoutes.reconcileFound now s
       (Budget.findOne (RecordRoutes.activeFor u c) (budgets s))).
Proof.
  intros Hw. apply keeps_reconcileFound; [exact Hw|].
  intros b Hb. apply findOne_In in Hb. destruct Hb as [Hin Hb].
  split; [exact Hin | eapply record_activeFor_user; exact Hb].
Qed.

Lemma keeps_reconcile_activeCovering u now s c d :
  wellFormed s ->
  keeps u s
    (RecordRoutes.reconcileFound now s
       (Budget.findOne (RecordRoutes.activeCovering u c d) (budgets s))).
Proof.
  intros Hw. apply keeps_reconcileFound; [exact Hw|].
  intros b Hb. apply findOne_In in Hb. destruct Hb as [Hin Hb].
  split; [exact Hin | eapply activeCovering_user; exact Hb].
Qed.

Lemma validateFinancialRecord_fields body body' :
  RecordRoutes.validateFinancialRecord body = Some body' ->
  exists d a ty c,
    RecordRoutes.description body' = Some d
    /\ RecordRoutes.amount body' = Some a
    /\ RecordRoutes.type body' = Some ty
    /\ RecordRoutes.category body' = Some c
    /\ RecordRoutes.date body' = RecordRoutes.date body
    /\ RecordRoutes.paymentMethod body' = RecordRoutes.paymentMethod body
    /\ RecordRoutes.amount body = Some a
    /\ RecordRoutes.type body = Some ty
    /\ 1 # 100 <= a.
Proof.
  unfold RecordRoutes.validateFinancialRecord.
  destruct (RecordRoutes.description body) as [d|]; [|discriminate].
  destruct (RecordRoutes.amount body) as [a|] eqn:Ea; [|discriminate].
  destruct (RecordRoutes.type body) as [ty|] eqn:Et; [|discriminate].
  destruct (RecordRoutes.category body) as [c|]; [|discriminate].
  destruct (_ && _) eqn:E; [|discriminate].
  intros H. injection H as <-. simpl.
  apply andb_prop in E. destruct E as [E _].
  apply andb_prop in E. destruct E as [_ Eamt].
  exists (Text.trim d), a, ty, (Text.trim c).
  repeat split; try assumption. apply Qle_bool_iff. exact Eamt.
Qed.

Lemma validateFinancialRecord_others body body' :
  RecordRoutes.validateFinancialRecord body = Some body' ->
  RecordRoutes._id body' = RecordRoutes._id body
  /\ RecordRoutes.user body' = RecordRoutes.user body
  /\ RecordRoutes.tags body' = RecordRoutes.tags body
  /\ RecordRoutes.notes body' = RecordRoutes.notes body
  /\ RecordRoutes.isRecurring body' = RecordRoutes.isRecurring body
  /\ RecordRoutes.recurringFrequency body'
     = RecordRoutes.recurringFrequency body.
Proof.
  unfold RecordRoutes.validateFinancialRecord.
  destruct (RecordRoutes.description body) as [d|]; [|discriminate].
  destruct (RecordRoutes.amount body) as [a|]; [|discriminate].
  destruct (RecordRoutes.type body) as [ty|]; [|discriminate].
  destruct (RecordRoutes.category body) as [c|]; [|discriminate].
  destruct (_ && _); [|discriminate].
  intros H. injection H as <-. simpl. repeat split.
Qed.

Lemma existsb_id_false (k : nat) (coll : list FinancialRecord.t) :
  existsb (fun d => (FinancialRecord._id d =? k)%nat) coll = false ->
  ~ In k (map FinancialRecord._id coll).
Proof.
  intros H Hin. apply in_map_iff in Hin. destruct Hin as [x [Hx Hin]].
  assert (E : existsb (fun d => (FinancialRecord._id d =? k)%nat) coll = true).
  { apply existsb_exists. exists x. split; [exact Hin|].
    apply Nat.eqb_eq. exact Hx. }
  congruence.
Qed.

Lemma createRecord_keeps u now s body :
  wellFormed s ->
  keeps u s (snd (RecordRoutes.createRecord now s u body)).
Proof.
  intros Hw. unfold RecordRoutes.createRecord.
  destruct (RecordRoutes.validateFinancialRecord body) as [body'|] eqn:Ev;
    [|apply keeps_refl; exact Hw].
  destruct (validateFinancialRecord_fields body body' Ev)
    as (d & a & ty & c & -> & -> & -> & -> & _ & _ & _ & _ & Ha).
  cbv zeta.
  match goal with
  | |- context [FinancialRecord.validate ?r] => set (record := r)
  end.
  destruct (FinancialRecord.validate record); cbn [andb];
    [|apply keeps_refl; exact Hw].
  destruct (existsb _ (records s)) eqn:Edup; cbn [negb];
    [apply keeps_refl; exact Hw|].
  simpl snd.
  assert (Hk1 : keeps u s
                  (mkStore (records s ++ [record]) (budgets s)
                     (S (Nat.max (nextId s) (FinancialRecord._id record))))).
  { apply keeps_append_record;
      [exact Hw | apply existsb_id_false; exact Edup | reflexivity
      | exact Ha]. }
  destruct (RecordType.eqb _ _); [|exact Hk1].
  eapply keeps_trans; [exact Hk1|].
  match goal with
  | |- keeps u ?s1 _ => apply (keeps_reconcile_activeCovering u now s1)
  end.
  apply Hk1.
Qed.

Lemma record_save_keepsOthers u now coll r0 doc :
  uniqueRecordIds coll -> In r0 coll ->
  FinancialRecord._id doc = FinancialRecord._id r0 ->
  FinancialRecord.user r0 = u -> FinancialRecord.user doc = u ->
  Forall2 (keepsOtherRecords u) coll (fst (FinancialRecord.save now coll doc)).
Proof.
  intros Hnd Hin Hid Hu0 Hu.
  assert (Hrefl : Forall2 (keepsOtherRecords u) coll coll)
    by (apply Forall2_diag; intros x _; repeat split).
  unfold FinancialRecord.save.
  destruct (FinancialRecord.findOne _ coll) as [stored|]; [|exact Hrefl].
  destruct (FinancialRecord.eqb stored doc); [exact Hrefl|].
  simpl. unfold FinancialRecord.replace. apply Forall2_map_r.
  intros x Hx. simpl.
  destruct (Nat.eqb_spec (FinancialRecord._id x) (FinancialRecord._id doc))
    as [E|E]; [|repeat split].
  assert (x = r0)
    by (apply (uniqueRecordIds_inj coll); [assumption..|congruence]).
  subst x. repeat split; simpl; congruence.
Qed.

Lemma record_save_Forall (Q : FinancialRecord.t -> Prop) now coll doc :
  Forall Q coll -> Q (FinancialRecord.set_updatedAt now doc) ->
  Forall Q (fst (FinancialRecord.save now coll doc)).
Proof.
  intros Hall Hd'. unfold FinancialRecord.save.
  destruct (FinancialRecord.findOne _ coll) as [stored|]; [|exact Hall].
  destruct (FinancialRecord.eqb stored doc); [exact Hall|].
  simpl. unfold FinancialRecord.replace. apply Forall_forall. intros x Hx.
  apply in_map_iff in Hx. destruct Hx as [y [Hy Hin]]. subst x.
  destruct (FinancialRecord._id y =? _)%nat; [exact Hd'|].
  eapply Forall_forall; eassumption.
Qed.

Lemma record_save_ids now coll doc :
  map FinancialRecord._id (fst (FinancialRecord.save now coll doc))
  = map FinancialRecord._id coll.
Proof.
  unfold FinancialRecord.save.
  destruct (FinancialRecord.findOne _ coll) as [stored|]; [|reflexivity].
  destruct (FinancialRecord.eqb stored doc); [reflexivity|].
  simpl. unfold FinancialRecord.replace. rewrite map_map.
  apply map_ext_in. intros x _. simpl.
  destruct (Nat.eqb_spec (FinancialRecord._id x) (FinancialRecord._id doc))
    as [E|E]; simpl; congruence.
Qed.

(** A save of a document of [u] leaves the records of the others where
    they are, whoever owns the document afterwards. *)
Lemma record_save_survives u now coll r0 doc :
  uniqueRecordIds coll -> In r0 coll ->
  FinancialRecord._id doc = FinancialRecord._id r0 ->
  FinancialRecord.user r0 = u ->
  gains
    (filter (fun r => negb (FinancialRecord.user r =? u)%nat)
       (fst (FinancialRecord.save now coll doc)))
    (filter (fun r => negb (FinancialRecord.user r =? u)%nat) coll).
Proof.
  intros Hnd Hin Hid Hu0. unfold gains.
  unfold FinancialRecord.save.
  destruct (FinancialRecord.findOne _ coll) as [stored|]; [|apply incl_refl].
  destruct (FinancialRecord.eqb stored doc); [apply incl_refl|].
  simpl. intros x Hx. apply filter_In in Hx. destruct Hx as [Hxin Hxu].
  apply filter_In. split; [|exact Hxu].
  unfold FinancialRecord.replace. apply in_map_iff. exists x.
  split; [|exact Hxin].
  change (FinancialRecord._id (FinancialRecord.set_updatedAt now doc))
    with (FinancialRecord._id doc).
  destruct (Nat.eqb_spec (FinancialRecord._id x) (FinancialRecord._id doc))
    as [E|E]; [|reflexivity].
  exfalso.
  assert (x = r0)
    by (apply (uniqueRecordIds_inj coll); [assumption..|congruence]).
  subst x. rewrite Hu0, Nat.eqb_refl in Hxu. discriminate Hxu.
Qed.

Lemma keepsUpTo_records_inplace
    (R : list FinancialRecord.t -> list FinancialRecord.t -> Prop) u s recs' :
  wellFormed s ->
  map FinancialRecord._id recs' = map FinancialRecord._id (records s) ->
  R (filter (fun r => negb (FinancialRecord.user r =? u)%nat) recs')
    (othersRecords u s) ->
  (schemaBounds s -> Forall recordBounds recs') ->
  keepsUpTo R u s (mkStore recs' (budgets s) (nextId s)).
Proof.
  intros (Hu & Hr & Hb & Hrb) Hids HR Hbd.
  repeat split; simpl.
  - exact Hu.
  - unfold uniqueRecordIds. rewrite Hids. exact Hr.
  - exact Hb.
  - eapply Forall_by_record_ids; eassumption.
  - exact HR.
  - apply Hbd. exact H.
  - apply H.
Qed.

Lemma keepsUpTo_then R u s1 s2 s3 :
  keepsUpTo R u s1 s2 -> keeps u s2 s3 -> keepsUpTo R u s1 s3.
Proof.
  intros (_ & Hb & Hr & Hs) (Hw & Hb' & Hr' & Hs').
  split; [exact Hw|]. split; [congruence|].
  split; [rewrite Hr'; exact Hr|].
  intros H. apply Hs', Hs, H.
Qed.

Lemma keeps_gains u s s' : keeps u s s' -> keepsUpTo gains u s s'.
Proof.
  intros (Hw & Hb & Hr & Hs).
  split; [exact Hw|]. split; [exact Hb|]. split; [|exact Hs].
  rewrite Hr. apply incl_refl.
Qed.

Lemma updateRecord_keepsUpTo
    (R : list FinancialRecord.t -> list FinancialRecord.t -> Prop)
    u now s id body :
  (forall l, R l l) ->
  (forall body' r0,
      RecordRoutes.validateFinancialRecord body = Some body' ->
      FinancialRecord.findOne (RecordRoutes.owned u id) (records s)
      = Some r0 ->
      FinancialRecord._id (RecordRoutes.assign r0 body')
      = FinancialRecord._id r0 ->
      R (filter (fun r => negb (FinancialRecord.user r =? u)%nat)
           (fst (FinancialRecord.save now (records s)
                   (RecordRoutes.assign r0 body'))))
        (othersRecords u s)) ->
  wellFormed s ->
  keepsUpTo R u s (snd (RecordRoutes.updateRecord now s u id body)).
Proof.
  intros Hrefl HR Hw.
  assert (Hsame : keepsUpTo R u s s).
  { split; [exact Hw|]. split; [reflexivity|]. split; [apply Hrefl|].
    intros H. exact H. }
  destruct (RecordRoutes.validateFinancialRecord body) as [body'|] eqn:Ev.
  2:{ unfold RecordRoutes.updateRecord. rewrite Ev. exact Hsame. }
  destruct (FinancialRecord.findOne (RecordRoutes.owned u id) (records s))
    as [r0|] eqn:Ef.
  2:{ unfold RecordRoutes.updateRecord. rewrite Ev, Ef. exact Hsame. }
  destruct (FinancialRecord.validate (RecordRoutes.assign r0 body')
            && (FinancialRecord._id (RecordRoutes.assign r0 body')
                =? FinancialRecord._id r0)%nat) eqn:Eok.
  2:{ rewrite (updateRecord_refused now s u id body body' r0 Ev Ef Eok).
      exact Hsame. }
  apply andb_prop in Eok. destruct Eok as [Hval Hid].
  apply Nat.eqb_eq in Hid.
  rewrite (updateRecord_unfold now s u id body body' r0 Ev Ef Hval Hid).
  cbv zeta. simpl snd.
  specialize (HR body' r0 eq_refl eq_refl Hid).
  apply record_findOne_owned_In in Ef. destruct Ef as (Hin & _ & Hu).
  destruct (validateFinancialRecord_fields body body' Ev)
    as (d & a & ty & c & Hd & Ham & Hty & Hc & _ & _ & _ & _ & Ha).
  set (doc := RecordRoutes.assign r0 body') in *.
  set (s1 := mkStore (fst (FinancialRecord.save now (records s) doc))
               (budgets s) (nextId s)).
  assert (Hk1 : keepsUpTo R u s s1).
  { apply keepsUpTo_records_inplace; [exact Hw | | exact HR |].
    - apply record_save_ids.
    - intros (Hrs & _). apply record_save_Forall; [exact Hrs|].
      unfold recordBounds, doc. simpl. rewrite Ham. exact Ha. }
  destruct (_ || _); [|exact Hk1].
  match goal with
  | |- keepsUpTo R u s (RecordRoutes.reconcileFound now ?s2 _) =>
      assert (Hk2 : keepsUpTo R u s s2)
  end.
  { destruct (negb _); [|exact Hk1].
    eapply keepsUpTo_then; [exact Hk1|].
    apply (keeps_reconcile_activeFor u now s1). apply Hk1. }
  eapply keepsUpTo_then; [exact Hk2|].
  match goal with
  | |- keeps u ?s2 _ => apply (keeps_reconcile_activeCovering u now s2)
  end.
  apply Hk2.
Qed.

(** Whatever the body, the others lose nothing. *)
Lemma updateRecord_gains u now s id body :
  wellFormed s ->
  keepsUpTo gains u s (snd (RecordRoutes.updateRecord now s u id body)).
Proof.
  intros Hw. apply updateRecord_keepsUpTo; [apply incl_refl | | exact Hw].
  intros body' r0 Ev Ef Hid.
  apply record_findOne_owned_In in Ef. destruct Ef as (Hin & _ & Hu).
  apply (record_save_survives u now (records s) r0);
    [apply Hw | exact Hin | exact Hid | exact Hu].
Qed.

(** Without a [user] key in the body, the others gain nothing
    either. *)
Lemma updateRecord_keeps u now s id body :
  RecordRoutes.user body = None ->
  wellFormed s ->
  keeps u s (snd (RecordRoutes.updateRecord now s u id body)).
Proof.
  intros Hnone Hw.
  apply (updateRecord_keepsUpTo eq); [reflexivity | | exact Hw].
  intros body' r0 Ev Ef Hid.
  apply record_findOne_owned_In in Ef. destruct Ef as (Hin & _ & Hu).
  unfold othersRecords. apply keepsOtherRecords_filter.
  apply (record_save_keepsOthers u now (records s) r0);
    [apply Hw | exact Hin | exact Hid | exact Hu |].
  destruct (validateFinancialRecord_others body body' Ev)
    as (_ & Hus & _).
  simpl. rewrite Hus, Hnone. exact Hu.
Qed.

Lemma deleteRecord_keeps u now s id :
  wellFormed s ->
  keeps u s (snd (RecordRoutes.deleteRecord now s u id)).
Proof.
  intros Hw. unfold RecordRoutes.deleteRecord.
  destruct (FinancialRecord.findOne _ _) as [r|] eqn:Ef;
    [|apply keeps_refl; exact Hw].
  apply record_findOne_owned_In in Ef. destruct Ef as (Hin & _ & Hu).
  cbv zeta. simpl snd.
  pose proof (keeps_delete_record u s r Hw Hin Hu) as Hk1.
  destruct (RecordType.eqb _ _); [|exact Hk1].
  eapply keeps_trans; [exact Hk1|].
  match goal with
  | |- keeps u ?s1 _ => apply (keeps_reconcile_activeFor u now s1)
  end.
  apply Hk1.
Qed.

(** *** All requests *)

Lemma after_requests_keep now s u id body active id' rbody s' :
  wellFormed s ->
  In s' (afterBudgetRoutes now s u id body active
         ++ afterRecordRoutes now s u id' rbody) ->
  keepsUpTo gains u s s'
  /\ (RecordRoutes.user rbody = None -> keeps u s s').
Proof.
  intros Hw Hin.
  assert (Hall : forall t, keeps u s t ->
                   keepsUpTo gains u s t
                   /\ (RecordRoutes.user rbody = None -> keeps u s t)).
  { intros t Hk. split; [apply keeps_gains; exact Hk | intros _; exact Hk]. }
  simpl in Hin.
  destruct Hin as [<-|Hin]; [apply Hall, listBudgets_keeps, Hw|].
  destruct Hin as [<-|Hin]; [apply Hall, getBudget_keeps, Hw|].
  destruct Hin as [<-|Hin]; [apply Hall, createBudget_keeps, Hw|].
  destruct Hin as [<-|Hin]; [apply Hall, updateBudget_keeps, Hw|].
  destruct Hin as [<-|Hin]; [apply Hall, deleteBudget_keeps, Hw|].
  destruct Hin as [<-|Hin]; [apply Hall, overviewSummary_keeps, Hw|].
  destruct Hin as [<-|Hin]; [apply Hall, toggleBudgetActive_keeps, Hw|].
  destruct Hin as [<-|Hin]; [apply Hall, createRecord_keeps, Hw|].
  destruct Hin as [<-|Hin].
  { split; [apply updateRecord_gains; exact Hw|].
    intros Hnone. apply updateRecord_keeps; assumption. }
  destruct Hin as [<-|Hin]; [apply Hall, deleteRecord_keeps, Hw|].
  contradiction.
Qed.

Lemma wellFormed_shared : wellFormed Household.shared.
Proof.
  repeat split; simpl.
  - unfold uniqueIds. simpl. distinct_ids.
  - unfold uniqueRecordIds. simpl. distinct_ids.
  - repeat constructor.
  - repeat constructor.
Qed.



Lemma schemaBounds_shared : schemaBounds Household.shared.
Proof.
  split; simpl; repeat constructor; simpl; try discriminate.
Qed.

(** X5. Every request keeps the bounds of the two schemas: amounts of
    records at least 0.01, budget amounts and spent amounts not
    negative, alert thresholds between 0 and 100. *)
Theorem requests_keep_schema_bounds :
  forall (now : Z) (s : Store) (userId id id' : ObjectId)
         (body : BudgetRoutes.Body) (active : option string)
         (rbody : RecordRoutes.Body) (s' : Store),
    wellFormed s ->
    schemaBounds s ->
    In s' (afterBudgetRoutes now s userId id body active
           ++ afterRecordRoutes now s userId id' rbody) ->
    schemaBounds s'.
Proof.
  intros now s u id id' body active rbody s' Hw Hs Hin.
  apply (proj1 (after_requests_keep now s u id body active id' rbody s'
                  Hw Hin)).
  exact Hs.
Qed.

Lemma requests_keep_schema_bounds_witness :
  schemaBounds
    (snd (BudgetRoutes.updateBudget Sample.now Household.shared Sample.alice
            6%nat Sample.foodBody)).
Proof.
  apply (requests_keep_schema_bounds Sample.now Household.shared
           Sample.alice 6%nat 2%nat Sample.foodBody None
           Household.rentBody).
  - exact wellFormed_shared.
  - exact schemaBounds_shared.
  - apply in_or_app. left. unfold afterBudgetRoutes.
    do 3 right. left. reflexivity.
Defined.

(* ================================================================== *)
(** * Effects of the budget handlers *)
(* ================================================================== *)

Lemma findById_absent id coll :
  ~ In id (map Budget._id coll) -> Budget.findById id coll = None.
Proof.
  intros H. unfold Budget.findById, Budget.findOne. apply find_none_conv.
  intros x Hx. apply Nat.eqb_neq. intros E. apply H. rewrite <- E.
  apply in_map. exact Hx.
Qed.

Lemma findOne_owned_absent u id coll :
  ~ In id (map Budget._id coll) ->
  Budget.findOne (BudgetRoutes.owned u id) coll = None.
Proof.
  intros H. unfold Budget.findOne. apply find_none_conv.
  intros x Hx. unfold BudgetRoutes.owned.
  destruct (Nat.eqb_spec (Budget._id x) id) as [E|E]; [|reflexivity].
  exfalso. apply H. rewrite <- E. apply in_map. exact Hx.
Qed.

Lemma deleteOne_In b coll c :
  uniqueIds coll -> In b coll ->
  (In c (Budget.deleteOne b coll) <-> In c coll /\ c <> b).
Proof.
  intros Hnd Hb. unfold Budget.deleteOne. rewrite filter_In.
  rewrite negb_true_iff, Nat.eqb_neq. split; intros [Hc Hne]; split; auto.
  - intros ->. apply Hne. reflexivity.
  - intros E. apply Hne. apply (uniqueIds_inj coll); assumption.
Qed.

Lemma deleteOne_absent b coll :
  ~ In (Budget._id b) (map Budget._id (Budget.deleteOne b coll)).
Proof.
  unfold Budget.deleteOne. intros H. apply in_map_iff in H.
  destruct H as [x [E Hx]]. apply filter_In in Hx. destruct Hx as [_ Hx].
  rewrite E, Nat.eqb_refl in Hx. discriminate.
Qed.

(** X6. Deleting one's own budget removes exactly that document: the
    other budgets, the records and the id counter stay, the records
    counted by the budget among them, and asking again for the same
    id is answered with 404. *)
Theorem deleteBudget_removes_only_target :
  forall (s : Store) (userId : ObjectId) (d : Budget.t),
    uniqueIds (budgets s) ->
    In d (budgets s) ->
    Budget.user d = userId ->
    exists message s',
      BudgetRoutes.deleteBudget s userId (Budget._id d)
      = (Json 200 message, s')
      /\ records s' = records s
      /\ nextId s' = nextId s
      /\ (forall c, In c (budgets s') <-> In c (budgets s) /\ c <> d)
      /\ Budget.findById (Budget._id d) (budgets s') = None
      /\ BudgetRoutes.deleteBudget s' userId (Budget._id d)
         = (Failure 404 "Budget not found", s')
      /\ forall now,
           BudgetRoutes.getBudget now s' userId (Budget._id d)
           = (Failure 404 "Budget not found", s').
Proof.
  intros s u d Hnd Hin Hu.
  unfold BudgetRoutes.deleteBudget at 1.
  rewrite (findOne_owned (budgets s) u d Hnd Hin Hu).
  eexists. eexists. split; [reflexivity|]. simpl.
  split; [reflexivity|]. split; [reflexivity|].
  split; [intros c; apply deleteOne_In; assumption|].
  split; [apply findById_absent, deleteOne_absent|].
  split.
  - unfold BudgetRoutes.deleteBudget. simpl.
    rewrite (findOne_owned_absent u _ _ (deleteOne_absent d (budgets s))).
    reflexivity.
  - intros now. unfold BudgetRoutes.getBudget. simpl.
    rewrite (findOne_owned_absent u _ _ (deleteOne_absent d (budgets s))).
    reflexivity.
Qed.

Lemma deleteBudget_removes_only_target_witness :
  exists message s',
    BudgetRoutes.deleteBudget Household.shared Sample.alice 6%nat
    = (Json 200 message, s')
    /\ budgets s' = [Sample.foodBudget; Household.bobHousing].
Proof.
  destruct (deleteBudget_removes_only_target Household.shared Sample.alice
              Sample.housingBudget)
    as (m & s' & E & _).
  - unfold uniqueIds. simpl. distinct_ids.
  - simpl. right. right. left. reflexivity.
  - reflexivity.
  - exists m, s'. split; [exact E|].
    cbv [BudgetRoutes.deleteBudget] in E. simpl in E.
    injection E as _ <-. reflexivity.
Defined.

(** ** Toggling twice *)

Lemma Budget_eqb_isActive a b :
  Budget.isActive a <> Budget.isActive b -> Budget.eqb a b = false.
Proof.
  intros H. destruct (Budget.eqb a b) eqn:E; [|reflexivity].
  apply Budget_eqb_sameScope in E. destruct E as [(_ & _ & _ & Ha & _) _].
  contradiction.
Qed.

Lemma replace_replace (a b : Budget.t) coll :
  Budget._id a = Budget._id b ->
  Budget.replace a (Budget.replace b coll) = Budget.replace a coll.
Proof.
  intros E. unfold Budget.replace. rewrite map_map. apply map_ext.
  intros x. destruct (Nat.eqb_spec (Budget._id x) (Budget._id b)) as [H|H].
  - rewrite <- E, Nat.eqb_refl. rewrite E, H, Nat.eqb_refl. reflexivity.
  - rewrite E. reflexivity.
Qed.

Lemma replace_In doc coll d0 :
  In d0 coll -> Budget._id d0 = Budget._id doc ->
  In doc (Budget.replace doc coll).
Proof.
  intros Hin E. unfold Budget.replace. apply in_map_iff.
  exists d0. rewrite E, Nat.eqb_refl. split; [reflexivity | exact Hin].
Qed.

Lemma replace_ids doc coll :
  map Budget._id (Budget.replace doc coll) = map Budget._id coll.
Proof.
  unfold Budget.replace. rewrite map_map. apply map_ext.
  intros x. destruct (Nat.eqb_spec (Budget._id x) (Budget._id doc));
    congruence.
Qed.

Lemma toggle_once now s u d :
  uniqueIds (budgets s) -> In d (budgets s) -> Budget.user d = u ->
  BudgetRoutes.toggleBudgetActive now s u (Budget._id d)
  = (Json 200
       (Budget.set_updatedAt now
          (Budget.set_isActive (negb (Budget.isActive d)) d)),
     mkStore (records s)
       (Budget.replace
          (Budget.set_updatedAt now
             (Budget.set_isActive (negb (Budget.isActive d)) d))
          (budgets s))
       (nextId s)).
Proof.
  intros Hnd Hin Hu. unfold BudgetRoutes.toggleBudgetActive.
  rewrite (findOne_owned (budgets s) u d Hnd Hin Hu).
  unfold Budget.save. simpl Budget._id.
  rewrite (findById_In (budgets s) d Hnd Hin).
  rewrite Budget_eqb_isActive; [reflexivity|].
  simpl. destruct (Budget.isActive d); discriminate.
Qed.

(** X7. Toggling one's budget twice gives back the budget as it was,
    with a new [updatedAt] only; the first toggle inverts [isActive]
    and nothing else is written, here or in any other document. *)
Theorem toggle_twice_restores :
  forall (now1 now2 : Z) (s : Store) (userId : ObjectId) (d : Budget.t),
    uniqueIds (budgets s) ->
    In d (budgets s) ->
    Budget.user d = userId ->
    exists b1 s1 b2 s2,
      BudgetRoutes.toggleBudgetActive now1 s userId (Budget._id d)
      = (Json 200 b1, s1)
      /\ Budget.isActive b1 = negb (Budget.isActive d)
      /\ BudgetRoutes.toggleBudgetActive now2 s1 userId (Budget._id d)
         = (Json 200 b2, s2)
      /\ b2 = Budget.set_updatedAt now2 d
      /\ budgets s2 = Budget.replace b2 (budgets s)
      /\ records s2 = records s
      /\ nextId s2 = nextId s.
Proof.
  intros now1 now2 s u d Hnd Hin Hu.
  set (b1 := Budget.set_updatedAt now1
               (Budget.set_isActive (negb (Budget.isActive d)) d)).
  set (s1 := mkStore (records s) (Budget.replace b1 (budgets s)) (nextId s)).
  assert (Hnd1 : uniqueIds (budgets s1)).
  { unfold uniqueIds. simpl. rewrite replace_ids. exact Hnd. }
  assert (Hin1 : In b1 (budgets s1)).
  { simpl. apply (replace_In b1 (budgets s) d Hin). reflexivity. }
  pose proof (toggle_once now2 s1 u b1 Hnd1 Hin1 Hu) as H2.
  assert (E : Budget.set_updatedAt now2
                (Budget.set_isActive (negb (Budget.isActive b1)) b1)
              = Budget.set_updatedAt now2 d).
  { destruct d. unfold b1. simpl.
    unfold Budget.set_updatedAt, Budget.set_isActive. simpl.
    rewrite negb_involutive. reflexivity. }
  rewrite E in H2.
  exists b1, s1, (Budget.set_updatedAt now2 d),
    (mkStore (records s1)
       (Budget.replace (Budget.set_updatedAt now2 d) (budgets s1))
       (nextId s1)).
  split; [apply toggle_once; assumption|].
  split; [reflexivity|].
  split; [exact H2|].
  split; [reflexivity|].
  split; [|split; reflexivity].
  simpl. apply replace_replace. reflexivity.
Qed.

Lemma toggle_twice_restores_witness :
  exists b1 s1 b2 s2,
    BudgetRoutes.toggleBudgetActive Sample.now Household.shared
      Sample.alice 4%nat = (Json 200 b1, s1)
    /\ Budget.isActive b1 = false
    /\ BudgetRoutes.toggleBudgetActive Sample.later s1 Sample.alice 4%nat
       = (Json 200 b2, s2)
    /\ b2 = Budget.set_updatedAt Sample.later Sample.foodBudget.
Proof.
  destruct (toggle_twice_restores Sample.now Sample.later Household.shared
              Sample.alice Sample.foodBudget)
    as (b1 & s1 & b2 & s2 & E1 & Ha & E2 & Eb & _).
  - unfold uniqueIds. simpl. distinct_ids.
  - simpl. left. reflexivity.
  - reflexivity.
  - exists b1, s1, b2, s2. repeat split; assumption.
Defined.

(** ** Documents of other users *)

Lemma findOne_owned_foreign u coll d :
  uniqueIds coll -> In d coll -> Budget.user d <> u ->
  Budget.findOne (BudgetRoutes.owned u (Budget._id d)) coll = None.
Proof.
  intros Hnd Hin Hu. unfold Budget.findOne. apply find_none_conv.
  intros x Hx. unfold BudgetRoutes.owned.
  destruct (Nat.eqb_spec (Budget._id x) (Budget._id d)) as [E|E];
    [|reflexivity].
  rewrite (uniqueIds_inj coll x d Hnd Hx Hin E). simpl.
  apply Nat.eqb_neq. exact Hu.
Qed.

Lemma record_findOne_owned_foreign u coll r :
  uniqueRecordIds coll -> In r coll -> FinancialRecord.user r <> u ->
  FinancialRecord.findOne (RecordRoutes.owned u (FinancialRecord._id r)) coll
  = None.
Proof.
  intros Hnd Hin Hu. unfold FinancialRecord.findOne. apply find_none_conv.
  intros x Hx. unfold RecordRoutes.owned.
  destruct (Nat.eqb_spec (FinancialRecord._id x) (FinancialRecord._id r))
    as [E|E]; [|reflexivity].
  rewrite (uniqueRecordIds_inj coll x r Hnd Hx Hin E). simpl.
  apply Nat.eqb_neq. exact Hu.
Qed.

(** X8. The id of a budget or a record of somebody else gets a user
    nowhere: reading, updating, toggling and deleting it are refused,
    with 404 once the body is valid, and the store is left as it is. *)
Theorem foreign_ids_are_refused :
  forall (now : Z) (s : Store) (userId : ObjectId),
    uniqueIds (budgets s) ->
    uniqueRecordIds (records s) ->
    (forall d, In d (budgets s) -> Budget.user d <> userId ->
       BudgetRoutes.getBudget now s userId (Budget._id d)
       = (Failure 404 "Budget not found", s)
       /\ BudgetRoutes.toggleBudgetActive now s userId (Budget._id d)
          = (Failure 404 "Budget not found", s)
       /\ BudgetRoutes.deleteBudget s userId (Budget._id d)
          = (Failure 404 "Budget not found", s)
       /\ forall body,
            BudgetRoutes.updateBudget now s userId (Budget._id d) body
            = (match BudgetRoutes.validateBudget body with
               | Some _ => Failure 404 "Budget not found"
               | None => Failure 400 "Validation failed"
               end, s))
    /\ (forall r, In r (records s) -> FinancialRecord.user r <> userId ->
          RecordRoutes.deleteRecord now s userId (FinancialRecord._id r)
          = (Failure 404 "Record not found", s)
          /\ forall body,
               RecordRoutes.updateRecord now s userId (FinancialRecord._id r)
                 body
               = (match RecordRoutes.validateFinancialRecord body with
                  | Some _ => Failure 404 "Record not found"
                  | None => Failure 400 "Validation failed"
                  end, s)).
Proof.
  intros now s u Hnd Hrnd. split.
  - intros d Hin Hu.
    pose proof (findOne_owned_foreign u (budgets s) d Hnd Hin Hu) as Hf.
    unfold BudgetRoutes.getBudget, BudgetRoutes.toggleBudgetActive,
      BudgetRoutes.deleteBudget, BudgetRoutes.updateBudget.
    rewrite Hf. repeat split.
    intros body. destruct (BudgetRoutes.validateBudget body); reflexivity.
  - intros r Hin Hu.
    pose proof (record_findOne_owned_foreign u (records s) r Hrnd Hin Hu)
      as Hf.
    unfold RecordRoutes.deleteRecord, RecordRoutes.updateRecord.
    rewrite Hf. split; [reflexivity|].
    intros body.
    destruct (RecordRoutes.validateFinancialRecord body); reflexivity.
Qed.

Lemma foreign_ids_are_refused_witness :
  BudgetRoutes.deleteBudget Household.shared Sample.alice 11%nat
  = (Failure 404 "Budget not found", Household.shared)
  /\ RecordRoutes.deleteRecord Sample.now Household.shared Sample.alice
       10%nat
     = (Failure 404 "Record not found", Household.shared).
Proof.
  destruct (foreign_ids_are_refused Sample.now Household.shared Sample.alice)
    as [Hb Hr].
  - unfold uniqueIds. simpl. distinct_ids.
  - unfold uniqueRecordIds. simpl. distinct_ids.
  - split.
    + apply (Hb Household.bobHousing).
      * simpl. right. left. reflexivity.
      * discriminate.
    + apply (Hr Household.bobRent).
      * simpl. right. right. left. reflexivity.
      * discriminate.
Defined.

(** ** One active budget for a category *)

Lemma oneActive_sameScope coll coll' :
  Forall2 sameScope coll coll' ->
  oneActivePerCategory coll -> oneActivePerCategory coll'.
Proof.
  intros HF H a' b' Ha' Hb' Hact Hbct Hu Hc.
  destruct (Forall2_In_r _ _ _ _ _ _ HF Ha')
    as [a [Ha (Ha1 & Ha2 & Ha3 & Ha4 & _)]].
  destruct (Forall2_In_r _ _ _ _ _ _ HF Hb')
    as [b [Hb (Hb1 & Hb2 & Hb3 & Hb4 & _)]].
  rewrite <- Ha1, <- Hb1. apply H; congruence.
Qed.

Lemma oneActive_incl coll coll' :
  incl coll' coll -> oneActivePerCategory coll -> oneActivePerCategory coll'.
Proof. intros Hi H a b Ha Hb. apply H; apply Hi; assumption. Qed.

Lemma sameScope_Forall2_trans l1 l2 l3 :
  Forall2 sameScope l1 l2 -> Forall2 sameScope l2 l3 ->
  Forall2 sameScope l1 l3.
Proof. apply Forall2_trans_rel. exact sameScope_trans. Qed.

Lemma reconcile_found_scope now s p :
  uniqueIds (budgets s) ->
  Forall2 sameScope (budgets s)
    (budgets (RecordRoutes.reconcileFound now s (Budget.findOne p (budgets s)))).
Proof.
  intros Hnd. apply reconcileFound_sameScope; [exact Hnd|].
  intros b Hb. apply findOne_In in Hb. apply Hb.
Qed.

Lemma getBudget_scope now s u id :
  uniqueIds (budgets s) ->
  Forall2 sameScope (budgets s)
    (budgets (snd (BudgetRoutes.getBudget now s u id))).
Proof.
  intros Hnd.
  pose proof (reconcile_found_scope now s (BudgetRoutes.owned u id) Hnd)
    as H.
  unfold BudgetRoutes.getBudget.
  destruct (Budget.findOne _ _) as [b|]; simpl in *.
  - destruct (Budget.updateSpentAmount now (records s) (budgets s) b).
    exact H.
  - exact H.
Qed.

Lemma reconcile_docs_scope now s (q : Budget.t -> bool) :
  uniqueIds (budgets s) ->
  Forall2 sameScope (budgets s)
    (fst (Budget.updateSpentAmounts now (records s) (budgets s)
            (Budget.sortByCategory (filter q (budgets s))))).
Proof.
  intros Hnd.
  destruct (sorted_docs_facts q (budgets s) Hnd) as [Hdocs Hin].
  apply (updateSpentAmounts_found now (records s) (budgets s) _ Hnd Hdocs).
  intros d Hd. apply Hin in Hd. apply Hd.
Qed.

Lemma listBudgets_scope now s u active :
  uniqueIds (budgets s) ->
  Forall2 sameScope (budgets s)
    (budgets (snd (BudgetRoutes.listBudgets now s u active))).
Proof.
  intros Hnd. unfold BudgetRoutes.listBudgets.
  match goal with
  | |- context [filter ?q (budgets s)] =>
      pose proof (reconcile_docs_scope now s q Hnd) as Hk
  end.
  destruct (Budget.updateSpentAmounts _ _ _ _) as [coll l]. exact Hk.
Qed.

Lemma overviewSummary_scope now s u :
  uniqueIds (budgets s) ->
  Forall2 sameScope (budgets s)
    (budgets (snd (BudgetRoutes.overviewSummary now s u))).
Proof.
  intros Hnd.
  unfold BudgetRoutes.overviewSummary, Budget.getUserBudgetOverview.
  match goal with
  | |- context [filter ?q (budgets s)] =>
      pose proof (reconcile_docs_scope now s q Hnd) as Hk
  end.
  destruct (Budget.updateSpentAmounts _ _ _ _) as [coll l]. exact Hk.
Qed.

Lemma validateBudget_Some body body' :
  BudgetRoutes.validateBudget body = Some body' ->
  exists c a p,
    BudgetRoutes.category body = Some c
    /\ BudgetRoutes.budgetAmount body = Some a
    /\ BudgetRoutes.period body = Some p
    /\ body' = BudgetRoutes.mkBody (Some (Text.trim c)) (Some a) (Some p)
                 (BudgetRoutes.alertThreshold body) (BudgetRoutes.color body).
Proof.
  unfold BudgetRoutes.validateBudget.
  destruct (BudgetRoutes.category body) as [c|]; [|discriminate].
  destruct (BudgetRoutes.budgetAmount body) as [a|]; [|discriminate].
  destruct (BudgetRoutes.period body) as [p|]; [|discriminate].
  destruct (_ && _); [|discriminate].
  intros H. injection H as <-. exists c, a, p. repeat split.
Qed.

Lemma uniqueIds_snoc s b :
  wellFormed s -> Budget._id b = nextId s -> uniqueIds (budgets s ++ [b]).
Proof.
  intros (Hu & _ & Hb & _) Hid.
  unfold uniqueIds. rewrite map_app. simpl. rewrite Hid.
  apply NoDup_snoc; [exact Hu|].
  apply fresh_not_In. apply Forall_map. exact Hb.
Qed.

Lemma createBudget_scope now s u body :
  wellFormed s ->
  oneActivePerCategory (budgets s) ->
  oneActivePerCategory
    (budgets (snd (BudgetRoutes.createBudget now s u body))).
Proof.
  intros Hw Hone. unfold BudgetRoutes.createBudget.
  destruct (BudgetRoutes.validateBudget body) as [body'|] eqn:Ev;
    [|exact Hone].
  destruct (validateBudget_Some body body' Ev)
    as (c & a & p & _ & _ & _ & ->).
  simpl.
  destruct (Budget.findOne _ _) as [b|] eqn:Ef; [exact Hone|].
  set (new := Budget.mk (nextId s) u (Text.trim c) a 0 p _ _ true _ _ now now).
  pose proof (uniqueIds_snoc s new Hw eq_refl) as Hnd0.
  assert (Hone0 : oneActivePerCategory (budgets s ++ [new])).
  { assert (Hnone : forall x, In x (budgets s) ->
                              Budget.isActive x = true ->
                              Budget.user x = u ->
                              Budget.category x = Text.trim c -> False).
    { intros x Hx Ha Hu Hc.
      pose proof (find_none _ _ Ef x Hx) as Hf.
      assert (Ht : BudgetRoutes.activeFor u (Text.trim c) x = true)
        by (apply activeFor_true; tauto).
      congruence. }
    intros x y Hx Hy Hax Hay Hu Hc.
    apply in_app_or in Hx. apply in_app_or in Hy.
    destruct Hx as [Hx|[<-|[]]], Hy as [Hy|[<-|[]]].
    - apply Hone; assumption.
    - exfalso. apply (Hnone x Hx Hax); [exact Hu | exact Hc].
    - exfalso. apply (Hnone y Hy Hay); [symmetry; exact Hu | symmetry; exact Hc].
    - reflexivity. }
  assert (Hin : In new (budgets s ++ [new]))
    by (apply in_or_app; right; left; reflexivity).
  pose proof (reconcileFound_sameScope now
                (mkStore (records s) (budgets s ++ [new]) (S (nextId s)))
                (Some new) Hnd0) as Hsc.
  simpl in Hsc.
  destruct (Budget.updateSpentAmount now (records s) (budgets s ++ [new]) new)
    as [coll b'].
  simpl in *. eapply oneActive_sameScope; [|exact Hone0].
  apply Hsc. intros b0 E. injection E as <-. exact Hin.
Qed.

Lemma createRecord_scope now s u body :
  uniqueIds (budgets s) ->
  Forall2 sameScope (budgets s)
    (budgets (snd (RecordRoutes.createRecord now s u body))).
Proof.
  intros Hnd.
  assert (Hrefl : Forall2 sameScope (budgets s) (budgets s))
    by (apply Forall2_diag; intros; apply sameScope_refl).
  unfold RecordRoutes.createRecord.
  destruct (RecordRoutes.validateFinancialRecord body) as [body'|] eqn:Ev;
    [|exact Hrefl].
  destruct (validateFinancialRecord_fields body body' Ev)
    as (d & a & ty & c & -> & -> & -> & -> & _).
  cbv zeta.
  destruct (_ && _); [|exact Hrefl].
  simpl snd.
  destruct (RecordType.eqb _ _); [|exact Hrefl].
  match goal with
  | |- context [RecordRoutes.reconcileFound now ?s1 (Budget.findOne ?p _)] =>
      apply (reconcile_found_scope now s1 p Hnd)
  end.
Qed.

Lemma updateRecord_scope now s u id body :
  uniqueIds (budgets s) ->
  Forall2 sameScope (budgets s)
    (budgets (snd (RecordRoutes.updateRecord now s u id body))).
Proof.
  intros Hnd.
  assert (Hrefl : Forall2 sameScope (budgets s) (budgets s))
    by (apply Forall2_diag; intros; apply sameScope_refl).
  destruct (RecordRoutes.validateFinancialRecord body) as [body'|] eqn:Ev.
  2:{ unfold RecordRoutes.updateRecord. rewrite Ev. exact Hrefl. }
  destruct (FinancialRecord.findOne (RecordRoutes.owned u id) (records s))
    as [r0|] eqn:Ef.
  2:{ unfold RecordRoutes.updateRecord. rewrite Ev, Ef. exact Hrefl. }
  destruct (FinancialRecord.validate (RecordRoutes.assign r0 body')
            && (FinancialRecord._id (RecordRoutes.assign r0 body')
                =? FinancialRecord._id r0)%nat) eqn:Eok.
  2:{ rewrite (updateRecord_refused now s u id body body' r0 Ev Ef Eok).
      exact Hrefl. }
  apply andb_prop in Eok. destruct Eok as [Hval Hid].
  apply Nat.eqb_eq in Hid.
  rewrite (updateRecord_unfold now s u id body body' r0 Ev Ef Hval Hid).
  cbv zeta. simpl snd.
  set (s1 := mkStore _ (budgets s) (nextId s)).
  destruct (_ || _); [|exact Hrefl].
  match goal with
  | |- context [RecordRoutes.reconcileFound now ?s2 (Budget.findOne ?p _)] =>
      assert (H2 : uniqueIds (budgets s2)
                   /\ Forall2 sameScope (budgets s) (budgets s2))
  end.
  { destruct (negb _); [|split; [exact Hnd | exact Hrefl]].
    split.
    - apply reconcileFound_uniqueIds. exact Hnd.
    - match goal with
      | |- context [RecordRoutes.reconcileFound now s1 (Budget.findOne ?p _)] =>
          apply (reconcile_found_scope now s1 p Hnd)
      end. }
  destruct H2 as [Hnd2 Hsc2].
  eapply sameScope_Forall2_trans; [exact Hsc2|].
  match goal with
  | |- Forall2 _ (budgets ?s2)
         (budgets (RecordRoutes.reconcileFound now _ (Budget.findOne ?p _))) =>
      apply (reconcile_found_scope now s2 p Hnd2)
  end.
Qed.

Lemma deleteRecord_scope now s u id :
  uniqueIds (budgets s) ->
  Forall2 sameScope (budgets s)
    (budgets (snd (RecordRoutes.deleteRecord now s u id))).
Proof.
  intros Hnd.
  assert (Hrefl : Forall2 sameScope (budgets s) (budgets s))
    by (apply Forall2_diag; intros; apply sameScope_refl).
  unfold RecordRoutes.deleteRecord.
  destruct (FinancialRecord.findOne _ _) as [r|]; [|exact Hrefl].
  cbv zeta. simpl snd.
  destruct (RecordType.eqb _ _); [|exact Hrefl].
  match goal with
  | |- context [RecordRoutes.reconcileFound now ?s1 (Budget.findOne ?p _)] =>
      apply (reconcile_found_scope now s1 p Hnd)
  end.
Qed.

Lemma deleteBudget_incl s u id :
  incl (budgets (snd (BudgetRoutes.deleteBudget s u id))) (budgets s).
Proof.
  unfold BudgetRoutes.deleteBudget.
  destruct (Budget.findOne _ _) as [b|]; simpl; [|apply incl_refl].
  intros x Hx. unfold Budget.deleteOne in Hx. apply filter_In in Hx.
  apply Hx.
Qed.

Lemma oneActive_shared : oneActivePerCategory (budgets Household.shared).
Proof.
  intros a b Ha Hb. simpl in Ha, Hb.
  repeat (destruct Ha as [<-|Ha]); try contradiction;
    repeat (destruct Hb as [<-|Hb]); try contradiction;
    intros _ _ Hu Hc; try reflexivity; try discriminate.
Qed.

(** X9. With at most one active budget for a user and a category in
    the store, every request keeps it so, the update and the toggle of
    a budget apart: listing, reading, creating and deleting budgets,
    the overview, and creating, updating and deleting records. *)
Theorem guarded_requests_keep_one_active_budget :
  forall (now : Z) (s : Store) (userId id : ObjectId)
         (body : BudgetRoutes.Body) (active : option string)
         (rbody : RecordRoutes.Body) (s' : Store),
    wellFormed s ->
    oneActivePerCategory (budgets s) ->
    In s' (afterGuardedRoutes now s userId id body active rbody) ->
    oneActivePerCategory (budgets s').
Proof.
  intros now s u id body active rbody s' Hw Hone Hin.
  pose proof (proj1 Hw) as Hnd.
  unfold afterGuardedRoutes, afterRecordRoutes in Hin.
  cbn [app In] in Hin.
  repeat (destruct Hin as [<-|Hin]); try contradiction.
  - eapply oneActive_sameScope; [apply listBudgets_scope|]; assumption.
  - eapply oneActive_sameScope; [apply getBudget_scope|]; assumption.
  - apply createBudget_scope; assumption.
  - eapply oneActive_incl; [apply deleteBudget_incl | exact Hone].
  - eapply oneActive_sameScope; [apply overviewSummary_scope|]; assumption.
  - eapply oneActive_sameScope; [apply createRecord_scope|]; assumption.
  - eapply oneActive_sameScope; [apply updateRecord_scope|]; assumption.
  - eapply oneActive_sameScope; [apply deleteRecord_scope|]; assumption.
Qed.

Lemma guarded_requests_keep_one_active_budget_witness :
  oneActivePerCategory
    (budgets (snd (BudgetRoutes.createBudget Sample.now Household.shared
                     Sample.alice Sample.overallBody))).
Proof.
  apply (guarded_requests_keep_one_active_budget Sample.now Household.shared
           Sample.alice 6%nat Sample.overallBody None Household.rentBody).
  - exact wellFormed_shared.
  - exact oneActive_shared.
  - unfold afterGuardedRoutes. apply in_or_app. left.
    do 2 right. left. reflexivity.
Defined.

(** ** Creating a budget *)

Lemma save_result now coll doc :
  snd (Budget.save now coll doc) = doc
  \/ snd (Budget.save now coll doc) = Budget.set_updatedAt now doc.
Proof.
  unfold Budget.save.
  destruct (Budget.findById _ _); [|left; reflexivity].
  destruct (Budget.eqb _ _); [left|right]; reflexivity.
Qed.

(** X10. A create request that passes validation, for a category the
    user has no active budget for, is answered with 201 and a budget
    with the next id, the trimmed category, the window of its period
    and the spent amount its records give; this budget is stored and
    reconciled, and nothing else changes.  An alert threshold of 0,
    which validation lets through, is replaced by 80 as an absent one
    is. *)
Theorem createBudget_stores_reconciled_budget :
  forall (now : Z) (s : Store) (userId : ObjectId) (body body' : BudgetRoutes.Body)
         (c : string),
    wellFormed s ->
    BudgetRoutes.validateBudget body = Some body' ->
    BudgetRoutes.category body = Some c ->
    (forall d, In d (budgets s) -> Budget.user d = userId ->
               Budget.category d = Text.trim c ->
               Budget.isActive d = false) ->
    exists b s',
      BudgetRoutes.createBudget now s userId body = (Json 201 b, s')
      /\ Budget._id b = nextId s
      /\ Budget.user b = userId
      /\ Budget.category b = Text.trim c
      /\ Some (Budget.budgetAmount b) = BudgetRoutes.budgetAmount body
      /\ Some (Budget.period b) = BudgetRoutes.period body
      /\ Budget.isActive b = true
      /\ (Budget.startDate b, Budget.endDate b)
         = BudgetRoutes.periodWindow now (Budget.period b)
      /\ (forall th, BudgetRoutes.alertThreshold body = Some th ->
                     ~ th == 0 -> Budget.alertThreshold b = th)
      /\ (forall th, BudgetRoutes.alertThreshold body = Some th ->
                     th == 0 -> Budget.alertThreshold b = 80)
      /\ (BudgetRoutes.alertThreshold body = None ->
          Budget.alertThreshold b = 80)
      /\ Budget.spentAmount b == spentTotal (records s) b
      /\ reconciledAs s' b
      /\ records s' = records s
      /\ nextId s' = S (nextId s)
      /\ map Budget._id (budgets s') = map Budget._id (budgets s) ++ [nextId s]
      /\ forall d, In d (budgets s) -> In d (budgets s').
Proof.
  intros now s u body body' c0 Hw Ev Hc0 Hnone.
  unfold BudgetRoutes.createBudget. rewrite Ev.
  destruct (validateBudget_Some body body' Ev)
    as (c & a & p & Hc & Ha & Hp & ->).
  assert (c = c0) by congruence. subst c0. simpl.
  assert (Hf : Budget.findOne (BudgetRoutes.activeFor u (Text.trim c))
                 (budgets s) = None).
  { unfold Budget.findOne. apply find_none_conv. intros x Hx.
    destruct (BudgetRoutes.activeFor u (Text.trim c) x) eqn:E;
      [|reflexivity].
    apply activeFor_true in E. destruct E as (E1 & E2 & E3).
    rewrite (Hnone x Hx E1 E2) in E3. discriminate. }
  rewrite Hf.
  set (new := Budget.mk (nextId s) u (Text.trim c) a 0 p _ _ true _ _ now now).
  pose proof (uniqueIds_snoc s new Hw eq_refl) as Hnd0.
  assert (Hin : In new (budgets s ++ [new]))
    by (apply in_or_app; right; left; reflexivity).
  set (s0 := mkStore (records s) (budgets s ++ [new]) (S (nextId s))).
  pose proof (reconcileFound_target now s0 new Hnd0 Hin) as Htarget.
  pose proof (reconcileFound_touches now s0 new Hnd0) as Htouch.
  destruct (updateSpentAmount_tracks now (records s) (budgets s ++ [new]) new
              Hnd0) as (Hsc & Hsp & _).
  pose proof (updateSpentAmount_as_save now (records s) (budgets s ++ [new])
                new) as Has.
  pose proof (save_result now (budgets s ++ [new])
                (Budget.set_spentAmount (aggregatedSpent (records s) new) new))
    as Hres.
  rewrite <- Has in Hres.
  unfold s0 in Htarget, Htouch. simpl in Htarget, Htouch.
  destruct (Budget.updateSpentAmount now (records s) (budgets s ++ [new]) new)
    as [coll b].
  simpl in Hsc, Hsp, Hres, Htarget, Htouch.
  exists b. eexists. split; [reflexivity|].
  assert (Hrest : Budget.budgetAmount b = a /\ Budget.period b = p
                  /\ Budget.alertThreshold b
                     = BudgetRoutes.thresholdOrDefault
                         (BudgetRoutes.alertThreshold body)).
  { destruct Hres as [-> | ->]; simpl; repeat split. }
  destruct Hrest as (Hba & Hbp & Hbt).
  pose proof Hsc as (Hid & Hus & Hcat & Hact & Hst & Hen).
  simpl in Hid, Hus, Hcat, Hact, Hst, Hen.
  split; [exact Hid|]. split; [exact Hus|]. split; [exact Hcat|].
  split; [congruence|]. split; [congruence|]. split; [exact Hact|].
  split.
  { rewrite Hst, Hen, Hbp. symmetry. apply surjective_pairing. }
  split.
  { intros th Hth Hnz. rewrite Hbt, Hth. simpl.
    destruct (Qeq_bool th 0) eqn:E; [|reflexivity].
    apply Qeq_bool_iff in E. contradiction. }
  split.
  { intros th Hth Hz. rewrite Hbt, Hth. simpl.
    apply Qeq_bool_iff in Hz. rewrite Hz. reflexivity. }
  split; [intros Hth; rewrite Hbt, Hth; reflexivity|].
  split.
  { rewrite Hsp. rewrite (spentTotal_sameScope _ _ _ Hsc). reflexivity. }
  split.
  { destruct Htarget as [d (Hfd & Hds & Hda)].
    exists d. simpl. rewrite Hid.
    split; [exact Hfd|]. split.
    - eapply sameScope_trans; [exact Hds | apply sameScope_sym; exact Hsc].
    - rewrite Hda. rewrite (spentTotal_sameScope _ _ _ Hsc). reflexivity. }
  split; [reflexivity|]. split; [reflexivity|]. simpl.
  split.
  { rewrite (touchesOnly_ids _ _ _ _ Htouch), map_app. reflexivity. }
  intros d Hd.
  apply (touchesOnly_other _ _ _ _ d Htouch).
  - apply in_or_app. left. exact Hd.
  - simpl. destruct Hw as (_ & _ & Hlt & _).
    pose proof (proj1 (Forall_forall _ _) Hlt d Hd) as Hl. simpl in Hl. lia.
Qed.

Lemma createBudget_stores_reconciled_budget_witness :
  exists b s',
    BudgetRoutes.createBudget Sample.now Household.shared Sample.alice
      Sample.overallBody = (Json 201 b, s')
    /\ Budget._id b = 12%nat
    /\ Budget.category b = "Overall Budget"%string
    /\ reconciledAs s' b.
Proof.
  destruct (createBudget_stores_reconciled_budget Sample.now Household.shared
              Sample.alice Sample.overallBody
              (BudgetRoutes.mkBody (Some "Overall Budget"%string) (Some 2000)
                 (Some Period.monthly) None None)
              "Overall Budget"%string)
    as (b & s' & E & Hid & _ & Hc & _ & _ & _ & _ & _ & _ & _ & _ & Hr & _).
  - exact wellFormed_shared.
  - reflexivity.
  - reflexivity.
  - intros d Hd. simpl in Hd.
    repeat (destruct Hd as [<-|Hd]); try contradiction;
      intros _ Hcat; discriminate Hcat.
  - exists b, s'. repeat split; assumption.
Defined.

(* ================================================================== *)
(** * The windows of the periods *)
(* ================================================================== *)

Section Windows.
Import JSDate.
Local Open Scope Z_scope.

Lemma time_decompose t :
  t = MakeDate (Day t) (TimeWithinDay t) /\ 0 <= TimeWithinDay t < msPerDay.
Proof.
  unfold MakeDate, Day, TimeWithinDay, msPerDay.
  Z.div_mod_to_equations. lia.
Qed.

Lemma DayWithinYear_range t :
  0 <= DayWithinYear t < DaysInYear (YearFromTime t).
Proof.
  unfold DayWithinYear. pose proof (YearFromTime_spec t) as H.
  rewrite DayFromYear_step in H. lia.
Qed.

Lemma MonthFromTime_range t : 0 <= MonthFromTime t <= 11.
Proof.
  unfold MonthFromTime.
  repeat match goal with
         | |- context [if ?c then _ else _] => destruct c
         end; lia.
Qed.

Lemma month_span t :
  DaysBeforeMonth (InLeapYear (YearFromTime t)) (MonthFromTime t)
  <= DayWithinYear t
  < DaysBeforeMonth (InLeapYear (YearFromTime t)) (MonthFromTime t)
    + DaysInMonth (InLeapYear (YearFromTime t)) (MonthFromTime t).
Proof.
  pose proof (DayWithinYear_range t) as Hr.
  unfold MonthFromTime, DaysInYear in *.
  set (d := DayWithinYear t) in *. clearbody d.
  destruct (InLeapYear (YearFromTime t)); cbn in *;
    repeat match goal with
           | |- context [?a <? ?b] => destruct (Z.ltb_spec a b)
           end; cbn; lia.
Qed.

(** A time value is the date its calendar fields make. *)
Lemma fields_decompose t :
  Day t = MakeDay (YearFromTime t) (MonthFromTime t) (DateFromTime t)
  /\ 1 <= DateFromTime t
     <= DaysInMonth (InLeapYear (YearFromTime t)) (MonthFromTime t).
Proof.
  pose proof (month_span t) as Hs.
  rewrite (MakeDay_in_year _ _ _ (MonthFromTime_range t)).
  unfold DateFromTime, DayWithinYear in *. lia.
Qed.

Lemma MakeDay_shift Y m d k : MakeDay Y m (d + k) = MakeDay Y m d + k.
Proof. unfold MakeDay. ring. Qed.

Lemma MakeDay_norm Y m d : MakeDay Y m d = MakeDay (Y + m / 12) (m mod 12) d.
Proof.
  unfold MakeDay. cbv zeta.
  replace (m mod 12 / 12) with 0 by (Z.div_mod_to_equations; lia).
  replace ((m mod 12) mod 12) with (m mod 12)
    by (Z.div_mod_to_equations; lia).
  rewrite Z.add_0_r. reflexivity.
Qed.

Lemma MakeDay_next_month Y m :
  0 <= m <= 11 ->
  MakeDay Y (m + 1) 1 = MakeDay Y m 1 + DaysInMonth (InLeapYear Y) m.
Proof.
  intros H.
  pose proof (MakeDay_day0 Y (m + 1) ltac:(lia)) as H0.
  replace (m + 1 - 1) with m in H0 by ring.
  pose proof (MakeDay_shift Y (m + 1) 0 1) as H1.
  pose proof (MakeDay_shift Y m 1 (DaysInMonth (InLeapYear Y) m - 1)) as H2.
  replace (1 + (DaysInMonth (InLeapYear Y) m - 1))
    with (DaysInMonth (InLeapYear Y) m) in H2 by ring.
  simpl (0 + 1) in H1. lia.
Qed.

(** [t.setDate(t.getDate() + k)] moves [t] by [k] days. *)
Lemma setDate_shift t k : setDate t (getDate t + k) = t + k * msPerDay.
Proof.
  unfold setDate, getDate.
  rewrite MakeDay_shift, <- (proj1 (fields_decompose t)).
  destruct (time_decompose t) as [E _].
  unfold MakeDate in *. lia.
Qed.

(** The instants of month [m] of year [Y] are those from its first
    midnight up to the first midnight of the next month. *)
Lemma in_month_iff Y m t :
  0 <= m <= 11 ->
  (YearFromTime t = Y /\ MonthFromTime t = m)
  <-> MakeDate (MakeDay Y m 1) 0 <= t < MakeDate (MakeDay Y (m + 1) 1) 0.
Proof.
  intros Hm. rewrite (MakeDay_next_month Y m Hm).
  destruct (time_decompose t) as [Et Htod]. split.
  - intros [<- <-].
    destruct (fields_decompose t) as [Ed Hd].
    pose proof (MakeDay_shift (YearFromTime t) (MonthFromTime t) 1
                  (DateFromTime t - 1)) as Hs.
    replace (1 + (DateFromTime t - 1)) with (DateFromTime t) in Hs by ring.
    unfold MakeDate, msPerDay in *. lia.
  - intros H.
    set (d := Day t - MakeDay Y m 1 + 1).
    assert (Hd : 1 <= d <= DaysInMonth (InLeapYear Y) m).
    { unfold d, MakeDate, msPerDay in *. lia. }
    assert (E : t = MakeDate (MakeDay Y m d) (TimeWithinDay t)).
    { pose proof (MakeDay_shift Y m 1 (d - 1)) as Hs.
      replace (1 + (d - 1)) with d in Hs by ring.
      rewrite Hs. unfold d. rewrite Et at 1. f_equal. ring. }
    destruct (civil_roundtrip Y m d (TimeWithinDay t) Hm Hd Htod)
      as (HY & HM & _).
    rewrite <- E in HY, HM. split; assumption.
Qed.

Lemma fullYear_late y : 100 <= y -> fullYear y = y.
Proof.
  intros H. unfold fullYear.
  destruct (Z.leb_spec y 99); [lia|]. rewrite andb_false_r. reflexivity.
Qed.

Lemma MakeTime_zero : MakeTime 0 0 0 0 = 0.
Proof. reflexivity. Qed.

(** The instants of year [Y] are those from its first midnight up to
    the first midnight of the next year. *)
Lemma in_year_iff Y t :
  YearFromTime t = Y
  <-> MakeDate (MakeDay Y 0 1) 0 <= t < MakeDate (MakeDay (Y + 1) 0 1) 0.
Proof.
  rewrite !MakeDay_in_year by lia. cbn [DaysBeforeMonth].
  destruct (time_decompose t) as [Et Htod]. split.
  - intros <-. pose proof (YearFromTime_spec t).
    unfold MakeDate, msPerDay in *. lia.
  - intros H. apply YearFromTime_unique.
    unfold MakeDate, msPerDay in *. lia.
Qed.

Lemma TimeWithinDay_midnight d : TimeWithinDay (MakeDate d 0) = 0.
Proof.
  unfold TimeWithinDay, MakeDate. rewrite Z.add_0_r. apply Z.mod_mul.
  discriminate.
Qed.

Lemma MakeDay_months Y m d : MakeDay Y m d = MakeDay 0 (12 * Y + m) d.
Proof.
  rewrite (MakeDay_norm Y m d), (MakeDay_norm 0 (12 * Y + m) d).
  f_equal; Z.div_mod_to_equations; lia.
Qed.

(** The first midnight of a month, months counted on from year [Y]. *)
Lemma first_of_month_fields Y m :
  YearFromTime (MakeDate (MakeDay Y m 1) 0) = Y + m / 12
  /\ MonthFromTime (MakeDate (MakeDay Y m 1) 0) = m mod 12.
Proof.
  rewrite (MakeDay_norm Y m 1).
  destruct (civil_roundtrip (Y + m / 12) (m mod 12) 1 0) as (HY & HM & _).
  - Z.div_mod_to_equations. lia.
  - assert (Hc : 0 <= m mod 12 <= 11) by (Z.div_mod_to_equations; lia).
    destruct (month_cases (m mod 12) Hc) as
      [->|[->|[->|[->|[->|[->|[->|[->|[->|[->|[->| ->]]]]]]]]]]];
      destruct (InLeapYear (Y + m / 12)); cbn; lia.
  - unfold msPerDay. lia.
  - split; assumption.
Qed.

Lemma newDate_midnight y m d :
  100 <= y -> newDate y m d 0 0 0 = MakeDate (MakeDay y m d) 0.
Proof. intros H. unfold newDate. rewrite (fullYear_late y H). reflexivity. Qed.

(** X11. The weekly window runs from the Sunday of the current week
    to its Saturday, both at the current time of day and not at
    midnight: it holds the current instant, and leaves out what
    happened earlier in the day on that Sunday. *)
Theorem weekly_window_keeps_time_of_day :
  forall now : Z,
    let w := BudgetRoutes.periodWindow now Period.weekly in
    fst w = now - getDay now * msPerDay
    /\ snd w = fst w + 6 * msPerDay
    /\ getDay (fst w) = 0
    /\ getDay (snd w) = 6
    /\ TimeWithinDay (fst w) = TimeWithinDay now
    /\ TimeWithinDay (snd w) = TimeWithinDay now
    /\ fst w <= now <= snd w
    /\ (forall t, Day t = Day (fst w) ->
                  TimeWithinDay t < TimeWithinDay now -> t < fst w).
Proof.
  intros now. cbn [BudgetRoutes.periodWindow]. cbv zeta. cbn [fst snd].
  assert (E1 : setDate now (getDate now - getDay now)
               = now - getDay now * msPerDay).
  { replace (getDate now - getDay now) with (getDate now + - getDay now)
      by ring.
    rewrite setDate_shift. ring. }
  rewrite E1, setDate_shift.
  set (start := now - getDay now * msPerDay).
  assert (Hwd : 0 <= getDay now <= 6).
  { unfold getDay, WeekDay. Z.div_mod_to_equations. lia. }
  assert (Hday : Day start = Day now - getDay now).
  { unfold start, Day, msPerDay. Z.div_mod_to_equations. lia. }
  assert (Htod : TimeWithinDay start = TimeWithinDay now).
  { unfold start, TimeWithinDay, msPerDay. Z.div_mod_to_equations. lia. }
  assert (Hday6 : Day (start + 6 * msPerDay) = Day start + 6).
  { unfold Day, msPerDay. Z.div_mod_to_equations. lia. }
  assert (Htod6 : TimeWithinDay (start + 6 * msPerDay) = TimeWithinDay start).
  { unfold TimeWithinDay, msPerDay. Z.div_mod_to_equations. lia. }
  split; [reflexivity|]. split; [reflexivity|].
  split.
  { unfold getDay, WeekDay in *. rewrite Hday.
    Z.div_mod_to_equations. lia. }
  split.
  { unfold getDay, WeekDay in *. rewrite Hday6, Hday.
    Z.div_mod_to_equations. lia. }
  split; [exact Htod|]. split; [congruence|].
  split; [unfold start, msPerDay; lia|].
  intros t Hd Ht.
  destruct (time_decompose t) as [Et _].
  destruct (time_decompose start) as [Es _].
  rewrite Et, Es, Hd, Htod. unfold MakeDate. lia.
Qed.

(** X12. The monthly and the yearly window run from the first
    midnight of the current month or year to the midnight that begins
    its last day: the instants of the month or year are those from the
    start up to one day after the end, so the last day, its first
    instant apart, lies outside the window. *)
Theorem calendar_windows_stop_at_last_midnight :
  forall (now : Z) (p : Period.t),
    100 <= getFullYear now ->
    p <> Period.weekly ->
    let w := BudgetRoutes.periodWindow now p in
    TimeWithinDay (fst w) = 0
    /\ TimeWithinDay (snd w) = 0
    /\ fst w <= snd w
    /\ fst w <= now < snd w + msPerDay
    /\ (forall t,
          (getFullYear t = getFullYear now
           /\ (p = Period.monthly -> getMonth t = getMonth now))
          <-> fst w <= t < snd w + msPerDay)
    /\ (forall (b : Budget.t) (r : FinancialRecord.t),
          Budget.startDate b = fst w -> Budget.endDate b = snd w ->
          snd w < FinancialRecord.date r ->
          Budget.spentMatch b r = false).
Proof.
  intros now p HY Hp w.
  assert (Hmatch : forall (b : Budget.t) (r : FinancialRecord.t),
             Budget.startDate b = fst w -> Budget.endDate b = snd w ->
             snd w < FinancialRecord.date r ->
             Budget.spentMatch b r = false).
  { intros b r Hs He Hlt. unfold Budget.spentMatch, FinancialRecord.inRange.
    rewrite He. destruct (Z.leb_spec (FinancialRecord.date r) (snd w));
      [lia|]. rewrite !andb_false_r. reflexivity. }
  assert (Hiff : forall t,
             (getFullYear t = getFullYear now
              /\ (p = Period.monthly -> getMonth t = getMonth now))
             <-> fst w <= t < snd w + msPerDay).
  { intros t. subst w. unfold getFullYear, getMonth in *.
    destruct p; [contradiction| |]; cbn [BudgetRoutes.periodWindow fst snd];
      unfold getFullYear, getMonth.
    - rewrite newDate_day0, !newDate_midnight by assumption.
      pose proof (in_month_iff (YearFromTime now) (MonthFromTime now) t
                    (MonthFromTime_range now)) as H.
      replace (MakeDate (MakeDay (YearFromTime now) (MonthFromTime now + 1) 1)
                 0 - msPerDay + msPerDay)
        with (MakeDate (MakeDay (YearFromTime now) (MonthFromTime now + 1) 1)
                0) by ring.
      rewrite <- H. tauto.
    - rewrite !newDate_midnight by assumption.
      pose proof (in_year_iff (YearFromTime now) t) as H.
      assert (E : MakeDate (MakeDay (YearFromTime now) 11 31) 0 + msPerDay
                  = MakeDate (MakeDay (YearFromTime now + 1) 0 1) 0).
      { rewrite !MakeDay_in_year by lia. rewrite DayFromYear_step.
        unfold DaysInYear, MakeDate.
        destruct (InLeapYear (YearFromTime now)); cbn; lia. }
      rewrite E, <- H. split; [tauto|].
      intros H1. split; [exact H1 | discriminate]. }
  assert (Hnow : fst w <= now < snd w + msPerDay).
  { apply Hiff. split; reflexivity. }
  split; [|split; [|split; [|split; [exact Hnow|split; assumption]]]].
  - subst w. destruct p; [contradiction| |];
      cbn [BudgetRoutes.periodWindow fst snd];
      rewrite newDate_midnight by assumption; apply TimeWithinDay_midnight.
  - subst w. destruct p; [contradiction| |];
      cbn [BudgetRoutes.periodWindow fst snd];
      rewrite newDate_midnight by assumption; apply TimeWithinDay_midnight.
  - subst w. unfold getFullYear, getMonth in *.
    destruct p; [contradiction| |]; cbn [BudgetRoutes.periodWindow fst snd];
      unfold getFullYear, getMonth.
    + rewrite newDate_day0, !newDate_midnight by assumption.
      rewrite (MakeDay_next_month _ _ (MonthFromTime_range now)).
      pose proof (month_span now). unfold MakeDate, msPerDay. lia.
    + rewrite !newDate_midnight by assumption.
      rewrite !MakeDay_in_year by lia.
      unfold MakeDate, msPerDay.
      destruct (InLeapYear (YearFromTime now)); cbn; lia.
Qed.

Lemma calendar_windows_stop_at_last_midnight_witness :
  BudgetRoutes.periodWindow Sample.now Period.monthly
  = (Sample.on 2024 3 1 0, Sample.on 2024 3 31 0)
  /\ Sample.on 2024 3 1 0 <= Sample.now < Sample.on 2024 3 31 0 + msPerDay.
Proof.
  assert (E : BudgetRoutes.periodWindow Sample.now Period.monthly
              = (Sample.on 2024 3 1 0, Sample.on 2024 3 31 0))
    by (vm_compute; reflexivity).
  split; [exact E|].
  destruct (calendar_windows_stop_at_last_midnight Sample.now Period.monthly)
    as (_ & _ & _ & Hn & _).
  - vm_compute. discriminate.
  - discriminate.
  - rewrite E in Hn. exact Hn.
Defined.

(** X13. On the dashboard, one step to the previous month and one to
    the next, in either order, lead to the first midnight of the month
    one started in; that instant shows as the current month, the
    previous month does not. *)
Theorem month_navigation_round_trip :
  forall t : Z,
    101 <= getFullYear t ->
    Dashboard.goToNextMonth (Dashboard.goToPreviousMonth t)
    = newDate (getFullYear t) (getMonth t) 1 0 0 0
    /\ Dashboard.goToPreviousMonth (Dashboard.goToNextMonth t)
       = newDate (getFullYear t) (getMonth t) 1 0 0 0
    /\ Dashboard.isCurrentMonth
         (Dashboard.goToNextMonth (Dashboard.goToPreviousMonth t)) t = true
    /\ Dashboard.isCurrentMonth (Dashboard.goToPreviousMonth t) t = false
    /\ Dashboard.isCurrentMonth (Dashboard.goToNextMonth t) t = false
    /\ Dashboard.goToPreviousMonth t <= t < Dashboard.goToNextMonth t.
Proof.
  intros t HY.
  pose proof (MonthFromTime_range t) as HM.
  change (0 <= getMonth t <= 11) in HM.
  set (Y := getFullYear t) in *. set (M := getMonth t) in *.
  assert (Hstep : forall k,
             -1 <= k <= 1 ->
             newDate Y (M + k) 1 0 0 0 = MakeDate (MakeDay Y (M + k) 1) 0
             /\ getFullYear (newDate Y (M + k) 1 0 0 0) = Y + (M + k) / 12
             /\ getMonth (newDate Y (M + k) 1 0 0 0) = (M + k) mod 12
             /\ 100 <= Y + (M + k) / 12).
  { intros k Hk. rewrite newDate_midnight by lia.
    destruct (first_of_month_fields Y (M + k)) as [H1 H2].
    unfold getFullYear, getMonth. rewrite H1, H2.
    repeat split. Z.div_mod_to_equations. lia. }
  assert (Hback : forall k,
             -1 <= k <= 1 ->
             newDate (Y + (M + k) / 12) ((M + k) mod 12 - k) 1 0 0 0
             = newDate Y M 1 0 0 0).
  { intros k Hk.
    rewrite !newDate_midnight by (Z.div_mod_to_equations; lia).
    f_equal. rewrite (MakeDay_months (Y + (M + k) / 12)), (MakeDay_months Y).
    f_equal. Z.div_mod_to_equations. lia. }
  destruct (Hstep (-1) ltac:(lia)) as (Ep & EpY & EpM & _).
  destruct (Hstep 1 ltac:(lia)) as (En & EnY & EnM & _).
  destruct (Hstep 0 ltac:(lia)) as (E0 & E0Y & E0M & _).
  rewrite Z.add_0_r in E0, E0Y, E0M.
  replace (M / 12) with 0 in E0Y by (Z.div_mod_to_equations; lia).
  replace (M mod 12) with M in E0M by (Z.div_mod_to_equations; lia).
  rewrite Z.add_0_r in E0Y.
  unfold Dashboard.goToNextMonth, Dashboard.goToPreviousMonth.
  fold Y M. change (M - 1) with (M + -1).
  rewrite EpY, EpM, EnY, EnM.
  pose proof (Hback (-1) ltac:(lia)) as Hb1.
  pose proof (Hback 1 ltac:(lia)) as Hb2.
  replace ((M + -1) mod 12 - -1) with ((M + -1) mod 12 + 1) in Hb1 by ring.
  rewrite Hb1, Hb2.
  split; [reflexivity|]. split; [reflexivity|].
  unfold Dashboard.isCurrentMonth. fold Y M.
  rewrite E0Y, E0M, EpY, EpM, EnY, EnM, !Z.eqb_refl.
  split; [reflexivity|].
  split.
  { apply andb_false_iff.
    destruct (Z.eq_dec M 0) as [Hz|Hz].
    - right. apply Z.eqb_neq. Z.div_mod_to_equations. lia.
    - left. apply Z.eqb_neq. Z.div_mod_to_equations. lia. }
  split.
  { apply andb_false_iff.
    destruct (Z.eq_dec M 11) as [Hz|Hz].
    - right. apply Z.eqb_neq. Z.div_mod_to_equations. lia.
    - left. apply Z.eqb_neq. Z.div_mod_to_equations. lia. }
  rewrite Ep, En.
  pose proof (proj1 (in_month_iff Y M t HM) (conj eq_refl eq_refl)) as Hin.
  assert (Hprev : MakeDay Y (M + -1) 1 <= MakeDay Y M 1).
  { rewrite (MakeDay_norm Y (M + -1)).
    pose proof (MakeDay_next_month (Y + (M + -1) / 12) ((M + -1) mod 12)
                  ltac:(Z.div_mod_to_equations; lia)) as Hn.
    assert (Hmk : MakeDay (Y + (M + -1) / 12) ((M + -1) mod 12 + 1) 1
                  = MakeDay Y M 1).
    { rewrite (MakeDay_months (Y + (M + -1) / 12)), (MakeDay_months Y).
      f_equal. Z.div_mod_to_equations. lia. }
    rewrite Hmk in Hn.
    assert (0 <= DaysInMonth (InLeapYear (Y + (M + -1) / 12))
                   ((M + -1) mod 12)).
    { unfold DaysInMonth.
      repeat match goal with
             | |- context [match ?x with _ => _ end] => destruct x
             end; lia. }
    lia. }
  unfold MakeDate, msPerDay in *. lia.
Qed.

Lemma month_navigation_round_trip_witness :
  Dashboard.goToNextMonth (Dashboard.goToPreviousMonth Sample.now)
  = Sample.on 2024 3 1 0
  /\ Dashboard.goToPreviousMonth Sample.now = Sample.on 2024 2 1 0.
Proof.
  destruct (month_navigation_round_trip Sample.now) as (E & _).
  - vm_compute. discriminate.
  - split; [|vm_compute; reflexivity].
    rewrite E. vm_compute. reflexivity.
Defined.
End Windows.

(* ================================================================== *)
(** * Records and the balance *)
(* ================================================================== *)

Lemma Qsum_map_app A (f : A -> Q) (l1 l2 : list A) :
  Qsum (map f (l1 ++ l2)) == Qsum (map f l1) + Qsum (map f l2).
Proof. rewrite map_app. apply Qsum_app. Qed.

Lemma Qsum_filter_le A (f : A -> Q) (p q : A -> bool) (l : list A) :
  (forall x, In x l -> 0 <= f x) ->
  (forall x, p x = true -> q x = true) ->
  Qsum (map f (filter p l)) <= Qsum (map f (filter q l)).
Proof.
  intros Hpos Himp. induction l as [|x l IH]; [apply Qle_refl|].
  assert (IH' : Qsum (map f (filter p l)) <= Qsum (map f (filter q l))).
  { apply IH. intros y Hy. apply Hpos. right. exact Hy. }
  assert (Hx : 0 <= f x) by (apply Hpos; left; reflexivity).
  cbn [filter]. destruct (p x) eqn:Ep.
  - rewrite (Himp x Ep). cbn [map]. rewrite !Qsum_cons.
    apply Qplus_le_compat; [apply Qle_refl | exact IH'].
  - destruct (q x); [|exact IH'].
    cbn [map]. rewrite Qsum_cons.
    apply Qle_trans with (0 + Qsum (map f (filter q l))).
    + rewrite Qplus_0_l. exact IH'.
    + apply Qplus_le_compat; [exact Hx | apply Qle_refl].
Qed.

(** X15. With the amounts of the records at least 0.01, as the schema
    has them, what a budget is reconciled to lies between 0 and the
    expense figure of its owner's balance. *)
Theorem budget_spent_within_expense_balance :
  forall (recs : list FinancialRecord.t) (b : Budget.t),
    Forall recordBounds recs ->
    0 <= spentTotal recs b
    /\ spentTotal recs b
       <= Balance.expense (FinancialRecord.getUserBalance recs (Budget.user b)).
Proof.
  intros recs b Hb. split; [apply spentTotal_nonneg; exact Hb|].
  pose proof (getUserBalance_figure recs (Budget.user b) RecordType.expense)
    as He.
  simpl balanceOf in He. rewrite He. unfold spentTotal.
  apply Qsum_filter_le.
  - intros x Hx. apply recordBounds_nonneg.
    eapply Forall_forall; eassumption.
  - intros x Hx. unfold Budget.spentMatch in Hx.
    rewrite !andb_true_iff in Hx. rewrite andb_true_iff. tauto.
Qed.

Lemma budget_spent_within_expense_balance_witness :
  spentTotal (records Household.shared) Sample.foodBudget
  <= Balance.expense
       (FinancialRecord.getUserBalance (records Household.shared)
          Sample.alice).
Proof.
  apply (budget_spent_within_expense_balance (records Household.shared)
           Sample.foodBudget).
  apply schemaBounds_shared.
Defined.

(** ** Creating and deleting records *)

Lemma getUserBalance_other coll r v :
  FinancialRecord.user r <> v ->
  FinancialRecord.getUserBalance (coll ++ [r]) v
  = FinancialRecord.getUserBalance coll v.
Proof.
  intros H. unfold FinancialRecord.getUserBalance, Pipeline.match_.
  rewrite filter_app. cbn [filter].
  destruct (Nat.eqb_spec (FinancialRecord.user r) v) as [E|E];
    [contradiction|].
  rewrite app_nil_r. reflexivity.
Qed.

Lemma existsb_id_true (k : nat) (coll : list FinancialRecord.t) :
  In k (map FinancialRecord._id coll) ->
  existsb (fun d => (FinancialRecord._id d =? k)%nat) coll = true.
Proof.
  intros Hin. apply in_map_iff in Hin. destruct Hin as [x [Hx Hin]].
  apply existsb_exists. exists x. split; [exact Hin|].
  apply Nat.eqb_eq. exact Hx.
Qed.

Lemma existsb_id_absent (k : nat) (coll : list FinancialRecord.t) :
  ~ In k (map FinancialRecord._id coll) ->
  existsb (fun d => (FinancialRecord._id d =? k)%nat) coll = false.
Proof.
  intros Hn. apply not_true_is_false. intros E. apply Hn.
  apply existsb_exists in E. destruct E as [x [Hin Hx]].
  apply Nat.eqb_eq in Hx. rewrite <- Hx. apply in_map. exact Hin.
Qed.

Lemma createRecord_unfold now s u body body' :
  RecordRoutes.validateFinancialRecord body = Some body' ->
  exists d a ty c,
    RecordRoutes.amount body = Some a
    /\ RecordRoutes.type body = Some ty
    /\ RecordRoutes.category body' = Some c
    /\ 1 # 100 <= a
    /\ let r :=
         FinancialRecord.mk
           (RecordRoutes.orElse (RecordRoutes._id body) (nextId s)) u d a ty c
           (RecordRoutes.orElse (RecordRoutes.date body) now)
           (RecordRoutes.orElse (RecordRoutes.paymentMethod body)
              PaymentMethod.other) now now
           (RecordRoutes.castTags
              (RecordRoutes.orElse (RecordRoutes.tags body) []))
           (RecordRoutes.notes body)
           (RecordRoutes.orElse (RecordRoutes.isRecurring body) false)
           (RecordRoutes.recurringFrequency body) in
       let s1 :=
         mkStore (records s ++ [r]) (budgets s)
           (S (Nat.max (nextId s) (FinancialRecord._id r))) in
       RecordRoutes.createRecord now s u body
       = if FinancialRecord.validate r
            && negb (existsb
                       (fun d => (FinancialRecord._id d
                                  =? FinancialRecord._id r)%nat)
                       (records s))
         then
           (Json 201 r,
            if RecordType.eqb ty RecordType.expense
            then RecordRoutes.reconcileFound now s1
                   (Budget.findOne
                      (RecordRoutes.activeCovering u c
                         (RecordRoutes.orElse (RecordRoutes.date body) now))
                      (budgets s))
            else s1)
         else (Failure 500 "Server error creating record", s).
Proof.
  intros Ev.
  destruct (validateFinancialRecord_fields body body' Ev)
    as (d & a & ty & c & Hd & Ha & Hty & Hc & Hdate & Hpm & Ha0 & Hty0 & Hle).
  destruct (validateFinancialRecord_others body body' Ev)
    as (Hid & _ & Htags & Hnotes & Hrec & Hfreq).
  exists d, a, ty, c. repeat (split; [assumption|]).
  unfold RecordRoutes.createRecord.
  rewrite Ev, Hd, Ha, Hty, Hc, Hdate, Hpm, Hid, Htags, Hnotes, Hrec, Hfreq.
  cbv zeta. simpl.
  destruct (_ && _); reflexivity.
Qed.

(** X16. For a create request that has passed the middleware, the
    model builds one document: with the id of the body or else one
    that no stored record has, owned by the caller whatever [user]
    the body names, dated now unless the body says otherwise.  If the validators of
    the schema refuse it or its id is taken, the answer is a 500 and
    the store stays as it is.  Otherwise the answer is a 201 with
    that document, which is appended to the collection; the balance
    of every other user stays, an income leaves the budgets alone,
    and for an expense the active budget of its category whose window
    holds its date is reconciled. *)
Theorem createRecord_appends_one_record :
  forall (now : Z) (s : Store) (userId : ObjectId)
         (body body' : RecordRoutes.Body),
    RecordRoutes.validateFinancialRecord body = Some body' ->
    exists r,
      (forall k, RecordRoutes._id body = Some k -> FinancialRecord._id r = k)
      /\ (RecordRoutes._id body = None -> wellFormed s ->
          ~ In (FinancialRecord._id r)
              (map FinancialRecord._id (records s)))
      /\ FinancialRecord.user r = userId
      /\ Some (FinancialRecord.amount r) = RecordRoutes.amount body
      /\ Some (FinancialRecord.type r) = RecordRoutes.type body
      /\ Some (FinancialRecord.category r) = RecordRoutes.category body'
      /\ FinancialRecord.date r
         = match RecordRoutes.date body with Some d => d | None => now end
      /\ FinancialRecord.notes r = RecordRoutes.notes body
      /\ FinancialRecord.recurringFrequency r
         = RecordRoutes.recurringFrequency body
      /\ FinancialRecord.isRecurring r
         = match RecordRoutes.isRecurring body with
           | Some v => v
           | None => false
           end
      /\ (FinancialRecord.validate r = false
          \/ In (FinancialRecord._id r)
               (map FinancialRecord._id (records s)) ->
          RecordRoutes.createRecord now s userId body
          = (Failure 500 "Server error creating record", s))
      /\ (FinancialRecord.validate r = true ->
          ~ In (FinancialRecord._id r)
              (map FinancialRecord._id (records s)) ->
          exists s',
            RecordRoutes.createRecord now s userId body = (Json 201 r, s')
            /\ records s' = records s ++ [r]
            /\ (forall v, v <> userId ->
                  FinancialRecord.getUserBalance (records s') v
                  = FinancialRecord.getUserBalance (records s) v)
            /\ (FinancialRecord.type r = RecordType.income ->
                budgets s' = budgets s)
            /\ (uniqueIds (budgets s) ->
                FinancialRecord.type r = RecordType.expense ->
                forall b,
                  Budget.findOne
                    (RecordRoutes.activeCovering userId
                       (FinancialRecord.category r) (FinancialRecord.date r))
                    (budgets s) = Some b ->
                  reconciled s' (Budget._id b))).
Proof.
  intros now s u body body' Ev.
  destruct (createRecord_unfold now s u body body' Ev)
    as (d & a & ty & c & Ha & Hty & Hc & Hle & E).
  cbv zeta in E.
  match type of E with
  | context [FinancialRecord.validate ?x] => set (r := x) in *
  end.
  set (s1 := mkStore (records s ++ [r]) (budgets s)
               (S (Nat.max (nextId s) (FinancialRecord._id r)))) in *.
  exists r.
  split; [intros k Hk; unfold r; simpl; rewrite Hk; reflexivity|].
  split.
  { intros Hnone (_ & _ & _ & Hlt). unfold r. simpl. rewrite Hnone. simpl.
    apply fresh_not_In. apply Forall_map. exact Hlt. }
  split; [reflexivity|].
  split; [symmetry; exact Ha|]. split; [symmetry; exact Hty|].
  split; [symmetry; exact Hc|]. split; [reflexivity|].
  split; [reflexivity|]. split; [reflexivity|]. split; [reflexivity|].
  split.
  { intros [Hno | Hdup]; rewrite E.
    - rewrite Hno. reflexivity.
    - rewrite (existsb_id_true _ _ Hdup), andb_false_r. reflexivity. }
  intros Hval Hfresh.
  rewrite Hval, (existsb_id_absent _ _ Hfresh) in E. cbn [andb negb] in E.
  match type of E with
  | _ = (_, ?s2) => set (s' := s2) in *
  end.
  assert (Hrec : records s' = records s ++ [r]).
  { unfold s'. destruct (RecordType.eqb ty RecordType.expense);
      [rewrite reconcileFound_records|]; reflexivity. }
  exists s'. split; [exact E|]. split; [exact Hrec|].
  split.
  { intros v Hv. rewrite Hrec. apply getUserBalance_other.
    intros Hu. apply Hv. symmetry. exact Hu. }
  split.
  { intros Hinc. change (FinancialRecord.type r) with ty in Hinc.
    unfold s'. rewrite Hinc. reflexivity. }
  intros Hnd Hexp b Hb.
  change (FinancialRecord.type r) with ty in Hexp.
  unfold s'. rewrite Hexp. cbn [RecordType.eqb].
  change (FinancialRecord.category r) with c in Hb.
  change (FinancialRecord.date r)
    with (RecordRoutes.orElse (RecordRoutes.date body) now) in Hb.
  rewrite Hb. apply reconciledAs_reconciled.
  apply (reconcileFound_target now s1 b Hnd).
  apply findOne_In in Hb. apply Hb.
Qed.

Lemma createRecord_appends_one_record_witness :
  exists r s',
    RecordRoutes.createRecord Sample.now Household.shared Sample.alice
      Household.rentBody = (Json 201 r, s')
    /\ FinancialRecord._id r = 12%nat
    /\ records s' = records Household.shared ++ [r].
Proof.
  destruct (createRecord_appends_one_record Sample.now
              Household.shared Sample.alice Household.rentBody
              Household.rentBody eq_refl)
    as (r & _ & Hfresh & _ & _ & _ & _ & _ & Hnotes & Hfreq & Hrec & _ & Hok).
  destruct Hok as (s' & E & Hr & _).
  - unfold FinancialRecord.validate. rewrite Hnotes, Hfreq, Hrec.
    reflexivity.
  - apply (Hfresh eq_refl wellFormed_shared).
  - exists r, s'. split; [exact E|]. split; [|exact Hr].
    vm_compute in E. injection E as <- _. reflexivity.
Defined.

Lemma record_delete_In (r : FinancialRecord.t) coll x :
  uniqueRecordIds coll -> In r coll ->
  (In x (filter (fun d => negb (FinancialRecord._id d
                                =? FinancialRecord._id r)%nat) coll)
   <-> In x coll /\ x <> r).
Proof.
  intros Hnd Hr. rewrite filter_In, negb_true_iff, Nat.eqb_neq.
  split; intros [Hx Hne]; split; auto.
  - intros ->. apply Hne. reflexivity.
  - intros E. apply Hne. apply (uniqueRecordIds_inj coll); assumption.
Qed.

Lemma record_findOne_owned u coll r :
  uniqueRecordIds coll -> In r coll -> FinancialRecord.user r = u ->
  FinancialRecord.findOne (RecordRoutes.owned u (FinancialRecord._id r)) coll
  = Some r.
Proof.
  intros Hnd Hin Hu. unfold FinancialRecord.findOne.
  destruct (find _ coll) as [x|] eqn:E.
  - apply find_some in E. destruct E as [Hx Ho].
    apply record_owned_true in Ho. destruct Ho as [Hid _].
    rewrite (uniqueRecordIds_inj coll x r Hnd Hx Hin Hid). reflexivity.
  - pose proof (find_none _ _ E r Hin) as Hf.
    unfold RecordRoutes.owned in Hf. rewrite Hu, !Nat.eqb_refl in Hf.
    discriminate.
Qed.

Lemma deleteRecord_unfold now s u r :
  uniqueRecordIds (records s) -> In r (records s) ->
  FinancialRecord.user r = u ->
  let s1 :=
    mkStore
      (filter (fun d => negb (FinancialRecord._id d
                              =? FinancialRecord._id r)%nat) (records s))
      (budgets s) (nextId s) in
  RecordRoutes.deleteRecord now s u (FinancialRecord._id r)
  = (Json 200 tt,
     if RecordType.eqb (FinancialRecord.type r) RecordType.expense
     then RecordRoutes.reconcileFound now s1
            (Budget.findOne
               (RecordRoutes.activeFor u (FinancialRecord.category r))
               (budgets s))
     else s1).
Proof.
  intros Hnd Hin Hu. unfold RecordRoutes.deleteRecord.
  rewrite (record_findOne_owned u (records s) r Hnd Hin Hu). reflexivity.
Qed.

(** X18. Deleting one's own record removes exactly that document:
    the other records stay, asking again for the same id is answered
    with 404, an income leaves the budgets alone, and for an expense
    the first active budget of its category is reconciled, whatever
    its window. *)
Theorem deleteRecord_removes_only_target :
  forall (now : Z) (s : Store) (userId : ObjectId) (r : FinancialRecord.t),
    uniqueRecordIds (records s) ->
    In r (records s) ->
    FinancialRecord.user r = userId ->
    exists s',
      RecordRoutes.deleteRecord now s userId (FinancialRecord._id r)
      = (Json 200 tt, s')
      /\ nextId s' = nextId s
      /\ (forall x, In x (records s') <-> In x (records s) /\ x <> r)
      /\ (FinancialRecord.type r = RecordType.income ->
          budgets s' = budgets s)
      /\ (uniqueIds (budgets s) ->
          FinancialRecord.type r = RecordType.expense ->
          forall b,
            Budget.findOne
              (RecordRoutes.activeFor userId (FinancialRecord.category r))
              (budgets s) = Some b ->
            reconciled s' (Budget._id b))
      /\ RecordRoutes.deleteRecord now s' userId (FinancialRecord._id r)
         = (Failure 404 "Record not found", s').
Proof.
  intros now s u r Hnd Hin Hu.
  pose proof (deleteRecord_unfold now s u r Hnd Hin Hu) as E.
  cbv zeta in E.
  set (recs1 := filter (fun d => negb (FinancialRecord._id d
                                       =? FinancialRecord._id r)%nat)
                  (records s)) in *.
  set (s1 := mkStore recs1 (budgets s) (nextId s)) in *.
  match type of E with
  | _ = (_, ?s2) => set (s' := s2) in *
  end.
  assert (Hrec : records s' = recs1).
  { unfold s'. destruct (RecordType.eqb _ _);
      [rewrite reconcileFound_records|]; reflexivity. }
  exists s'. split; [exact E|].
  split.
  { unfold s'. destruct (RecordType.eqb _ _); [|reflexivity].
    destruct (Budget.findOne _ _); reflexivity. }
  split.
  { intros x. rewrite Hrec. apply record_delete_In; assumption. }
  split.
  { intros Hinc. unfold s'. rewrite Hinc. reflexivity. }
  split.
  { intros Hbnd Hexp b Hb. unfold s'. rewrite Hexp. cbn [RecordType.eqb].
    rewrite Hb. apply reconciledAs_reconciled.
    apply (reconcileFound_target now s1 b Hbnd).
    apply findOne_In in Hb. apply Hb. }
  unfold RecordRoutes.deleteRecord. rewrite Hrec.
  assert (Hf : FinancialRecord.findOne
                 (RecordRoutes.owned u (FinancialRecord._id r)) recs1 = None).
  { unfold FinancialRecord.findOne. apply find_none_conv. intros x Hx.
    apply filter_In in Hx. destruct Hx as [_ Hx].
    apply negb_true_iff in Hx. unfold RecordRoutes.owned. rewrite Hx.
    reflexivity. }
  rewrite Hf. reflexivity.
Qed.

Lemma deleteRecord_removes_only_target_witness :
  exists s',
    RecordRoutes.deleteRecord Sample.now Household.shared Sample.alice 2%nat
    = (Json 200 tt, s')
    /\ records s' = [Sample.salary; Household.bobRent; Sample.groceries].
Proof.
  destruct (deleteRecord_removes_only_target Sample.now Household.shared
              Sample.alice Sample.rent)
    as (s' & E & _).
  - unfold uniqueRecordIds. simpl. distinct_ids.
  - simpl. right. left. reflexivity.
  - reflexivity.
  - exists s'. split; [exact E|].
    vm_compute in E. injection E as <-. reflexivity.
Defined.

(** X17. When a create request has been answered with 201, deleting
    the record it stored gives back the collection of records as it
    was before the request, with the same budgets under the same
    ids. *)
Theorem deleteRecord_undoes_createRecord :
  forall (now1 now2 : Z) (s s1 : Store) (userId : ObjectId)
         (body : RecordRoutes.Body) (r : FinancialRecord.t),
    wellFormed s ->
    RecordRoutes.createRecord now1 s userId body = (Json 201 r, s1) ->
    exists s2,
      RecordRoutes.deleteRecord now2 s1 userId (FinancialRecord._id r)
      = (Json 200 tt, s2)
      /\ records s1 = records s ++ [r]
      /\ records s2 = records s
      /\ FinancialRecord.getUserBalance (records s2) userId
         = FinancialRecord.getUserBalance (records s) userId
      /\ map Budget._id (budgets s2) = map Budget._id (budgets s).
Proof.
  intros now1 now2 s s1 u body r Hw E0.
  destruct (RecordRoutes.validateFinancialRecord body) as [body'|] eqn:Ev.
  2:{ unfold RecordRoutes.createRecord in E0. rewrite Ev in E0.
      discriminate E0. }
  destruct (createRecord_unfold now1 s u body body' Ev)
    as (d & a & ty & c & Ha & Hty & Hc & Hle & E).
  cbv zeta in E. rewrite E0 in E.
  match type of E with
  | context [FinancialRecord.validate ?x] => set (r1 := x) in *
  end.
  destruct (FinancialRecord.validate r1); cbn [andb] in E;
    [|discriminate E].
  destruct (existsb _ (records s)) eqn:Edup; cbn [negb] in E;
    [discriminate E|].
  injection E as Er Es1.
  apply existsb_id_false in Edup. rewrite <- Er in Edup.
  assert (Hu : FinancialRecord.user r = u) by (rewrite Er; reflexivity).
  pose proof (createRecord_keeps u now1 s body Hw) as Hk1.
  rewrite E0 in Hk1. cbn [snd] in Hk1.
  assert (Hrec1 : records s1 = records s ++ [r]).
  { rewrite Es1, Er. destruct (RecordType.eqb ty RecordType.expense);
      [rewrite reconcileFound_records|]; reflexivity. }
  destruct Hk1 as (Hw1 & _).
  assert (Hin : In r (records s1)).
  { rewrite Hrec1. apply in_or_app. right. left. reflexivity. }
  pose proof (deleteRecord_unfold now2 s1 u r (proj1 (proj2 Hw1)) Hin Hu)
    as E2.
  cbv zeta in E2.
  pose proof (deleteRecord_scope now2 s1 u (FinancialRecord._id r)
                (proj1 Hw1)) as Hsc2.
  pose proof (createRecord_scope now1 s u body (proj1 Hw)) as Hsc1.
  rewrite E0 in Hsc1. rewrite E2 in Hsc2. cbn [snd] in Hsc1, Hsc2.
  match type of E2 with
  | _ = (_, ?x) => set (s2 := x) in *
  end.
  assert (Hrec2 : records s2 = records s).
  { assert (H2 : records s2
                 = filter (fun d => negb (FinancialRecord._id d
                                          =? FinancialRecord._id r)%nat)
                     (records s1)).
    { unfold s2.
      destruct (RecordType.eqb (FinancialRecord.type r) RecordType.expense);
        [rewrite reconcileFound_records|]; reflexivity. }
    rewrite H2, Hrec1, filter_app. cbn [filter].
    rewrite Nat.eqb_refl. cbn [negb]. rewrite app_nil_r.
    rewrite (proj2 (filter_ext_in_iff _ (fun _ => true) (records s))).
    - apply filter_true.
    - intros x Hx. apply negb_true_iff, Nat.eqb_neq.
      intros Hx'. apply Edup. rewrite <- Hx'. apply in_map. exact Hx. }
  exists s2. split; [exact E2|]. split; [exact Hrec1|].
  split; [exact Hrec2|]. split; [rewrite Hrec2; reflexivity|].
  assert (Hids : forall l l', Forall2 sameScope l l' ->
                              map Budget._id l' = map Budget._id l).
  { induction 1 as [|x y l l' (Hid & _) H IH]; simpl; congruence. }
  rewrite (Hids _ _ Hsc2), (Hids _ _ Hsc1). reflexivity.
Qed.

Lemma deleteRecord_undoes_createRecord_witness :
  exists r s1 s2,
    RecordRoutes.createRecord Sample.now Household.shared Sample.alice
      Household.rentBody = (Json 201 r, s1)
    /\ RecordRoutes.deleteRecord Sample.later s1 Sample.alice
         (FinancialRecord._id r) = (Json 200 tt, s2)
    /\ records s2 = records Household.shared.
Proof.
  assert (E : exists r s1,
             RecordRoutes.createRecord Sample.now Household.shared
               Sample.alice Household.rentBody = (Json 201 r, s1)).
  { eexists. eexists. vm_compute. reflexivity. }
  destruct E as (r & s1 & E1).
  destruct (deleteRecord_undoes_createRecord Sample.now Sample.later
              Household.shared s1 Sample.alice Household.rentBody r
              wellFormed_shared E1)
    as (s2 & E2 & _ & Hr & _).
  exists r, s1, s2. split; [exact E1|]. split; [exact E2 | exact Hr].
Defined.

(* ================================================================== *)
(** * Listings, breakdowns and the overview of the records *)
(* ================================================================== *)

Section InsertionSort.
Variable A : Type.
Variable before : A -> A -> bool.

Lemma insertBy_perm x l : Permutation (insertBy before x l) (x :: l).
Proof.
  induction l as [|h l IH]; simpl.
  - apply Permutation_refl.
  - destruct (before x h).
    + apply Permutation_refl.
    + eapply Permutation_trans; [apply perm_skip; exact IH|].
      apply perm_swap.
Qed.

Lemma sortBy_perm l : Permutation (sortBy before l) l.
Proof.
  unfold sortBy. induction l as [|h l IH]; simpl.
  - apply Permutation_refl.
  - eapply Permutation_trans; [apply insertBy_perm|].
    apply perm_skip. exact IH.
Qed.

Variable R : A -> A -> Prop.
Hypothesis before_R : forall x h, before x h = true -> R x h.
Hypothesis after_R : forall x h, before x h = false -> R h x.

Lemma insertBy_sorted x l : Sorted R l -> Sorted R (insertBy before x l).
Proof.
  induction l as [|h l IH]; intros Hs; simpl.
  - repeat constructor.
  - destruct (before x h) eqn:E.
    + constructor; [exact Hs|]. constructor. apply before_R. exact E.
    + inversion Hs as [|a b Hs' Hhd]; subst.
      constructor; [apply IH; exact Hs'|].
      destruct l as [|k l]; simpl.
      * constructor. apply after_R. exact E.
      * destruct (before x k).
        -- constructor. apply after_R. exact E.
        -- inversion Hhd; subst. constructor. assumption.
Qed.

Lemma sortBy_sorted l : Sorted R (sortBy before l).
Proof.
  unfold sortBy. induction l as [|h l IH]; simpl.
  - constructor.
  - apply insertBy_sorted. exact IH.
Qed.
End InsertionSort.

Lemma Sorted_skipn A (R : A -> A -> Prop) n :
  forall l, Sorted R l -> Sorted R (skipn n l).
Proof.
  induction n as [|n IH]; intros l Hs; [exact Hs|].
  destruct l as [|x l]; [constructor|].
  simpl. apply IH. inversion Hs; assumption.
Qed.

Lemma Sorted_firstn A (R : A -> A -> Prop) n :
  forall l, Sorted R l -> Sorted R (firstn n l).
Proof.
  induction n as [|n IH]; intros l Hs; [constructor|].
  destruct l as [|x l]; [constructor|].
  simpl. inversion Hs as [|a b Hs' Hhd]; subst.
  constructor; [apply IH; exact Hs'|].
  destruct n; [constructor|].
  destruct l as [|y l]; [constructor|].
  simpl. inversion Hhd; subst. constructor. assumption.
Qed.

(** Cutting a list into [n] pages of [limit] elements loses nothing
    when the pages are enough. *)
Lemma pages_cover A (limit : nat) :
  forall (n : nat) (l : list A),
    (List.length l <= n * limit)%nat ->
    flat_map (fun k => firstn limit (skipn (k * limit) l)) (seq 0 n) = l.
Proof.
  induction n as [|n IH]; intros l Hlen.
  - destruct l; [reflexivity | simpl in Hlen; lia].
  - rewrite <- cons_seq, <- seq_shift. cbn [flat_map].
    rewrite flat_map_concat_map, map_map, <- flat_map_concat_map.
    rewrite (flat_map_ext _
               (fun k => firstn limit (skipn (k * limit) (skipn limit l)))).
    + rewrite IH.
      * simpl. apply firstn_skipn.
      * rewrite length_skipn. simpl in Hlen. lia.
    + intros k. rewrite skipn_skipn. f_equal. f_equal. simpl. lia.
Qed.

(** ** The listing of records *)

Lemma insertNewer_insertBy r l :
  RecordRoutes.insertNewer r l = insertBy RecordRoutes.newerFirst r l.
Proof. induction l as [|h l IH]; simpl; [|rewrite IH]; reflexivity. Qed.

Lemma sortNewerFirst_sortBy l :
  RecordRoutes.sortNewerFirst l = sortBy RecordRoutes.newerFirst l.
Proof.
  unfold RecordRoutes.sortNewerFirst, sortBy.
  induction l as [|h l IH]; simpl; [reflexivity|].
  rewrite IH. apply insertNewer_insertBy.
Qed.

Lemma newerFirst_total a b :
  RecordRoutes.newerFirst a b = false -> RecordRoutes.newerFirst b a = true.
Proof.
  unfold RecordRoutes.newerFirst.
  rewrite orb_false_iff, andb_false_iff, orb_true_iff, andb_true_iff.
  rewrite Z.ltb_ge, Z.ltb_lt, !Z.eqb_eq, Z.eqb_neq, Z.leb_gt, Z.leb_le.
  lia.
Qed.

Lemma sortNewerFirst_sorted l :
  sortedNewerFirst (RecordRoutes.sortNewerFirst l).
Proof.
  unfold sortedNewerFirst. rewrite sortNewerFirst_sortBy.
  apply sortBy_sorted; [auto | apply newerFirst_total].
Qed.

Lemma ceil_pages (total limit : nat) :
  (0 < limit)%nat ->
  (total <= (total + limit - 1) / limit * limit)%nat
  /\ ((total + limit - 1) / limit * limit < total + limit)%nat.
Proof.
  intros Hl.
  pose proof (Nat.div_mod_eq (total + limit - 1) limit) as E.
  pose proof (Nat.mod_upper_bound (total + limit - 1) limit ltac:(lia)) as Hm.
  nia.
Qed.

(** X19. A listing answers with one page of the selected records,
    newest first by date and then by creation time: the page is
    sorted, no longer than the limit and made of the user's records;
    [total] counts the selected records and [totalPages] is the least
    number of pages that holds them; a page after the last is empty,
    and the pages from 1 to [totalPages], one after the other, are the
    selected records in their order, each of them once. *)
Theorem listing_pages_partition_the_selection :
  forall (s : Store) (userId : ObjectId) (q : RecordRoutes.Query)
         (re : option RegExp.regex),
    let limit := Pos.to_nat (RecordRoutes.orElse (RecordRoutes.q_limit q)
                               10%positive) in
    let page := Pos.to_nat (RecordRoutes.orElse (RecordRoutes.q_page q)
                              1%positive) in
    let found := filter (RecordRoutes.selects userId q re) (records s) in
    exists listing,
      RecordRoutes.runListing s userId q re = Json 200 listing
      /\ sortedNewerFirst (RecordRoutes.Listing.records listing)
      /\ (List.length (RecordRoutes.Listing.records listing) <= limit)%nat
      /\ (forall r, In r (RecordRoutes.Listing.records listing) ->
            In r (records s) /\ FinancialRecord.user r = userId)
      /\ RecordRoutes.Listing.total listing = List.length found
      /\ (List.length found
          <= RecordRoutes.Listing.totalPages listing * limit
          < List.length found + limit)%nat
      /\ ((RecordRoutes.Listing.totalPages listing < page)%nat ->
          RecordRoutes.Listing.records listing = [])
      /\ flat_map (fun k => pageOf s userId q re (S k))
           (seq 0 (RecordRoutes.Listing.totalPages listing))
         = RecordRoutes.sortNewerFirst found
      /\ Permutation (RecordRoutes.sortNewerFirst found) found.
Proof.
  intros s u q re limit page found.
  assert (Hl : (0 < limit)%nat) by (unfold limit; lia).
  assert (Hperm : Permutation (RecordRoutes.sortNewerFirst found) found).
  { rewrite sortNewerFirst_sortBy. apply sortBy_perm. }
  assert (Hlen : List.length (RecordRoutes.sortNewerFirst found)
                 = List.length found)
    by (apply Permutation_length; exact Hperm).
  destruct (ceil_pages (List.length found) limit Hl) as [Hc1 Hc2].
  eexists. split; [reflexivity|]. cbn [RecordRoutes.Listing.records
    RecordRoutes.Listing.total RecordRoutes.Listing.totalPages].
  fold limit found.
  split.
  { apply Sorted_firstn, Sorted_skipn, sortNewerFirst_sorted. }
  split; [apply firstn_le_length|].
  split.
  { intros r Hr. apply page_In in Hr.
    apply (proj1 (sortNewerFirst_In _ _)) in Hr.
    apply filter_In in Hr. destruct Hr as [Hin Hsel].
    split; [exact Hin|].
    unfold RecordRoutes.selects in Hsel. rewrite !andb_true_iff in Hsel.
    apply Nat.eqb_eq. tauto. }
  split; [reflexivity|].
  split; [split; assumption|].
  split.
  { intros Hp. fold page.
    rewrite skipn_all2; [destruct limit; reflexivity|].
    rewrite Hlen. nia. }
  split; [|exact Hperm].
  rewrite <- (pages_cover _ limit
                ((List.length found + limit - 1) / limit)
                (RecordRoutes.sortNewerFirst found))
    by (rewrite Hlen; exact Hc1).
  apply flat_map_ext. intros k.
  unfold pageOf, RecordRoutes.runListing.
  cbn [RecordRoutes.Listing.records withPage RecordRoutes.q_page
       RecordRoutes.q_limit RecordRoutes.orElse].
  rewrite Nat2Pos.id by discriminate.
  replace (S k - 1)%nat with k by lia. reflexivity.
Qed.

(** ** The groups of a breakdown *)

Section GroupContents.
Variable D : Type.
Variable key : D -> string.
Variable val : D -> Q.

Lemma accumulate_In k a gs g' :
  distinctKeys gs ->
  In g' (Pipeline.accumulate String.eqb k a gs) ->
  (In g' gs /\ Pipeline._id g' <> k)
  \/ (exists g, In g gs /\ Pipeline._id g = k
                /\ g' = Pipeline.mkGroup (Pipeline._id g)
                          (Pipeline.total g + a) (S (Pipeline.count g)))
  \/ (g' = Pipeline.mkGroup k (0 + a) 1
      /\ ~ In k (map (@Pipeline._id string) gs)).
Proof.
  unfold distinctKeys.
  induction gs as [|g gs IH]; intros Hnd Hin; simpl in Hin.
  - destruct Hin as [<-|[]]. right. right. split; [reflexivity|intros []].
  - inversion Hnd as [|x l Hnotin Hnd']; subst.
    destruct (String.eqb_spec (Pipeline._id g) k) as [E|E].
    + destruct Hin as [<-|Hin].
      * right. left. exists g. split; [left; reflexivity|].
        split; [exact E | reflexivity].
      * left. split; [right; exact Hin|].
        intros E'. apply Hnotin. rewrite E, <- E'. apply in_map. exact Hin.
    + destruct Hin as [<-|Hin].
      * left. split; [left; reflexivity | exact E].
      * destruct (IH Hnd' Hin) as [[H1 H2]|[(g0 & H1 & H2 & H3)|[H1 H2]]].
        -- left. split; [right; exact H1 | exact H2].
        -- right. left. exists g0. split; [right; exact H1|].
           split; assumption.
        -- right. right. split; [exact H1|].
           simpl. intros [H|H]; [apply E; exact H | apply H2; exact H].
Qed.

Lemma accumulate_key_In k a gs x :
  In x (map (@Pipeline._id string) (Pipeline.accumulate String.eqb k a gs))
  <-> In x (map (@Pipeline._id string) gs) \/ x = k.
Proof.
  rewrite accumulate_keys.
  destruct (existsb _ gs) eqn:E.
  - split; [tauto|]. intros [H| ->]; [exact H|].
    apply existsb_exists in E. destruct E as [g [Hg Hk]].
    apply String.eqb_eq in Hk. rewrite <- Hk. apply in_map. exact Hg.
  - rewrite in_app_iff. simpl. split.
    + intros [H|[H|[]]]; [left; exact H | right; symmetry; exact H].
    + intros [H|H]; [left; exact H | right; left; symmetry; exact H].
Qed.

Lemma filedUnder_snoc k docs d :
  filedUnder key k (docs ++ [d])
  = if String.eqb (key d) k then filedUnder key k docs ++ [d]
    else filedUnder key k docs.
Proof.
  unfold filedUnder. rewrite filter_app. simpl.
  destruct (String.eqb (key d) k); [reflexivity | apply app_nil_r].
Qed.

Lemma holds_step gs docs d :
  groupsHold key val gs docs ->
  groupsHold key val (Pipeline.accumulate String.eqb (key d) (val d) gs) (docs ++ [d]).
Proof.
  intros (Hnd & Hcov & Hg). split; [|split].
  - apply accumulate_distinct; [apply String.eqb_eq | exact Hnd].
  - intros x Hx. apply accumulate_key_In. apply in_app_or in Hx.
    destruct Hx as [Hx|[<-|[]]]; [left; apply Hcov; exact Hx | right].
    reflexivity.
  - intros g' Hin.
    destruct (accumulate_In _ _ _ _ Hnd Hin)
      as [[H1 H2]|[(g0 & H1 & H2 & ->)|[-> H2]]].
    + rewrite filedUnder_snoc.
      destruct (String.eqb_spec (key d) (Pipeline._id g')) as [E|E];
        [exfalso; apply H2; symmetry; exact E|].
      apply Hg. exact H1.
    + cbn [Pipeline._id Pipeline.total Pipeline.count].
      rewrite filedUnder_snoc, H2, String.eqb_refl.
      destruct (Hg g0 H1) as (Ht & Hc & _). rewrite H2 in Ht, Hc.
      split; [|split].
      * rewrite Qsum_map_app, Ht. cbn [map]. rewrite Qsum_cons.
        change (Qsum []) with 0. ring.
      * rewrite length_app, Hc. simpl. lia.
      * lia.
    + cbn [Pipeline._id Pipeline.total Pipeline.count].
      rewrite filedUnder_snoc, String.eqb_refl.
      assert (Hnone : filedUnder key (key d) docs = []).
      { unfold filedUnder.
        destruct (filter _ docs) as [|x l] eqn:E; [reflexivity|].
        assert (Hx : In x (filter (fun d0 => String.eqb (key d0) (key d))
                             docs))
          by (rewrite E; left; reflexivity).
        apply filter_In in Hx. destruct Hx as [Hx Hk].
        apply String.eqb_eq in Hk. exfalso. apply H2. rewrite <- Hk.
        apply Hcov. exact Hx. }
      rewrite Hnone. simpl. split; [|split]; [|reflexivity|lia].
      unfold Qsum. simpl. ring.
Qed.

Lemma holds_fold docs :
  forall gs pre,
    groupsHold key val gs pre ->
    groupsHold key val
      (fold_left
         (fun gs d => Pipeline.accumulate String.eqb (key d) (val d) gs)
         docs gs)
      (pre ++ docs).
Proof.
  induction docs as [|d docs IH]; intros gs pre H; simpl.
  - rewrite app_nil_r. exact H.
  - replace (pre ++ d :: docs) with ((pre ++ [d]) ++ docs)
      by (rewrite <- app_assoc; reflexivity).
    apply IH. apply holds_step. exact H.
Qed.

(** Each group of [$group] carries the sum and the number of the
    documents filed under its key, and every document is filed. *)
Lemma group_contents docs :
  distinctKeys (Pipeline.group String.eqb key val docs)
  /\ (forall d, In d docs ->
        In (key d)
          (map (@Pipeline._id string)
             (Pipeline.group String.eqb key val docs)))
  /\ (forall g, In g (Pipeline.group String.eqb key val docs) ->
        Pipeline.total g
        == Qsum (map val (filedUnder key (Pipeline._id g) docs))
        /\ Pipeline.count g
           = List.length (filedUnder key (Pipeline._id g) docs)
        /\ (1 <= Pipeline.count g)%nat).
Proof.
  apply (holds_fold docs [] []).
  split; [constructor|]. split; intros ? [].
Qed.
End GroupContents.

Lemma insertDesc_insertBy K (g : Pipeline.Group K) gs :
  Pipeline.insertDesc g gs
  = insertBy (fun x h => Qle_bool (Pipeline.total h) (Pipeline.total x)) g gs.
Proof. induction gs as [|h gs IH]; simpl; [|rewrite IH]; reflexivity. Qed.

Lemma sortByTotalDesc_sortBy K (gs : list (Pipeline.Group K)) :
  Pipeline.sortByTotalDesc gs
  = sortBy (fun x h => Qle_bool (Pipeline.total h) (Pipeline.total x)) gs.
Proof.
  unfold Pipeline.sortByTotalDesc, sortBy.
  induction gs as [|h gs IH]; simpl; [reflexivity|].
  rewrite IH. apply insertDesc_insertBy.
Qed.

Lemma sortByTotalDesc_perm K (gs : list (Pipeline.Group K)) :
  Permutation (Pipeline.sortByTotalDesc gs) gs.
Proof. rewrite sortByTotalDesc_sortBy. apply sortBy_perm. Qed.

Lemma sortByTotalDesc_sorted K (gs : list (Pipeline.Group K)) :
  sortedByTotalDesc (Pipeline.sortByTotalDesc gs).
Proof.
  unfold sortedByTotalDesc. rewrite sortByTotalDesc_sortBy.
  apply sortBy_sorted.
  - intros x h H. apply Qle_bool_iff. exact H.
  - intros x h H. apply Qle_bool_false in H.
    apply Qlt_le_weak, Qnot_le_lt. exact H.
Qed.

Lemma sorted_groups_contents D (key : D -> string) (val : D -> Q) docs :
  let gs := Pipeline.sortByTotalDesc (Pipeline.group String.eqb key val docs) in
  sortedByTotalDesc gs
  /\ distinctKeys gs
  /\ (forall d, In d docs -> In (key d) (map (@Pipeline._id string) gs))
  /\ (forall g, In g gs ->
        Pipeline.total g
        == Qsum (map val (filedUnder key (Pipeline._id g) docs))
        /\ Pipeline.count g
           = List.length (filedUnder key (Pipeline._id g) docs)
        /\ (1 <= Pipeline.count g)%nat).
Proof.
  intros gs.
  destruct (group_contents D key val docs) as (Hnd & Hcov & Hg).
  pose proof (sortByTotalDesc_perm _ (Pipeline.group String.eqb key val docs))
    as HP.
  fold gs in HP.
  split; [apply sortByTotalDesc_sorted|].
  split.
  { unfold distinctKeys.
    eapply Permutation_NoDup; [|exact Hnd].
    apply Permutation_map, Permutation_sym. exact HP. }
  split.
  { intros d Hd.
    eapply Permutation_in; [|apply Hcov; exact Hd].
    apply Permutation_map, Permutation_sym. exact HP. }
  intros g Hin. apply Hg. eapply Permutation_in; [exact HP | exact Hin].
Qed.

(** X20. The category breakdown groups the records of the caller that
    have the type asked for and, when a year and a month are given, a
    date within that month: it answers with one group for each
    category that has such a record, in descending order of total,
    each group carrying the sum of the amounts and the number of
    those records of its category. *)
Theorem category_breakdown_groups :
  forall (s : Store) (userId : ObjectId) (type : option string)
         (year month : option Z),
    exists (gs : list (Pipeline.Group string))
           (p : FinancialRecord.t -> bool),
      RecordRoutes.getCategoryBreakdown s userId type year month
      = Json 200 gs
      /\ (forall r, p r = true <-> inBreakdown userId type year month r)
      /\ sortedByTotalDesc gs
      /\ distinctKeys gs
      /\ (forall c, In c (map (@Pipeline._id string) gs)
                    <-> exists r, In r (filter p (records s))
                                  /\ FinancialRecord.category r = c)
      /\ (forall g, In g gs ->
            Pipeline.total g
            == Qsum (map FinancialRecord.amount
                       (filedUnder FinancialRecord.category (Pipeline._id g)
                          (filter p (records s))))
            /\ Pipeline.count g
               = List.length
                   (filedUnder FinancialRecord.category (Pipeline._id g)
                      (filter p (records s)))
            /\ (1 <= Pipeline.count g)%nat).
Proof.
  intros s u type year month.
  unfold RecordRoutes.getCategoryBreakdown, Pipeline.match_.
  match goal with
  | |- context [filter ?p (records s)] => set (q := p)
  end.
  exists (Pipeline.sortByTotalDesc
            (Pipeline.group String.eqb FinancialRecord.category
               FinancialRecord.amount (filter q (records s)))), q.
  split; [reflexivity|].
  split.
  { intros r. unfold q, inBreakdown.
    rewrite !andb_true_iff, Nat.eqb_eq, String.eqb_eq.
    assert (Ht : RecordRoutes.orElse type "expense"%string
                 = match type with
                   | Some t => t
                   | None => "expense"%string
                   end) by (destruct type; reflexivity).
    rewrite Ht.
    destruct year as [y|], month as [m|];
      try (split;
           [ intros [[Hu Hty] _]; split; [exact Hu|]; split; [exact Hty|];
             intros y' m' Ey Em; discriminate
           | intros (Hu & Hty & _); split; [split; assumption | reflexivity] ]).
    unfold FinancialRecord.inRange. rewrite andb_true_iff, !Z.leb_le.
    split.
    - intros [[Hu Hty] Hw]. split; [exact Hu|]. split; [exact Hty|].
      intros y' m' Ey Em. injection Ey as <-. injection Em as <-.
      exact Hw.
    - intros (Hu & Hty & Hw). split; [split; assumption|].
      apply (Hw y m eq_refl eq_refl). }
  destruct (sorted_groups_contents FinancialRecord.t FinancialRecord.category
              FinancialRecord.amount (filter q (records s)))
    as (Hs & Hd & Hcov & Hg).
  split; [exact Hs|]. split; [exact Hd|]. split; [|exact Hg].
  intros c. split.
  - intros Hc. apply in_map_iff in Hc. destruct Hc as [g [Hid Hin]].
    destruct (Hg g Hin) as (_ & Hcount & Hpos).
    destruct (filedUnder FinancialRecord.category (Pipeline._id g)
                (filter q (records s))) as [|r l] eqn:E.
    + rewrite Hcount in Hpos. simpl in Hpos. lia.
    + assert (Hr : In r (filedUnder FinancialRecord.category (Pipeline._id g)
                           (filter q (records s))))
        by (rewrite E; left; reflexivity).
      unfold filedUnder in Hr. apply filter_In in Hr.
      destruct Hr as [Hr Hk]. apply String.eqb_eq in Hk.
      exists r. split; [exact Hr | congruence].
  - intros [r [Hr <-]]. apply Hcov. exact Hr.
Qed.

(** ** The overview of the records *)

Lemma insertByDate_insertBy r l :
  FinancialRecord.insertByDate r l
  = insertBy (fun x h => (FinancialRecord.date h <=? FinancialRecord.date x)%Z)
      r l.
Proof. induction l as [|h l IH]; simpl; [|rewrite IH]; reflexivity. Qed.

Lemma sortByDateDesc_sortBy l :
  FinancialRecord.sortByDateDesc l
  = sortBy (fun x h => (FinancialRecord.date h <=? FinancialRecord.date x)%Z)
      l.
Proof.
  unfold FinancialRecord.sortByDateDesc, sortBy.
  induction l as [|h l IH]; simpl; [reflexivity|].
  rewrite IH. apply insertByDate_insertBy.
Qed.

Lemma sortByDateDesc_perm l :
  Permutation (FinancialRecord.sortByDateDesc l) l.
Proof. rewrite sortByDateDesc_sortBy. apply sortBy_perm. Qed.

Lemma sortByDateDesc_sorted l :
  sortedByDateDesc (FinancialRecord.sortByDateDesc l).
Proof.
  unfold sortedByDateDesc. rewrite sortByDateDesc_sortBy.
  apply sortBy_sorted.
  - intros x h H. apply Z.leb_le. exact H.
  - intros x h H. apply Z.leb_gt in H. lia.
Qed.

Lemma StronglySorted_app_rel A (R : A -> A -> Prop) l1 :
  forall l2, StronglySorted R (l1 ++ l2) ->
             forall a b, In a l1 -> In b l2 -> R a b.
Proof.
  induction l1 as [|x l1 IH]; intros l2 Hs a b Ha Hb; [contradiction|].
  simpl in Hs. inversion Hs as [|y l Hs' Hall]; subst.
  destruct Ha as [<-|Ha].
  - eapply Forall_forall; [exact Hall|]. apply in_or_app. right. exact Hb.
  - eapply IH; eassumption.
Qed.

Lemma month_last_midnight (y m : Z) :
  (0 <= m <= 11)%Z ->
  (JSDate.newDate y m 1 0 0 0 <= JSDate.newDate y (m + 1) 0 0 0 0)%Z
  /\ JSDate.newDate y (m + 1) 0 23 59 59
     = (JSDate.newDate y (m + 1) 0 0 0 0 + 86399000)%Z.
Proof.
  intros Hm. unfold JSDate.newDate, JSDate.MakeDate, JSDate.MakeTime.
  split; [|ring].
  rewrite (MakeDay_day0 (JSDate.fullYear y) (m + 1)) by lia.
  replace (m + 1 - 1)%Z with m by ring.
  pose proof (MakeDay_shift (JSDate.fullYear y) m 1
                (DaysInMonth (JSDate.InLeapYear (JSDate.fullYear y)) m - 1))
    as Hs.
  replace (1 + (DaysInMonth (JSDate.InLeapYear (JSDate.fullYear y)) m - 1))%Z
    with (DaysInMonth (JSDate.InLeapYear (JSDate.fullYear y)) m) in Hs by ring.
  rewrite Hs.
  assert (1 <= DaysInMonth (JSDate.InLeapYear (JSDate.fullYear y)) m)%Z.
  { destruct (month_cases m Hm) as
      [->|[->|[->|[->|[->|[->|[->|[->|[->|[->|[->| ->]]]]]]]]]]];
      destruct (JSDate.InLeapYear (JSDate.fullYear y)); cbn; lia. }
  unfold JSDate.msPerDay. lia.
Qed.

(** X21. The overview of the records shows the five latest records
    of the user by date (all of them when there are no more than
    five), in descending order of date.  Its category breakdown
    groups the expenses of the current month up to the midnight that
    begins its last day, while the monthly summary asked for the same
    month also counts the expenses of that last day. *)
Theorem summaryOverview_recent_and_breakdown :
  forall (now : Z) (s : Store) (userId : ObjectId) (year month : option Z),
    let mine :=
      filter (fun r => (FinancialRecord.user r =? userId)%nat) (records s) in
    let startOfMonth :=
      JSDate.newDate (JSDate.getFullYear now) (JSDate.getMonth now) 1 0 0 0 in
    let endOfMonth :=
      JSDate.newDate (JSDate.getFullYear now) (JSDate.getMonth now + 1) 0
        0 0 0 in
    let expensesWithin (lo hi : Z) :=
      filter (fun r => RecordType.eqb (FinancialRecord.type r)
                         RecordType.expense
                       && (lo <=? FinancialRecord.date r)%Z
                       && (FinancialRecord.date r <=? hi)%Z) mine in
    exists ov,
      RecordRoutes.summaryOverview now s userId year month = Json 200 ov
      /\ List.length (RecordRoutes.recentRecords ov)
         = Nat.min 5 (List.length mine)
      /\ sortedByDateDesc (RecordRoutes.recentRecords ov)
      /\ (exists rest,
            Permutation (RecordRoutes.recentRecords ov ++ rest) mine
            /\ (forall r x, In r (RecordRoutes.recentRecords ov) ->
                            In x rest ->
                            (FinancialRecord.date x
                             <= FinancialRecord.date r)%Z))
      /\ sortedByTotalDesc (RecordRoutes.categoryBreakdown ov)
      /\ groupsHold FinancialRecord.category FinancialRecord.amount
           (RecordRoutes.categoryBreakdown ov)
           (expensesWithin startOfMonth endOfMonth)
      /\ (year = Some (JSDate.getFullYear now) ->
          month = Some (JSDate.getMonth now + 1)%Z ->
          exists ms,
            RecordRoutes.monthlySummary ov = Some ms
            /\ MonthlySummary.expense ms
               == Qsum (map FinancialRecord.amount
                          (expensesWithin startOfMonth
                             (endOfMonth + 86399000)%Z))
            /\ (forall r,
                  In r (expensesWithin startOfMonth
                          (endOfMonth + 86399000)%Z)
                  <-> In r (expensesWithin startOfMonth endOfMonth)
                      \/ In r (expensesWithin (endOfMonth + 1)%Z
                                 (endOfMonth + 86399000)%Z))).
Proof.
  intros now s u year month mine startOfMonth endOfMonth expensesWithin.
  pose proof (MonthFromTime_range now) as HM.
  change (0 <= JSDate.getMonth now <= 11)%Z in HM.
  destruct (month_last_midnight (JSDate.getFullYear now)
              (JSDate.getMonth now) HM) as [Hle Hend].
  fold startOfMonth endOfMonth in Hle, Hend.
  eexists. split; [reflexivity|].
  cbn [RecordRoutes.recentRecords RecordRoutes.categoryBreakdown
       RecordRoutes.monthlySummary].
  fold mine startOfMonth endOfMonth. unfold Pipeline.match_.
  set (sorted := FinancialRecord.sortByDateDesc mine).
  assert (Hperm : Permutation sorted mine) by apply sortByDateDesc_perm.
  assert (Hsorted : sortedByDateDesc sorted) by apply sortByDateDesc_sorted.
  match goal with
  | |- context [Pipeline.group String.eqb _ _ (filter ?p (records s))] =>
      set (q := p)
  end.
  assert (Hq : filter q (records s) = expensesWithin startOfMonth endOfMonth).
  { unfold expensesWithin, mine. rewrite filter_filter.
    apply filter_ext. intros x. unfold q, FinancialRecord.inRange.
    rewrite !andb_assoc. reflexivity. }
  split.
  { rewrite length_firstn, (Permutation_length Hperm). reflexivity. }
  split; [apply Sorted_firstn; exact Hsorted|].
  split.
  { exists (skipn 5 sorted). split.
    - rewrite firstn_skipn. exact Hperm.
    - intros r x Hr Hx.
      assert (Hss : StronglySorted
                      (fun a b => (FinancialRecord.date b
                                   <= FinancialRecord.date a)%Z)
                      (firstn 5 sorted ++ skipn 5 sorted)).
      { rewrite firstn_skipn. apply Sorted_StronglySorted; [|exact Hsorted].
        intros a b c Hab Hbc. lia. }
      apply (StronglySorted_app_rel _ _ _ _ Hss r x Hr Hx). }
  destruct (sorted_groups_contents FinancialRecord.t FinancialRecord.category
              FinancialRecord.amount (filter q (records s)))
    as (Hs & Hd & Hcov & Hg).
  split; [exact Hs|].
  split.
  { rewrite <- Hq. split; [exact Hd|]. split; [exact Hcov | exact Hg]. }
  intros -> ->. eexists. split; [reflexivity|].
  split.
  { pose proof (getMonthlySummary_figure (records s) u
                  (JSDate.getFullYear now) (JSDate.getMonth now + 1)
                  RecordType.expense) as Hfig.
    cbn [summaryOf] in Hfig. rewrite Hfig.
    replace (JSDate.getMonth now + 1 - 1)%Z with (JSDate.getMonth now)
      by ring.
    fold startOfMonth. rewrite Hend.
    unfold expensesWithin, mine. rewrite !filter_filter.
    apply Qsum_filter_ext. intros x. unfold FinancialRecord.inRange.
    destruct (FinancialRecord.user x =? u)%nat; [|reflexivity].
    cbn [andb]. rewrite andb_comm, !andb_assoc. reflexivity. }
  intros r. unfold expensesWithin. rewrite !filter_In, !andb_true_iff,
    !Z.leb_le.
  clear Hq Hend HM. clearbody startOfMonth endOfMonth.
  split.
  - intros (Hin & (Hty & Hlo) & Hhi).
    destruct (Z_le_gt_dec (FinancialRecord.date r) endOfMonth) as [H|H].
    + left. repeat split; assumption.
    + right. repeat split; try assumption. lia.
  - intros [(Hin & (Hty & Hlo) & Hhi) | (Hin & (Hty & Hlo) & Hhi)];
      repeat split; try assumption; lia.
Qed.

(* ================================================================== *)
(** * The client: reducer, goal tracker and progress chart *)
(* ================================================================== *)

(** ** The reducer *)

Lemma reducer_filter_fresh (id : ObjectId) (l : list FinancialRecord.t) :
  ~ In id (map FinancialRecord._id l) ->
  filter (fun record => negb (FinancialRecord._id record =? id)%nat) l = l.
Proof.
  intros H.
  rewrite (proj2 (filter_ext_in_iff _ (fun _ => true) l)).
  - apply filter_true.
  - intros x Hx. apply negb_true_iff, Nat.eqb_neq. intros E.
    apply H. rewrite <- E. apply in_map. exact Hx.
Qed.

(** X24. In the reducer, deleting the id of a record just added gives
    back the list of records when that id was not in it; an update
    keeps the ids of the list in their order, and changes nothing when
    the id of its payload is not in the list; after a delete no record
    carries the deleted id, and deleting it again changes nothing. *)
Theorem reducer_record_actions :
  forall (now1 now2 : Z) (state : FinanceContext.State)
         (payload : FinancialRecord.t) (id : ObjectId),
    let added :=
      FinanceContext.financeReducer now1 state
        (FinanceContext.ADD_RECORD payload) in
    let updated :=
      FinanceContext.financeReducer now1 state
        (FinanceContext.UPDATE_RECORD payload) in
    let deleted :=
      FinanceContext.financeReducer now1 state
        (FinanceContext.DELETE_RECORD id) in
    FinanceContext.records added = payload :: FinanceContext.records state
    /\ (~ In (FinancialRecord._id payload)
          (map FinancialRecord._id (FinanceContext.records state)) ->
        FinanceContext.records
          (FinanceContext.financeReducer now2 added
             (FinanceContext.DELETE_RECORD (FinancialRecord._id payload)))
        = FinanceContext.records state)
    /\ map FinancialRecord._id (FinanceContext.records updated)
       = map FinancialRecord._id (FinanceContext.records state)
    /\ (~ In (FinancialRecord._id payload)
          (map FinancialRecord._id (FinanceContext.records state)) ->
        FinanceContext.records updated = FinanceContext.records state)
    /\ (forall r, In r (FinanceContext.records updated) ->
                  FinancialRecord._id r = FinancialRecord._id payload ->
                  r = payload)
    /\ ~ In id (map FinancialRecord._id (FinanceContext.records deleted))
    /\ (forall r, In r (FinanceContext.records deleted)
                  <-> In r (FinanceContext.records state)
                      /\ FinancialRecord._id r <> id)
    /\ FinanceContext.records
         (FinanceContext.financeReducer now2 deleted
            (FinanceContext.DELETE_RECORD id))
       = FinanceContext.records deleted
    /\ FinanceContext.balance added = FinanceContext.balance state
    /\ FinanceContext.balance updated = FinanceContext.balance state
    /\ FinanceContext.balance deleted = FinanceContext.balance state.
Proof.
  intros now1 now2 state payload id added updated deleted.
  cbn [FinanceContext.financeReducer FinanceContext.records
       FinanceContext.balance added updated deleted].
  unfold added, updated, deleted.
  cbn [FinanceContext.financeReducer FinanceContext.records
       FinanceContext.balance].
  split; [reflexivity|].
  split.
  { intros Hfresh. cbn [filter]. rewrite Nat.eqb_refl. cbn [negb].
    apply reducer_filter_fresh. exact Hfresh. }
  split.
  { rewrite map_map. apply map_ext. intros r.
    destruct (Nat.eqb_spec (FinancialRecord._id r)
                (FinancialRecord._id payload)); congruence. }
  split.
  { intros Hfresh. rewrite <- (map_id (FinanceContext.records state)) at 2.
    apply map_ext_in. intros r Hr.
    destruct (Nat.eqb_spec (FinancialRecord._id r)
                (FinancialRecord._id payload)) as [E|E]; [|reflexivity].
    exfalso. apply Hfresh. rewrite <- E. apply in_map. exact Hr. }
  split.
  { intros r Hr E. apply in_map_iff in Hr. destruct Hr as [x [Hx _]].
    destruct (Nat.eqb_spec (FinancialRecord._id x)
                (FinancialRecord._id payload)) as [E'|E'];
      [symmetry; exact Hx|].
    subst x. contradiction. }
  split.
  { intros Hin. apply in_map_iff in Hin. destruct Hin as [x [Hx Hin]].
    apply filter_In in Hin. destruct Hin as [_ Hin].
    rewrite Hx, Nat.eqb_refl in Hin. discriminate. }
  split.
  { intros r. rewrite filter_In, negb_true_iff, Nat.eqb_neq. tauto. }
  split; [|repeat split].
  rewrite filter_filter. apply filter_ext. intros r.
  destruct (negb _); reflexivity.
Qed.

(** ** Totals of the widgets *)

Lemma number_eq (x : Q) : BudgetGoalTracker.number x == x.
Proof.
  unfold BudgetGoalTracker.number. destruct (Qeq_bool x 0) eqn:E.
  - apply Qeq_bool_iff in E. symmetry. exact E.
  - reflexivity.
Qed.

Lemma Qltb_false (x y : Q) : Qltb x y = false <-> y <= x.
Proof.
  split.
  - intros E. apply Qnot_lt_le. intros H. apply Qltb_lt in H. congruence.
  - intros H. apply not_true_is_false. intros E. apply Qltb_lt in E.
    exact (Qlt_not_le _ _ E H).
Qed.

Lemma Qmax_over (a b : Q) : b < a -> Qmax 0 (a - b) == a - b /\ 0 < a - b.
Proof.
  intros H.
  assert (Hp : 0 < a - b)
    by (apply (Qplus_lt_l _ _ b); ring_simplify; exact H).
  split; [|exact Hp]. apply Q.max_r. apply Qlt_le_weak. exact Hp.
Qed.

Lemma Qmax_under (a b : Q) : a <= b -> Qmax 0 (a - b) == 0.
Proof.
  intros H. apply Q.max_l. apply (Qplus_le_l _ _ b). ring_simplify. exact H.
Qed.

Lemma Qmax_within (a b : Q) : b <= a -> Qmax 0 (a - b) == a - b.
Proof.
  intros H. apply Q.max_r. apply (Qplus_le_l _ _ b). ring_simplify. exact H.
Qed.

Lemma showSavingsGoal_cases balance :
  (1 # 100 <= Balance.income balance ->
   map BudgetProgressChart.name (BudgetProgressChart.showSavingsGoal balance)
   = ["Achieved"; "Remaining"]%string
   /\ Forall (fun v => 0 <= v)
        (map BudgetProgressChart.value
           (BudgetProgressChart.showSavingsGoal balance)))
  /\ (Balance.income balance <= 0 ->
      BudgetProgressChart.showSavingsGoal balance = []).
Proof.
  unfold BudgetProgressChart.showSavingsGoal.
  set (income := BudgetGoalTracker.number (Balance.income balance)).
  assert (Hi : income == Balance.income balance) by apply number_eq.
  split.
  - intros Hcent.
    assert (Hpos : 0 < income).
    { rewrite Hi. apply Qlt_le_trans with (1 # 100); [reflexivity|].
      exact Hcent. }
    assert (Hp : Qltb 0 income = true) by (apply Qltb_lt; exact Hpos).
    rewrite Hp.
    assert (Hgoal : 0 < income * (2 # 10))
      by (apply Qmult_lt_0_compat; [exact Hpos | reflexivity]).
    assert (Hg : Qltb 0 (income * (2 # 10)) = true)
      by (apply Qltb_lt; exact Hgoal).
    rewrite Hg. split; [reflexivity|].
    cbn [map BudgetProgressChart.value].
    constructor; [|constructor; [apply Q.le_max_l | constructor]].
    apply Q.min_glb; [apply Q.le_max_l | apply Qlt_le_weak; exact Hgoal].
  - intros Hneg.
    assert (Hp : Qltb 0 income = false)
      by (apply Qltb_false; rewrite Hi; exact Hneg).
    rewrite Hp. reflexivity.
Qed.

(** X22. The progress chart by cases.  With active budgets and more
    spent than budgeted it shows the budget and the excess; with no
    more spent than budgeted and a budget above 0 it shows what is
    spent and what remains; in every other case it shows the savings
    goal: two slices when there is an income of a cent or more,
    neither of them negative, and none when there is no income. *)
Theorem chart_slices_by_case :
  forall (budgets : list Budget.t) (balance : Balance.t),
    let active := BudgetGoalTracker.activeBudgets budgets in
    let totalBudget := fst (BudgetGoalTracker.totals active balance) in
    let totalSpent := snd (BudgetGoalTracker.totals active balance) in
    (active <> [] -> totalBudget < totalSpent ->
     map BudgetProgressChart.name
       (BudgetProgressChart.chartData budgets balance)
     = ["Budget"; "Exceeded"]%string
     /\ Forall2 Qeq
          (map BudgetProgressChart.value
             (BudgetProgressChart.chartData budgets balance))
          [totalBudget; totalSpent - totalBudget])
    /\ (active <> [] -> totalSpent <= totalBudget -> 0 < totalBudget ->
        map BudgetProgressChart.name
          (BudgetProgressChart.chartData budgets balance)
        = ["Spent"; "Remaining"]%string
        /\ Forall2 Qeq
             (map BudgetProgressChart.value
                (BudgetProgressChart.chartData budgets balance))
             [totalSpent; totalBudget - totalSpent])
    /\ (active = [] \/ (totalBudget <= 0 /\ totalSpent <= totalBudget) ->
        BudgetProgressChart.chartData budgets balance
        = BudgetProgressChart.showSavingsGoal balance)
    /\ (1 # 100 <= Balance.income balance ->
        map BudgetProgressChart.name
          (BudgetProgressChart.showSavingsGoal balance)
        = ["Achieved"; "Remaining"]%string
        /\ Forall (fun v => 0 <= v)
             (map BudgetProgressChart.value
                (BudgetProgressChart.showSavingsGoal balance)))
    /\ (Balance.income balance <= 0 ->
        BudgetProgressChart.showSavingsGoal balance = []).
Proof.
  intros budgets balance. cbv zeta.
  split; [|split; [|split; [|apply showSavingsGoal_cases]]];
    unfold BudgetProgressChart.chartData;
    set (active := BudgetGoalTracker.activeBudgets budgets);
    clearbody active; destruct active as [|b0 rest].
  - intros Hne. contradiction.
  - intros _ Hover.
    destruct (BudgetGoalTracker.totals (b0 :: rest) balance) as [tb ts].
    cbn [fst snd] in *.
    destruct (Qmax_over ts tb Hover) as [Hv Hp].
    assert (E : Qltb 0 (Qmax 0 (ts - tb)) = true)
      by (apply Qltb_lt; rewrite Hv; exact Hp).
    rewrite E. split; [reflexivity|].
    cbn [map BudgetProgressChart.value].
    constructor; [reflexivity|]. constructor; [exact Hv | constructor].
  - intros Hne. contradiction.
  - intros _ Hle Hpos.
    destruct (BudgetGoalTracker.totals (b0 :: rest) balance) as [tb ts].
    cbn [fst snd] in *.
    assert (E : Qltb 0 (Qmax 0 (ts - tb)) = false).
    { apply Qltb_false. rewrite (Qmax_under ts tb Hle). apply Qle_refl. }
    rewrite E. apply Qltb_lt in Hpos. rewrite Hpos.
    split; [reflexivity|].
    cbn [map BudgetProgressChart.value].
    constructor; [reflexivity|].
    constructor; [apply Qmax_within; exact Hle | constructor].
  - intros _. reflexivity.
  - intros [Hnil|Hcase]; [discriminate|].
    destruct (BudgetGoalTracker.totals (b0 :: rest) balance) as [tb ts].
    cbn [fst snd] in *. destruct Hcase as [Hb Hs].
    assert (E1 : Qltb 0 (Qmax 0 (ts - tb)) = false).
    { apply Qltb_false. rewrite (Qmax_under ts tb Hs). apply Qle_refl. }
    assert (E2 : Qltb 0 tb = false) by (apply Qltb_false; exact Hb).
    rewrite E1, E2. reflexivity.
Qed.

Lemma percentage_against_100 (B S : Q) :
  0 < B -> (100 <= S / B * 100 <-> B <= S).
Proof.
  intros HB.
  assert (Hk : 0 < 100 / B).
  { apply Qlt_shift_div_l; [exact HB|]. rewrite Qmult_0_l. reflexivity. }
  assert (Hne : ~ B == 0).
  { intros E. rewrite E in HB. discriminate HB. }
  assert (E1 : S / B * 100 == S * (100 / B)) by (field; exact Hne).
  assert (E2 : 100 == B * (100 / B)) by (field; exact Hne).
  rewrite E1. rewrite E2 at 1.
  apply Qmult_le_r. exact Hk.
Qed.

Lemma Qle_bool_true_iff (x y : Q) : Qle_bool x y = true <-> x <= y.
Proof. apply Qle_bool_iff. Qed.

Lemma bool_same (a b : bool) : (a = true <-> b = true) -> a = b.
Proof. destruct a, b; intros [H1 H2]; auto; symmetry; auto. Qed.

Lemma status_compare (B S tb ts th : Q) :
  tb == B -> ts == S -> th == 80 -> 0 < B ->
  let p := if Qltb 0 tb then ts / tb * 100 else 0 in
  let pb := if Qltb 0 B then S / B * 100 else 0 in
  let front :=
    if Qltb tb ts then Status.exceeded
    else if Qle_bool 80 p && negb (Qltb tb ts) then Status.warning
         else Status.good in
  let back :=
    if Qle_bool 100 pb then Status.exceeded
    else if Qle_bool th pb then Status.warning
         else Status.good in
  (~ S == B -> front = back)
  /\ (S == B -> front = Status.warning /\ back = Status.exceeded).
Proof.
  intros Htb Hts Hth HB p pb front back.
  assert (H0 : Qltb 0 tb = true) by (apply Qltb_lt; rewrite Htb; exact HB).
  assert (H0' : Qltb 0 B = true) by (apply Qltb_lt; exact HB).
  assert (Hne : ~ B == 0).
  { intros E. rewrite E in HB. discriminate HB. }
  assert (Hp : p == S / B * 100).
  { unfold p. rewrite H0, Htb, Hts. reflexivity. }
  assert (Hpb : pb = S / B * 100) by (unfold pb; rewrite H0'; reflexivity).
  assert (Hexc : Qltb tb ts = true <-> B < S).
  { rewrite Qltb_lt, Htb, Hts. tauto. }
  assert (Hfw : Qle_bool 80 p = true <-> 80 <= S / B * 100).
  { rewrite Qle_bool_true_iff, Hp. tauto. }
  assert (Hbe : Qle_bool 100 pb = true <-> B <= S).
  { rewrite Hpb, Qle_bool_true_iff. apply percentage_against_100. exact HB. }
  assert (Hbw : Qle_bool th pb = true <-> 80 <= S / B * 100).
  { rewrite Hpb, Qle_bool_true_iff, Hth. tauto. }
  clearbody p pb. unfold front, back. clear front back.
  split.
  - intros Hneq.
    destruct (Qlt_le_dec B S) as [Hlt|Hle].
    + rewrite (proj2 Hexc Hlt).
      rewrite (proj2 Hbe (Qlt_le_weak _ _ Hlt)). reflexivity.
    + assert (E1 : Qltb tb ts = false).
      { apply not_true_is_false. intros E. apply (proj1 Hexc) in E.
        apply (Qlt_not_le _ _ E). exact Hle. }
      assert (E2 : Qle_bool 100 pb = false).
      { apply not_true_is_false. intros E. apply (proj1 Hbe) in E.
        apply Hneq. apply Qle_antisym; assumption. }
      rewrite E1, E2. cbn [negb]. rewrite andb_true_r.
      rewrite (bool_same (Qle_bool 80 p) (Qle_bool th pb)); [reflexivity|].
      rewrite Hfw, Hbw. tauto.
  - intros Heq.
    assert (E1 : Qltb tb ts = false).
    { apply not_true_is_false. intros E. apply (proj1 Hexc) in E.
      rewrite Heq in E. apply (Qlt_irrefl _ E). }
    assert (Hle : B <= S) by (rewrite Heq; apply Qle_refl).
    assert (E2 : Qle_bool 100 pb = true) by (apply Hbe; exact Hle).
    assert (E3 : Qle_bool 80 p = true).
    { apply Hfw. apply Qle_trans with 100; [discriminate|].
      apply percentage_against_100; assumption. }
    rewrite E1, E2, E3. split; reflexivity.
Qed.

(** X23. For one active budget of a category, with a budget amount
    above 0 and the alert threshold at 80, the goal tracker shows the
    amounts of the budget, its [remainingAmount] and its percentage
    capped at 100, which is also the achievement of the progress
    chart; its status is the status of the budget unless the amount
    spent is exactly the budget, where the tracker says warning and
    the budget says exceeded. *)
Theorem tracker_status_against_budget_status :
  forall (b : Budget.t) (balance : Balance.t),
    Budget.isActive b = true ->
    BudgetGoalTracker.isOverall b = false ->
    0 < Budget.budgetAmount b ->
    Budget.alertThreshold b == 80 ->
    exists d,
      BudgetGoalTracker.budgetData [b] balance = Some d
      /\ BudgetGoalTracker.totalBudget d == Budget.budgetAmount b
      /\ BudgetGoalTracker.totalSpent d == Budget.spentAmount b
      /\ BudgetGoalTracker.remaining d == Budget.remainingAmount b
      /\ BudgetGoalTracker.percentage d
         == Qmin 100 (Budget.percentageSpent b)
      /\ BudgetProgressChart.getAchievementPercentage [b] balance
         = BudgetGoalTracker.percentage d
      /\ (~ Budget.spentAmount b == Budget.budgetAmount b ->
          BudgetGoalTracker.status d = Budget.status b)
      /\ (Budget.spentAmount b == Budget.budgetAmount b ->
          BudgetGoalTracker.status d = Status.warning
          /\ Budget.status b = Status.exceeded).
Proof.
  intros b balance Hact Hov HB Hth.
  unfold BudgetGoalTracker.budgetData,
    BudgetProgressChart.getAchievementPercentage,
    BudgetGoalTracker.activeBudgets.
  cbn [filter]. rewrite Hact.
  unfold BudgetGoalTracker.totals. cbn [find]. rewrite Hov.
  cbn [fold_left].
  set (tb := 0 + BudgetGoalTracker.number (Budget.budgetAmount b)).
  set (ts := 0 + BudgetGoalTracker.number (Budget.spentAmount b)).
  assert (Htb : tb == Budget.budgetAmount b)
    by (unfold tb; rewrite number_eq; ring).
  assert (Hts : ts == Budget.spentAmount b)
    by (unfold ts; rewrite number_eq; ring).
  assert (H0 : Qltb 0 tb = true) by (apply Qltb_lt; rewrite Htb; exact HB).
  assert (H0' : Qltb 0 (Budget.budgetAmount b) = true)
    by (apply Qltb_lt; exact HB).
  destruct (status_compare (Budget.budgetAmount b) (Budget.spentAmount b)
              tb ts (Budget.alertThreshold b) Htb Hts Hth HB)
    as [Hdiff Hsame].
  eexists. split; [reflexivity|].
  cbn [BudgetGoalTracker.totalBudget BudgetGoalTracker.totalSpent
       BudgetGoalTracker.remaining BudgetGoalTracker.percentage
       BudgetGoalTracker.status].
  split; [exact Htb|]. split; [exact Hts|].
  split.
  { unfold Budget.remainingAmount. rewrite Htb, Hts. reflexivity. }
  split.
  { unfold Budget.percentageSpent. rewrite H0, H0', Htb, Hts. reflexivity. }
  split; [rewrite H0; reflexivity|].
  split; [exact Hdiff | exact Hsame].
Qed.

Lemma tracker_status_against_budget_status_witness :
  exists d,
    BudgetGoalTracker.budgetData [Sample.foodBudget]
      (FinancialRecord.getUserBalance (records Sample.budgeted) Sample.alice)
    = Some d
    /\ BudgetGoalTracker.status d = Budget.status Sample.foodBudget.
Proof.
  destruct (tracker_status_against_budget_status Sample.foodBudget
              (FinancialRecord.getUserBalance (records Sample.budgeted)
                 Sample.alice))
    as (d & E & _ & _ & _ & _ & _ & Hdiff & _).
  - reflexivity.
  - reflexivity.
  - reflexivity.
  - reflexivity.
  - exists d. split; [exact E|]. apply Hdiff. discriminate.
Defined.

(** X25. With an active budget called "Overall Budget" or "Overall",
    the goal tracker shows the amount of the first such budget and,
    as the amount spent, the expense figure of the balance, whatever
    the other budgets are; that figure is at least what the budget
    itself is reconciled to when the balance is the owner's. *)
Theorem tracker_overall_budget_uses_balance :
  forall (budgets : list Budget.t) (balance : Balance.t) (ob : Budget.t),
    find BudgetGoalTracker.isOverall (BudgetGoalTracker.activeBudgets budgets)
    = Some ob ->
    exists d,
      BudgetGoalTracker.budgetData budgets balance = Some d
      /\ In ob budgets
      /\ Budget.isActive ob = true
      /\ BudgetGoalTracker.totalBudget d == Budget.budgetAmount ob
      /\ BudgetGoalTracker.totalSpent d == Balance.expense balance
      /\ (forall recs,
            Forall recordBounds recs ->
            balance = FinancialRecord.getUserBalance recs (Budget.user ob) ->
            spentTotal recs ob <= BudgetGoalTracker.totalSpent d).
Proof.
  intros budgets balance ob Hf.
  pose proof (find_some _ _ Hf) as [Hin _].
  unfold BudgetGoalTracker.activeBudgets in Hin.
  apply filter_In in Hin. destruct Hin as [Hin Hact].
  unfold BudgetGoalTracker.budgetData.
  destruct (BudgetGoalTracker.activeBudgets budgets) as [|b0 rest] eqn:Ea;
    [discriminate|].
  unfold BudgetGoalTracker.totals. rewrite Hf.
  eexists. split; [reflexivity|].
  cbn [BudgetGoalTracker.totalBudget BudgetGoalTracker.totalSpent].
  split; [exact Hin|]. split; [exact Hact|].
  split; [apply number_eq|]. split; [apply number_eq|].
  intros recs Hb ->. rewrite number_eq.
  pose proof (getUserBalance_figure recs (Budget.user ob) RecordType.expense)
    as He.
  simpl balanceOf in He. rewrite He. unfold spentTotal.
  apply Qsum_filter_le.
  - intros x Hx. apply recordBounds_nonneg.
    eapply Forall_forall; eassumption.
  - intros x Hx. unfold Budget.spentMatch in Hx.
    rewrite !andb_true_iff in Hx. rewrite andb_true_iff. tauto.
Qed.

Lemma tracker_overall_budget_uses_balance_witness :
  exists d,
    BudgetGoalTracker.budgetData (budgets Sample.overall)
      (FinancialRecord.getUserBalance (records Sample.overall) Sample.alice)
    = Some d
    /\ BudgetGoalTracker.totalSpent d
       == Balance.expense
            (FinancialRecord.getUserBalance (records Sample.overall)
               Sample.alice).
Proof.
  destruct (tracker_overall_budget_uses_balance (budgets Sample.overall)
              (FinancialRecord.getUserBalance (records Sample.overall)
                 Sample.alice)
              Sample.overallBudget)
    as (d & E & _ & _ & _ & Hs & _).
  - reflexivity.
  - exists d. split; [exact E | exact Hs].
Defined.

(* ================================================================== *)
(** * Validation *)
(* ================================================================== *)

Lemma trimStart_split cs :
  exists sp, cs = sp ++ Text.trimStart cs
             /\ Forall (fun c => Text.isSpace c = true) sp.
Proof.
  induction cs as [|c cs (sp & E & Hsp)]; simpl.
  - exists []. split; [reflexivity | constructor].
  - destruct (Text.isSpace c) eqn:Ec.
    + exists (c :: sp). split; [simpl; rewrite <- E; reflexivity|].
      constructor; assumption.
    + exists []. split; [reflexivity | constructor].
Qed.

Lemma trimStart_clean cs :
  match Text.trimStart cs with
  | [] => True
  | c :: _ => Text.isSpace c = false
  end.
Proof.
  induction cs as [|c cs IH]; simpl; [exact I|].
  destruct (Text.isSpace c) eqn:Ec; [exact IH | exact Ec].
Qed.

Lemma trimStart_fixed cs :
  match cs with [] => True | c :: _ => Text.isSpace c = false end ->
  Text.trimStart cs = cs.
Proof. destruct cs as [|c cs]; simpl; [reflexivity|]. intros ->. reflexivity. Qed.

Lemma trimStart_idem cs : Text.trimStart (Text.trimStart cs) = Text.trimStart cs.
Proof. apply trimStart_fixed, trimStart_clean. Qed.

Lemma trimEnd_idem cs : Text.trimEnd (Text.trimEnd cs) = Text.trimEnd cs.
Proof.
  unfold Text.trimEnd. rewrite rev_involutive, trimStart_idem. reflexivity.
Qed.

Lemma trimEnd_prefix cs : exists sp, cs = Text.trimEnd cs ++ sp.
Proof.
  unfold Text.trimEnd.
  destruct (trimStart_split (rev cs)) as (sp & E & _).
  exists (rev sp). rewrite <- rev_app_distr, <- E, rev_involutive.
  reflexivity.
Qed.

Lemma trimEnd_keeps_clean cs :
  match cs with [] => True | c :: _ => Text.isSpace c = false end ->
  match Text.trimEnd cs with
  | [] => True
  | c :: _ => Text.isSpace c = false
  end.
Proof.
  intros H. destruct (trimEnd_prefix cs) as (sp & E).
  destruct (Text.trimEnd cs) as [|c r]; [exact I|].
  rewrite E in H. exact H.
Qed.

(** Trimming a trimmed string changes nothing. *)
Lemma trim_idem (s : string) : Text.trim (Text.trim s) = Text.trim s.
Proof.
  unfold Text.trim. rewrite list_ascii_of_string_of_list_ascii.
  set (t := Text.trimStart (list_ascii_of_string s)).
  rewrite (trimStart_fixed (Text.trimEnd t)).
  - rewrite trimEnd_idem. reflexivity.
  - apply trimEnd_keeps_clean. apply trimStart_clean.
Qed.

(** X26. Validation is idempotent: a body that passed the validation
    of budgets, or of records, passes it again and comes out as it
    is; its category, and the description of a record, carry no
    white space at either end. *)
Theorem validation_is_idempotent :
  (forall body body',
      BudgetRoutes.validateBudget body = Some body' ->
      BudgetRoutes.validateBudget body' = Some body'
      /\ exists c, BudgetRoutes.category body' = Some c /\ Text.trim c = c)
  /\ (forall body body',
        RecordRoutes.validateFinancialRecord body = Some body' ->
        RecordRoutes.validateFinancialRecord body' = Some body'
        /\ exists d c,
             RecordRoutes.description body' = Some d /\ Text.trim d = d
             /\ RecordRoutes.category body' = Some c /\ Text.trim c = c).
Proof.
  split.
  - intros body body'. unfold BudgetRoutes.validateBudget at 1.
    destruct (BudgetRoutes.category body) as [c|]; [|discriminate].
    destruct (BudgetRoutes.budgetAmount body) as [a|] eqn:Ea;
      [|discriminate].
    destruct (BudgetRoutes.period body) as [p|] eqn:Ep; [|discriminate].
    destruct (_ && _) eqn:E; [|discriminate].
    intros H. injection H as <-. split.
    + unfold BudgetRoutes.validateBudget.
      cbn [BudgetRoutes.category BudgetRoutes.budgetAmount
           BudgetRoutes.period BudgetRoutes.alertThreshold
           BudgetRoutes.color].
      rewrite trim_idem, E. reflexivity.
    + exists (Text.trim c). split; [reflexivity | apply trim_idem].
  - intros body body'. unfold RecordRoutes.validateFinancialRecord at 1.
    destruct (RecordRoutes.description body) as [d|]; [|discriminate].
    destruct (RecordRoutes.amount body) as [a|] eqn:Ea; [|discriminate].
    destruct (RecordRoutes.type body) as [ty|] eqn:Et; [|discriminate].
    destruct (RecordRoutes.category body) as [c|]; [|discriminate].
    destruct (_ && _) eqn:E; [|discriminate].
    intros H. injection H as <-. split.
    + unfold RecordRoutes.validateFinancialRecord.
      cbn [RecordRoutes.description RecordRoutes.amount RecordRoutes.type
           RecordRoutes.category RecordRoutes.date
           RecordRoutes.paymentMethod].
      rewrite !trim_idem, E. reflexivity.
    + exists (Text.trim d), (Text.trim c).
      repeat split; apply trim_idem.
Qed.
